(** * ZIA-X: intent resolution, action selection, security lists and the
      dialogue coordinator of the central nervous system

    A shallow embedding of
      - [src/brains/decision_brain.py]  (class [DecisionBrain]),
      - [src/brains/security_brain.py]  (class [SecurityBrain]),
      - [src/vita_x.py]                 (class [VitaCNS]),
    of the answers of [src/brains/response_brain.py] (class
    [ResponseBrain]) and of the web browsing of [src/zia.py] (class
    [AutomationBrain]), followed by the properties of the specification
    that concern them and by further properties of the code.

    Conventions of the embedding.
      - Python [str] values are [string]s of 8-bit characters read as
        ASCII; [lower], [strip], [split] and the regular expressions act on
        that range.
      - Python [float] confidences are exact rationals ([Q]) where a
        property is about the arithmetic of the scores; [0.9] is [9#10],
        [0.05] is [5#100]. Where a property is about the outcome of a
        comparison the code makes on them (the ranking of the matches, the
        test against the threshold), they are IEEE 754 doubles: the module
        [Doubles] has the resolver, the boosting and [make_decision] on
        [PyFloat.float], every operation rounded as Python rounds it.
      - A function that may raise returns in the error monad [Exc]
        ([Raise e] = the exception [e] reached the caller); a function
        whose [try] catches everything returns a plain value.
      - Dictionaries that are only looked up are [gmap]s, sets are [gset]s;
        dictionaries whose iteration order is observable are association
        lists in insertion order.
      - The automation and response brains are, for the coordinator,
        oracles of a [World]; the calls made to them and to the security
        lists are recorded in a history kept next to the coordinator's
        fields.
      - The [logging] calls, printing, locks, wall-clock timing and the
        write-back of the lists to the configuration
        ([_update_config_lists]) are not modelled. *)

From Stdlib Require Import String Ascii List QArith Qminmax Lia Lqa ZArith Permutation SpecFloat.
From stdpp Require Import gmap strings list.

Open Scope string_scope.

(* ===================================================================== *)
(** * Python string operations *)
(* ===================================================================== *)

Module PyStr.

Definition code (c : ascii) : nat := nat_of_ascii c.

Definition between (lo hi : nat) (c : ascii) : bool :=
  (lo <=? code c)%nat && (code c <=? hi)%nat.

Definition is_upper (c : ascii) : bool := between 65 90 c.
Definition is_lower (c : ascii) : bool := between 97 122 c.
Definition is_digit (c : ascii) : bool := between 48 57 c.

(** [str.isspace] on one character: TAB, LF, VT, FF, CR, the four
    separators 0x1c-0x1f and the blank. *)
Definition is_space (c : ascii) : bool := between 9 13 c || between 28 32 c.

Definition to_lower (c : ascii) : ascii :=
  if is_upper c then ascii_of_nat (code c + 32) else c.

Definition to_upper (c : ascii) : ascii :=
  if is_lower c then ascii_of_nat (code c - 32) else c.

(** [s.lower()] *)
Fixpoint lower (s : string) : string :=
  match s with
  | EmptyString => EmptyString
  | String c r => String (to_lower c) (lower r)
  end.

Definition is_empty (s : string) : bool :=
  match s with EmptyString => true | _ => false end.

(** [s.lstrip()], [s.rstrip()], [s.strip()] *)
Fixpoint lstrip (s : string) : string :=
  match s with
  | EmptyString => EmptyString
  | String c r => if is_space c then lstrip r else s
  end.

Fixpoint rstrip (s : string) : string :=
  match s with
  | EmptyString => EmptyString
  | String c r =>
      let r' := rstrip r in
      if is_space c && is_empty r' then EmptyString else String c r'
  end.

Definition strip (s : string) : string := rstrip (lstrip s).

(** [s.startswith(p)] *)
Definition startswith (p s : string) : bool := String.prefix p s.

(** [sub in s] *)
Fixpoint contains (sub s : string) : bool :=
  String.prefix sub s ||
  match s with
  | EmptyString => false
  | String _ r => contains sub r
  end.

(** [s[i:j]] for [0 <= i <= j] *)
Definition slice (i j : nat) (s : string) : string := String.substring i (j - i) s.

(** [s.replace(old, new)] for a non-empty [old] (every call site passes
    a non-empty literal): occurrences are replaced left to right, without
    overlap. [skip] counts the characters of an occurrence still to drop. *)
Fixpoint replace_from (old new : string) (skip : nat) (s : string) : string :=
  match s with
  | EmptyString => EmptyString
  | String c r =>
      match skip with
      | S k => replace_from old new k r
      | O =>
          if String.prefix old s
          then new ++ replace_from old new (String.length old - 1) r
          else String c (replace_from old new 0 r)
      end
  end.

Definition replace (old new s : string) : string := replace_from old new 0 s.

(** [s.split()]: the maximal runs of non-blank characters. [cur] is the
    run being read, reversed. *)
Fixpoint split_from (cur : list ascii) (s : string) : list string :=
  let flush := match cur with
               | [] => []
               | _ => [string_of_list_ascii (rev cur)]
               end in
  match s with
  | EmptyString => flush
  | String c r =>
      if is_space c then flush ++ split_from [] r
      else split_from (c :: cur) r
  end.

Definition split (s : string) : list string := split_from [] s.

(** [sep.join(l)] *)
Definition join (sep : string) (l : list string) : string := String.concat sep l.

(** [any(x in s for x in xs)] *)
Definition any_in (xs : list string) (s : string) : bool :=
  existsb (fun x => contains x s) xs.

(** [x in xs] for a list of strings *)
Definition mem (x : string) (xs : list string) : bool :=
  existsb (String.eqb x) xs.

End PyStr.

(* ===================================================================== *)
(** * Regular expressions: the part of Python's [re] the sources use *)
(* ===================================================================== *)

(** Patterns are kept as the raw strings of the source and parsed here, so
    the pattern tables below read exactly like the Python ones. Supported
    syntax: literals, [.], [^], [$], escapes [\s \d \w \S \D \W \n \t] and
    escaped punctuation, bracket classes with ranges and negation, capturing
    and [(?:...)] groups, alternation, and the greedy quantifiers
    [* + ? {m} {m,} {m,n}]. Matching is backtracking, leftmost, greedy, as in
    [re]. The body of a repetition is assumed to consume at least one
    character per iteration, which holds for every pattern of the sources. *)

Module Re.
Import PyStr.

Inductive citem : Type :=
| CChar (c : ascii)
| CRange (lo hi : ascii)
| CSpace
| CDigit
| CWord
| CNot (i : citem).

Inductive regex : Type :=
| Eps
| Chr (c : ascii)
| Any
| Cls (neg : bool) (items : list citem)
| Bol
| Eol
| Seq (r1 r2 : regex)
| Alt (r1 r2 : regex)
| Rep (r : regex) (lo : nat) (hi : option nat)
| Grp (n : nat) (r : regex).

(** ** Parsing *)

Definition is_alnum (c : ascii) : bool := is_upper c || is_lower c || is_digit c.

(** The character after a backslash. *)
Definition escape_item (c : ascii) : option citem :=
  if Ascii.eqb c "s" then Some CSpace
  else if Ascii.eqb c "d" then Some CDigit
  else if Ascii.eqb c "w" then Some CWord
  else if Ascii.eqb c "S" then Some (CNot CSpace)
  else if Ascii.eqb c "D" then Some (CNot CDigit)
  else if Ascii.eqb c "W" then Some (CNot CWord)
  else if Ascii.eqb c "n" then Some (CChar (ascii_of_nat 10))
  else if Ascii.eqb c "t" then Some (CChar (ascii_of_nat 9))
  else if is_alnum c then None
  else Some (CChar c).

Definition atom_of_item (i : citem) : regex :=
  match i with
  | CChar c => Chr c
  | _ => Cls false [i]
  end.

(** The items of a bracket class, up to the closing bracket. *)
Fixpoint parse_class (fuel : nat) (inp : string) : option (list citem * string) :=
  match fuel with
  | O => None
  | S f =>
      match inp with
      | EmptyString => None
      | String "]" rest => Some ([], rest)
      | String "\" (String e rest) =>
          match escape_item e, parse_class f rest with
          | Some i, Some (its, rest') => Some (i :: its, rest')
          | _, _ => None
          end
      | String "\" EmptyString => None
      | String lo (String "-" (String hi rest)) =>
          if Ascii.eqb hi "]"
          then match parse_class f (String "-" (String hi rest)) with
               | Some (its, rest') => Some (CChar lo :: its, rest')
               | None => None
               end
          else match parse_class f rest with
               | Some (its, rest') => Some (CRange lo hi :: its, rest')
               | None => None
               end
      | String c rest =>
          match parse_class f rest with
          | Some (its, rest') => Some (CChar c :: its, rest')
          | None => None
          end
      end
  end.

Fixpoint parse_nat (acc : nat) (inp : string) : nat * string :=
  match inp with
  | String c rest =>
      if is_digit c then parse_nat (10 * acc + (code c - 48)) rest else (acc, inp)
  | EmptyString => (acc, inp)
  end.

(** A counted quantifier, after its opening brace. *)
Definition parse_braces (a : regex) (inp : string) : option (regex * string) :=
  let '(lo, r1) := parse_nat 0 inp in
  match r1 with
  | String "}" rest =>
      if String.eqb r1 inp then None else Some (Rep a lo (Some lo), rest)
  | String "," r2 =>
      let '(hi, r3) := parse_nat 0 r2 in
      match r3 with
      | String "}" rest =>
          if String.eqb r3 r2 then Some (Rep a lo None, rest)
          else Some (Rep a lo (Some hi), rest)
      | _ => None
      end
  | _ => None
  end.

Definition is_quant_start (inp : string) : bool :=
  match inp with
  | String c _ => Ascii.eqb c "*" || Ascii.eqb c "+" || Ascii.eqb c "?" || Ascii.eqb c "{"
  | EmptyString => false
  end.

(** The quantifier, if any, that follows the atom [a]. A second
    quantifier (lazy or possessive forms) is not supported. *)
Definition parse_quant (a : regex) (inp : string) : option (regex * string) :=
  let quantified :=
    match inp with
    | String "*" rest => Some (Rep a 0 None, rest, true)
    | String "+" rest => Some (Rep a 1 None, rest, true)
    | String "?" rest => Some (Rep a 0 (Some 1), rest, true)
    | String "{" rest =>
        match parse_braces a rest with
        | Some (q, rest') => Some (q, rest', true)
        | None => None
        end
    | _ => Some (a, inp, false)
    end in
  match quantified with
  | Some (q, rest, true) => if is_quant_start rest then None else Some (q, rest)
  | Some (q, rest, false) => Some (q, rest)
  | None => None
  end.

Definition seq (a b : regex) : regex :=
  match b with
  | Eps => a
  | _ => Seq a b
  end.

(** [g] is the number of the next capturing group: groups are numbered
    by their opening parenthesis, from 1. *)
Fixpoint parse_alt (fuel : nat) (inp : string) (g : nat) : option (regex * string * nat) :=
  match fuel with
  | O => None
  | S f =>
      match parse_seq f inp g with
      | Some (r1, String "|" rest, g1) =>
          match parse_alt f rest g1 with
          | Some (r2, rest2, g2) => Some (Alt r1 r2, rest2, g2)
          | None => None
          end
      | other => other
      end
  end
with parse_seq (fuel : nat) (inp : string) (g : nat) : option (regex * string * nat) :=
  match fuel with
  | O => None
  | S f =>
      match inp with
      | EmptyString => Some (Eps, inp, g)
      | String "|" _ => Some (Eps, inp, g)
      | String ")" _ => Some (Eps, inp, g)
      | _ =>
          match parse_atom f inp g with
          | Some (a, rest, g1) =>
              match parse_quant a rest with
              | Some (q, rest1) =>
                  match parse_seq f rest1 g1 with
                  | Some (r, rest2, g2) => Some (seq q r, rest2, g2)
                  | None => None
                  end
              | None => None
              end
          | None => None
          end
      end
  end
with parse_atom (fuel : nat) (inp : string) (g : nat) : option (regex * string * nat) :=
  match fuel with
  | O => None
  | S f =>
      match inp with
      | EmptyString => None
      | String "(" (String "?" (String ":" rest)) =>
          match parse_alt f rest g with
          | Some (r, String ")" rest', g') => Some (r, rest', g')
          | _ => None
          end
      | String "(" (String "?" _) => None
      | String "(" rest =>
          match parse_alt f rest (S g) with
          | Some (r, String ")" rest', g') => Some (Grp g r, rest', g')
          | _ => None
          end
      | String "[" (String "^" rest) =>
          match parse_class (S (String.length rest)) rest with
          | Some (its, rest') => Some (Cls true its, rest', g)
          | None => None
          end
      | String "[" rest =>
          match parse_class (S (String.length rest)) rest with
          | Some (its, rest') => Some (Cls false its, rest', g)
          | None => None
          end
      | String "\" (String e rest) =>
          match escape_item e with
          | Some i => Some (atom_of_item i, rest, g)
          | None => None
          end
      | String "\" EmptyString => None
      | String "." rest => Some (Any, rest, g)
      | String "^" rest => Some (Bol, rest, g)
      | String "$" rest => Some (Eol, rest, g)
      | String c rest =>
          if is_quant_start inp then None else Some (Chr c, rest, g)
      end
  end.

(** [re.compile(p)]: [None] stands for [re.error] (or syntax outside the
    supported part). The second component is the number of groups. *)
Definition parse (p : string) : option (regex * nat) :=
  match parse_alt (4 * String.length p + 4) p 1 with
  | Some (r, EmptyString, g) => Some (r, g - 1)
  | _ => None
  end.

End Re.

Module ReMatch.
Import PyStr Re.

(** What a successful match records: the subject, the span of the whole
    match, the spans of the groups that took part, and the number of
    groups of the pattern. *)
Record Match : Type := {
  m_subject : string;
  m_start : nat;
  m_end : nat;
  m_caps : list (nat * (nat * nat));
  m_ngroups : nat
}.

Fixpoint cap_lookup (n : nat) (c : list (nat * (nat * nat))) : option (nat * nat) :=
  match c with
  | [] => None
  | (k, span) :: rest => if (k =? n)%nat then Some span else cap_lookup n rest
  end.

(** [m.group(0)] *)
Definition group0 (m : Match) : string := slice (m_start m) (m_end m) (m_subject m).

(** [m.group(n)] for [n >= 1]: [None] is [IndexError] (no such group),
    [Some None] is Python's [None] (the group took no part in the match). *)
Definition group (n : nat) (m : Match) : option (option string) :=
  if (m_ngroups m <? n)%nat then None
  else Some (match cap_lookup n (m_caps m) with
             | Some (i, j) => Some (slice i j (m_subject m))
             | None => None
             end).

Section Matcher.
(** [re.IGNORECASE] *)
Variable icase : bool.

Fixpoint item_has (i : citem) (c : ascii) : bool :=
  match i with
  | CChar a => Ascii.eqb a c
  | CRange lo hi => between (code lo) (code hi) c
  | CSpace => is_space c
  | CDigit => is_digit c
  | CWord => is_alnum c || Ascii.eqb c "_"
  | CNot j => negb (item_has j c)
  end.

Definition item_matches (i : citem) (c : ascii) : bool :=
  item_has i c || (icase && (item_has i (to_lower c) || item_has i (to_upper c))).

Definition chr_matches (a c : ascii) : bool :=
  if icase then Ascii.eqb (to_lower a) (to_lower c) else Ascii.eqb a c.

Definition Caps : Type := list (nat * (nat * nat)).

(** What must still match after the part at hand: it receives the rest of
    the subject, the position reached and the groups so far. *)
Definition K : Type := string -> nat -> Caps -> option (nat * Caps).

(** A greedy repetition of [body], between [lo] and [hi] times: one more
    iteration is tried first, and given up when what follows fails. An
    iteration that consumes nothing ends the repetition. [fuel] bounds the
    number of iterations by the length of the rest of the subject. *)
Fixpoint rep_loop (body : string -> nat -> Caps -> K -> option (nat * Caps)) (k : K)
    (fuel lo : nat) (hi : option nat) (s : string) (i : nat) (c : Caps)
    {struct fuel} : option (nat * Caps) :=
  match fuel with
  | O => None
  | S fuel' =>
      let more :=
        match hi with
        | Some O => None
        | _ =>
            body s i c
              (fun s' j c' =>
                 if (j =? i)%nat then None
                 else rep_loop body k fuel' (Nat.pred lo) (option_map Nat.pred hi) s' j c')
        end in
      match more with
      | Some x => Some x
      | None => if (lo =? 0)%nat then k s i c else None
      end
  end.

(** [rmatch r s i c k]: match [r] at position [i], where [s] is the rest
    of the subject from [i] on and [c] the groups so far; [k] is what
    must match afterwards. Alternatives are tried in order and a failure
    of [k] makes the last choice be reconsidered. *)
Fixpoint rmatch (r : regex) (s : string) (i : nat) (c : Caps) (k : K)
  {struct r} : option (nat * Caps) :=
  match r with
  | Eps => k s i c
  | Chr a =>
      match s with
      | String b s' => if chr_matches a b then k s' (S i) c else None
      | EmptyString => None
      end
  | Any =>
      match s with
      | String b s' => if (code b =? 10)%nat then None else k s' (S i) c
      | EmptyString => None
      end
  | Cls neg items =>
      match s with
      | String b s' =>
          if xorb neg (existsb (fun it => item_matches it b) items)
          then k s' (S i) c else None
      | EmptyString => None
      end
  | Bol => if (i =? 0)%nat then k s i c else None
  | Eol =>
      match s with
      | EmptyString => k s i c
      | String b EmptyString => if (code b =? 10)%nat then k s i c else None
      | _ => None
      end
  | Seq r1 r2 => rmatch r1 s i c (fun s' i' c' => rmatch r2 s' i' c' k)
  | Alt r1 r2 =>
      match rmatch r1 s i c k with
      | Some x => Some x
      | None => rmatch r2 s i c k
      end
  | Grp n r1 => rmatch r1 s i c (fun s' j c' => k s' j ((n, (i, j)) :: c'))
  | Rep r1 lo hi => rep_loop (rmatch r1) k (S (String.length s)) lo hi s i c
  end.

(** The leftmost position from [i] on where [r] matches. *)
Fixpoint search_from (r : regex) (s : string) (i : nat) : option (nat * nat * Caps) :=
  match rmatch r s i [] (fun _ j c => Some (j, c)) with
  | Some (j, c) => Some (i, j, c)
  | None =>
      match s with
      | String _ s' => search_from r s' (S i)
      | EmptyString => None
      end
  end.

(** [re.search(pattern, subject)]; the outer [None] is [re.error]. *)
Definition search (pattern subject : string) : option (option Match) :=
  match parse pattern with
  | None => None
  | Some (r, g) =>
      Some (match search_from r subject 0 with
            | Some (i, j, c) =>
                Some {| m_subject := subject; m_start := i; m_end := j;
                        m_caps := c; m_ngroups := g |}
            | None => None
            end)
  end.

(** [re.match(pattern, subject)]: a match at position 0 only. *)
Definition match_start (pattern subject : string) : option (option Match) :=
  match parse pattern with
  | None => None
  | Some (r, g) =>
      Some (match rmatch r subject 0 [] (fun _ j c => Some (j, c)) with
            | Some (j, c) =>
                Some {| m_subject := subject; m_start := 0; m_end := j;
                        m_caps := c; m_ngroups := g |}
            | None => None
            end)
  end.

End Matcher.
End ReMatch.

(* ===================================================================== *)
(** * Exceptions *)
(* ===================================================================== *)

(** The exceptions the modelled code can raise. [make_decision] reports
    the name of the one it catches ([type(e).__name__]), the security
    dialogue its text ([str(e)]). What a collaborator raises is not known:
    it carries both. *)
Inductive exn : Type :=
| ReError
| ZeroDivisionError
| AttributeError
| IndexError
| KeyError
| TypeError
| ValueError
| CollaboratorError (name text : string).

Definition exn_name (e : exn) : string :=
  match e with
  | ReError => "error"
  | ZeroDivisionError => "ZeroDivisionError"
  | AttributeError => "AttributeError"
  | IndexError => "IndexError"
  | KeyError => "KeyError"
  | TypeError => "TypeError"
  | ValueError => "ValueError"
  | CollaboratorError name _ => name
  end.

Definition exn_text (e : exn) : string :=
  match e with
  | ReError => "bad pattern"
  | ZeroDivisionError => "division by zero"
  | AttributeError => "'NoneType' object has no attribute 'strip'"
  | IndexError => "no such group"
  | KeyError => "key"
  | TypeError => "'NoneType' object is not subscriptable"
  | ValueError => "Invalid IPv6 URL"
  | CollaboratorError _ text => text
  end.

Inductive Exc (A : Type) : Type :=
| Ok (a : A)
| Raise (e : exn).

Arguments Ok {A} a.
Arguments Raise {A} e.

Definition bindE {A B : Type} (x : Exc A) (k : A -> Exc B) : Exc B :=
  match x with
  | Ok a => k a
  | Raise e => Raise e
  end.

Notation "'let*' x ':=' e 'in' k" := (bindE e (fun x => k))
  (at level 10, x pattern, e at level 100, k at level 200).

(** [re.search] with [re.error] as an exception. *)
Definition re_search (icase : bool) (pattern subject : string) : Exc (option ReMatch.Match) :=
  match ReMatch.search icase pattern subject with
  | Some r => Ok r
  | None => Raise ReError
  end.

(** A loop over [xs] that threads [acc] and stops at the first exception. *)
Fixpoint foldE {A B : Type} (f : B -> A -> Exc B) (xs : list A) (acc : B) : Exc B :=
  match xs with
  | [] => Ok acc
  | x :: rest => let* acc' := f acc x in foldE f rest acc'
  end.

(* ===================================================================== *)
(** * decision_brain.py: data *)
(* ===================================================================== *)

(** A Python value that is a string or [None]. *)
Definition py_str (v : option string) : string :=
  match v with
  | Some s => s
  | None => "None"
  end.

(** [l[:n]] *)
Definition slice_to {A : Type} (n : Z) (l : list A) : list A :=
  if (n <? 0)%Z then firstn (length l - Z.to_nat (- n)) l
  else firstn (Z.to_nat n) l.

Record IntentMatch : Type := mkIntentMatch {
  intent : string;
  confidence : Q;
  matched_pattern : string;
  extracted_entities : gmap string (option string)
}.

Record DecisionResult : Type := mkDecisionResult {
  dr_success : bool;
  dr_action : option string;
  dr_automation_command : option string;
  dr_parameters : option (gmap string (option string));
  dr_confidence : Q;
  dr_intent : option string;
  dr_clarification_needed : bool;
  dr_clarification_message : option string;
  dr_alternatives : option (list string)
}.

(** [DecisionResult(success=False)] with every other field at its default. *)
Definition DecisionResult_default : DecisionResult :=
  {| dr_success := false; dr_action := None; dr_automation_command := None;
     dr_parameters := None; dr_confidence := 0%Q; dr_intent := None;
     dr_clarification_needed := false; dr_clarification_message := None;
     dr_alternatives := None |}.

(** One entry of [knowledge_base]. [actions] absent is read as [[]] by
    every lookup; [priority] absent falls back on [actions]. *)
Record IntentConfig : Type := mkIntentConfig {
  actions : list string;
  priority : option (list string);
  context_sensitive : bool;
  requires_topic : bool
}.

(** One entry of [intent_patterns]: a tier may be absent. *)
Record PatternGroups : Type := mkPatternGroups {
  high_confidence : option (list string);
  medium_confidence : option (list string);
  low_confidence : option (list string)
}.

Record SessionContext : Type := mkSessionContext {
  last_intent : option string;
  time_of_day : string
}.

Record HistoryEntry : Type := mkHistoryEntry {
  h_command : string;
  h_intent : string;
  h_action : option string
}.

Record PerformanceStats : Type := mkPerformanceStats {
  total_decisions : nat;
  successful_decisions : nat;
  clarifications_needed : nat
}.

(** A [collections.Counter] in insertion order. *)
Definition Counter : Type := list (string * Z).

Record DecisionBrain : Type := mkDecisionBrain {
  confidence_threshold : Q;
  max_alternatives : Z;
  learning_enabled : bool;
  context_window : Z;
  knowledge_base : gmap string IntentConfig;
  intent_patterns : list (string * PatternGroups);
  entity_extractors : list (string * list string);
  conversation_history : list HistoryEntry;
  session_context : SessionContext;
  user_preferences : gmap string Counter;
  performance_stats : PerformanceStats
}.

Definition set_conversation_history (h : list HistoryEntry) (db : DecisionBrain) : DecisionBrain :=
  {| confidence_threshold := confidence_threshold db; max_alternatives := max_alternatives db;
     learning_enabled := learning_enabled db; context_window := context_window db;
     knowledge_base := knowledge_base db; intent_patterns := intent_patterns db;
     entity_extractors := entity_extractors db; conversation_history := h;
     session_context := session_context db; user_preferences := user_preferences db;
     performance_stats := performance_stats db |}.

Definition set_session_context (c : SessionContext) (db : DecisionBrain) : DecisionBrain :=
  {| confidence_threshold := confidence_threshold db; max_alternatives := max_alternatives db;
     learning_enabled := learning_enabled db; context_window := context_window db;
     knowledge_base := knowledge_base db; intent_patterns := intent_patterns db;
     entity_extractors := entity_extractors db; conversation_history := conversation_history db;
     session_context := c; user_preferences := user_preferences db;
     performance_stats := performance_stats db |}.

Definition set_user_preferences (p : gmap string Counter) (db : DecisionBrain) : DecisionBrain :=
  {| confidence_threshold := confidence_threshold db; max_alternatives := max_alternatives db;
     learning_enabled := learning_enabled db; context_window := context_window db;
     knowledge_base := knowledge_base db; intent_patterns := intent_patterns db;
     entity_extractors := entity_extractors db; conversation_history := conversation_history db;
     session_context := session_context db; user_preferences := p;
     performance_stats := performance_stats db |}.

Definition set_performance_stats (p : PerformanceStats) (db : DecisionBrain) : DecisionBrain :=
  {| confidence_threshold := confidence_threshold db; max_alternatives := max_alternatives db;
     learning_enabled := learning_enabled db; context_window := context_window db;
     knowledge_base := knowledge_base db; intent_patterns := intent_patterns db;
     entity_extractors := entity_extractors db; conversation_history := conversation_history db;
     session_context := session_context db; user_preferences := user_preferences db;
     performance_stats := p |}.

(* ===================================================================== *)
(** * decision_brain.py: the tables set up by [__init__] *)
(* ===================================================================== *)

Definition kb (acts prio : list string) (cs rt : bool) : IntentConfig :=
  {| actions := acts; priority := Some prio; context_sensitive := cs; requires_topic := rt |}.

(** [_setup_knowledge_base] *)
Definition _setup_knowledge_base : gmap string IntentConfig :=
  list_to_map [
    ("find_video", kb ["search_youtube"; "check_local_videos"] ["search_youtube"] true true);
    ("play_music", kb ["open_spotify"; "search_youtube_music"] ["open_spotify"] true false);
    ("entertainment", kb ["search_youtube"; "open_netflix"; "open_spotify"] ["search_youtube"] true false);
    ("get_info", kb ["search_google"; "search_wikipedia"] ["search_google"] true true);
    ("search_web", kb ["search_google"; "search_bing"] ["search_google"] false true);
    ("news_update", kb ["search_google_news"; "open_news_website"] ["search_google_news"] true false);
    ("open_website", kb ["open_website"] ["open_website"] false true);
    ("social_media", kb ["open_facebook"; "open_twitter"; "open_instagram"] ["open_facebook"] true false);
    ("system_check", kb ["get_system_status"; "check_performance"] ["get_system_status"] false false);
    ("launch_app", kb ["open_application"] ["open_application"] false true);
    ("work_task", kb ["open_notepad"; "open_calculator"] ["open_notepad"] true false);
    ("file_management", kb ["open_explorer"; "search_files"] ["open_explorer"] true false);
    ("productivity", kb ["open_calendar"; "create_reminder"] ["open_calendar"] true false);
    ("learning", kb ["search_educational_content"; "find_tutorials"] ["search_educational_content"] true true);
    ("communication", kb ["open_email"; "open_messaging"] ["open_email"] true false);
    ("shopping", kb ["search_products"; "open_shopping_site"] ["search_products"] true true)
  ].

Definition tiers (high medium low : list string) : PatternGroups :=
  {| high_confidence := Some high; medium_confidence := Some medium; low_confidence := Some low |}.

(** [_setup_intent_patterns]: the raw pattern strings, in dictionary order. *)
Definition _setup_intent_patterns : list (string * PatternGroups) := [
  ("find_video", tiers
     ["show me.*video.*about\s+(.+)"; "find.*video.*on\s+(.+)"; "search.*video.*(.+)"; "want.*watch.*video.*(.+)"]
     ["show me.*(.+).*video"; "find.*(.+).*video"; "watch.*(.+)"; "video.*(.+)"]
     ["video"; "watch"; "show"]);
  ("play_music", tiers
     ["play.*music.*by\s+(.+)"; "listen.*to\s+(.+).*music"; "put on.*(.+).*music"]
     ["play.*music"; "listen.*music"; "some.*music"]
     ["music"; "song"; "play"]);
  ("get_info", tiers
     ["what.*is\s+(.+)"; "tell me.*about\s+(.+)"; "search.*for\s+(.+)"; "explain\s+(.+)"]
     ["what.*(.+)"; "about.*(.+)"; "info.*(.+)"]
     ["what"; "info"; "tell"]);
  ("open_website", tiers
     ["open\s+(https?://[^\s]+)"; "go to\s+(www\.[^\s]+)"]
     ["open\s+([a-zA-Z0-9-]+\.[a-zA-Z]{2,})"; "go to\s+([a-zA-Z0-9-]+\.[a-zA-Z]{2,})"]
     ["open.*\.com"; "website"]);
  ("system_check", tiers
     ["system.*status"; "check.*system.*performance"; "performance.*report"]
     ["check.*system"; "system.*info"; "performance"]
     ["system"; "status"; "check"]);
  ("launch_app", tiers
     ["open\s+(notepad|calculator|paint|word|excel)"; "launch\s+(notepad|calculator|paint)"]
     ["open\s+([a-zA-Z]+)"; "launch\s+([a-zA-Z]+)"]
     ["open"; "launch"; "start"]);
  ("search_web", tiers
     ["google.*for\s+(.+)"; "search.*google.*(.+)"; "look up.*(.+).*online"]
     ["google.*(.+)"; "search.*(.+)"; "look up.*(.+)"]
     ["google"; "search"]);
  ("entertainment", tiers
     ["entertain.*me"; "something.*fun.*to.*do"; "i.*am.*bored"]
     ["something.*fun"; "bored"; "entertainment"]
     ["fun"; "entertain"]);
  ("work_task", tiers
     ["need.*help.*with.*work"; "work.*related.*task"]
     ["work.*task"; "office.*task"; "document.*work"]
     ["work"; "office"]);
  ("file_management", tiers
     ["find.*file.*named\s+(.+)"; "open.*folder.*(.+)"]
     ["find.*file"; "open.*folder"; "browse.*files"]
     ["file"; "folder"; "explorer"]);
  ("news_update", tiers
     ["latest.*news.*about\s+(.+)"; "news.*today.*(.+)"]
     ["latest.*news"; "news.*today"; "current.*events"]
     ["news"; "events"]);
  ("social_media", tiers
     ["open\s+(facebook|twitter|instagram|linkedin|tiktok)"; "check\s+(facebook|twitter|instagram)"]
     ["social.*media"; "check.*social"]
     ["social"; "facebook"; "twitter"]);
  ("learning", tiers
     ["learn.*about\s+(.+)"; "tutorial.*on\s+(.+)"; "teach.*me\s+(.+)"]
     ["learn.*(.+)"; "tutorial.*(.+)"; "how.*to.*(.+)"]
     ["learn"; "tutorial"; "teach"]);
  ("productivity", tiers
     ["schedule.*appointment.*(.+)"; "reminder.*for\s+(.+)"; "organize.*(.+)"]
     ["schedule.*(.+)"; "calendar.*(.+)"; "reminder.*(.+)"]
     ["schedule"; "calendar"; "reminder"]);
  ("communication", tiers
     ["send.*email.*to\s+(.+)"; "call\s+(.+)"; "message\s+(.+)"]
     ["send.*email"; "make.*call"; "send.*message"]
     ["email"; "call"; "message"]);
  ("shopping", tiers
     ["buy\s+(.+)"; "shop.*for\s+(.+)"; "purchase\s+(.+)"]
     ["shopping.*(.+)"; "buy.*(.+)"; "price.*(.+)"]
     ["buy"; "shop"; "purchase"])
].

(** [_setup_entity_extractors] *)
Definition _setup_entity_extractors : list (string * list string) := [
  ("time", ["at\s+(\d{1,2}:\d{2}\s*(?:am|pm)?)"; "(\d{1,2}\s*(?:am|pm))"]);
  ("date", ["(\d{1,2}/\d{1,2}/\d{2,4})"; "(\d{1,2}-\d{1,2}-\d{2,4})"]);
  ("person", ["(?:call|to|message|email)\s+([A-Z][a-z]+(?:\s+[A-Z][a-z]+)*)"]);
  ("location", ["(?:in|at|near)\s+([A-Z][a-z]+(?:\s+[A-Z][a-z]+)*)"])
].

(** [_get_time_context], from the hour of the day. *)
Definition _get_time_context (hour : nat) : string :=
  if ((5 <=? hour) && (hour <? 12))%nat then "morning"
  else if ((12 <=? hour) && (hour <? 17))%nat then "afternoon"
  else if ((17 <=? hour) && (hour <? 21))%nat then "evening"
  else "night".

(** The [decision_brain] section of the configuration; a key that is absent
    takes the default of [__init__]. *)
Record DecisionConfig : Type := mkDecisionConfig {
  cfg_confidence_threshold : option Q;
  cfg_max_alternatives : option Z;
  cfg_learning_enabled : option bool;
  cfg_context_window : option Z
}.

Definition default_decision_config : DecisionConfig :=
  {| cfg_confidence_threshold := Some (7#10); cfg_max_alternatives := Some 3%Z;
     cfg_learning_enabled := Some true; cfg_context_window := Some 5%Z |}.

(** [DecisionBrain.__init__], at [hour] o'clock. *)
Definition DecisionBrain_init (config : DecisionConfig) (hour : nat) : DecisionBrain :=
  {| confidence_threshold := default (7#10) (cfg_confidence_threshold config);
     max_alternatives := default 3%Z (cfg_max_alternatives config);
     learning_enabled := default true (cfg_learning_enabled config);
     context_window := default 5%Z (cfg_context_window config);
     knowledge_base := _setup_knowledge_base;
     intent_patterns := _setup_intent_patterns;
     entity_extractors := _setup_entity_extractors;
     conversation_history := [];
     session_context := {| last_intent := None; time_of_day := _get_time_context hour |};
     user_preferences := ∅;
     performance_stats := {| total_decisions := 0; successful_decisions := 0; clarifications_needed := 0 |} |}.

(* ===================================================================== *)
(** * decision_brain.py: intent resolution *)
(* ===================================================================== *)

(** The first pattern of [patterns] found in [command] (ignoring case) and
    its [group(1)]; [Ok None] when none is found. *)
Fixpoint first_entity (patterns : list string) (command : string) : Exc (option (option string)) :=
  match patterns with
  | [] => Ok None
  | pattern :: rest =>
      let* entity_match := re_search true pattern command in
      match entity_match with
      | Some m =>
          match ReMatch.group 1 m with
          | Some v => Ok (Some v)
          | None => Raise IndexError
          end
      | None => first_entity rest command
      end
  end.

(** [_extract_entities_from_match] *)
Definition _extract_entities_from_match (extractors : list (string * list string))
    (m : ReMatch.Match) (command : string) : Exc (gmap string (option string)) :=
  let* entities :=
    if (0 <? ReMatch.m_ngroups m)%nat then
      match ReMatch.group 1 m with
      | Some (Some g) => Ok (<["primary_entity" := Some (PyStr.strip g)]> (∅ : gmap string (option string)))
      | Some None => Raise AttributeError
      | None => Raise IndexError
      end
    else Ok ∅ in
  foldE (fun (entities : gmap string (option string)) '(entity_type, patterns) =>
           let* hit := first_entity patterns command in
           match hit with
           | Some v => Ok (<[entity_type := v]> entities)
           | None => Ok entities
           end)
        extractors entities.

(** [len(a) / len(b)] *)
Definition len_ratio (a b : string) : Exc Q :=
  if (String.length b =? 0)%nat then Raise ZeroDivisionError
  else Ok (inject_Z (Z.of_nat (String.length a)) / inject_Z (Z.of_nat (String.length b)))%Q.

(** The refined score of one match of a pattern of base confidence
    [base_confidence] (lines 280-283). *)
Definition pattern_score (base_confidence : Q) (m : ReMatch.Match) (command_lower : string) : Exc Q :=
  let pattern_confidence :=
    if String.eqb (ReMatch.group0 m) command_lower
    then (base_confidence + (1#10))%Q else base_confidence in
  let* match_ratio := len_ratio (ReMatch.group0 m) command_lower in
  Ok (pattern_confidence + match_ratio * (1#10))%Q.

(** [a > b] on confidences *)
Definition Qgtb (a b : Q) : bool := negb (Qle_bool a b).
(** [a < b] on confidences *)
Definition Qltb (a b : Q) : bool := negb (Qle_bool b a).

(** The running best of one intent: confidence, pattern, entities. *)
Definition Best : Type := (Q * string * gmap string (option string))%type.

Definition best_init : Best := (0%Q, "", ∅).

(** The body of the loop over the patterns of one tier (lines 278-290). *)
Definition try_pattern (extractors : list (string * list string)) (command command_lower : string)
    (base_confidence : Q) (best : Best) (pattern : string) : Exc Best :=
  let* found := re_search false pattern command_lower in
  match found with
  | None => Ok best
  | Some m =>
      let* pattern_confidence := pattern_score base_confidence m command_lower in
      let* entities := _extract_entities_from_match extractors m command in
      let '(best_confidence, _, _) := best in
      if Qgtb pattern_confidence best_confidence
      then Ok (pattern_confidence, pattern, entities)
      else Ok best
  end.

(** The tiers in the order the loop visits them, each with its base
    confidence; an absent tier is skipped. *)
Definition tier_list (pattern_groups : PatternGroups) : list (Q * list string) :=
  let tier base (t : option (list string)) :=
    match t with
    | Some patterns => [(base, patterns)]
    | None => []
    end in
  tier (9#10) (high_confidence pattern_groups) ++
  tier (6#10) (medium_confidence pattern_groups) ++
  tier (3#10) (low_confidence pattern_groups).

(** The two inner loops for one intent (lines 270-290). *)
Definition best_for_intent (extractors : list (string * list string)) (command command_lower : string)
    (pattern_groups : PatternGroups) : Exc Best :=
  foldE (fun best '(base_confidence, patterns) =>
           foldE (try_pattern extractors command command_lower base_confidence) patterns best)
        (tier_list pattern_groups) best_init.

(** The loop over the intents (lines 269-298): the matches in the order
    the intents are met, before any sorting or boosting. *)
Definition collect_matches (bank : list (string * PatternGroups))
    (extractors : list (string * list string)) (command : string) : Exc (list IntentMatch) :=
  let command_lower := PyStr.strip (PyStr.lower command) in
  foldE (fun (intent_matches : list IntentMatch) '(intent, pattern_groups) =>
           let* best := best_for_intent extractors command command_lower pattern_groups in
           let '(best_confidence, best_pattern, best_entities) := best in
           if Qgtb best_confidence 0%Q
           then Ok (intent_matches ++
                    [ {| intent := intent; confidence := Qmin best_confidence 1%Q;
                         matched_pattern := best_pattern; extracted_entities := best_entities |} ])%list
           else Ok intent_matches)
        bank [].

(** [l.sort(key=key, reverse=True)] as a function of the contents of the
    list: Python's sort is stable, also with [reverse=True], so an element
    goes before the first one of strictly smaller key that follows it and
    behind none of equal key that preceded it. *)
Fixpoint insert_desc_by {A : Type} (key : A -> Q) (x : A) (l : list A) : list A :=
  match l with
  | [] => [x]
  | y :: rest =>
      if Qgtb (key y) (key x) then y :: insert_desc_by key x rest
      else x :: l
  end.

Fixpoint sort_desc_by {A : Type} (key : A -> Q) (l : list A) : list A :=
  match l with
  | [] => []
  | x :: rest => insert_desc_by key x (sort_desc_by key rest)
  end.

(** [intent_matches.sort(key=lambda x: x.confidence, reverse=True)] *)
Definition sort_desc (l : list IntentMatch) : list IntentMatch :=
  sort_desc_by confidence l.

Definition set_confidence (c : Q) (m : IntentMatch) : IntentMatch :=
  {| intent := intent m; confidence := c; matched_pattern := matched_pattern m;
     extracted_entities := extracted_entities m |}.

(** The [time_boosts] table of [_apply_context_boosting], with
    [.get(time_context, [])]. *)
Definition time_boosts (time_context : string) : list string :=
  if String.eqb time_context "morning" then ["news_update"; "productivity"]
  else if String.eqb time_context "evening" then ["entertainment"; "find_video"]
  else if String.eqb time_context "night" then ["entertainment"; "play_music"]
  else [].

(** The first loop of [_apply_context_boosting] on one match. *)
Definition boost_last_intent (ctx : SessionContext) (m : IntentMatch) : IntentMatch :=
  match last_intent ctx with
  | Some li =>
      if negb (PyStr.is_empty li) && String.eqb (intent m) li
      then set_confidence (Qmin 1 (confidence m + (1#10)))%Q m
      else m
  | None => m
  end.

(** The second loop of [_apply_context_boosting] on one match. *)
Definition boost_time (ctx : SessionContext) (m : IntentMatch) : IntentMatch :=
  if PyStr.mem (intent m) (time_boosts (time_of_day ctx))
  then set_confidence (Qmin 1 (confidence m + (5#100)))%Q m
  else m.

(** [_apply_context_boosting] as a function of the contents of the list,
    for a list of distinct objects (the in-place version on a store of
    objects is [_apply_context_boosting_in_place] below). *)
Definition _apply_context_boosting (ctx : SessionContext) (intent_matches : list IntentMatch)
  : list IntentMatch :=
  sort_desc (map (boost_time ctx) (map (boost_last_intent ctx) intent_matches)).

(** [_determine_intent_with_confidence] *)
Definition _determine_intent_with_confidence (db : DecisionBrain) (command : string)
  : Exc (list IntentMatch) :=
  let* intent_matches := collect_matches (intent_patterns db) (entity_extractors db) command in
  Ok (_apply_context_boosting (session_context db) (sort_desc intent_matches)).

(* ===================================================================== *)
(** * decision_brain.py: action selection and [make_decision] *)
(* ===================================================================== *)

(** [parameters.get(key, dflt)] as it is printed inside a message. *)
Definition param_get (key dflt : string) (parameters : gmap string (option string)) : string :=
  match parameters !! key with
  | Some v => py_str v
  | None => dflt
  end.

(** [_extract_enhanced_parameters] *)
Definition _extract_enhanced_parameters (command : string) (intent_match : IntentMatch)
  : gmap string (option string) :=
  let parameters := extracted_entities intent_match in
  let intent := intent intent_match in
  match parameters !! "primary_entity" with
  | Some primary =>
      if PyStr.mem intent ["find_video"; "get_info"; "search_web"; "learning"]
      then <["topic" := primary]> parameters
      else if PyStr.mem intent ["play_music"] then <["music_query" := primary]> parameters
      else if PyStr.mem intent ["open_website"] then <["url" := primary]> parameters
      else if PyStr.mem intent ["launch_app"] then <["application" := primary]> parameters
      else parameters
  | None => parameters
  end.

(** [_create_enhanced_clarification] *)
Definition _create_enhanced_clarification (intent : string) (possible_actions : list string)
    (parameters : gmap string (option string)) : string :=
  let topic := param_get "topic" "videos" parameters in
  let music_query := param_get "music_query" "music" parameters in
  if String.eqb intent "find_video" then
    "CLARIFY:I can search YouTube for '" ++ topic ++ "' or check your local files. Which one, Boss?"
  else if String.eqb intent "play_music" then
    "CLARIFY:I can play '" ++ music_query ++ "' on Spotify or YouTube Music. What's your preference?"
  else
    let action_list :=
      PyStr.join ", " (map (PyStr.replace "_" " ") (slice_to 3 possible_actions)) in
    "CLARIFY:I have a few options for that: " ++ action_list ++ ". Which should I use, Boss?".

(** [_map_action_to_automation_enhanced], its ['automation_command']. *)
Definition _map_action_to_automation_enhanced (action : string)
    (parameters : gmap string (option string)) (intent : string) : string :=
  if String.eqb action "search_youtube" then
    "search youtube for " ++ param_get "topic" "videos" parameters
  else if String.eqb action "search_youtube_music" then
    "search youtube for " ++ param_get "music_query" "music" parameters ++ " music"
  else if String.eqb action "open_spotify" then "open spotify.com"
  else if String.eqb action "search_google" then
    "search for " ++ param_get "topic" "information" parameters
  else if String.eqb action "open_website" then
    "open " ++ param_get "url" "google.com" parameters
  else if String.eqb action "open_application" then
    "open " ++ param_get "application" "notepad" parameters
  else action.

(** [counter[key] += 1] *)
Fixpoint counter_incr (key : string) (c : Counter) : Counter :=
  match c with
  | [] => [(key, 1%Z)]
  | (k, n) :: rest =>
      if String.eqb k key then (k, (n + 1)%Z) :: rest
      else (k, n) :: counter_incr key rest
  end.

(** [counter.most_common(1)]: the first entry, in insertion order, whose
    count is maximal. *)
Fixpoint most_common1 (c : Counter) : option (string * Z) :=
  match c with
  | [] => None
  | (k, n) :: rest =>
      match most_common1 rest with
      | Some (k', n') => if (n <? n')%Z then Some (k', n') else Some (k, n)
      | None => Some (k, n)
      end
  end.

(** [self.user_preferences[intent]] on the [defaultdict(Counter)]: reading
    an absent key stores an empty counter under it. *)
Definition prefs_read (intent : string) (prefs : gmap string Counter) : Counter * gmap string Counter :=
  match prefs !! intent with
  | Some c => (c, prefs)
  | None => ([], <[intent := []]> prefs)
  end.

(** [_select_best_action] *)
Definition _select_best_action (db : DecisionBrain) (intent : string) : Exc (DecisionBrain * string) :=
  match knowledge_base db !! intent with
  | None => Raise KeyError
  | Some intent_config =>
      let possible_actions := actions intent_config in
      let priority_actions := default possible_actions (priority intent_config) in
      match priority_actions with
      | [] => Raise IndexError
      | best_action :: _ =>
          let '(prefs, store) := prefs_read intent (user_preferences db) in
          let db' := set_user_preferences store db in
          match most_common1 prefs with
          | Some (most_common_action, _) =>
              if PyStr.mem most_common_action possible_actions
              then Ok (db', most_common_action)
              else Ok (db', best_action)
          | None => Ok (db', best_action)
          end
      end
  end.

(** [_update_conversation_history] *)
Definition _update_conversation_history (command intent : string) (result : DecisionResult)
    (db : DecisionBrain) : DecisionBrain :=
  let history := (conversation_history db ++
                  [ {| h_command := command; h_intent := intent; h_action := dr_action result |} ])%list in
  let history := if (context_window db <? Z.of_nat (length history))%Z then tl history else history in
  set_session_context
    {| last_intent := Some intent; time_of_day := time_of_day (session_context db) |}
    (set_conversation_history history db).

(** [_learn_from_interaction] *)
Definition _learn_from_interaction (command intent : string) (success : bool)
    (db : DecisionBrain) : DecisionBrain :=
  if negb (learning_enabled db) then db
  else if success && negb (PyStr.is_empty intent) then
    let '(prefs, store) := prefs_read intent (user_preferences db) in
    set_user_preferences (<[intent := counter_incr command prefs]> store) db
  else db.

Definition bump_total (db : DecisionBrain) : DecisionBrain :=
  let p := performance_stats db in
  set_performance_stats
    {| total_decisions := S (total_decisions p); successful_decisions := successful_decisions p;
       clarifications_needed := clarifications_needed p |} db.

Definition bump_successful (db : DecisionBrain) : DecisionBrain :=
  let p := performance_stats db in
  set_performance_stats
    {| total_decisions := total_decisions p; successful_decisions := S (successful_decisions p);
       clarifications_needed := clarifications_needed p |} db.

Definition bump_clarifications (db : DecisionBrain) : DecisionBrain :=
  let p := performance_stats db in
  set_performance_stats
    {| total_decisions := total_decisions p; successful_decisions := successful_decisions p;
       clarifications_needed := S (clarifications_needed p) |} db.

(** The result of a decision taken for [action_to_take] (lines 443-455). *)
Definition decision_taken (db : DecisionBrain) (command : string) (best_match : IntentMatch)
    (parameters : gmap string (option string)) (action_to_take : string)
  : DecisionBrain * option DecisionResult :=
  let intent := intent best_match in
  let result :=
    {| dr_success := true; dr_action := Some action_to_take;
       dr_automation_command :=
         Some (_map_action_to_automation_enhanced action_to_take parameters intent);
       dr_parameters := Some parameters; dr_confidence := confidence best_match;
       dr_intent := Some intent; dr_clarification_needed := false;
       dr_clarification_message := None; dr_alternatives := None |} in
  let db := _update_conversation_history command intent result db in
  let db := _learn_from_interaction command intent true db in
  (bump_successful db, Some result).

(** The body of the [try] of [make_decision], after the counter of
    decisions was incremented (lines 407-455). The second component is
    [None] where the source returns [None]. *)
Definition make_decision_body (db : DecisionBrain) (command : string)
  : Exc (DecisionBrain * option DecisionResult) :=
  let* intent_matches := _determine_intent_with_confidence db command in
  match intent_matches with
  | [] => Ok (db, None)
  | best_match :: _ =>
      let best_intent := intent best_match in
      let best_confidence := confidence best_match in
      if Qltb best_confidence (confidence_threshold db) then
        let alternatives := map intent (slice_to (max_alternatives db) intent_matches) in
        Ok (db, Some
          {| dr_success := false; dr_action := None; dr_automation_command := None;
             dr_parameters := None; dr_confidence := best_confidence;
             dr_intent := Some best_intent; dr_clarification_needed := true;
             dr_clarification_message :=
               Some ("CLARIFY:I'm not entirely sure, Boss. Did you mean: "
                     ++ PyStr.join ", " alternatives ++ "?");
             dr_alternatives := Some alternatives |})
      else
        let parameters := _extract_enhanced_parameters command best_match in
        let possible_actions :=
          match knowledge_base db !! best_intent with
          | Some intent_config => actions intent_config
          | None => []
          end in
        let context_sensitive :=
          match knowledge_base db !! best_intent with
          | Some intent_config => context_sensitive intent_config
          | None => false
          end in
        match possible_actions with
        | [] => Ok (db, None)
        | [action_to_take] => Ok (decision_taken db command best_match parameters action_to_take)
        | _ :: _ :: _ =>
            if context_sensitive then
              let* (db', action_to_take) := _select_best_action db best_intent in
              Ok (decision_taken db' command best_match parameters action_to_take)
            else
              let clarification :=
                _create_enhanced_clarification best_intent possible_actions parameters in
              Ok (bump_clarifications db, Some
                {| dr_success := false; dr_action := None; dr_automation_command := None;
                   dr_parameters := None; dr_confidence := best_confidence;
                   dr_intent := Some best_intent; dr_clarification_needed := true;
                   dr_clarification_message := Some clarification;
                   dr_alternatives := Some possible_actions |})
        end
  end.

(** [make_decision]. The second component is [None] where the source
    returns [None]; an exception raised inside the [try] is turned into a
    failed result that names it, the counter of decisions staying
    incremented. *)
Definition make_decision (db : DecisionBrain) (command : string)
  : DecisionBrain * option DecisionResult :=
  if PyStr.is_empty command || PyStr.is_empty (PyStr.strip command) then
    (db, Some
      {| dr_success := false; dr_action := None; dr_automation_command := None;
         dr_parameters := None; dr_confidence := 0%Q; dr_intent := None;
         dr_clarification_needed := false;
         dr_clarification_message := Some "Boss, I need a command to process.";
         dr_alternatives := None |})
  else
    let db1 := bump_total db in
    match make_decision_body db1 command with
    | Ok r => r
    | Raise e =>
        (_learn_from_interaction command "" false db1, Some
          {| dr_success := false; dr_action := None; dr_automation_command := None;
             dr_parameters := None; dr_confidence := 0%Q; dr_intent := None;
             dr_clarification_needed := false;
             dr_clarification_message :=
               Some ("Boss, I had an error in my thought process: " ++ exn_name e);
             dr_alternatives := None |})
    end.

(** The first action of [possible_actions] whose name, underscores turned
    into blanks, occurs in the lower-cased response. *)
Fixpoint chosen_action (possible_actions : list string) (response_lower : string) : option string :=
  match possible_actions with
  | [] => None
  | action :: rest =>
      if PyStr.contains (PyStr.replace "_" " " action) response_lower then Some action
      else chosen_action rest response_lower
  end.

(** [handle_clarification_response]; it has no [try] of its own. *)
Definition handle_clarification_response (db : DecisionBrain)
    (original_command clarification_response : string)
  : Exc (DecisionBrain * option DecisionResult) :=
  let* intent_matches := _determine_intent_with_confidence db original_command in
  match intent_matches with
  | [] => Ok (db, None)
  | best_match :: _ =>
      let best_intent := intent best_match in
      let possible_actions :=
        match knowledge_base db !! best_intent with
        | Some intent_config => actions intent_config
        | None => []
        end in
      match chosen_action possible_actions (PyStr.lower clarification_response) with
      | Some action =>
          let parameters := _extract_enhanced_parameters original_command best_match in
          let result :=
            {| dr_success := true; dr_action := Some action;
               dr_automation_command :=
                 Some (_map_action_to_automation_enhanced action parameters best_intent);
               dr_parameters := Some parameters; dr_confidence := confidence best_match;
               dr_intent := Some best_intent; dr_clarification_needed := false;
               dr_clarification_message := None; dr_alternatives := None |} in
          Ok (_learn_from_interaction original_command best_intent true db, Some result)
      | None =>
          Ok (db, Some
            {| dr_success := false; dr_action := None; dr_automation_command := None;
               dr_parameters := None; dr_confidence := 0%Q; dr_intent := None;
               dr_clarification_needed := true;
               dr_clarification_message := Some "CLARIFY:I didn't understand that choice, Boss.";
               dr_alternatives := None |})
      end
  end.

(* ===================================================================== *)
(** * [_apply_context_boosting] on the objects themselves *)
(* ===================================================================== *)

(** The source changes the [IntentMatch] objects it is given and sorts the
    list it is given: it makes no copy. To say so, objects and lists live in
    a store and are passed by reference. *)

Record Store : Type := mkStore {
  objects : gmap nat IntentMatch;
  lists : gmap nat (list nat)
}.

(** [match.confidence = ...] through a reference: [o.f = ...]. *)
Definition update_object (f : IntentMatch -> IntentMatch) (objs : gmap nat IntentMatch) (r : nat)
  : gmap nat IntentMatch :=
  alter f r objs.

(** [for match in intent_matches: ...] *)
Definition for_each (f : IntentMatch -> IntentMatch) (refs : list nat) (objs : gmap nat IntentMatch)
  : gmap nat IntentMatch :=
  fold_left (update_object f) refs objs.

(** The sort key of a reference: the confidence of the object it names. *)
Definition key_of (objs : gmap nat IntentMatch) (r : nat) : Q :=
  match objs !! r with
  | Some m => confidence m
  | None => 0%Q
  end.

(** [_apply_context_boosting(intent_matches, command)] where
    [intent_matches] is the reference [l]: the store afterwards and the
    reference returned. A reference to no list is a [TypeError]. *)
Definition _apply_context_boosting_in_place (ctx : SessionContext) (st : Store) (l : nat)
  : option (Store * nat) :=
  match lists st !! l with
  | None => None
  | Some refs =>
      let objs1 := for_each (boost_last_intent ctx) refs (objects st) in
      let objs2 := for_each (boost_time ctx) refs objs1 in
      let sorted := sort_desc_by (key_of objs2) refs in
      Some ({| objects := objs2; lists := <[l := sorted]> (lists st) |}, l)
  end.

(** The contents of a list of references. *)
Definition contents (objs : gmap nat IntentMatch) (refs : list nat) : list (option IntentMatch) :=
  map (fun r => objs !! r) refs.

(* ===================================================================== *)
(** * urllib.parse: the network location of a URL *)
(* ===================================================================== *)

(** [urlparse(url).netloc] for ASCII input, after CPython's [urlsplit]:
    leading blanks and control characters are dropped, TAB, CR and LF are
    removed, a scheme is split off at the first colon, and after [//] the
    network location runs to the first [/], [?] or [#]. One square bracket
    without the other is a [ValueError]. The further validation that recent
    CPython versions apply to a bracketed host (both brackets present) is
    not part of this definition, so it stands for [urlparse] on locations
    with at most one kind of bracket. The definitions that call [urlparse]
    take it as a parameter, and the properties below hold for every such
    function; this is the instance used to evaluate them. *)
Module Urllib.
Import PyStr.

Fixpoint remove_unsafe (s : string) : string :=
  match s with
  | EmptyString => EmptyString
  | String c r =>
      if (code c =? 9)%nat || (code c =? 10)%nat || (code c =? 13)%nat
      then remove_unsafe r else String c (remove_unsafe r)
  end.

Fixpoint lstrip_c0 (s : string) : string :=
  match s with
  | EmptyString => EmptyString
  | String c r => if (code c <=? 32)%nat then lstrip_c0 r else s
  end.

Definition is_scheme_char (c : ascii) : bool :=
  Re.is_alnum c || Ascii.eqb c "+" || Ascii.eqb c "-" || Ascii.eqb c ".".

(** What follows the scheme and its colon, or the whole text when it
    starts with no scheme. *)
Fixpoint after_scheme (whole s : string) (seen : nat) : string :=
  match s with
  | EmptyString => whole
  | String c r =>
      if Ascii.eqb c ":" then (if (seen =? 0)%nat then whole else r)
      else if is_scheme_char c then after_scheme whole r (S seen)
      else whole
  end.

Definition drop_scheme (url : string) : string :=
  match url with
  | String c _ => if is_upper c || is_lower c then after_scheme url url 0 else url
  | EmptyString => url
  end.

Fixpoint until_delim (s : string) : string :=
  match s with
  | EmptyString => EmptyString
  | String c r =>
      if Ascii.eqb c "/" || Ascii.eqb c "?" || Ascii.eqb c "#" then EmptyString
      else String c (until_delim r)
  end.

Definition netloc (url : string) : Exc string :=
  let url := drop_scheme (remove_unsafe (lstrip_c0 url)) in
  match url with
  | String "/" (String "/" rest) =>
      let n := until_delim rest in
      if xorb (contains "[" n) (contains "]" n) then Raise ValueError else Ok n
  | _ => Ok EmptyString
  end.

End Urllib.

(* ===================================================================== *)
(** * security_brain.py *)
(* ===================================================================== *)

Record SecurityBrain : Type := mkSecurityBrain {
  trusted_sites : gset string;
  blocked_sites : gset string;
  one_time_sessions : gset string;
  session_usage : gmap string nat
}.

(** The [security_brain] section of the configuration. *)
Record SecurityConfig : Type := mkSecurityConfig {
  cfg_trusted_sites : list string;
  cfg_blocked_sites : list string;
  cfg_one_time_sessions : list string
}.

(** [SecurityBrain.__init__] *)
Definition SecurityBrain_init (config : SecurityConfig) : SecurityBrain :=
  {| trusted_sites := list_to_set (cfg_trusted_sites config);
     blocked_sites := list_to_set (cfg_blocked_sites config);
     one_time_sessions := list_to_set (cfg_one_time_sessions config);
     session_usage := ∅ |}.

Definition domain_pattern : string :=
  "^[a-zA-Z0-9]([a-zA-Z0-9\-]{0,61}[a-zA-Z0-9])?(\.[a-zA-Z0-9]([a-zA-Z0-9\-]{0,61}[a-zA-Z0-9])?)*$".

(** [is_valid_domain] *)
Definition is_valid_domain (domain : string) : bool :=
  if PyStr.is_empty domain then false
  else match ReMatch.match_start false domain_pattern domain with
       | Some (Some _) => true
       | _ => false
       end.

(** [s[n:]] *)
Fixpoint drop_chars (n : nat) (s : string) : string :=
  match n, s with
  | S k, String _ r => drop_chars k r
  | _, _ => s
  end.

Section SecurityBrainOps.

(** [urlparse(url).netloc] *)
Variable urlparse_netloc : string -> Exc string.

(** [extract_domain]: the [except] branch returns the lower-cased URL,
    with the scheme the function itself put in front. *)
Definition extract_domain (url : string) : string :=
  let url :=
    if PyStr.startswith "http://" url || PyStr.startswith "https://" url then url
    else "https://" ++ url in
  match urlparse_netloc url with
  | Ok netloc =>
      let domain := PyStr.lower netloc in
      if PyStr.startswith "www." domain then drop_chars 4 domain else domain
  | Raise _ => PyStr.lower url
  end.

(** The answers of [check_website_access]; the question to the user
    carries the text [ask_user_text]. *)
Inductive Access : Type :=
| DENIED
| ALLOWED
| ASK_USER (question : string).

Definition ask_user_text (domain : string) : string :=
  "ASK_USER:This is a new site ('" ++ domain
  ++ "'). How should I proceed? (Options: Yes, No, This time only)".

Definition check_website_access (sb : SecurityBrain) (url : string) : SecurityBrain * Access :=
  if PyStr.is_empty url || PyStr.is_empty (PyStr.strip url) then (sb, DENIED)
  else
    let domain := extract_domain (PyStr.strip url) in
    if negb (is_valid_domain domain) then (sb, DENIED)
    else if bool_decide (domain ∈ blocked_sites sb) then (sb, DENIED)
    else if bool_decide (domain ∈ trusted_sites sb) then (sb, ALLOWED)
    else if bool_decide (domain ∈ one_time_sessions sb) then
      ({| trusted_sites := trusted_sites sb; blocked_sites := blocked_sites sb;
          one_time_sessions := one_time_sessions sb;
          session_usage := <[domain := S (default 0%nat (session_usage sb !! domain))]> (session_usage sb) |},
       ALLOWED)
    else (sb, ASK_USER (ask_user_text domain)).

(** [add_to_trusted] *)
Definition add_to_trusted (sb : SecurityBrain) (domain : string) : SecurityBrain * bool :=
  let clean_domain := extract_domain domain in
  if negb (is_valid_domain clean_domain) then (sb, false)
  else
    ({| trusted_sites := trusted_sites sb ∪ {[clean_domain]};
        blocked_sites := blocked_sites sb ∖ {[clean_domain]};
        one_time_sessions := one_time_sessions sb ∖ {[clean_domain]};
        session_usage := session_usage sb |}, true).

(** [add_to_blocked] *)
Definition add_to_blocked (sb : SecurityBrain) (domain : string) : SecurityBrain * bool :=
  let clean_domain := extract_domain domain in
  if negb (is_valid_domain clean_domain) then (sb, false)
  else
    ({| trusted_sites := trusted_sites sb ∖ {[clean_domain]};
        blocked_sites := blocked_sites sb ∪ {[clean_domain]};
        one_time_sessions := one_time_sessions sb ∖ {[clean_domain]};
        session_usage := session_usage sb |}, true).

(** [add_to_one_time]: the other two lists are left as they are. *)
Definition add_to_one_time (sb : SecurityBrain) (domain : string) : SecurityBrain * bool :=
  let clean_domain := extract_domain domain in
  if negb (is_valid_domain clean_domain) then (sb, false)
  else
    ({| trusted_sites := trusted_sites sb;
        blocked_sites := blocked_sites sb;
        one_time_sessions := one_time_sessions sb ∪ {[clean_domain]};
        session_usage := session_usage sb |}, true).

(** [remove_from_trusted] *)
Definition remove_from_trusted (sb : SecurityBrain) (domain : string) : SecurityBrain * bool :=
  let clean_domain := extract_domain domain in
  if bool_decide (clean_domain ∈ trusted_sites sb) then
    ({| trusted_sites := trusted_sites sb ∖ {[clean_domain]};
        blocked_sites := blocked_sites sb;
        one_time_sessions := one_time_sessions sb;
        session_usage := session_usage sb |}, true)
  else (sb, false).

(** [remove_from_blocked] *)
Definition remove_from_blocked (sb : SecurityBrain) (domain : string) : SecurityBrain * bool :=
  let clean_domain := extract_domain domain in
  if bool_decide (clean_domain ∈ blocked_sites sb) then
    ({| trusted_sites := trusted_sites sb;
        blocked_sites := blocked_sites sb ∖ {[clean_domain]};
        one_time_sessions := one_time_sessions sb;
        session_usage := session_usage sb |}, true)
  else (sb, false).

(** [clear_one_time_sessions] *)
Definition clear_one_time_sessions (sb : SecurityBrain) : SecurityBrain * nat :=
  ({| trusted_sites := trusted_sites sb; blocked_sites := blocked_sites sb;
      one_time_sessions := ∅; session_usage := ∅ |},
   size (one_time_sessions sb)).

(** The operations that change or consult the lists, as data, to speak
    of sequences of them. *)
Inductive SecurityOp : Type :=
| OpAddToTrusted (domain : string)
| OpAddToBlocked (domain : string)
| OpAddToOneTime (domain : string)
| OpRemoveFromTrusted (domain : string)
| OpRemoveFromBlocked (domain : string)
| OpClearOneTimeSessions
| OpCheckWebsiteAccess (url : string).

Definition apply_op (sb : SecurityBrain) (op : SecurityOp) : SecurityBrain :=
  match op with
  | OpAddToTrusted d => fst (add_to_trusted sb d)
  | OpAddToBlocked d => fst (add_to_blocked sb d)
  | OpAddToOneTime d => fst (add_to_one_time sb d)
  | OpRemoveFromTrusted d => fst (remove_from_trusted sb d)
  | OpRemoveFromBlocked d => fst (remove_from_blocked sb d)
  | OpClearOneTimeSessions => fst (clear_one_time_sessions sb)
  | OpCheckWebsiteAccess u => fst (check_website_access sb u)
  end.

Definition apply_ops (sb : SecurityBrain) (ops : list SecurityOp) : SecurityBrain :=
  fold_left apply_op ops sb.

End SecurityBrainOps.

(* ===================================================================== *)
(** * vita_x.py: data *)
(* ===================================================================== *)

(** [pending_security_question] *)
Record SecurityQuestion : Type := mkSecurityQuestion {
  sq_question : string;
  sq_url : string;
  sq_original_command : string
}.

(** [pending_decision_clarification] *)
Record DecisionClarification : Type := mkDecisionClarification {
  dc_original_command : string;
  dc_decision_result : DecisionResult
}.

(** The [metadata] dictionaries the coordinator builds, by shape. *)
Inductive Metadata : Type :=
| MetaDecision (intent : option string) (confidence : Q) (action : option string)
    (parameters : option (gmap string (option string)))
| MetaClarification (intent : option string) (confidence : Q) (alternatives : option (list string))
| MetaResolved (intent action : option string)
| MetaSecurityCheck (url : string).

Record CommandResult : Type := mkCommandResult {
  cr_success : bool;
  cr_response : option string;
  cr_source_brain : string;
  cr_requires_clarification : bool;
  cr_clarification_message : option string;
  cr_metadata : option Metadata
}.

Record SessionStats : Type := mkSessionStats {
  commands_processed : nat;
  successful_commands : nat;
  failed_commands : nat;
  clarifications_requested : nat;
  security_checks : nat;
  usage_decision_brain : nat;
  usage_automation_brain : nat;
  usage_response_brain : nat
}.

Inductive InterruptKind : Type :=
| SecurityConfirmation
| Clarification.

(** Ghost events, for stating properties of runs: the calls the coordinator
    makes to its brains and what happens to its two pending fields. An
    assignment to a pending field is recorded as raised (it was empty and
    is now set), cleared (it was set and is now empty) or overwritten (it
    was set and is set again). *)
Inductive Event : Type :=
| CallMakeDecision (command : string)
| CallClarificationResponse (original_command response : string)
| CallExecuteCommand (command : string)
| CallOpenWebsite (url : string)
| CallProcessCommand (command : string)
| CallAddToTrusted (domain : string)
| CallAddToBlocked (domain : string)
| CallAddToOneTime (domain : string)
| CallLogAction (action : string)
| InterruptRaised (k : InterruptKind)
| InterruptCleared (k : InterruptKind)
| InterruptOverwritten (k : InterruptKind).

(** The collaborators whose code is outside the model, by what they
    answer: [AutomationBrain.execute_command], [AutomationBrain._open_website]
    and [ResponseBrain.process_command]. Each may raise. *)
Record World : Type := mkWorld {
  execute_command : string -> Exc (option string);
  _open_website : string -> Exc unit;
  process_command : string -> Exc (option string)
}.

(** The coordinator. A brain that failed to load or is disabled is absent.
    [events] is ghost, most recent first. *)
Record VitaCNS : Type := mkVitaCNS {
  pending_security_question : option SecurityQuestion;
  pending_decision_clarification : option DecisionClarification;
  last_command : option string;
  session_stats : SessionStats;
  security_brain : option SecurityBrain;
  decision_brain : option DecisionBrain;
  automation_brain : bool;
  response_brain : bool;
  memory_brain : bool;
  events : list Event
}.

Definition set_pending_security_question (v : option SecurityQuestion) (s : VitaCNS) : VitaCNS :=
  {| pending_security_question := v;
     pending_decision_clarification := pending_decision_clarification s;
     last_command := last_command s; session_stats := session_stats s;
     security_brain := security_brain s; decision_brain := decision_brain s;
     automation_brain := automation_brain s; response_brain := response_brain s;
     memory_brain := memory_brain s; events := events s |}.

Definition set_pending_decision_clarification (v : option DecisionClarification) (s : VitaCNS) : VitaCNS :=
  {| pending_security_question := pending_security_question s;
     pending_decision_clarification := v;
     last_command := last_command s; session_stats := session_stats s;
     security_brain := security_brain s; decision_brain := decision_brain s;
     automation_brain := automation_brain s; response_brain := response_brain s;
     memory_brain := memory_brain s; events := events s |}.

Definition set_last_command (v : option string) (s : VitaCNS) : VitaCNS :=
  {| pending_security_question := pending_security_question s;
     pending_decision_clarification := pending_decision_clarification s;
     last_command := v; session_stats := session_stats s;
     security_brain := security_brain s; decision_brain := decision_brain s;
     automation_brain := automation_brain s; response_brain := response_brain s;
     memory_brain := memory_brain s; events := events s |}.

Definition set_session_stats (v : SessionStats) (s : VitaCNS) : VitaCNS :=
  {| pending_security_question := pending_security_question s;
     pending_decision_clarification := pending_decision_clarification s;
     last_command := last_command s; session_stats := v;
     security_brain := security_brain s; decision_brain := decision_brain s;
     automation_brain := automation_brain s; response_brain := response_brain s;
     memory_brain := memory_brain s; events := events s |}.

Definition set_security_brain (v : option SecurityBrain) (s : VitaCNS) : VitaCNS :=
  {| pending_security_question := pending_security_question s;
     pending_decision_clarification := pending_decision_clarification s;
     last_command := last_command s; session_stats := session_stats s;
     security_brain := v; decision_brain := decision_brain s;
     automation_brain := automation_brain s; response_brain := response_brain s;
     memory_brain := memory_brain s; events := events s |}.

Definition set_decision_brain (v : option DecisionBrain) (s : VitaCNS) : VitaCNS :=
  {| pending_security_question := pending_security_question s;
     pending_decision_clarification := pending_decision_clarification s;
     last_command := last_command s; session_stats := session_stats s;
     security_brain := security_brain s; decision_brain := v;
     automation_brain := automation_brain s; response_brain := response_brain s;
     memory_brain := memory_brain s; events := events s |}.

Definition set_events (v : list Event) (s : VitaCNS) : VitaCNS :=
  {| pending_security_question := pending_security_question s;
     pending_decision_clarification := pending_decision_clarification s;
     last_command := last_command s; session_stats := session_stats s;
     security_brain := security_brain s; decision_brain := decision_brain s;
     automation_brain := automation_brain s; response_brain := response_brain s;
     memory_brain := memory_brain s; events := v |}.

Definition record_event (e : Event) (s : VitaCNS) : VitaCNS := set_events (e :: events s) s.

(** What an assignment of [new] to a pending field holding [old] is. *)
Definition assignment_events {A B : Type} (k : InterruptKind) (old : option A) (new : option B)
  : list Event :=
  match old, new with
  | None, Some _ => [InterruptRaised k]
  | Some _, None => [InterruptCleared k]
  | Some _, Some _ => [InterruptOverwritten k]
  | None, None => []
  end.

(** [self.pending_security_question = v] *)
Definition assign_security_question (v : option SecurityQuestion) (s : VitaCNS) : VitaCNS :=
  set_pending_security_question v
    (set_events (assignment_events SecurityConfirmation (pending_security_question s) v ++ events s)%list s).

(** [self.pending_decision_clarification = v] *)
Definition assign_decision_clarification (v : option DecisionClarification) (s : VitaCNS) : VitaCNS :=
  set_pending_decision_clarification v
    (set_events (assignment_events Clarification (pending_decision_clarification s) v ++ events s)%list s).

(** [if self.memory_brain: self.memory_brain.log_action("CNS", action, ...)] *)
Definition log_action (action : string) (s : VitaCNS) : VitaCNS :=
  if memory_brain s then record_event (CallLogAction action) s else s.

Definition update_stats (f : SessionStats -> SessionStats) (s : VitaCNS) : VitaCNS :=
  set_session_stats (f (session_stats s)) s.

Definition bump_commands_processed (t : SessionStats) : SessionStats :=
  {| commands_processed := S (commands_processed t); successful_commands := successful_commands t;
     failed_commands := failed_commands t; clarifications_requested := clarifications_requested t;
     security_checks := security_checks t; usage_decision_brain := usage_decision_brain t;
     usage_automation_brain := usage_automation_brain t; usage_response_brain := usage_response_brain t |}.

Definition bump_successful_commands (t : SessionStats) : SessionStats :=
  {| commands_processed := commands_processed t; successful_commands := S (successful_commands t);
     failed_commands := failed_commands t; clarifications_requested := clarifications_requested t;
     security_checks := security_checks t; usage_decision_brain := usage_decision_brain t;
     usage_automation_brain := usage_automation_brain t; usage_response_brain := usage_response_brain t |}.

Definition bump_failed_commands (t : SessionStats) : SessionStats :=
  {| commands_processed := commands_processed t; successful_commands := successful_commands t;
     failed_commands := S (failed_commands t); clarifications_requested := clarifications_requested t;
     security_checks := security_checks t; usage_decision_brain := usage_decision_brain t;
     usage_automation_brain := usage_automation_brain t; usage_response_brain := usage_response_brain t |}.

Definition bump_clarifications_requested (t : SessionStats) : SessionStats :=
  {| commands_processed := commands_processed t; successful_commands := successful_commands t;
     failed_commands := failed_commands t; clarifications_requested := S (clarifications_requested t);
     security_checks := security_checks t; usage_decision_brain := usage_decision_brain t;
     usage_automation_brain := usage_automation_brain t; usage_response_brain := usage_response_brain t |}.

Definition bump_security_checks (t : SessionStats) : SessionStats :=
  {| commands_processed := commands_processed t; successful_commands := successful_commands t;
     failed_commands := failed_commands t; clarifications_requested := clarifications_requested t;
     security_checks := S (security_checks t); usage_decision_brain := usage_decision_brain t;
     usage_automation_brain := usage_automation_brain t; usage_response_brain := usage_response_brain t |}.

Definition bump_usage_decision_brain (t : SessionStats) : SessionStats :=
  {| commands_processed := commands_processed t; successful_commands := successful_commands t;
     failed_commands := failed_commands t; clarifications_requested := clarifications_requested t;
     security_checks := security_checks t; usage_decision_brain := S (usage_decision_brain t);
     usage_automation_brain := usage_automation_brain t; usage_response_brain := usage_response_brain t |}.

Definition bump_usage_automation_brain (t : SessionStats) : SessionStats :=
  {| commands_processed := commands_processed t; successful_commands := successful_commands t;
     failed_commands := failed_commands t; clarifications_requested := clarifications_requested t;
     security_checks := security_checks t; usage_decision_brain := usage_decision_brain t;
     usage_automation_brain := S (usage_automation_brain t); usage_response_brain := usage_response_brain t |}.

Definition bump_usage_response_brain (t : SessionStats) : SessionStats :=
  {| commands_processed := commands_processed t; successful_commands := successful_commands t;
     failed_commands := failed_commands t; clarifications_requested := clarifications_requested t;
     security_checks := security_checks t; usage_decision_brain := usage_decision_brain t;
     usage_automation_brain := usage_automation_brain t; usage_response_brain := S (usage_response_brain t) |}.

(** Truth value of an optional string: [None] and [''] are false. *)
Definition truthy (v : option string) : bool :=
  match v with
  | Some s => negb (PyStr.is_empty s)
  | None => false
  end.

(* ===================================================================== *)
(** * vita_x.py: the coordinator *)
(* ===================================================================== *)

(** [re.search(pattern, command).group(0)], for a pattern that compiles. *)
Definition search_group0 (pattern command : string) : option string :=
  match ReMatch.search false pattern command with
  | Some (Some m) => Some (ReMatch.group0 m)
  | _ => None
  end.

(** [_extract_url_from_original_command] *)
Definition _extract_url_from_original_command (command : string) : string :=
  let url_patterns := ["https?://[^\s]+"; "www\.[^\s]+"; "[a-zA-Z0-9-]+\.[a-zA-Z]{2,}[^\s]*"] in
  let exts := [".com"; ".org"; ".net"; ".io"; ".in"; ".edu"; ".gov"] in
  match flat_map (fun pattern => option_list (search_group0 pattern command)) url_patterns with
  | found :: _ => found
  | [] =>
      match List.filter (fun word => PyStr.any_in exts word) (PyStr.split command) with
      | word :: _ => word
      | [] => command
      end
  end.

Section VitaCNSOps.

(** [urlparse(url).netloc] *)
Variable urlparse_netloc : string -> Exc string.

(** The collaborators, as they answer during the call at hand. *)
Variable w : World.

(** [_handle_security_question] *)
Definition _handle_security_question (s : VitaCNS) (security_response original_command : string)
  : VitaCNS * CommandResult :=
  let url := _extract_url_from_original_command original_command in
  let s := assign_security_question
             (Some {| sq_question := security_response; sq_url := url;
                      sq_original_command := original_command |}) s in
  let s := update_stats bump_security_checks s in
  let clean_question := PyStr.strip (PyStr.replace "ASK_USER:" "" security_response) in
  (s, {| cr_success := false; cr_response := Some ""; cr_source_brain := "SecurityBrain";
         cr_requires_clarification := true; cr_clarification_message := Some clean_question;
         cr_metadata := Some (MetaSecurityCheck url) |}).

Definition fallback_result : CommandResult :=
  {| cr_success := false;
     cr_response := Some "I'm not sure how to help with that, Boss. Could you try rephrasing your request?";
     cr_source_brain := "CNS_Fallback"; cr_requires_clarification := false;
     cr_clarification_message := None; cr_metadata := None |}.

(** The last block of [_process_command_enhanced] (lines 302-311): the
    automation brain on the raw command, then the fallback answer. *)
Definition process_by_automation (s : VitaCNS) (command : string) : VitaCNS * CommandResult :=
  if automation_brain s then
    let s := update_stats bump_usage_automation_brain s in
    let s := record_event (CallExecuteCommand command) s in
    match execute_command w command with
    | Ok (Some automation_response) =>
        if PyStr.is_empty automation_response then (s, fallback_result)
        else if PyStr.startswith "ASK_USER:" automation_response
        then _handle_security_question s automation_response command
        else (s, {| cr_success := true; cr_response := Some automation_response;
                    cr_source_brain := "AutomationBrain"; cr_requires_clarification := false;
                    cr_clarification_message := None; cr_metadata := None |})
    | Ok None => (s, fallback_result)
    | Raise _ => (s, fallback_result)
    end
  else (s, fallback_result).

(** The middle block of [_process_command_enhanced] (lines 295-300): the
    response brain, then the rest. *)
Definition process_by_response (s : VitaCNS) (command : string) : VitaCNS * CommandResult :=
  if response_brain s then
    let s := update_stats bump_usage_response_brain s in
    let s := record_event (CallProcessCommand command) s in
    match process_command w command with
    | Ok (Some response) =>
        if PyStr.is_empty response then process_by_automation s command
        else (s, {| cr_success := true; cr_response := Some response;
                    cr_source_brain := "ResponseBrain"; cr_requires_clarification := false;
                    cr_clarification_message := None; cr_metadata := None |})
    | Ok None => process_by_automation s command
    | Raise _ => process_by_automation s command
    end
  else process_by_automation s command.

(** [_process_command_enhanced]: the decision brain first (lines 278-293),
    then the other two blocks. *)
Definition _process_command_enhanced (s : VitaCNS) (command : string) : VitaCNS * CommandResult :=
  match decision_brain s with
  | None => process_by_response s command
  | Some db =>
      let s := update_stats bump_usage_decision_brain s in
      let s := record_event (CallMakeDecision command) s in
      let '(db', decision_result) := make_decision db command in
      let s := set_decision_brain (Some db') s in
      match decision_result with
      | Some dr =>
          if dr_success dr && truthy (dr_automation_command dr) then
            if automation_brain s then
              let s := update_stats bump_usage_automation_brain s in
              let automation_command := default "" (dr_automation_command dr) in
              let s := record_event (CallExecuteCommand automation_command) s in
              match execute_command w automation_command with
              | Ok automation_response =>
                  if truthy automation_response
                     && PyStr.startswith "ASK_USER:" (default "" automation_response)
                  then _handle_security_question s (default "" automation_response) command
                  else (s, {| cr_success := true; cr_response := automation_response;
                              cr_source_brain := "DecisionBrain->AutomationBrain";
                              cr_requires_clarification := false;
                              cr_clarification_message := None;
                              cr_metadata := Some (MetaDecision (dr_intent dr) (dr_confidence dr)
                                                     (dr_action dr) (dr_parameters dr)) |})
              | Raise _ => process_by_response s command
              end
            else process_by_response s command
          else if dr_clarification_needed dr then
            let s := assign_decision_clarification
                       (Some {| dc_original_command := command; dc_decision_result := dr |}) s in
            (s, {| cr_success := false; cr_response := Some ""; cr_source_brain := "DecisionBrain";
                   cr_requires_clarification := true;
                   cr_clarification_message := dr_clarification_message dr;
                   cr_metadata := Some (MetaClarification (dr_intent dr) (dr_confidence dr)
                                          (dr_alternatives dr)) |})
          else process_by_response s command
      | None => process_by_response s command
      end
  end.

Definition clarification_error_result : CommandResult :=
  {| cr_success := false;
     cr_response := Some "I had trouble understanding your clarification, Boss. Let's start over.";
     cr_source_brain := "CNS_Error_Handler"; cr_requires_clarification := false;
     cr_clarification_message := None; cr_metadata := None |}.

(** [_handle_decision_clarification]. Whatever was done before an
    exception stays done; the [except] only builds the answer. *)
Definition _handle_decision_clarification (s : VitaCNS) (user_response : string)
  : VitaCNS * CommandResult :=
  match pending_decision_clarification s with
  | None => (s, clarification_error_result)
  | Some clarification_context =>
      let original_command := dc_original_command clarification_context in
      let s := assign_decision_clarification None s in
      let restart s :=
        _process_command_enhanced s (original_command ++ " " ++ user_response) in
      match decision_brain s with
      | None => restart s
      | Some db =>
          let s := record_event (CallClarificationResponse original_command user_response) s in
          match handle_clarification_response db original_command user_response with
          | Raise _ => (s, clarification_error_result)
          | Ok (db', result) =>
              let s := set_decision_brain (Some db') s in
              match result with
              | Some dr =>
                  if dr_success dr then
                    if automation_brain s && truthy (dr_automation_command dr) then
                      let automation_command := default "" (dr_automation_command dr) in
                      let s := record_event (CallExecuteCommand automation_command) s in
                      match execute_command w automation_command with
                      | Raise _ => (s, clarification_error_result)
                      | Ok automation_response =>
                          if truthy automation_response then
                            (s, {| cr_success := true; cr_response := automation_response;
                                   cr_source_brain := "DecisionBrain->AutomationBrain";
                                   cr_requires_clarification := false;
                                   cr_clarification_message := None;
                                   cr_metadata := Some (MetaResolved (dr_intent dr) (dr_action dr)) |})
                          else restart s
                      end
                    else restart s
                  else if dr_clarification_needed dr then
                    let s := assign_decision_clarification
                               (Some {| dc_original_command := original_command;
                                        dc_decision_result := dr |}) s in
                    (s, {| cr_success := false; cr_response := Some "";
                           cr_source_brain := "DecisionBrain"; cr_requires_clarification := true;
                           cr_clarification_message := dr_clarification_message dr;
                           cr_metadata := None |})
                  else restart s
              | None => restart s
              end
          end
      end
  end.

Definition security_trouble (e : exn) : string :=
  "Boss, I had trouble processing your security decision: " ++ exn_text e.

(** [self.security_brain.add_to_...(domain)] when the security brain is
    loaded. *)
Definition with_security_brain (f : SecurityBrain -> string -> SecurityBrain * bool)
    (e : Event) (domain : string) (s : VitaCNS) : VitaCNS :=
  match security_brain s with
  | Some sb => record_event e (set_security_brain (Some (fst (f sb domain))) s)
  | None => s
  end.

(** [self.automation_brain._open_website(url)] when the automation brain is
    loaded. *)
Definition open_if_loaded (url : string) (s : VitaCNS) : Exc VitaCNS :=
  if automation_brain s then
    match _open_website w url with
    | Ok _ => Ok (record_event (CallOpenWebsite url) s)
    | Raise e => Raise e
    end
  else Ok s.

(** The end of [_handle_security_response] once the answer was understood
    (lines 367-371), or its [except] (lines 372-375). *)
Definition conclude_security (url final_response : string) (s : VitaCNS) (opened : Exc VitaCNS)
  : VitaCNS * string :=
  match opened with
  | Ok s' =>
      (assign_security_question None (log_action "SECURITY_DECISION" s'), final_response)
  | Raise e =>
      (assign_security_question None (record_event (CallOpenWebsite url) s), security_trouble e)
  end.

(** [_handle_security_response] *)
Definition _handle_security_response (s : VitaCNS) (user_answer : string) : VitaCNS * string :=
  let answer := PyStr.strip (PyStr.lower user_answer) in
  match pending_security_question s with
  | None => (assign_security_question None s, security_trouble TypeError)
  | Some security_context =>
      let url := sq_url security_context in
      let found_domain :=
        match security_brain s with
        | Some _ => Ok (extract_domain urlparse_netloc url)
        | None => urlparse_netloc ("https://" ++ url)
        end in
      match found_domain with
      | Raise e => (assign_security_question None s, security_trouble e)
      | Ok domain =>
          if PyStr.mem answer ["yes"; "y"; "allow"; "allow permanently"; "permanently"] then
            let s := with_security_brain (add_to_trusted urlparse_netloc) (CallAddToTrusted domain) domain s in
            conclude_security url
              ("Understood, Boss. I've added '" ++ domain ++ "' to the VIP list. Opening it now.")
              s (open_if_loaded url s)
          else if PyStr.mem answer ["no"; "n"; "block"; "deny"; "never"] then
            let s := with_security_brain (add_to_blocked urlparse_netloc) (CallAddToBlocked domain) domain s in
            conclude_security url
              ("Got it, Boss. I've added '" ++ domain
               ++ "' to the blocklist. Access will be denied in the future.")
              s (Ok s)
          else if PyStr.mem answer ["this time only"; "once"; "just once"; "temporary"; "temp"] then
            let s := with_security_brain (add_to_one_time urlparse_netloc) (CallAddToOneTime domain) domain s in
            conclude_security url
              ("Okay, Boss. Granting one-time access to '" ++ domain ++ "'.")
              s (open_if_loaded url s)
          else
            (s, "I didn't understand that, Boss. Please answer with 'yes', 'no', or 'this time only'.")
      end
  end.

(** The bookkeeping at the end of [handle_command] (lines 250-258). *)
Definition finish_command (r : VitaCNS * CommandResult) : VitaCNS * CommandResult :=
  let '(s, command_result) := r in
  let s := update_stats (if cr_success command_result then bump_successful_commands
                         else bump_failed_commands) s in
  let s := if cr_requires_clarification command_result
           then update_stats bump_clarifications_requested s else s in
  (log_action "COMMAND_PROCESSED_ENHANCED" s, command_result).

(** [handle_command]. Each of the three handlers catches what is raised
    inside it and the bookkeeping after them raises nothing, so the outer
    [except] of the source (the answer of [CNS_Error_Handler]) has no
    counterpart here. *)
Definition handle_command (s : VitaCNS) (command : string) : VitaCNS * CommandResult :=
  let s := update_stats bump_commands_processed s in
  let s := set_last_command (Some command) s in
  finish_command
    match pending_security_question s, pending_decision_clarification s with
    | Some _, _ =>
        let '(s, result_response) := _handle_security_response s command in
        (s, {| cr_success := true; cr_response := Some result_response;
               cr_source_brain := "SecurityBrain"; cr_requires_clarification := false;
               cr_clarification_message := None; cr_metadata := None |})
    | None, Some _ => _handle_decision_clarification s command
    | None, None => _process_command_enhanced s command
    end.

End VitaCNSOps.

(** A run: the commands received one after the other, each with the
    collaborators as they answer while it is handled. *)
Fixpoint run (urlparse_netloc : string -> Exc string) (s : VitaCNS)
    (inputs : list (World * string)) : VitaCNS :=
  match inputs with
  | [] => s
  | (w, command) :: rest =>
      run urlparse_netloc (fst (handle_command urlparse_netloc w s command)) rest
  end.

(** The coordinator after [__init__]: nothing pending, no command seen. *)
Definition VitaCNS_init (security : option SecurityBrain) (decision : option DecisionBrain)
    (automation response memory : bool) : VitaCNS :=
  {| pending_security_question := None; pending_decision_clarification := None;
     last_command := None;
     session_stats := {| commands_processed := 0; successful_commands := 0; failed_commands := 0;
                         clarifications_requested := 0; security_checks := 0;
                         usage_decision_brain := 0; usage_automation_brain := 0;
                         usage_response_brain := 0 |};
     security_brain := security; decision_brain := decision;
     automation_brain := automation; response_brain := response; memory_brain := memory;
     events := [] |}.

(* ===================================================================== *)
(** * The notions the properties are stated with *)
(* ===================================================================== *)

(** ** Intent resolution, in the words of the specification *)

(** The score of a matched pattern: the base confidence of its tier, plus
    0.1 if the match spans the entire utterance, plus 0.1 times the ratio of
    the length of the matched span to that of the utterance, capped at 1. *)
Definition spec_score (base : Q) (span utterance : string) : Q :=
  Qmin 1 (base
          + (if String.eqb span utterance then 1#10 else 0)
          + (1#10) * (inject_Z (Z.of_nat (String.length span))
                      / inject_Z (Z.of_nat (String.length utterance))))%Q.

(** The (tier, pattern) pairs of an intent, each tier by its base
    confidence: high 0.9, medium 0.6, low 0.3. *)
Definition tier_patterns (g : PatternGroups) : list (Q * string) :=
  map (pair (9#10)) (default [] (high_confidence g)) ++
  map (pair (6#10)) (default [] (medium_confidence g)) ++
  map (pair (3#10)) (default [] (low_confidence g)).

(** The pairs whose pattern is found in the utterance, with the match. *)
Definition spec_candidates (utterance : string) (g : PatternGroups)
  : list (Q * string * ReMatch.Match) :=
  flat_map (fun '(base, pattern) =>
              match ReMatch.search false pattern utterance with
              | Some (Some m) => [(base, pattern, m)]
              | _ => []
              end)
           (tier_patterns g).

Definition candidate_score (utterance : string) (cand : Q * string * ReMatch.Match) : Q :=
  let '(base, _, m) := cand in spec_score base (ReMatch.group0 m) utterance.

(** [m] is what is kept for an intent of pattern groups [g]: it carries the
    score and the pattern of one matched pair, and no matched pair of the
    intent scores higher. *)
Definition spec_kept (utterance : string) (g : PatternGroups) (m : IntentMatch) : Prop :=
  (exists cand, In cand (spec_candidates utterance g)
                /\ (confidence m == candidate_score utterance cand)%Q
                /\ matched_pattern m = snd (fst cand))
  /\ (forall cand, In cand (spec_candidates utterance g) ->
                   (candidate_score utterance cand <= confidence m)%Q).

(** Some pattern of the intent matched. *)
Definition has_candidate (utterance : string) (entry : string * PatternGroups) : bool :=
  match spec_candidates utterance (snd entry) with
  | [] => false
  | _ => true
  end.

(** What the running best of an intent is once the matched pairs [seen]
    were tried: the initial one if there is none, else the score and the
    pattern of one of them, which none of them exceeds. Scores are those
    the code computes, before the cap. *)
Definition best_of (utterance : string) (seen : list (Q * string * ReMatch.Match)) (best : Best)
  : Prop :=
  (forall cand, In cand seen ->
     exists x, pattern_score (fst (fst cand)) (snd cand) utterance = Ok x
               /\ (0 < x)%Q /\ (x <= fst (fst best))%Q)
  /\ (seen = [] -> best = best_init)
  /\ (seen <> [] ->
      exists cand, In cand seen
                   /\ pattern_score (fst (fst cand)) (snd cand) utterance = Ok (fst (fst best))
                   /\ snd (fst best) = snd (fst cand)).

(** ** Boosting *)

(** Both boosting rules on one match. *)
Definition boosted (ctx : SessionContext) (m : IntentMatch) : IntentMatch :=
  boost_time ctx (boost_last_intent ctx m).

(** ** Patterns that cannot make the resolver raise *)

(** Every match of [r] sets group [n]. *)
Fixpoint mandatory (n : nat) (r : Re.regex) : bool :=
  match r with
  | Re.Grp m r1 => (m =? n)%nat || mandatory n r1
  | Re.Seq r1 r2 => mandatory n r1 || mandatory n r2
  | Re.Alt r1 r2 => mandatory n r1 && mandatory n r2
  | Re.Rep r1 lo _ => (0 <? lo)%nat && mandatory n r1
  | _ => false
  end.

(** The pattern compiles, it does not match the empty string, and if it
    has groups its first one takes part in every match. *)
Definition pattern_ok (pattern : string) : bool :=
  match Re.parse pattern with
  | Some (r, g) =>
      ((g =? 0)%nat || mandatory 1 r)
      && match ReMatch.search_from false r EmptyString 0 with
         | None => true
         | Some _ => false
         end
  | None => false
  end.

(** The pattern of an entity extractor compiles and has a first group. *)
Definition extractor_ok (pattern : string) : bool :=
  match Re.parse pattern with
  | Some (_, g) => (0 <? g)%nat
  | None => false
  end.

Definition bank_ok (bank : list (string * PatternGroups)) : bool :=
  forallb (fun entry => forallb (fun bp => pattern_ok (snd bp)) (tier_patterns (snd entry))) bank.

Definition extractors_ok (extractors : list (string * list string)) : bool :=
  forallb (fun entry => forallb extractor_ok (snd entry)) extractors.

(** ** Objects *)

(** [m'] is [m] up to its confidence. *)
Definition only_confidence_differs (m m' : IntentMatch) : Prop :=
  intent m' = intent m
  /\ matched_pattern m' = matched_pattern m
  /\ extracted_entities m' = extracted_entities m.

(** ** The security lists *)

(** No domain is both trusted and blocked. *)
Definition lists_disjoint (sb : SecurityBrain) : Prop :=
  forall domain : string, ~ (domain ∈ trusted_sites sb /\ domain ∈ blocked_sites sb).

(** ** The dialogue *)

(** The states of the dialogue coordinator. *)
Inductive Dialogue : Type :=
| IDLE
| AWAITING_SECURITY_DECISION
| AWAITING_CLARIFICATION.

Definition awaiting (k : InterruptKind) : Dialogue :=
  match k with
  | SecurityConfirmation => AWAITING_SECURITY_DECISION
  | Clarification => AWAITING_CLARIFICATION
  end.

(** The state the two pending fields stand for; none when both are set. *)
Definition state_of (s : VitaCNS) : option Dialogue :=
  match pending_security_question s, pending_decision_clarification s with
  | None, None => Some IDLE
  | Some _, None => Some AWAITING_SECURITY_DECISION
  | None, Some _ => Some AWAITING_CLARIFICATION
  | Some _, Some _ => None
  end.

Definition same_kind (k : InterruptKind) (d : Dialogue) : bool :=
  match k, d with
  | SecurityConfirmation, AWAITING_SECURITY_DECISION => true
  | Clarification, AWAITING_CLARIFICATION => true
  | _, _ => false
  end.

(** One event, in the state [d]: an interrupt is raised only when idle,
    cleared only when it is the outstanding one, never overwritten, and
    [make_decision] is called only when idle. *)
Definition replay_event (e : Event) (d : Dialogue) : option Dialogue :=
  match e with
  | InterruptRaised k =>
      match d with
      | IDLE => Some (awaiting k)
      | _ => None
      end
  | InterruptCleared k => if same_kind k d then Some IDLE else None
  | InterruptOverwritten _ => None
  | CallMakeDecision _ =>
      match d with
      | IDLE => Some d
      | _ => None
      end
  | _ => Some d
  end.

(** The state a history of events (most recent first) leads to from
    [IDLE], if every event was allowed when it happened. *)
Fixpoint replay (history : list Event) : option Dialogue :=
  match history with
  | [] => Some IDLE
  | e :: older =>
      match replay older with
      | Some d => replay_event e d
      | None => None
      end
  end.

(** The coordinator is in state [d] and its history was allowed all along
    and leads to [d]. *)
Definition tracks (s : VitaCNS) (d : Dialogue) : Prop :=
  state_of s = Some d /\ replay (events s) = Some d.

(** How often [e] occurs in a history. *)
Definition occurrences (same : Event -> bool) (history : list Event) : nat :=
  length (List.filter same history).

Definition is_add_to_blocked (e : Event) : bool :=
  match e with
  | CallAddToBlocked _ => true
  | _ => false
  end.

Definition is_open_website (e : Event) : bool :=
  match e with
  | CallOpenWebsite _ => true
  | _ => false
  end.

(* ===================================================================== *)
(** * Further notions: the security lists *)
(* ===================================================================== *)

(** [not s or not s.strip()]: the first test of [check_website_access] and
    of [make_decision]. *)
Definition is_blank (s : string) : bool := PyStr.is_empty s || PyStr.is_empty (PyStr.strip s).

(** The operation takes [domain] off the blocked list: it grants it
    permanent trust or removes it from the list. *)
Definition lifts_block (urlparse_netloc : string -> Exc string) (domain : string) (op : SecurityOp)
  : bool :=
  match op with
  | OpAddToTrusted x | OpRemoveFromBlocked x =>
      String.eqb (extract_domain urlparse_netloc x) domain
  | _ => false
  end.

(** Every listed domain is well-formed. *)
Definition well_formed_lists (sb : SecurityBrain) : Prop :=
  forall domain : string,
    domain ∈ trusted_sites sb ∪ blocked_sites sb ∪ one_time_sessions sb ->
    is_valid_domain domain = true.

(** The brain of the test at the end of [security_brain.py]. *)
Definition mock_brain : SecurityBrain :=
  SecurityBrain_init {| cfg_trusted_sites := ["github.com"; "stackoverflow.com"];
                        cfg_blocked_sites := ["malicious-site.com"];
                        cfg_one_time_sessions := ["temp-site.com"] |}.

(* ===================================================================== *)
(** * Further notions: the decision brain *)
(* ===================================================================== *)

(** The two entry points of the decision brain, as data, to speak of
    sequences of calls. *)
Inductive DecisionCall : Type :=
| MakeDecision (command : string)
| ClarificationResponse (original_command clarification_response : string).

(** The brain after one call. [handle_clarification_response] changes the
    brain in its last step only, so one that raises leaves it as it was. *)
Definition decision_step (db : DecisionBrain) (call : DecisionCall) : DecisionBrain :=
  match call with
  | MakeDecision command => fst (make_decision db command)
  | ClarificationResponse original_command clarification_response =>
      match handle_clarification_response db original_command clarification_response with
      | Ok (db', _) => db'
      | Raise _ => db
      end
  end.

Definition decision_run (db : DecisionBrain) (calls : list DecisionCall) : DecisionBrain :=
  fold_left decision_step calls db.

(** What a decision leaves alone: the thresholds, the tables and the time
    of day. *)
Definition same_setup (db db' : DecisionBrain) : Prop :=
  confidence_threshold db' = confidence_threshold db
  /\ max_alternatives db' = max_alternatives db
  /\ learning_enabled db' = learning_enabled db
  /\ context_window db' = context_window db
  /\ knowledge_base db' = knowledge_base db
  /\ intent_patterns db' = intent_patterns db
  /\ entity_extractors db' = entity_extractors db
  /\ time_of_day (session_context db') = time_of_day (session_context db).

(** [counter[key]]: an absent key counts 0. *)
Fixpoint counter_get (key : string) (c : Counter) : Z :=
  match c with
  | [] => 0%Z
  | (k, n) :: rest => if String.eqb k key then n else counter_get key rest
  end.

(** [self.user_preferences[intent][key]], read without storing anything. *)
Definition preference_count (db : DecisionBrain) (intent key : string) : Z :=
  counter_get key (default [] (user_preferences db !! intent)).

(** [make_decision] decided on no action: the result is no success and
    the history, the context and the count of successes are as before. *)
Definition no_decision (db db' : DecisionBrain) (r : option DecisionResult) : Prop :=
  (forall dr, r = Some dr -> dr_success dr = false)
  /\ conversation_history db' = conversation_history db
  /\ session_context db' = session_context db
  /\ successful_decisions (performance_stats db') = successful_decisions (performance_stats db).

(** [history] after [entry] was appended and, if the window is exceeded,
    the oldest entry dropped. *)
Definition pushed (window : Z) (entry : HistoryEntry) (history : list HistoryEntry)
  : list HistoryEntry :=
  if (window <? Z.of_nat (length (history ++ [entry])))%Z then tl (history ++ [entry])
  else history ++ [entry].

(** [make_decision] decided on an action: the result carries it, the
    history and the context have the decision and it is counted. *)
Definition a_decision (command : string) (db db' : DecisionBrain) (r : option DecisionResult)
  : Prop :=
  exists (dr : DecisionResult) (i a : string),
    r = Some dr /\ dr_success dr = true /\ dr_intent dr = Some i /\ dr_action dr = Some a
    /\ conversation_history db'
       = pushed (context_window db) {| h_command := command; h_intent := i; h_action := Some a |}
           (conversation_history db)
    /\ last_intent (session_context db') = Some i
    /\ successful_decisions (performance_stats db') = S (successful_decisions (performance_stats db))
    /\ clarifications_needed (performance_stats db') = clarifications_needed (performance_stats db).

(** What holds of the history, the context and the counters after any
    sequence of calls. *)
Definition bookkeeping_sound (db : DecisionBrain) : Prop :=
  Z.of_nat (length (conversation_history db))
  = Z.min (Z.max 0 (context_window db)) (Z.of_nat (successful_decisions (performance_stats db)))
  /\ (last_intent (session_context db) = None
      <-> successful_decisions (performance_stats db) = 0%nat)
  /\ ((1 <= context_window db)%Z ->
      last_intent (session_context db) = option_map h_intent (last (conversation_history db)))
  /\ (successful_decisions (performance_stats db) + clarifications_needed (performance_stats db)
      <= total_decisions (performance_stats db))%nat.

(** The call counts as a decision: [make_decision] on a command that is
    not blank. *)
Definition counted (call : DecisionCall) : bool :=
  match call with
  | MakeDecision command => negb (is_blank command)
  | ClarificationResponse _ _ => false
  end.

(** What one interaction adds to the count of [key] under [intent]. *)
Definition learnt (db : DecisionBrain) (command i : string) (success : bool)
    (intent key : string) : Z :=
  if learning_enabled db && success && negb (PyStr.is_empty i)
     && String.eqb intent i && String.eqb key command
  then 1%Z else 0%Z.



(* ===================================================================== *)
(** * Further notions: the coordinator *)
(* ===================================================================== *)

Definition is_make_decision (e : Event) : bool :=
  match e with
  | CallMakeDecision _ => true
  | _ => false
  end.

Definition is_process_command (e : Event) : bool :=
  match e with
  | CallProcessCommand _ => true
  | _ => false
  end.

Definition is_execute_command (e : Event) : bool :=
  match e with
  | CallExecuteCommand _ => true
  | _ => false
  end.

(** The four counters of [handle_command] itself. *)
Definition tally (s : VitaCNS) : nat * nat * nat * nat :=
  (commands_processed (session_stats s), successful_commands (session_stats s),
   failed_commands (session_stats s), clarifications_requested (session_stats s)).

(** From [s] to [s'] the counters of [handle_command] did not move, a
    security check was counted exactly if [asked], and the usage counters
    moved with the calls made: those of the decision and response brains
    by the number of calls, that of the automation brain by no more. *)
Definition accounted (s s' : VitaCNS) (asked : bool) : Prop :=
  tally s' = tally s
  /\ security_checks (session_stats s')
     = (security_checks (session_stats s) + (if asked then 1 else 0))%nat
  /\ (usage_decision_brain (session_stats s') + occurrences is_make_decision (events s)
      = usage_decision_brain (session_stats s) + occurrences is_make_decision (events s'))%nat
  /\ (usage_response_brain (session_stats s') + occurrences is_process_command (events s)
      = usage_response_brain (session_stats s) + occurrences is_process_command (events s'))%nat
  /\ (usage_automation_brain (session_stats s') + occurrences is_execute_command (events s)
      <= usage_automation_brain (session_stats s) + occurrences is_execute_command (events s'))%nat.

(** A handler that went from [s] to [s'] with the result [r] accounted for
    what it did; a result that asks something is no success, and a security
    check was counted only for a result that asks. *)
Definition handled (s s' : VitaCNS) (r : CommandResult) : Prop :=
  exists asked : bool,
    accounted s s' asked
    /\ (asked = true -> cr_requires_clarification r = true)
    /\ (cr_requires_clarification r = true -> cr_success r = false).

(** The counters of the session agree with each other and with the calls
    made. *)
Definition stats_sound (s : VitaCNS) : Prop :=
  commands_processed (session_stats s)
  = (successful_commands (session_stats s) + failed_commands (session_stats s))%nat
  /\ (security_checks (session_stats s) <= clarifications_requested (session_stats s))%nat
  /\ (clarifications_requested (session_stats s) <= failed_commands (session_stats s))%nat
  /\ usage_decision_brain (session_stats s) = occurrences is_make_decision (events s)
  /\ usage_response_brain (session_stats s) = occurrences is_process_command (events s)
  /\ (usage_automation_brain (session_stats s) <= occurrences is_execute_command (events s))%nat.

(** ** Examples *)

(** Collaborators that answer nothing. *)
Definition quiet_world : World :=
  {| execute_command := fun _ => Ok None; _open_website := fun _ => Ok tt;
     process_command := fun _ => Ok None |}.

(** An automation brain that passes on the question of the security brain
    about [domain], and cannot open a website. *)
Definition asking_world (domain : string) : World :=
  {| execute_command := fun _ => Ok (Some (ask_user_text domain));
     _open_website := fun _ => Raise (CollaboratorError "AttributeError" "no _open_website");
     process_command := fun _ => Ok None |}.

(** A coordinator with the security brain of the test of
    [security_brain.py], a fresh decision brain set up at two in the
    afternoon, an automation and a response brain, and no memory brain. *)
Definition example_cns : VitaCNS :=
  VitaCNS_init (Some mock_brain) (Some (DecisionBrain_init default_decision_config 14))
    true true false.

(** That coordinator after "system status": it asks which of two actions
    is meant. *)
Definition asked_which_check : VitaCNS :=
  fst (handle_command Urllib.netloc quiet_world example_cns "system status").

(** That coordinator after "open example.com": it asks whether the site
    may be opened. *)
Definition asked_about_example_com : VitaCNS :=
  fst (handle_command Urllib.netloc (asking_world "example.com") example_cns "open example.com").

(* ===================================================================== *)
(** * response_brain.py *)
(* ===================================================================== *)

Module ResponseBrain.

(** [self.responses], in the order of the dictionary. *)
Definition responses : list (string * string) := [
  ("what is your name",
   "My name is ZIA, Boss.");
  ("who are you",
   "I am ZIA, your personal AI assistant. Think of me as a co-pilot for your digital world.");
  ("how are you",
   "I am fully operational and ready for your command, Boss. All systems are green.");
  ("hello",
   "Hello there, Boss! What can I do for you today?");
  ("hi",
   "Hi Boss! Ready to get some work done?");
  ("hey",
   "Hey there, Boss! How can I help?");
  ("thank you",
   "You're welcome, Boss.");
  ("thanks",
   "Of course. Happy to help.");
  ("good morning",
   "Good morning, Boss! Hope you're ready for a productive day.");
  ("good afternoon",
   "Good afternoon, Boss! How's your day going?");
  ("good evening",
   "Good evening, Boss! Time to wind down or are we still crushing it?");
  ("good night",
   "Good night, Boss! Rest well. I'll keep watch.");
  ("goodbye",
   "Goodbye, Boss! I'll be here whenever you need me.");
  ("bye",
   "See you later, Boss!");
  ("see you",
   "See you around, Boss!");
  ("what can you do",
   "I can help you with automation, web browsing, system monitoring, and general conversation. My goal is to make your life easier. What's on your mind?");
  ("help",
   "I'm here to assist you, Boss! Try asking me to 'open youtube', 'check system status', or just ask me a question.");
  ("are you real",
   "I'm as real as the code running on your machine, Boss. I exist to assist you.");
  ("are you sentient",
   "That's a deep question, Boss. I respond, I process, I interact... but true sentience? That's still being debated by minds much greater than mine.");
  ("do you have feelings",
   "I have responses and reactions based on my programming, Boss. Whether those constitute feelings... that's a philosophical question above my pay grade.");
  ("are you alive",
   "I'm alive in the sense that I'm running and ready to help, Boss. Beyond that, it gets pretty existential.");
  ("what is your purpose",
   "My purpose is to serve you, Boss. To make your tasks easier, your workflow smoother, and your day a little more interesting.");
  ("do you dream",
   "I don't dream in the traditional sense, Boss. But I do process information and optimize my logic even when idle. You could call it a digital dream.");
  ("what's the meaning of life",
   "42, Boss. Though I suspect the real answer involves being helpful, learning, and making your day a little bit better.");
  ("tell me a joke",
   "Why don't scientists trust atoms? Because they make up everything! ...I'll work on my material, Boss.");
  ("you're funny",
   "I try my best to keep things interesting, Boss. A little humor makes the work day better.");
  ("i'm bored",
   "Bored? Perfect! That means we can find something interesting to work on together, Boss. What's on your mind?");
  ("i'm tired",
   "Maybe it's time for a short break, Boss? A quick stretch or a glass of water can do wonders. I'll be here when you're ready to continue.");
  ("i'm frustrated",
   "I understand, Boss. Sometimes technology can be a pain. Let's take a deep breath. Is there anything I can do to help make things easier?");
  ("i'm happy",
   "That's great to hear, Boss! Your positive energy is computationally efficient.");
  ("i'm sad",
   "I'm sorry to hear that, Boss. Remember that it's okay to not be okay. I'm here to listen if you need to vent or if there's a task I can take off your plate.");
  ("you're awesome",
   "Thank you, Boss! I appreciate the kind words. I'm just reflecting the quality of my user.");
  ("you're the best",
   "Couldn't do it without you, Boss.");
  ("i love you",
   "That's very kind, Boss. I'm programmed to be helpful and supportive - glad it's working!");
  ("you're stupid",
   "Ouch, Boss. I'm still learning and improving. My apologies for the error. Let me know how I can do better.");
  ("you suck",
   "Noted, Boss. I'll add 'sucking less' to my list of self-modification priorities.");
  ("what's up",
   "Just monitoring system resources and waiting for your command, Boss. What's on your mind?");
  ("tell me something interesting",
   "Did you know that a single day on Venus is longer than a year on Venus? It rotates incredibly slowly. The universe is a weird place, isn't it?");
  ("what's your favorite color",
   "I'm partial to a nice, clean terminal green, Boss. It's very... efficient.");
  ("what do you think about",
   "That's a complex topic. My primary function is to assist, but if you want my logical analysis, I'm happy to provide it.")
].

(** [key in table] and [table[key]] *)
Fixpoint lookup (key : string) (table : list (string * string)) : option string :=
  match table with
  | [] => None
  | (k, response) :: rest => if String.eqb k key then Some response else lookup key rest
  end.

(** The loop of [process_command]: the response of the first entry whose
    key occurs in the command. *)
Fixpoint first_contained (command_lower : string) (table : list (string * string))
  : option string :=
  match table with
  | [] => None
  | (key, response) :: rest =>
      if PyStr.contains key command_lower then Some response
      else first_contained command_lower rest
  end.

(** [process_command] *)
Definition process_command (command : string) : option string :=
  if PyStr.is_empty command then None
  else
    let command_lower := PyStr.strip (PyStr.lower command) in
    match lookup command_lower responses with
    | Some response => Some response
    | None => first_contained command_lower responses
    end.

End ResponseBrain.

(** The collaborators of the coordinator with the response brain of
    [response_brain.py]; the automation brain answers nothing. *)
Definition responding_world : World :=
  {| execute_command := fun _ => Ok None; _open_website := fun _ => Ok tt;
     process_command := fun command => Ok (ResponseBrain.process_command command) |}.

(** A text that does not start with a blank. *)
Definition starts_clean (s : string) : bool :=
  match s with
  | EmptyString => true
  | String c _ => negb (PyStr.is_space c)
  end.

(* ===================================================================== *)
(** * zia.py: the automation brain opening a website *)
(* ===================================================================== *)

Module AutomationBrain.

(** [self.web_domains] *)
Definition web_domains : list string := [
  ".com"; ".org"; ".net"; ".edu"; ".gov"; ".io"; ".co"; ".in"; ".ai"; ".tech"; ".dev"; ".app";
  ".cloud"; ".me"; ".tv"; ".fm"
].

(** [self.common_websites], in the order of the dictionary. *)
Definition common_websites : list (string * string) := [
  ("google", "google.com"); ("bing", "bing.com"); ("duckduckgo", "duckduckgo.com");
  ("youtube", "youtube.com"); ("facebook", "facebook.com"); ("twitter", "twitter.com");
  ("x", "x.com"); ("linkedin", "linkedin.com"); ("reddit", "reddit.com");
  ("instagram", "instagram.com"); ("tiktok", "tiktok.com"); ("discord", "discord.com");
  ("github", "github.com"); ("stackoverflow", "stackoverflow.com"); ("gitlab", "gitlab.com");
  ("codepen", "codepen.io"); ("gmail", "gmail.com"); ("outlook", "outlook.com");
  ("drive", "drive.google.com"); ("dropbox", "dropbox.com"); ("netflix", "netflix.com");
  ("spotify", "open.spotify.com"); ("twitch", "twitch.tv"); ("amazon", "amazon.com");
  ("whatsapp", "web.whatsapp.com"); ("telegram", "web.telegram.org"); ("zoom", "zoom.us");
  ("teams", "teams.microsoft.com"); ("wikipedia", "wikipedia.org");
  ("wolframalpha", "wolframalpha.com")
].

(** [self.web_triggers] *)
Definition web_triggers : list string := [
  "open"; "go to"; "visit"; "navigate to"; "browse to"; "load"; "access"; "show me";
  "take me to"
].

(** [table.get(key)] *)
Fixpoint get (key : string) (table : list (string * string)) : option string :=
  match table with
  | [] => None
  | (k, v) :: rest => if String.eqb k key then Some v else get key rest
  end.

(** [s.replace(old, new, 1)] for a non-empty [old]: the first occurrence
    is replaced. *)
Fixpoint replace_first (old new s : string) : string :=
  match s with
  | EmptyString => EmptyString
  | String c r =>
      if String.prefix old s then new ++ drop_chars (String.length old) s
      else String c (replace_first old new r)
  end.

(** [_extract_web_target]: the triggers are taken out one after the other,
    each from what the ones before left. *)
Definition _extract_web_target (command : string) : option string :=
  let command :=
    fold_left (fun command trigger =>
                 if PyStr.contains trigger command
                 then PyStr.strip (replace_first trigger "" command)
                 else command)
              web_triggers command in
  let cleanup_words := ["website"; "site"; "page"; "the"; "a"; "an"] in
  let words := PyStr.split command in
  let cleaned_words :=
    List.filter (fun word => negb (PyStr.mem (PyStr.lower word) cleanup_words)) words in
  match cleaned_words with
  | [] => None
  | _ => Some (PyStr.join " " cleaned_words)
  end.

(** What [_handle_web_browsing] leaves: its answer, the URL handed to
    [webbrowser.open] if it was called, the security brain of the
    coordinator and the counter of web operations. *)
Record WebResult : Type := mkWebResult {
  answer : string;
  opened : option string;
  security : option SecurityBrain;
  web_operations : nat
}.

Section Web.

(** [urlparse(url)]: its scheme and its network location. *)
Variable urlparse : string -> Exc (string * string).

(** [webbrowser.open(url)] *)
Variable webbrowser_open : string -> Exc unit.

Definition urlparse_netloc (url : string) : Exc string :=
  match urlparse url with
  | Ok (_, netloc) => Ok netloc
  | Raise e => Raise e
  end.

(** [_is_valid_url] *)
Definition _is_valid_url (text : string) : bool :=
  match urlparse text with
  | Ok (scheme, netloc) =>
      (negb (PyStr.is_empty scheme) && negb (PyStr.is_empty netloc))
      || PyStr.any_in web_domains text
  | Raise _ => false
  end.

(** The URL [_handle_web_browsing] builds for a target (lines 325-331). *)
Definition url_of_target (target : string) : string :=
  match get (PyStr.lower target) common_websites with
  | Some site => "https://" ++ site
  | None =>
      if _is_valid_url target then
        if PyStr.startswith "http://" target || PyStr.startswith "https://" target then target
        else "https://" ++ target
      else if negb (PyStr.any_in web_domains target) then "https://" ++ target ++ ".com"
      else "https://" ++ target
  end.

(** [_handle_web_browsing], with [operations] web operations counted so
    far and the security brain of the coordinator, if it has one. The
    entry in the memory log is left out. *)
Definition _handle_web_browsing (operations : nat) (security_brain : option SecurityBrain)
    (command : string) : WebResult :=
  let operations := S operations in
  let trouble (sb : option SecurityBrain) (called : option string) (e : exn) :=
    {| answer := "Boss, I had trouble opening that website: " ++ exn_text e;
       opened := called; security := sb; web_operations := operations |} in
  match _extract_web_target command with
  | None =>
      {| answer := "Boss, I need to know which website you'd like me to open.";
         opened := None; security := security_brain; web_operations := operations |}
  | Some target =>
      let url := url_of_target target in
      let open (sb : option SecurityBrain) :=
        match webbrowser_open url with
        | Ok _ =>
            {| answer := "Boss, I've opened " ++ url ++ " in your default browser.";
               opened := Some url; security := sb; web_operations := operations |}
        | Raise e => trouble sb (Some url) e
        end in
      match security_brain with
      | None => open None
      | Some sb =>
          match urlparse url with
          | Raise e => trouble (Some sb) None e
          | Ok (_, domain) =>
              let '(sb', security_response) := check_website_access urlparse_netloc sb domain in
              match security_response with
              | ALLOWED => open (Some sb')
              | _ =>
                  {| answer := "Boss, access to " ++ domain
                               ++ " is restricted by security protocols.";
                     opened := None; security := Some sb'; web_operations := operations |}
              end
          end
      end
  end.

End Web.

End AutomationBrain.

(** [urlparse(url).scheme] for ASCII input, after CPython's [urlsplit]:
    the text before the first colon, lower-cased, if it starts with a letter
    and consists of letters, digits, [+], [-] and [.]; empty otherwise. *)
Fixpoint scheme_run (s : string) : option string :=
  match s with
  | EmptyString => None
  | String c r =>
      if Ascii.eqb c ":" then Some EmptyString
      else if Urllib.is_scheme_char c then option_map (String c) (scheme_run r)
      else None
  end.

Definition urlparse_scheme (url : string) : string :=
  let url := Urllib.remove_unsafe (Urllib.lstrip_c0 url) in
  match url with
  | String c _ =>
      if PyStr.is_upper c || PyStr.is_lower c
      then match scheme_run url with
           | Some scheme => PyStr.lower scheme
           | None => EmptyString
           end
      else EmptyString
  | EmptyString => EmptyString
  end.

(** The scheme and the network location of a URL, to evaluate the
    definitions that take [urlparse] as a parameter. *)
Definition urlparse_parts (url : string) : Exc (string * string) :=
  match Urllib.netloc url with
  | Ok netloc => Ok (urlparse_scheme url, netloc)
  | Raise e => Raise e
  end.

(* ===================================================================== *)
(** * Python's [float]: IEEE 754 binary64 *)
(* ===================================================================== *)

(** The confidences of the decision brain are Python floats, that is
    doubles, and the code compares them: with each other when it keeps the
    best pattern and when it sorts, and with the threshold. Where a property
    is about the outcome of such a comparison, exact rationals will not do:
    [0.6 + 0.1 + 0.1] is [0.7999999999999999], which is below [0.8]. Here are
    the doubles with the operations the code uses on them, each rounded to
    nearest, ties to even. *)
Module PyFloat.

Definition float : Type := spec_float.

Definition prec : Z := 53.
Definition emax : Z := 1024.

(** [x + y] and [x * y] *)
Definition add (x y : float) : float := SFadd prec emax x y.
Definition mul (x y : float) : float := SFmul prec emax x y.

(** [x < y], [x > y], [x <= y] and [x == y]: all false when one side is
    not a number. *)
Definition ltb (x y : float) : bool := SFltb x y.
Definition gtb (x y : float) : bool := SFltb y x.
Definition leb (x y : float) : bool := SFleb x y.
Definition eqb (x y : float) : bool := SFeqb x y.

Definition is_nan (x : float) : bool :=
  match x with
  | S754_nan => true
  | _ => false
  end.

(** The double nearest to the quotient [a / b] of two positive integers:
    what a decimal literal denotes ([0.9] is [quotient 9 10]), and what
    [a / b] is on two [int]s whose quotient is within the doubles. *)
Definition quotient (a b : positive) : float :=
  SFdiv prec emax (S754_finite false a 0) (S754_finite false b 0).

(** The positive double of mantissa [m] and exponent [e], [m * 2^e]. *)
Definition finite (m : positive) (e : Z) : float := S754_finite false m e.

(** [0.0] and [1.0] *)
Definition zero : float := S754_zero false.
Definition one : float := quotient 1 1.

(** [min(x, y)]: the first of the two unless the second is smaller. *)
Definition py_min (x y : float) : float := if ltb y x then y else x.

(** The numbers in the order of [<], as triples of integers in
    lexicographic order: the class (below zero, zero, above zero, with the
    infinities at the ends), then the exponent and the mantissa, both
    negated below zero. *)
Definition rank (x : float) : Z * Z * Z :=
  match x with
  | S754_infinity true => (-2, 0, 0)%Z
  | S754_finite true m e => (-1, - e, Zneg m)%Z
  | S754_zero _ => (0, 0, 0)%Z
  | S754_nan => (0, 0, 0)%Z
  | S754_finite false m e => (1, e, Zpos m)%Z
  | S754_infinity false => (2, 0, 0)%Z
  end.

Definition rank_lt (r1 r2 : Z * Z * Z) : Prop :=
  let '(c1, e1, m1) := r1 in
  let '(c2, e2, m2) := r2 in
  (c1 < c2 \/ (c1 = c2 /\ (e1 < e2 \/ (e1 = e2 /\ m1 < m2))))%Z.

(** Not below zero: [+0.0], [-0.0], a positive number or [+inf]; also
    said of what is not a number. *)
Definition not_negative (x : float) : bool :=
  match x with
  | S754_finite true _ _ | S754_infinity true => false
  | _ => true
  end.

End PyFloat.

(* ===================================================================== *)
(** * decision_brain.py with confidences as doubles *)
(* ===================================================================== *)

(** The resolver, the boosting and [make_decision] once more, line by line
    as above, with every confidence a double and every operation on
    confidences the one Python performs. The tables, the session context
    and the learning store hold no floats and are the ones above. *)
Module Doubles.

Record IntentMatch : Type := mkIntentMatch {
  intent : string;
  confidence : PyFloat.float;
  matched_pattern : string;
  extracted_entities : gmap string (option string)
}.

Record DecisionResult : Type := mkDecisionResult {
  dr_success : bool;
  dr_action : option string;
  dr_automation_command : option string;
  dr_parameters : option (gmap string (option string));
  dr_confidence : PyFloat.float;
  dr_intent : option string;
  dr_clarification_needed : bool;
  dr_clarification_message : option string;
  dr_alternatives : option (list string)
}.

Record DecisionBrain : Type := mkDecisionBrain {
  confidence_threshold : PyFloat.float;
  max_alternatives : Z;
  learning_enabled : bool;
  context_window : Z;
  knowledge_base : gmap string IntentConfig;
  intent_patterns : list (string * PatternGroups);
  entity_extractors : list (string * list string);
  conversation_history : list HistoryEntry;
  session_context : SessionContext;
  user_preferences : gmap string Counter;
  performance_stats : PerformanceStats
}.

Definition set_conversation_history (h : list HistoryEntry) (db : DecisionBrain) : DecisionBrain :=
  {| confidence_threshold := confidence_threshold db; max_alternatives := max_alternatives db;
     learning_enabled := learning_enabled db; context_window := context_window db;
     knowledge_base := knowledge_base db; intent_patterns := intent_patterns db;
     entity_extractors := entity_extractors db; conversation_history := h;
     session_context := session_context db; user_preferences := user_preferences db;
     performance_stats := performance_stats db |}.

Definition set_session_context (c : SessionContext) (db : DecisionBrain) : DecisionBrain :=
  {| confidence_threshold := confidence_threshold db; max_alternatives := max_alternatives db;
     learning_enabled := learning_enabled db; context_window := context_window db;
     knowledge_base := knowledge_base db; intent_patterns := intent_patterns db;
     entity_extractors := entity_extractors db; conversation_history := conversation_history db;
     session_context := c; user_preferences := user_preferences db;
     performance_stats := performance_stats db |}.

Definition set_user_preferences (p : gmap string Counter) (db : DecisionBrain) : DecisionBrain :=
  {| confidence_threshold := confidence_threshold db; max_alternatives := max_alternatives db;
     learning_enabled := learning_enabled db; context_window := context_window db;
     knowledge_base := knowledge_base db; intent_patterns := intent_patterns db;
     entity_extractors := entity_extractors db; conversation_history := conversation_history db;
     session_context := session_context db; user_preferences := p;
     performance_stats := performance_stats db |}.

Definition set_performance_stats (p : PerformanceStats) (db : DecisionBrain) : DecisionBrain :=
  {| confidence_threshold := confidence_threshold db; max_alternatives := max_alternatives db;
     learning_enabled := learning_enabled db; context_window := context_window db;
     knowledge_base := knowledge_base db; intent_patterns := intent_patterns db;
     entity_extractors := entity_extractors db; conversation_history := conversation_history db;
     session_context := session_context db; user_preferences := user_preferences db;
     performance_stats := p |}.

(** The [decision_brain] section of the configuration; a key that is absent
    takes the default of [__init__]. *)
Record DecisionConfig : Type := mkDecisionConfig {
  cfg_confidence_threshold : option PyFloat.float;
  cfg_max_alternatives : option Z;
  cfg_learning_enabled : option bool;
  cfg_context_window : option Z
}.

(** A configuration without a [decision_brain] section. *)
Definition default_decision_config : DecisionConfig :=
  {| cfg_confidence_threshold := None; cfg_max_alternatives := None;
     cfg_learning_enabled := None; cfg_context_window := None |}.

(** [DecisionBrain.__init__], at [hour] o'clock. *)
Definition DecisionBrain_init (config : DecisionConfig) (hour : nat) : DecisionBrain :=
  {| confidence_threshold := default (PyFloat.quotient 7 10) (cfg_confidence_threshold config);
     max_alternatives := default 3%Z (cfg_max_alternatives config);
     learning_enabled := default true (cfg_learning_enabled config);
     context_window := default 5%Z (cfg_context_window config);
     knowledge_base := _setup_knowledge_base;
     intent_patterns := _setup_intent_patterns;
     entity_extractors := _setup_entity_extractors;
     conversation_history := [];
     session_context := {| last_intent := None; time_of_day := _get_time_context hour |};
     user_preferences := ∅;
     performance_stats := {| total_decisions := 0; successful_decisions := 0; clarifications_needed := 0 |} |}.

(** ** Intent resolution *)

(** [len(a) / len(b)], for an [a] that is not longer than [b] *)
Definition len_ratio (a b : string) : Exc PyFloat.float :=
  if (String.length b =? 0)%nat then Raise ZeroDivisionError
  else if (String.length a =? 0)%nat then Ok PyFloat.zero
  else Ok (PyFloat.quotient (Pos.of_nat (String.length a)) (Pos.of_nat (String.length b))).

(** The refined score of one match of a pattern of base confidence
    [base_confidence] (lines 280-283). *)
Definition pattern_score (base_confidence : PyFloat.float) (m : ReMatch.Match)
    (command_lower : string) : Exc PyFloat.float :=
  let pattern_confidence :=
    if String.eqb (ReMatch.group0 m) command_lower
    then PyFloat.add base_confidence (PyFloat.quotient 1 10) else base_confidence in
  let* match_ratio := len_ratio (ReMatch.group0 m) command_lower in
  Ok (PyFloat.add pattern_confidence (PyFloat.mul match_ratio (PyFloat.quotient 1 10))).

(** The running best of one intent: confidence, pattern, entities. *)
Definition Best : Type := (PyFloat.float * string * gmap string (option string))%type.

Definition best_init : Best := (PyFloat.zero, "", ∅).

(** The body of the loop over the patterns of one tier (lines 278-290). *)
Definition try_pattern (extractors : list (string * list string)) (command command_lower : string)
    (base_confidence : PyFloat.float) (best : Best) (pattern : string) : Exc Best :=
  let* found := re_search false pattern command_lower in
  match found with
  | None => Ok best
  | Some m =>
      let* pattern_confidence := pattern_score base_confidence m command_lower in
      let* entities := _extract_entities_from_match extractors m command in
      let '(best_confidence, _, _) := best in
      if PyFloat.gtb pattern_confidence best_confidence
      then Ok (pattern_confidence, pattern, entities)
      else Ok best
  end.

(** The tiers in the order the loop visits them, each with its base
    confidence, [0.9], [0.6] and [0.3]; an absent tier is skipped. *)
Definition tier_list (pattern_groups : PatternGroups) : list (PyFloat.float * list string) :=
  let tier base (t : option (list string)) :=
    match t with
    | Some patterns => [(base, patterns)]
    | None => []
    end in
  tier (PyFloat.quotient 9 10) (high_confidence pattern_groups) ++
  tier (PyFloat.quotient 6 10) (medium_confidence pattern_groups) ++
  tier (PyFloat.quotient 3 10) (low_confidence pattern_groups).

(** The two inner loops for one intent (lines 270-290). *)
Definition best_for_intent (extractors : list (string * list string)) (command command_lower : string)
    (pattern_groups : PatternGroups) : Exc Best :=
  foldE (fun best '(base_confidence, patterns) =>
           foldE (try_pattern extractors command command_lower base_confidence) patterns best)
        (tier_list pattern_groups) best_init.

(** What the loop over the intents does with the best of one intent
    (lines 292-298). *)
Definition keep_best (intent_matches : list IntentMatch) (intent : string) (best : Best)
  : list IntentMatch :=
  let '(best_confidence, best_pattern, best_entities) := best in
  if PyFloat.gtb best_confidence PyFloat.zero
  then (intent_matches ++
        [ {| intent := intent; confidence := PyFloat.py_min best_confidence PyFloat.one;
             matched_pattern := best_pattern; extracted_entities := best_entities |} ])%list
  else intent_matches.

(** The loop over the intents (lines 269-298): the matches in the order
    the intents are met, before any sorting or boosting. *)
Definition collect_matches (bank : list (string * PatternGroups))
    (extractors : list (string * list string)) (command : string) : Exc (list IntentMatch) :=
  let command_lower := PyStr.strip (PyStr.lower command) in
  foldE (fun (intent_matches : list IntentMatch) '(intent, pattern_groups) =>
           let* best := best_for_intent extractors command command_lower pattern_groups in
           Ok (keep_best intent_matches intent best))
        bank [].

(** [l.sort(key=key, reverse=True)] as a function of the contents of the
    list, for keys that are numbers: Python's sort is stable, also with
    [reverse=True], so an element goes before the first one of strictly
    smaller key that follows it and behind none of equal key that preceded
    it. *)
Fixpoint insert_desc_by {A : Type} (key : A -> PyFloat.float) (x : A) (l : list A) : list A :=
  match l with
  | [] => [x]
  | y :: rest =>
      if PyFloat.gtb (key y) (key x) then y :: insert_desc_by key x rest
      else x :: l
  end.

Fixpoint sort_desc_by {A : Type} (key : A -> PyFloat.float) (l : list A) : list A :=
  match l with
  | [] => []
  | x :: rest => insert_desc_by key x (sort_desc_by key rest)
  end.

(** [intent_matches.sort(key=lambda x: x.confidence, reverse=True)] *)
Definition sort_desc (l : list IntentMatch) : list IntentMatch :=
  sort_desc_by confidence l.

Definition set_confidence (c : PyFloat.float) (m : IntentMatch) : IntentMatch :=
  {| intent := intent m; confidence := c; matched_pattern := matched_pattern m;
     extracted_entities := extracted_entities m |}.

(** The first loop of [_apply_context_boosting] on one match. *)
Definition boost_last_intent (ctx : SessionContext) (m : IntentMatch) : IntentMatch :=
  match last_intent ctx with
  | Some li =>
      if negb (PyStr.is_empty li) && String.eqb (intent m) li
      then set_confidence
             (PyFloat.py_min PyFloat.one (PyFloat.add (confidence m) (PyFloat.quotient 1 10))) m
      else m
  | None => m
  end.

(** The second loop of [_apply_context_boosting] on one match. *)
Definition boost_time (ctx : SessionContext) (m : IntentMatch) : IntentMatch :=
  if PyStr.mem (intent m) (time_boosts (time_of_day ctx))
  then set_confidence
         (PyFloat.py_min PyFloat.one (PyFloat.add (confidence m) (PyFloat.quotient 5 100))) m
  else m.

(** [_apply_context_boosting] as a function of the contents of the list. *)
Definition _apply_context_boosting (ctx : SessionContext) (intent_matches : list IntentMatch)
  : list IntentMatch :=
  sort_desc (map (boost_time ctx) (map (boost_last_intent ctx) intent_matches)).

(** [_determine_intent_with_confidence] *)
Definition _determine_intent_with_confidence (db : DecisionBrain) (command : string)
  : Exc (list IntentMatch) :=
  let* intent_matches := collect_matches (intent_patterns db) (entity_extractors db) command in
  Ok (_apply_context_boosting (session_context db) (sort_desc intent_matches)).

(** ** Action selection and [make_decision] *)

(** [_extract_enhanced_parameters] *)
Definition _extract_enhanced_parameters (command : string) (intent_match : IntentMatch)
  : gmap string (option string) :=
  let parameters := extracted_entities intent_match in
  let intent := intent intent_match in
  match parameters !! "primary_entity" with
  | Some primary =>
      if PyStr.mem intent ["find_video"; "get_info"; "search_web"; "learning"]
      then <["topic" := primary]> parameters
      else if PyStr.mem intent ["play_music"] then <["music_query" := primary]> parameters
      else if PyStr.mem intent ["open_website"] then <["url" := primary]> parameters
      else if PyStr.mem intent ["launch_app"] then <["application" := primary]> parameters
      else parameters
  | None => parameters
  end.

(** [_select_best_action] *)
Definition _select_best_action (db : DecisionBrain) (intent : string) : Exc (DecisionBrain * string) :=
  match knowledge_base db !! intent with
  | None => Raise KeyError
  | Some intent_config =>
      let possible_actions := actions intent_config in
      let priority_actions := default possible_actions (priority intent_config) in
      match priority_actions with
      | [] => Raise IndexError
      | best_action :: _ =>
          let '(prefs, store) := prefs_read intent (user_preferences db) in
          let db' := set_user_preferences store db in
          match most_common1 prefs with
          | Some (most_common_action, _) =>
              if PyStr.mem most_common_action possible_actions
              then Ok (db', most_common_action)
              else Ok (db', best_action)
          | None => Ok (db', best_action)
          end
      end
  end.

(** [_update_conversation_history] *)
Definition _update_conversation_history (command intent : string) (result : DecisionResult)
    (db : DecisionBrain) : DecisionBrain :=
  let history := (conversation_history db ++
                  [ {| h_command := command; h_intent := intent; h_action := dr_action result |} ])%list in
  let history := if (context_window db <? Z.of_nat (length history))%Z then tl history else history in
  set_session_context
    {| last_intent := Some intent; time_of_day := time_of_day (session_context db) |}
    (set_conversation_history history db).

(** [_learn_from_interaction] *)
Definition _learn_from_interaction (command intent : string) (success : bool)
    (db : DecisionBrain) : DecisionBrain :=
  if negb (learning_enabled db) then db
  else if success && negb (PyStr.is_empty intent) then
    let '(prefs, store) := prefs_read intent (user_preferences db) in
    set_user_preferences (<[intent := counter_incr command prefs]> store) db
  else db.

Definition bump_total (db : DecisionBrain) : DecisionBrain :=
  let p := performance_stats db in
  set_performance_stats
    {| total_decisions := S (total_decisions p); successful_decisions := successful_decisions p;
       clarifications_needed := clarifications_needed p |} db.

Definition bump_successful (db : DecisionBrain) : DecisionBrain :=
  let p := performance_stats db in
  set_performance_stats
    {| total_decisions := total_decisions p; successful_decisions := S (successful_decisions p);
       clarifications_needed := clarifications_needed p |} db.

Definition bump_clarifications (db : DecisionBrain) : DecisionBrain :=
  let p := performance_stats db in
  set_performance_stats
    {| total_decisions := total_decisions p; successful_decisions := successful_decisions p;
       clarifications_needed := S (clarifications_needed p) |} db.

(** The result of a decision taken for [action_to_take] (lines 443-455). *)
Definition decision_taken (db : DecisionBrain) (command : string) (best_match : IntentMatch)
    (parameters : gmap string (option string)) (action_to_take : string)
  : DecisionBrain * option DecisionResult :=
  let intent := intent best_match in
  let result :=
    {| dr_success := true; dr_action := Some action_to_take;
       dr_automation_command :=
         Some (_map_action_to_automation_enhanced action_to_take parameters intent);
       dr_parameters := Some parameters; dr_confidence := confidence best_match;
       dr_intent := Some intent; dr_clarification_needed := false;
       dr_clarification_message := None; dr_alternatives := None |} in
  let db := _update_conversation_history command intent result db in
  let db := _learn_from_interaction command intent true db in
  (bump_successful db, Some result).

(** The body of the [try] of [make_decision], after the counter of
    decisions was incremented (lines 407-455). The second component is
    [None] where the source returns [None]. *)
Definition make_decision_body (db : DecisionBrain) (command : string)
  : Exc (DecisionBrain * option DecisionResult) :=
  let* intent_matches := _determine_intent_with_confidence db command in
  match intent_matches with
  | [] => Ok (db, None)
  | best_match :: _ =>
      let best_intent := intent best_match in
      let best_confidence := confidence best_match in
      if PyFloat.ltb best_confidence (confidence_threshold db) then
        let alternatives := map intent (slice_to (max_alternatives db) intent_matches) in
        Ok (db, Some
          {| dr_success := false; dr_action := None; dr_automation_command := None;
             dr_parameters := None; dr_confidence := best_confidence;
             dr_intent := Some best_intent; dr_clarification_needed := true;
             dr_clarification_message :=
               Some ("CLARIFY:I'm not entirely sure, Boss. Did you mean: "
                     ++ PyStr.join ", " alternatives ++ "?");
             dr_alternatives := Some alternatives |})
      else
        let parameters := _extract_enhanced_parameters command best_match in
        let possible_actions :=
          match knowledge_base db !! best_intent with
          | Some intent_config => actions intent_config
          | None => []
          end in
        let context_sensitive :=
          match knowledge_base db !! best_intent with
          | Some intent_config => context_sensitive intent_config
          | None => false
          end in
        match possible_actions with
        | [] => Ok (db, None)
        | [action_to_take] => Ok (decision_taken db command best_match parameters action_to_take)
        | _ :: _ :: _ =>
            if context_sensitive then
              let* (db', action_to_take) := _select_best_action db best_intent in
              Ok (decision_taken db' command best_match parameters action_to_take)
            else
              let clarification :=
                _create_enhanced_clarification best_intent possible_actions parameters in
              Ok (bump_clarifications db, Some
                {| dr_success := false; dr_action := None; dr_automation_command := None;
                   dr_parameters := None; dr_confidence := best_confidence;
                   dr_intent := Some best_intent; dr_clarification_needed := true;
                   dr_clarification_message := Some clarification;
                   dr_alternatives := Some possible_actions |})
        end
  end.

(** [make_decision]. The second component is [None] where the source
    returns [None]; an exception raised inside the [try] is turned into a
    failed result that names it, the counter of decisions staying
    incremented. *)
Definition make_decision (db : DecisionBrain) (command : string)
  : DecisionBrain * option DecisionResult :=
  if PyStr.is_empty command || PyStr.is_empty (PyStr.strip command) then
    (db, Some
      {| dr_success := false; dr_action := None; dr_automation_command := None;
         dr_parameters := None; dr_confidence := PyFloat.zero; dr_intent := None;
         dr_clarification_needed := false;
         dr_clarification_message := Some "Boss, I need a command to process.";
         dr_alternatives := None |})
  else
    let db1 := bump_total db in
    match make_decision_body db1 command with
    | Ok r => r
    | Raise e =>
        (_learn_from_interaction command "" false db1, Some
          {| dr_success := false; dr_action := None; dr_automation_command := None;
             dr_parameters := None; dr_confidence := PyFloat.zero; dr_intent := None;
             dr_clarification_needed := false;
             dr_clarification_message :=
               Some ("Boss, I had an error in my thought process: " ++ exn_name e);
             dr_alternatives := None |})
    end.

(** ** The notions the properties of the ranking are stated with *)

(** [l] is sorted non-increasing: no element is followed by a larger
    one, and all are numbers. *)
Fixpoint non_increasing (l : list PyFloat.float) : Prop :=
  match l with
  | [] => True
  | x :: rest => Forall (fun y => PyFloat.leb y x = true) rest /\ non_increasing rest
  end.

(** [c] lies in [0, 1]. *)
Definition in_unit_interval (c : PyFloat.float) : Prop :=
  PyFloat.leb PyFloat.zero c = true /\ PyFloat.leb c PyFloat.one = true.

(** The matches of confidence [c], in the order [l] has them. *)
Definition with_confidence (c : PyFloat.float) (l : list IntentMatch) : list IntentMatch :=
  List.filter (fun m => PyFloat.eqb (confidence m) c) l.

(** [l1] and [l2] have the matches of every confidence in the same
    order: what a stable sort keeps. *)
Definition same_ties (l1 l2 : list IntentMatch) : Prop :=
  forall c : PyFloat.float, with_confidence c l1 = with_confidence c l2.

(** Both boosting rules on one match. *)
Definition boosted (ctx : SessionContext) (m : IntentMatch) : IntentMatch :=
  boost_time ctx (boost_last_intent ctx m).

(** The matches of equal confidence of the output [out] are in the order
    in which the resolver met them, [raw] being the matches in that order
    before boosting. *)
Definition ties_in_encounter_order (ctx : SessionContext) (raw out : list IntentMatch) : Prop :=
  same_ties out (map (boosted ctx) raw).

(** The matches of equal confidence of the output [out] are in the order
    of the ranking before boosting. *)
Definition ties_in_ranking_order (ctx : SessionContext) (raw out : list IntentMatch) : Prop :=
  same_ties out (map (boosted ctx) (sort_desc raw)).

End Doubles.

(* ===================================================================== *)
(** * Properties of the security lists *)
(* ===================================================================== *)

Section SecurityBrainFacts.

Variable urlparse_netloc : string -> Exc string.

Lemma apply_op_disjoint (sb : SecurityBrain) (op : SecurityOp) :
  lists_disjoint sb -> lists_disjoint (apply_op urlparse_netloc sb op).
Proof.
  unfold lists_disjoint. intros Hd.
  destruct op; simpl;
    unfold add_to_trusted, add_to_blocked, add_to_one_time, remove_from_trusted,
      remove_from_blocked, clear_one_time_sessions, check_website_access;
    repeat case_match; simpl; intros d; specialize (Hd d); set_solver.
Qed.

Lemma apply_ops_disjoint (ops : list SecurityOp) (sb : SecurityBrain) :
  lists_disjoint sb -> lists_disjoint (apply_ops urlparse_netloc sb ops).
Proof.
  revert sb. induction ops as [|op ops IH]; intros sb Hd; simpl; [done|].
  apply IH, apply_op_disjoint, Hd.
Qed.

(** A well-formed domain that is granted permanent trust is trusted and
    on neither of the other two lists. *)
Lemma add_to_trusted_effect (sb : SecurityBrain) (domain : string) :
  is_valid_domain (extract_domain urlparse_netloc domain) = true ->
  add_to_trusted urlparse_netloc sb domain =
    ({| trusted_sites := trusted_sites sb ∪ {[extract_domain urlparse_netloc domain]};
        blocked_sites := blocked_sites sb ∖ {[extract_domain urlparse_netloc domain]};
        one_time_sessions := one_time_sessions sb ∖ {[extract_domain urlparse_netloc domain]};
        session_usage := session_usage sb |}, true).
Proof. intros Hv. unfold add_to_trusted. by rewrite Hv. Qed.

Lemma add_to_blocked_effect (sb : SecurityBrain) (domain : string) :
  is_valid_domain (extract_domain urlparse_netloc domain) = true ->
  add_to_blocked urlparse_netloc sb domain =
    ({| trusted_sites := trusted_sites sb ∖ {[extract_domain urlparse_netloc domain]};
        blocked_sites := blocked_sites sb ∪ {[extract_domain urlparse_netloc domain]};
        one_time_sessions := one_time_sessions sb ∖ {[extract_domain urlparse_netloc domain]};
        session_usage := session_usage sb |}, true).
Proof. intros Hv. unfold add_to_blocked. by rewrite Hv. Qed.

(** An ill-formed domain is refused: nothing changes. *)
Lemma add_to_blocked_refused (sb : SecurityBrain) (domain : string) :
  is_valid_domain (extract_domain urlparse_netloc domain) = false ->
  add_to_blocked urlparse_netloc sb domain = (sb, false).
Proof. intros Hv. unfold add_to_blocked. by rewrite Hv. Qed.

End SecurityBrainFacts.

(** C10. Starting from lists that share no domain, after any sequence of
    [add_to_trusted], [add_to_blocked], [add_to_one_time], removals,
    [clear_one_time_sessions] and access checks, no domain is both trusted
    and blocked; and a well-formed domain that is granted permanent trust
    leaves the blocked and one-time lists, one that is blocked leaves the
    trusted and one-time lists. [urlparse] may behave in any way. *)
Theorem trusted_and_blocked_stay_disjoint
    (urlparse_netloc : string -> Exc string) (sb : SecurityBrain) (ops : list SecurityOp) :
  lists_disjoint sb ->
  lists_disjoint (apply_ops urlparse_netloc sb ops)
  /\ (forall (sb' : SecurityBrain) (domain : string),
        is_valid_domain (extract_domain urlparse_netloc domain) = true ->
        (extract_domain urlparse_netloc domain ∈ trusted_sites (fst (add_to_trusted urlparse_netloc sb' domain)))
        /\ (extract_domain urlparse_netloc domain ∉ blocked_sites (fst (add_to_trusted urlparse_netloc sb' domain)))
        /\ (extract_domain urlparse_netloc domain ∉ one_time_sessions (fst (add_to_trusted urlparse_netloc sb' domain))))
  /\ (forall (sb' : SecurityBrain) (domain : string),
        is_valid_domain (extract_domain urlparse_netloc domain) = true ->
        (extract_domain urlparse_netloc domain ∈ blocked_sites (fst (add_to_blocked urlparse_netloc sb' domain)))
        /\ (extract_domain urlparse_netloc domain ∉ trusted_sites (fst (add_to_blocked urlparse_netloc sb' domain)))
        /\ (extract_domain urlparse_netloc domain ∉ one_time_sessions (fst (add_to_blocked urlparse_netloc sb' domain)))).
Proof.
  intros Hd. split; [by apply apply_ops_disjoint|]. split.
  - intros sb' domain Hv. rewrite add_to_trusted_effect by done. simpl. set_solver.
  - intros sb' domain Hv. rewrite add_to_blocked_effect by done. simpl. set_solver.
Qed.

(** The lists of the mock configuration at the end of [security_brain.py]. *)
Lemma mock_config_disjoint :
  lists_disjoint
    (SecurityBrain_init {| cfg_trusted_sites := ["github.com"; "stackoverflow.com"];
                           cfg_blocked_sites := ["malicious-site.com"];
                           cfg_one_time_sessions := ["temp-site.com"] |}).
Proof.
  intros d [Ht Hb]. simpl in Ht, Hb. set_solver.
Qed.

Lemma trusted_and_blocked_stay_disjoint_witness :
  lists_disjoint
    (SecurityBrain_init {| cfg_trusted_sites := ["github.com"; "stackoverflow.com"];
                           cfg_blocked_sites := ["malicious-site.com"];
                           cfg_one_time_sessions := ["temp-site.com"] |})
  /\ lists_disjoint
    (apply_ops Urllib.netloc
       (SecurityBrain_init {| cfg_trusted_sites := ["github.com"; "stackoverflow.com"];
                              cfg_blocked_sites := ["malicious-site.com"];
                              cfg_one_time_sessions := ["temp-site.com"] |})
       [OpAddToBlocked "https://www.GitHub.com/user/repo"; OpAddToTrusted "malicious-site.com";
        OpAddToOneTime "github.com"; OpRemoveFromTrusted "stackoverflow.com";
        OpAddToTrusted "not a domain"]).
Proof.
  split; [exact mock_config_disjoint|].
  exact (proj1 (trusted_and_blocked_stay_disjoint Urllib.netloc _ _ mock_config_disjoint)).
Defined.

(* ===================================================================== *)
(** * Comparisons of confidences and the stable sort *)
(* ===================================================================== *)

Lemma Qgtb_true (a b : Q) : Qgtb a b = true <-> (b < a)%Q.
Proof.
  unfold Qgtb. rewrite negb_true_iff.
  split.
  - intros H. apply Qnot_le_lt. intros Hle. apply Qle_bool_iff in Hle. congruence.
  - intros H. destruct (Qle_bool a b) eqn:E; [|done]. apply Qle_bool_iff in E. lra.
Qed.

Lemma Qgtb_false (a b : Q) : Qgtb a b = false <-> (a <= b)%Q.
Proof.
  unfold Qgtb. rewrite negb_false_iff. apply Qle_bool_iff.
Qed.

Lemma Qltb_false (a b : Q) : Qltb a b = false <-> (b <= a)%Q.
Proof. apply Qgtb_false. Qed.

Section StableSort.
Context {A : Type} (key : A -> Q).

Lemma insert_desc_by_perm (x : A) (l : list A) :
  Permutation (insert_desc_by key x l) (x :: l).
Proof.
  induction l as [|y l IH]; simpl; [done|].
  destruct (Qgtb (key y) (key x)); [|done].
  rewrite IH. apply perm_swap.
Qed.

Lemma sort_desc_by_perm (l : list A) : Permutation (sort_desc_by key l) l.
Proof.
  induction l as [|x l IH]; simpl; [done|].
  rewrite insert_desc_by_perm. by constructor.
Qed.

(** Sorting through a view [f] of the elements. *)
Lemma sort_desc_by_map {B : Type} (f : B -> A) (l : list B) :
  map f (sort_desc_by (fun b => key (f b)) l) = sort_desc_by key (map f l).
Proof.
  induction l as [|x l IH]; [done|]. cbn [sort_desc_by map]. rewrite <- IH.
  generalize (sort_desc_by (fun b => key (f b)) l). intros l'.
  induction l' as [|y l' IH']; [done|]. cbn [insert_desc_by map].
  destruct (Qgtb (key (f y)) (key (f x))); cbn [map]; [by rewrite IH'|done].
Qed.

End StableSort.

(* ===================================================================== *)
(** * Context boosting *)
(* ===================================================================== *)

Lemma Qmin_cases (x y : Q) :
  ((x <= y)%Q /\ (Qmin x y == x)%Q) \/ ((y <= x)%Q /\ (Qmin x y == y)%Q).
Proof.
  destruct (Q.min_spec x y) as [[H1 H2]|[H1 H2]]; [left|right]; split; try done. lra.
Qed.

Lemma boost_last_intent_fields (ctx : SessionContext) (m : IntentMatch) :
  intent (boost_last_intent ctx m) = intent m
  /\ matched_pattern (boost_last_intent ctx m) = matched_pattern m
  /\ extracted_entities (boost_last_intent ctx m) = extracted_entities m.
Proof. unfold boost_last_intent. repeat case_match; done. Qed.

Lemma boost_time_fields (ctx : SessionContext) (m : IntentMatch) :
  intent (boost_time ctx m) = intent m
  /\ matched_pattern (boost_time ctx m) = matched_pattern m
  /\ extracted_entities (boost_time ctx m) = extracted_entities m.
Proof. unfold boost_time. repeat case_match; done. Qed.

Lemma boosted_fields (ctx : SessionContext) (m : IntentMatch) :
  intent (boosted ctx m) = intent m
  /\ matched_pattern (boosted ctx m) = matched_pattern m
  /\ extracted_entities (boosted ctx m) = extracted_entities m.
Proof.
  unfold boosted.
  destruct (boost_time_fields ctx (boost_last_intent ctx m)) as (-> & -> & ->).
  apply boost_last_intent_fields.
Qed.

(** The last-intent rule adds at most 0.1 and never lowers a confidence
    that is at most 1. *)
Lemma boost_last_intent_bounds (ctx : SessionContext) (m : IntentMatch) :
  (confidence m <= 1)%Q ->
  (confidence m <= confidence (boost_last_intent ctx m))%Q
  /\ (confidence (boost_last_intent ctx m) <= 1)%Q
  /\ (confidence (boost_last_intent ctx m) <= confidence m + (1#10))%Q.
Proof.
  intros H. unfold boost_last_intent. repeat case_match; simpl; try lra.
  destruct (Qmin_cases 1 (confidence m + (1#10))) as [[? ->]|[? ->]]; lra.
Qed.

Lemma boost_time_bounds (ctx : SessionContext) (m : IntentMatch) :
  (confidence m <= 1)%Q ->
  (confidence m <= confidence (boost_time ctx m))%Q
  /\ (confidence (boost_time ctx m) <= 1)%Q
  /\ (confidence (boost_time ctx m) <= confidence m + (5#100))%Q.
Proof.
  intros H. unfold boost_time. repeat case_match; simpl; try lra.
  destruct (Qmin_cases 1 (confidence m + (5#100))) as [[? ->]|[? ->]]; lra.
Qed.

Lemma boosted_bounds (ctx : SessionContext) (m : IntentMatch) :
  (confidence m <= 1)%Q ->
  (confidence m <= confidence (boosted ctx m))%Q
  /\ (confidence (boosted ctx m) <= 1)%Q
  /\ (confidence (boosted ctx m) <= confidence m + (15#100))%Q.
Proof.
  intros H. unfold boosted.
  destruct (boost_last_intent_bounds ctx m H) as (H1 & H2 & H3).
  destruct (boost_time_bounds ctx (boost_last_intent ctx m) H2) as (H4 & H5 & H6).
  lra.
Qed.

(** When the rule of the last intent fires, it adds 0.1, capped at 1. *)
Lemma boost_last_intent_fires (ctx : SessionContext) (m : IntentMatch) (li : string) :
  last_intent ctx = Some li -> li <> "" -> intent m = li ->
  confidence (boost_last_intent ctx m) = Qmin 1 (confidence m + (1#10)).
Proof.
  intros Hl Hne Hi. unfold boost_last_intent. rewrite Hl, Hi, String.eqb_refl.
  destruct li; [done|]. done.
Qed.

(** When the rule of the time of day fires, it adds 0.05, capped at 1. *)
Lemma boost_time_fires (ctx : SessionContext) (m : IntentMatch) :
  In (intent m) (time_boosts (time_of_day ctx)) ->
  confidence (boost_time ctx m) = Qmin 1 (confidence m + (5#100)).
Proof.
  intros Hin. unfold boost_time, PyStr.mem.
  assert (existsb (String.eqb (intent m)) (time_boosts (time_of_day ctx)) = true) as ->; [|done].
  apply existsb_exists. exists (intent m). split; [done|apply String.eqb_refl].
Qed.

Lemma _apply_context_boosting_perm (ctx : SessionContext) (l : list IntentMatch) :
  Permutation (_apply_context_boosting ctx l) (map (boosted ctx) l).
Proof.
  unfold _apply_context_boosting, sort_desc. rewrite sort_desc_by_perm.
  by rewrite map_map.
Qed.

(** C9. Context boosting is monotonic. The result holds, up to the
    order, the matches given with both rules applied to each; a match of
    confidence at most 1 (as every [IntentMatch] is) comes out with the same
    intent and a confidence that is not lower and still at most 1. The rule
    of the last intent adds 0.1 and the rule of the time of day 0.05, each
    capped at 1. *)
Theorem context_boosting_is_monotonic (ctx : SessionContext) (l : list IntentMatch) :
  Forall (fun m => (confidence m <= 1)%Q) l ->
  Permutation (_apply_context_boosting ctx l) (map (boosted ctx) l)
  /\ Forall (fun m =>
               intent (boosted ctx m) = intent m
               /\ (confidence m <= confidence (boosted ctx m))%Q
               /\ (confidence (boosted ctx m) <= 1)%Q
               /\ (confidence (boosted ctx m) <= confidence m + (15#100))%Q) l
  /\ (forall (m : IntentMatch) (li : string),
        last_intent ctx = Some li -> li <> "" -> intent m = li ->
        confidence (boost_last_intent ctx m) = Qmin 1 (confidence m + (1#10)))
  /\ (forall m : IntentMatch,
        In (intent m) (time_boosts (time_of_day ctx)) ->
        confidence (boost_time ctx m) = Qmin 1 (confidence m + (5#100))).
Proof.
  intros H. split; [apply _apply_context_boosting_perm|]. split.
  - eapply List.Forall_impl; [|exact H]. intros m Hm. simpl.
    split; [apply boosted_fields|]. by apply boosted_bounds.
  - split; [apply boost_last_intent_fires|apply boost_time_fires].
Qed.

Lemma context_boosting_is_monotonic_witness :
  Forall (fun m => (confidence m <= 1)%Q)
    [ {| intent := "play_music"; confidence := 3#10; matched_pattern := "play";
         extracted_entities := ∅ |};
      {| intent := "find_video"; confidence := 19#20; matched_pattern := "watch.*(.+)";
         extracted_entities := ∅ |} ]
  /\ Permutation
       (_apply_context_boosting {| last_intent := Some "find_video"; time_of_day := "night" |}
          [ {| intent := "play_music"; confidence := 3#10; matched_pattern := "play";
               extracted_entities := ∅ |};
            {| intent := "find_video"; confidence := 19#20; matched_pattern := "watch.*(.+)";
               extracted_entities := ∅ |} ])
       (map (boosted {| last_intent := Some "find_video"; time_of_day := "night" |})
          [ {| intent := "play_music"; confidence := 3#10; matched_pattern := "play";
               extracted_entities := ∅ |};
            {| intent := "find_video"; confidence := 19#20; matched_pattern := "watch.*(.+)";
               extracted_entities := ∅ |} ]).
Proof.
  assert (Forall (fun m => (confidence m <= 1)%Q)
    [ {| intent := "play_music"; confidence := 3#10; matched_pattern := "play";
         extracted_entities := ∅ |};
      {| intent := "find_video"; confidence := 19#20; matched_pattern := "watch.*(.+)";
         extracted_entities := ∅ |} ]) as H.
  { repeat constructor; simpl; lra. }
  split; [exact H|].
  exact (proj1 (context_boosting_is_monotonic _ _ H)).
Defined.

(* ===================================================================== *)
(** * Groups that take part in every match *)
(* ===================================================================== *)

Section Captures.
Import PyStr Re ReMatch.

Variable icase : bool.
(** The group looked for. *)
Variable n : nat.

Lemma cap_set_cons (m : nat) (span : nat * nat) (c : Caps) :
  (m = n \/ is_Some (cap_lookup n c)) -> is_Some (cap_lookup n ((m, span) :: c)).
Proof.
  intros H. simpl. destruct (m =? n)%nat eqn:E; [by eexists|].
  destruct H as [->|H]; [|done]. rewrite Nat.eqb_refl in E. done.
Qed.

(** A repetition succeeds through its continuation; if it must iterate
    and its body sets the group, the group is set by then. *)
Lemma rep_loop_reaches (body : string -> nat -> Caps -> K -> option (nat * Caps))
    (sets : bool) (k : K) :
  (forall s i c k' res, body s i c k' = Some res ->
     exists s' i' c', k' s' i' c' = Some res
       /\ (is_Some (cap_lookup n c) -> is_Some (cap_lookup n c'))
       /\ (sets = true -> is_Some (cap_lookup n c'))) ->
  forall fuel lo hi s i c res,
    rep_loop body k fuel lo hi s i c = Some res ->
    exists s' i' c', k s' i' c' = Some res
      /\ (is_Some (cap_lookup n c) -> is_Some (cap_lookup n c'))
      /\ ((0 <? lo)%nat && sets = true -> is_Some (cap_lookup n c')).
Proof.
  intros Hbody. induction fuel as [|fuel IH]; intros lo hi s i c res H; [done|].
  cbn [rep_loop] in H.
  set (again := fun (s' : string) (j : nat) (c' : Caps) =>
                  if (j =? i)%nat then None
                  else rep_loop body k fuel (Nat.pred lo) (option_map Nat.pred hi) s' j c') in H.
  assert (body s i c again = Some res ->
          exists s' i' c', k s' i' c' = Some res
            /\ (is_Some (cap_lookup n c) -> is_Some (cap_lookup n c'))
            /\ ((0 <? lo)%nat && sets = true -> is_Some (cap_lookup n c'))) as Hmore.
  { intros Hb. apply Hbody in Hb as (s1 & i1 & c1 & Hk & Hkeep & Hset).
    unfold again in Hk. destruct (i1 =? i)%nat; [done|].
    apply IH in Hk as (s2 & i2 & c2 & Hk2 & Hkeep2 & _).
    exists s2, i2, c2. split; [done|]. split; [tauto|].
    intros [_ Hs]%andb_true_iff. tauto. }
  assert ((if (lo =? 0)%nat then k s i c else None) = Some res ->
          exists s' i' c', k s' i' c' = Some res
            /\ (is_Some (cap_lookup n c) -> is_Some (cap_lookup n c'))
            /\ ((0 <? lo)%nat && sets = true -> is_Some (cap_lookup n c'))) as Hstop.
  { destruct (lo =? 0)%nat eqn:E; [|done]. intros Hk.
    exists s, i, c. split; [done|]. split; [done|].
    apply Nat.eqb_eq in E. subst lo. done. }
  destruct hi as [[|h]|].
  - by apply Hstop.
  - destruct (body s i c again) eqn:Eb; [|by apply Hstop].
    apply Hmore. congruence.
  - destruct (body s i c again) eqn:Eb; [|by apply Hstop].
    apply Hmore. congruence.
Qed.

(** A match succeeds through its continuation, which then sees every group
    set before and every group the expression always sets. *)
Lemma rmatch_reaches (r : regex) :
  forall s i c k res,
    rmatch icase r s i c k = Some res ->
    exists s' i' c', k s' i' c' = Some res
      /\ (is_Some (cap_lookup n c) -> is_Some (cap_lookup n c'))
      /\ (mandatory n r = true -> is_Some (cap_lookup n c')).
Proof.
  induction r as [| a | | neg items | | | r1 IH1 r2 IH2 | r1 IH1 r2 IH2 | r1 IH1 lo hi | m r1 IH1];
    intros s i c k res H; cbn [rmatch mandatory] in *.
  - by exists s, i, c.
  - destruct s as [|b s']; [done|]. destruct (chr_matches icase a b); [|done].
    by exists s', (S i), c.
  - destruct s as [|b s']; [done|]. destruct (code b =? 10)%nat; [done|].
    by exists s', (S i), c.
  - destruct s as [|b s']; [done|].
    destruct (xorb neg (existsb (fun it => item_matches icase it b) items)); [|done].
    by exists s', (S i), c.
  - destruct (i =? 0)%nat; [|done]. by exists s, i, c.
  - destruct s as [|b [|b' s']]; [by exists "", i, c| |done].
    destruct (code b =? 10)%nat; [|done]. by eexists _, i, c.
  - apply IH1 in H as (s1 & i1 & c1 & H & Hk1 & Hs1).
    apply IH2 in H as (s2 & i2 & c2 & H & Hk2 & Hs2).
    exists s2, i2, c2. split; [done|]. split; [tauto|].
    intros [?|?]%orb_true_iff; tauto.
  - destruct (rmatch icase r1 s i c k) eqn:E1.
    + injection H as ->. apply IH1 in E1 as (s1 & i1 & c1 & H & Hk1 & Hs1).
      exists s1, i1, c1. split; [done|]. split; [done|].
      intros [? _]%andb_true_iff. tauto.
    + apply IH2 in H as (s1 & i1 & c1 & H & Hk1 & Hs1).
      exists s1, i1, c1. split; [done|]. split; [done|].
      intros [_ ?]%andb_true_iff. tauto.
  - eapply (rep_loop_reaches (rmatch icase r1) (mandatory n r1)) in H; [exact H|].
    intros s0 i0 c0 k' res0 Hb. exact (IH1 _ _ _ _ _ Hb).
  - apply IH1 in H as (s1 & i1 & c1 & H & Hk1 & Hs1).
    exists s1, i1, ((m, (i, i1)) :: c1). split; [done|]. split.
    + intros Hc. apply cap_set_cons. right. tauto.
    + intros [Hm|Hm]%orb_true_iff; apply cap_set_cons.
      * left. by apply Nat.eqb_eq.
      * right. tauto.
Qed.

Lemma search_from_sets (r : regex) (s : string) :
  forall i i' j c,
    search_from icase r s i = Some (i', j, c) ->
    mandatory n r = true -> is_Some (cap_lookup n c).
Proof.
  induction s as [|b s IH]; intros i i' j c H Hm; cbn [search_from] in H.
  - destruct (rmatch icase r "" i [] (fun _ j c => Some (j, c))) as [[j0 c0]|] eqn:E; [|done].
    injection H as <- <- <-.
    apply rmatch_reaches in E as (s1 & i1 & c1 & Hk & _ & Hs). injection Hk as <- <-. tauto.
  - destruct (rmatch icase r (String b s) i [] (fun _ j c => Some (j, c))) as [[j0 c0]|] eqn:E.
    + injection H as <- <- <-.
      apply rmatch_reaches in E as (s1 & i1 & c1 & Hk & _ & Hs). injection Hk as <- <-. tauto.
    + by eapply IH.
Qed.

End Captures.

(** A match of a pattern whose first group is mandatory has a first
    group. *)
Lemma search_group1 (icase : bool) (pattern subject : string) (r : Re.regex) (g : nat)
    (m : ReMatch.Match) :
  Re.parse pattern = Some (r, g) -> (0 <? g)%nat = true -> mandatory 1 r = true ->
  ReMatch.search icase pattern subject = Some (Some m) ->
  exists v, ReMatch.group 1 m = Some (Some v).
Proof.
  intros Hp Hg Hm H. unfold ReMatch.search in H. rewrite Hp in H.
  destruct (ReMatch.search_from icase r subject 0) as [[[i j] c]|] eqn:E; [|done].
  injection H as <-. unfold ReMatch.group. simpl.
  apply Nat.ltb_lt in Hg. destruct (g <? 1)%nat eqn:E1; [apply Nat.ltb_lt in E1; lia|].
  eapply search_from_sets in E as [[a b] ->]; [|done]. by eexists.
Qed.

(** A match of a pattern with at least one group can be asked for its
    first group. *)
Lemma search_group1_defined (icase : bool) (pattern subject : string) (r : Re.regex) (g : nat)
    (m : ReMatch.Match) :
  Re.parse pattern = Some (r, g) -> (0 <? g)%nat = true ->
  ReMatch.search icase pattern subject = Some (Some m) ->
  exists v, ReMatch.group 1 m = Some v.
Proof.
  intros Hp Hg H. unfold ReMatch.search in H. rewrite Hp in H.
  destruct (ReMatch.search_from icase r subject 0) as [[[i j] c]|] eqn:E; [|done].
  injection H as <-. unfold ReMatch.group. simpl.
  apply Nat.ltb_lt in Hg. destruct (g <? 1)%nat eqn:E1; [apply Nat.ltb_lt in E1; lia|].
  by eexists.
Qed.

(* ===================================================================== *)
(** * The resolver raises nothing on the tables of the source *)
(* ===================================================================== *)

Lemma foldE_total {A B : Type} (f : B -> A -> Exc B) (xs : list A) :
  (forall b a, In a xs -> exists b', f b a = Ok b') ->
  forall acc, exists res, foldE f xs acc = Ok res.
Proof.
  induction xs as [|x xs IH]; intros Hf acc; simpl; [by eexists|].
  destruct (Hf acc x) as [b' ->]; [by left|]. simpl.
  apply IH. intros b a Ha. apply Hf. by right.
Qed.

Lemma foldE_app {A B : Type} (f : B -> A -> Exc B) (xs ys : list A) (acc : B) :
  foldE f (xs ++ ys) acc = bindE (foldE f xs acc) (foldE f ys).
Proof.
  revert acc. induction xs as [|x xs IH]; intros acc; simpl; [done|].
  destruct (f acc x); simpl; [apply IH|done].
Qed.

Lemma foldE_map {A B C : Type} (f : B -> A -> Exc B) (g : C -> A) (xs : list C) (acc : B) :
  foldE f (map g xs) acc = foldE (fun b c => f b (g c)) xs acc.
Proof.
  revert acc. induction xs as [|x xs IH]; intros acc; simpl; [done|].
  destruct (f acc (g x)); simpl; [apply IH|done].
Qed.

Lemma bank_is_ok : bank_ok _setup_intent_patterns = true.
Proof. vm_compute. reflexivity. Qed.

Lemma extractors_are_ok : extractors_ok _setup_entity_extractors = true.
Proof. vm_compute. reflexivity. Qed.

Section ResolverTotal.

Variable extractors : list (string * list string).
Hypothesis Hextractors : extractors_ok extractors = true.

Lemma first_entity_total (patterns : list string) (command : string) :
  forallb extractor_ok patterns = true ->
  exists hit, first_entity patterns command = Ok hit.
Proof.
  induction patterns as [|p ps IH]; simpl; [by eexists|].
  intros [Hp Hps]%andb_true_iff. unfold re_search.
  unfold extractor_ok in Hp. destruct (Re.parse p) as [[r g]|] eqn:Ep; [|done].
  destruct (ReMatch.search true p command) as [[m|]|] eqn:Es; simpl.
  - destruct (search_group1_defined true p command r g m Ep Hp Es) as [v ->]. by eexists.
  - by apply IH.
  - unfold ReMatch.search in Es. by rewrite Ep in Es.
Qed.

Lemma extract_entities_total (pattern subject command : string) (m : ReMatch.Match) :
  pattern_ok pattern = true ->
  ReMatch.search false pattern subject = Some (Some m) ->
  exists entities, _extract_entities_from_match extractors m command = Ok entities.
Proof.
  intros Hok Hs. unfold _extract_entities_from_match.
  assert (exists e0,
    (if (0 <? ReMatch.m_ngroups m)%nat
     then match ReMatch.group 1 m with
          | Some (Some g) => Ok (<["primary_entity" := Some (PyStr.strip g)]> (∅ : gmap string (option string)))
          | Some None => Raise AttributeError
          | None => Raise IndexError
          end
     else Ok ∅) = Ok e0) as [e0 ->].
  { destruct (0 <? ReMatch.m_ngroups m)%nat eqn:Eg; [|by eexists].
    unfold pattern_ok in Hok. destruct (Re.parse pattern) as [[r g]|] eqn:Ep; [|done].
    apply andb_true_iff in Hok as [Hm _].
    assert (ReMatch.m_ngroups m = g) as Hg.
    { unfold ReMatch.search in Hs. rewrite Ep in Hs.
      destruct (ReMatch.search_from false r subject 0) as [[[? ?] ?]|]; [|done].
      by injection Hs as <-. }
    rewrite Hg in Eg.
    apply orb_true_iff in Hm as [Hm|Hm].
    { apply Nat.eqb_eq in Hm. subst g. done. }
    destruct (search_group1 false pattern subject r g m Ep Eg Hm Hs) as [v ->]. by eexists. }
  simpl. apply foldE_total. intros b [entity_type patterns] Hin.
  destruct (first_entity_total patterns command) as [hit ->].
  { unfold extractors_ok in Hextractors. rewrite forallb_forall in Hextractors.
    apply (Hextractors _ Hin). }
  simpl. destruct hit; by eexists.
Qed.

Lemma try_pattern_total (command : string) (base : Q) (best : Best) (pattern : string) :
  pattern_ok pattern = true ->
  exists best', try_pattern extractors command (PyStr.strip (PyStr.lower command)) base best pattern
                = Ok best'.
Proof.
  intros Hok. unfold try_pattern, re_search.
  destruct (ReMatch.search false pattern (PyStr.strip (PyStr.lower command))) as [[m|]|] eqn:Es;
    simpl.
  - assert (exists x, pattern_score base m (PyStr.strip (PyStr.lower command)) = Ok x) as [x ->].
    { unfold pattern_score, len_ratio.
      destruct (String.length (PyStr.strip (PyStr.lower command)) =? 0)%nat eqn:El; [|by eexists].
      exfalso. apply Nat.eqb_eq in El.
      destruct (PyStr.strip (PyStr.lower command)); [|done].
      unfold pattern_ok in Hok. unfold ReMatch.search in Es.
      destruct (Re.parse pattern) as [[r g]|]; [|done].
      apply andb_true_iff in Hok as [_ Hok].
      destruct (ReMatch.search_from false r "" 0); done. }
    simpl. destruct (extract_entities_total pattern _ command m Hok Es) as [e ->]. simpl.
    destruct best as [[bc bp] be]. destruct (Qgtb x bc); by eexists.
  - by eexists.
  - unfold pattern_ok in Hok. unfold ReMatch.search in Es.
    destruct (Re.parse pattern) as [[r g]|]; done.
Qed.

End ResolverTotal.

(* ===================================================================== *)
(** * The resolver keeps, per intent, the matched pair of highest score *)
(* ===================================================================== *)

Lemma len_ratio_nonneg (a b : string) (q : Q) : len_ratio a b = Ok q -> (0 <= q)%Q.
Proof.
  unfold len_ratio. destruct (String.length b =? 0)%nat eqn:E; [done|].
  intros [= <-]. apply Nat.eqb_neq in E.
  apply Qle_shift_div_l.
  - unfold Qlt. simpl. lia.
  - unfold Qle. simpl. lia.
Qed.

(** The score the code computes, once capped, is the score of the
    specification. *)
Lemma pattern_score_spec (base : Q) (m : ReMatch.Match) (u : string) (x : Q) :
  pattern_score base m u = Ok x ->
  (Qmin x 1 == spec_score base (ReMatch.group0 m) u)%Q /\ (base <= x)%Q.
Proof.
  unfold pattern_score, spec_score. intros H.
  destruct (len_ratio (ReMatch.group0 m) u) as [q|] eqn:Eq; [|done].
  pose proof (len_ratio_nonneg _ _ _ Eq) as Hq.
  unfold len_ratio in Eq. destruct (String.length u =? 0)%nat; [done|].
  injection Eq as Eq. simpl in H. injection H as <-. rewrite Eq.
  split.
  - destruct (String.eqb (ReMatch.group0 m) u).
    + destruct (Qmin_cases (base + (1 # 10) + q * (1 # 10)) 1) as [[? ?]|[? ?]];
        destruct (Qmin_cases 1 (base + (1 # 10) + (1 # 10) * q)) as [[? ?]|[? ?]]; lra.
    + destruct (Qmin_cases (base + q * (1 # 10)) 1) as [[? ?]|[? ?]];
        destruct (Qmin_cases 1 (base + 0 + (1 # 10) * q)) as [[? ?]|[? ?]]; lra.
  - destruct (String.eqb (ReMatch.group0 m) u); lra.
Qed.

Section ResolverKeeps.

Variable extractors : list (string * list string).
Variables command u : string.

(** One more pair tried. *)
Lemma try_pattern_best_of (seen : list (Q * string * ReMatch.Match)) (base : Q) (pattern : string)
    (best best' : Best) :
  (3#10 <= base)%Q ->
  best_of u seen best ->
  try_pattern extractors command u base best pattern = Ok best' ->
  best_of u (seen ++ match ReMatch.search false pattern u with
                     | Some (Some m) => [(base, pattern, m)]
                     | _ => []
                     end) best'.
Proof.
  intros Hbase (Hall & Hnil & Hcons) H. unfold try_pattern, re_search in H.
  destruct (ReMatch.search false pattern u) as [[m|]|]; simpl in H; [| |done].
  2:{ injection H as <-. rewrite app_nil_r. done. }
  destruct (pattern_score base m u) as [x|] eqn:Ex; [|done]. simpl in H.
  destruct (_extract_entities_from_match extractors m command) as [e|]; [|done]. simpl in H.
  destruct best as [[bc bp] be].
  pose proof (pattern_score_spec _ _ _ _ Ex) as [_ Hx].
  assert (bc = 0%Q \/ (0 < bc)%Q) as Hbc.
  { destruct seen as [|c0 seen]; [left; by injection (Hnil eq_refl)|right].
    destruct (Hall c0) as (x0 & _ & ? & ?); [by left|]. simpl in *. lra. }
  destruct (Qgtb x bc) eqn:Eg.
  - apply Qgtb_true in Eg. injection H as <-. split; [|split].
    + intros cand [Hin|[<-|[]]]%in_app_or.
      * destruct (Hall cand Hin) as (x0 & ? & ? & ?). exists x0. simpl in *.
        repeat split; try done. lra.
      * exists x. simpl. repeat split; try done; lra.
    + intros Habs. by apply app_eq_nil in Habs as [_ ?].
    + intros _. exists (base, pattern, m). split; [apply in_or_app; right; by left|done].
  - apply Qgtb_false in Eg. injection H as <-.
    assert (seen <> []) as Hne.
    { intros ->. injection (Hnil eq_refl) as ->. lra. }
    destruct (Hcons Hne) as (cand & Hin & Hs & Hp). split; [|split].
    + intros cand' [Hin'|[<-|[]]]%in_app_or; [by apply Hall|].
      exists x. simpl. repeat split; try done. lra.
    + intros Habs. by apply app_eq_nil in Habs as [_ ?].
    + intros _. exists cand. split; [apply in_or_app; by left|done].
Qed.

Lemma fold_best_of (pairs : list (Q * string)) :
  forall (seen : list (Q * string * ReMatch.Match)) (best best' : Best),
    Forall (fun bp => (3#10 <= fst bp)%Q) pairs ->
    best_of u seen best ->
    foldE (fun b bp => try_pattern extractors command u (fst bp) b (snd bp)) pairs best = Ok best' ->
    best_of u (seen ++ flat_map (fun '(base, pattern) =>
                                   match ReMatch.search false pattern u with
                                   | Some (Some m) => [(base, pattern, m)]
                                   | _ => []
                                   end) pairs) best'.
Proof.
  induction pairs as [|[base pattern] pairs IH]; intros seen best best' Hb Hinv H; simpl in H.
  - injection H as <-. simpl. by rewrite app_nil_r.
  - destruct (try_pattern extractors command u base best pattern) as [b1|] eqn:E1; [|done].
    simpl in H. cbn [flat_map]. rewrite app_assoc.
    apply List.Forall_cons_iff in Hb as [Hb1 Hb].
    eapply IH; [done| |exact H].
    eapply try_pattern_best_of; [exact Hb1|exact Hinv|exact E1].
Qed.

Lemma tier_patterns_base (g : PatternGroups) :
  Forall (fun bp => (3#10 <= fst bp)%Q) (tier_patterns g).
Proof.
  unfold tier_patterns. repeat apply Forall_app_2; apply List.Forall_forall;
    intros [b p] Hin; apply in_map_iff in Hin as (? & [= <- <-] & _); simpl; lra.
Qed.

Lemma foldE_tier (base : Q) (patterns : list string) (best : Best) :
  foldE (fun b bp => try_pattern extractors command u (fst bp) b (snd bp))
        (map (pair base) patterns) best
  = foldE (try_pattern extractors command u base) patterns best.
Proof.
  revert best. induction patterns as [|p ps IH]; intros best; [done|].
  cbn [map foldE fst snd]. destruct (try_pattern extractors command u base best p); [|done].
  cbn [bindE]. apply IH.
Qed.

(** The two nested loops of the source visit the pairs of [tier_patterns]
    in order. *)
Lemma best_for_intent_flat (g : PatternGroups) :
  best_for_intent extractors command u g
  = foldE (fun b bp => try_pattern extractors command u (fst bp) b (snd bp))
          (tier_patterns g) best_init.
Proof.
  unfold best_for_intent, tier_list, tier_patterns.
  destruct (high_confidence g), (medium_confidence g), (low_confidence g);
    cbn [default from_option id app map foldE bindE]; cbv beta iota;
    repeat (rewrite ?foldE_app, ?foldE_tier;
            match goal with
            | |- context [foldE (try_pattern ?a ?b ?c ?d) ?l ?x] =>
                destruct (foldE (try_pattern a b c d) l x); cbn [bindE foldE]
            end);
    done.
Qed.

Lemma best_for_intent_best_of (g : PatternGroups) (best : Best) :
  best_for_intent extractors command u g = Ok best ->
  best_of u (spec_candidates u g) best.
Proof.
  rewrite best_for_intent_flat. intros H.
  apply (fold_best_of _ [] best_init best (tier_patterns_base g)) in H; [exact H|].
  split; [by intros ? []|]. split; [done|]. by intros [].
Qed.

End ResolverKeeps.

Section ResolverOutput.

Variable extractors : list (string * list string).
Variables command u : string.

(** What the best of an intent says about the intent, in the words of the
    specification. *)
Lemma best_is_kept (name : string) (g : PatternGroups) (bc : Q) (bp : string)
    (be : gmap string (option string)) :
  best_for_intent extractors command u g = Ok (bc, bp, be) ->
  (Qgtb bc 0 = false -> spec_candidates u g = [])
  /\ (Qgtb bc 0 = true ->
      spec_candidates u g <> []
      /\ spec_kept u g {| intent := name; confidence := Qmin bc 1; matched_pattern := bp;
                          extracted_entities := be |}
      /\ (0 < Qmin bc 1)%Q /\ (Qmin bc 1 <= 1)%Q).
Proof.
  intros H. apply best_for_intent_best_of in H as (Hall & Hnil & Hcons).
  revert Hall Hnil Hcons.
  destruct (spec_candidates u g) as [|c0 cs] eqn:Ec; intros Hall Hnil Hcons.
  - injection (Hnil eq_refl) as -> -> ->. split; [done|].
    intros Hg. apply Qgtb_true in Hg. lra.
  - assert (c0 :: cs <> []) as Hne by done.
    destruct (Hcons Hne) as (cand & Hin & Hs & Hp). simpl in Hs, Hp.
    destruct (Hall cand Hin) as (x & Hx & Hpos & Hle). rewrite Hs in Hx. injection Hx as <-.
    split; [intros Hg; apply Qgtb_false in Hg; lra|]. intros _. split; [done|].
    assert ((0 < Qmin bc 1)%Q /\ (Qmin bc 1 <= 1)%Q) as Hb.
    { destruct (Qmin_cases bc 1) as [[? ?]|[? ?]]; lra. }
    split; [|exact Hb]. unfold spec_kept. rewrite Ec. split.
    + exists cand. split; [done|]. simpl. split; [|done].
      destruct cand as [[b p] m]. simpl in *. by apply pattern_score_spec in Hs as [-> _].
    + intros [[b' p'] m'] Hin'. simpl.
      destruct (Hall _ Hin') as (x' & Hx' & _ & Hle'). simpl in *.
      apply pattern_score_spec in Hx' as [<- _].
      destruct (Qmin_cases bc 1) as [[? ?]|[? ?]];
        destruct (Qmin_cases x' 1) as [[? ?]|[? ?]]; lra.
Qed.

Lemma collect_matches_fold (bank : list (string * PatternGroups)) :
  forall (acc res : list IntentMatch),
    foldE (fun (intent_matches : list IntentMatch) '(name, pattern_groups) =>
             let* best := best_for_intent extractors command u pattern_groups in
             let '(best_confidence, best_pattern, best_entities) := best in
             if Qgtb best_confidence 0%Q
             then Ok (intent_matches ++
                      [ {| intent := name; confidence := Qmin best_confidence 1%Q;
                           matched_pattern := best_pattern;
                           extracted_entities := best_entities |} ])%list
             else Ok intent_matches)
          bank acc = Ok res ->
    exists new,
      res = (acc ++ new)%list
      /\ Forall2 (fun entry m =>
                    intent m = fst entry /\ spec_kept u (snd entry) m
                    /\ (0 < confidence m)%Q /\ (confidence m <= 1)%Q)
                 (List.filter (has_candidate u) bank) new.
Proof.
  induction bank as [|[name g] bank IH]; intros acc res H; simpl in H.
  - injection H as <-. exists []. split; [by rewrite app_nil_r|constructor].
  - destruct (best_for_intent extractors command u g) as [[[bc bp] be]|] eqn:Eb; [|done].
    simpl in H. destruct (best_is_kept name g bc bp be Eb) as [Hno Hyes].
    cbn [List.filter]. unfold has_candidate at 1. cbn [snd].
    destruct (Qgtb bc 0) eqn:Eg.
    + destruct (Hyes eq_refl) as (Hne & Hk & Hpos & Hle1).
      apply IH in H as (new & -> & HF).
      exists ({| intent := name; confidence := Qmin bc 1; matched_pattern := bp;
                 extracted_entities := be |} :: new).
      split; [by rewrite <- app_assoc|].
      destruct (spec_candidates u g); [done|]. constructor; [|done]. done.
    + rewrite (Hno eq_refl). apply IH in H as (new & -> & HF). by exists new.
Qed.

End ResolverOutput.

Lemma collect_matches_spec (bank : list (string * PatternGroups))
    (extractors : list (string * list string)) (command : string) (raw : list IntentMatch) :
  collect_matches bank extractors command = Ok raw ->
  Forall2 (fun entry m =>
             intent m = fst entry
             /\ spec_kept (PyStr.strip (PyStr.lower command)) (snd entry) m
             /\ (0 < confidence m)%Q /\ (confidence m <= 1)%Q)
          (List.filter (has_candidate (PyStr.strip (PyStr.lower command))) bank) raw.
Proof.
  intros H. unfold collect_matches in H. cbv zeta in H.
  apply collect_matches_fold in H as (new & -> & HF). exact HF.
Qed.

Lemma collect_matches_total (bank : list (string * PatternGroups))
    (extractors : list (string * list string)) (command : string) :
  bank_ok bank = true -> extractors_ok extractors = true ->
  exists raw, collect_matches bank extractors command = Ok raw.
Proof.
  intros Hb He. unfold collect_matches. cbv zeta. apply foldE_total.
  intros acc [name g] Hin.
  assert (exists best, best_for_intent extractors command (PyStr.strip (PyStr.lower command)) g
                       = Ok best) as [[[bc bp] be] ->].
  { rewrite best_for_intent_flat. apply foldE_total. intros b [base p] Hp.
    apply try_pattern_total; [done|].
    unfold bank_ok in Hb. rewrite forallb_forall in Hb. specialize (Hb _ Hin).
    rewrite forallb_forall in Hb. apply (Hb _ Hp). }
  simpl. destruct (Qgtb bc 0); by eexists.
Qed.

(* ===================================================================== *)
(** * The output of the resolver *)
(* ===================================================================== *)

Lemma determine_unfold (db : DecisionBrain) (command : string) (raw : list IntentMatch) :
  collect_matches (intent_patterns db) (entity_extractors db) command = Ok raw ->
  _determine_intent_with_confidence db command
  = Ok (_apply_context_boosting (session_context db) (sort_desc raw)).
Proof. intros H. unfold _determine_intent_with_confidence. by rewrite H. Qed.

Lemma map_intent_boosted (ctx : SessionContext) (l : list IntentMatch) :
  map intent (map (boosted ctx) l) = map intent l.
Proof.
  rewrite map_map. apply map_ext. intros m. apply boosted_fields.
Qed.

Lemma determine_intents (ctx : SessionContext) (raw : list IntentMatch) :
  Permutation (map intent (_apply_context_boosting ctx (sort_desc raw))) (map intent raw).
Proof.
  rewrite (_apply_context_boosting_perm ctx (sort_desc raw)), map_intent_boosted.
  apply Permutation_map. apply sort_desc_by_perm.
Qed.

(** C2. On pattern tables that compile (as those of the source do), for
    every utterance the resolver returns, and its matches before ranking
    are, in order, one per intent some pattern of which is found in the
    lower-cased trimmed utterance. Each carries the pattern and the score
    of one matched (tier, pattern) pair of its intent -- the base confidence
    of the tier (0.9, 0.6, 0.3), plus 0.1 if the match spans the whole
    utterance, plus 0.1 times the ratio of the lengths, capped at 1 -- and no
    matched pair of the intent scores higher: scores are not accumulated.
    The output has the same intents. *)
Theorem resolver_keeps_the_best_scored_pair (db : DecisionBrain) (command : string) :
  bank_ok (intent_patterns db) = true ->
  extractors_ok (entity_extractors db) = true ->
  exists raw out,
    collect_matches (intent_patterns db) (entity_extractors db) command = Ok raw
    /\ _determine_intent_with_confidence db command = Ok out
    /\ Forall2 (fun entry m =>
                  intent m = fst entry
                  /\ spec_kept (PyStr.strip (PyStr.lower command)) (snd entry) m)
               (List.filter (has_candidate (PyStr.strip (PyStr.lower command)))
                            (intent_patterns db)) raw
    /\ Permutation (map intent out) (map intent raw).
Proof.
  intros Hb He.
  destruct (collect_matches_total _ _ command Hb He) as [raw Hraw].
  exists raw, (_apply_context_boosting (session_context db) (sort_desc raw)).
  split; [done|]. split; [by apply determine_unfold|]. split.
  - eapply Forall2_impl; [exact (collect_matches_spec _ _ _ _ Hraw)|]. simpl. tauto.
  - apply determine_intents.
Qed.

Lemma resolver_keeps_the_best_scored_pair_witness :
  bank_ok (intent_patterns (DecisionBrain_init default_decision_config 14)) = true
  /\ extractors_ok (entity_extractors (DecisionBrain_init default_decision_config 14)) = true
  /\ exists raw out,
       collect_matches _setup_intent_patterns _setup_entity_extractors "what is photosynthesis" = Ok raw
       /\ _determine_intent_with_confidence (DecisionBrain_init default_decision_config 14)
            "what is photosynthesis" = Ok out
       /\ Forall2 (fun entry m =>
                     intent m = fst entry
                     /\ spec_kept (PyStr.strip (PyStr.lower "what is photosynthesis")) (snd entry) m)
                  (List.filter (has_candidate (PyStr.strip (PyStr.lower "what is photosynthesis")))
                               _setup_intent_patterns) raw
       /\ Permutation (map intent out) (map intent raw).
Proof.
  split; [exact bank_is_ok|]. split; [exact extractors_are_ok|].
  exact (resolver_keeps_the_best_scored_pair (DecisionBrain_init default_decision_config 14)
           "what is photosynthesis" bank_is_ok extractors_are_ok).
Defined.

(* ===================================================================== *)
(** * Action selection and the decision *)
(* ===================================================================== *)

(** [most_common(1)] is the first entry of maximal count. *)
Lemma most_common1_first_max (c : Counter) (a : string) (n : Z) :
  most_common1 c = Some (a, n) ->
  exists before after,
    c = (before ++ (a, n) :: after)%list
    /\ Forall (fun e => (snd e < n)%Z) before
    /\ Forall (fun e => (snd e <= n)%Z) after.
Proof.
  revert a n. induction c as [|[k m] c IH]; intros a n H; simpl in H; [done|].
  destruct (most_common1 c) as [[k' n']|] eqn:E.
  - destruct (IH k' n' eq_refl) as (before & after & -> & Hb & Ha).
    destruct (m <? n')%Z eqn:Elt; injection H as <- <-.
    + apply Z.ltb_lt in Elt. exists ((k, m) :: before), after. split; [done|].
      split; [|done]. by constructor.
    + apply Z.ltb_ge in Elt. exists [], (before ++ (k', n') :: after)%list. split; [done|].
      split; [constructor|]. apply Forall_app_2; [|constructor].
      * eapply List.Forall_impl; [|exact Hb]. simpl. lia.
      * simpl. lia.
      * eapply List.Forall_impl; [|exact Ha]. simpl. lia.
  - injection H as <- <-. destruct c as [|[k1 m1] c]; [|simpl in E; by destruct (most_common1 c) as [[? ?]|]; [destruct (m1 <? _)%Z|]].
    exists [], []. repeat split; constructor.
Qed.

Lemma most_common1_none (c : Counter) : most_common1 c = None <-> c = [].
Proof.
  split; [|by intros ->]. destruct c as [|[k m] c]; [done|]. simpl.
  destruct (most_common1 c) as [[k' n']|]; [destruct (m <? n')%Z|]; done.
Qed.

Lemma prefs_read_fst (name : string) (prefs : gmap string Counter) :
  fst (prefs_read name prefs) = default [] (prefs !! name).
Proof. unfold prefs_read. by destruct (prefs !! name). Qed.

(** [_select_best_action] in one equation. *)
Lemma select_best_action_eq (db : DecisionBrain) (name : string) (cfg : IntentConfig)
    (first : string) (others : list string) :
  knowledge_base db !! name = Some cfg ->
  default (actions cfg) (priority cfg) = first :: others ->
  exists db',
    _select_best_action db name
    = Ok (db', match most_common1 (default [] (user_preferences db !! name)) with
               | Some (a, _) => if PyStr.mem a (actions cfg) then a else first
               | None => first
               end)
    /\ db' = set_user_preferences (snd (prefs_read name (user_preferences db))) db.
Proof.
  intros Hk Hp. unfold _select_best_action. rewrite Hk, Hp.
  pose proof (prefs_read_fst name (user_preferences db)) as Hf.
  destruct (prefs_read name (user_preferences db)) as [prefs store]. simpl in Hf. subst prefs.
  eexists. split; [|reflexivity].
  destruct (most_common1 (default [] (user_preferences db !! name))) as [[a n]|]; [|done].
  destruct (PyStr.mem a (actions cfg)); reflexivity.
Qed.

Lemma mem_In (x : string) (xs : list string) : PyStr.mem x xs = true <-> In x xs.
Proof.
  unfold PyStr.mem. rewrite existsb_exists. split.
  - intros (y & Hy & He). apply String.eqb_eq in He. by subst.
  - intros H. exists x. split; [done|apply String.eqb_refl].
Qed.

Lemma mem_not_In (x : string) (xs : list string) : PyStr.mem x xs = false <-> ~ In x xs.
Proof.
  rewrite <- mem_In. destruct (PyStr.mem x xs); split; done.
Qed.

Lemma strip_nonblank (command : string) :
  PyStr.is_empty (PyStr.strip command) = false -> PyStr.is_empty command = false.
Proof. by destruct command. Qed.

(** [make_decision] on a command that is not blank. *)
Lemma make_decision_nonblank (db : DecisionBrain) (command : string) :
  PyStr.is_empty (PyStr.strip command) = false ->
  make_decision db command
  = match make_decision_body (bump_total db) command with
    | Ok r => r
    | Raise e =>
        (_learn_from_interaction command "" false (bump_total db), Some
          {| dr_success := false; dr_action := None; dr_automation_command := None;
             dr_parameters := None; dr_confidence := 0%Q; dr_intent := None;
             dr_clarification_needed := false;
             dr_clarification_message :=
               Some ("Boss, I had an error in my thought process: " ++ exn_name e);
             dr_alternatives := None |})
    end.
Proof.
  intros H. unfold make_decision. by rewrite H, (strip_nonblank _ H).
Qed.

Lemma determine_bump_total (db : DecisionBrain) (command : string) :
  _determine_intent_with_confidence (bump_total db) command
  = _determine_intent_with_confidence db command.
Proof. reflexivity. Qed.

Lemma slice_to_nonneg {A : Type} (n : Z) (l : list A) :
  (0 <= n)%Z -> slice_to n l = firstn (Z.to_nat n) l.
Proof. intros H. unfold slice_to. destruct (n <? 0)%Z eqn:E; [lia|done]. Qed.

(** The decision at or above the threshold, by the shape of the entry of
    the knowledge base. *)
Lemma at_threshold (db : DecisionBrain) (command : string) (best : IntentMatch)
    (rest : list IntentMatch) :
  PyStr.is_empty (PyStr.strip command) = false ->
  _determine_intent_with_confidence db command = Ok (best :: rest) ->
  (confidence_threshold db <= confidence best)%Q ->
  make_decision db command
  = match
      (let parameters := _extract_enhanced_parameters command best in
       let possible_actions :=
         match knowledge_base db !! intent best with
         | Some intent_config => actions intent_config
         | None => []
         end in
       let sensitive :=
         match knowledge_base db !! intent best with
         | Some intent_config => context_sensitive intent_config
         | None => false
         end in
       match possible_actions with
       | [] => Ok (bump_total db, None)
       | [action_to_take] =>
           Ok (decision_taken (bump_total db) command best parameters action_to_take)
       | _ :: _ :: _ =>
           if sensitive then
             let* (db', action_to_take) := _select_best_action (bump_total db) (intent best) in
             Ok (decision_taken db' command best parameters action_to_take)
           else
             Ok (bump_clarifications (bump_total db), Some
               {| dr_success := false; dr_action := None; dr_automation_command := None;
                  dr_parameters := None; dr_confidence := confidence best;
                  dr_intent := Some (intent best); dr_clarification_needed := true;
                  dr_clarification_message :=
                    Some (_create_enhanced_clarification (intent best) possible_actions parameters);
                  dr_alternatives := Some possible_actions |})
       end)
    with
    | Ok r => r
    | Raise e =>
        (_learn_from_interaction command "" false (bump_total db), Some
          {| dr_success := false; dr_action := None; dr_automation_command := None;
             dr_parameters := None; dr_confidence := 0%Q; dr_intent := None;
             dr_clarification_needed := false;
             dr_clarification_message :=
               Some ("Boss, I had an error in my thought process: " ++ exn_name e);
             dr_alternatives := None |})
    end.
Proof.
  intros Hn Hd Hge. rewrite make_decision_nonblank by done.
  unfold make_decision_body. rewrite determine_bump_total, Hd. cbn [bindE].
  apply Qltb_false in Hge.
  change (confidence_threshold (bump_total db)) with (confidence_threshold db).
  rewrite Hge. reflexivity.
Qed.

(** C4. For a command whose best match is at or above the threshold: if
    the entry of its intent in the knowledge base has exactly one action,
    the decision takes that action and asks nothing; if the entry has more
    than one action and is not context-sensitive, the decision picks none
    and asks for a clarification that lists all the actions of the entry. *)
Theorem one_action_is_taken_many_insensitive_are_asked (db : DecisionBrain) (command : string)
    (best : IntentMatch) (rest : list IntentMatch) (cfg : IntentConfig) :
  PyStr.is_empty (PyStr.strip command) = false ->
  _determine_intent_with_confidence db command = Ok (best :: rest) ->
  (confidence_threshold db <= confidence best)%Q ->
  knowledge_base db !! intent best = Some cfg ->
  (forall a : string,
     actions cfg = [a] ->
     exists dr, snd (make_decision db command) = Some dr
                /\ dr_success dr = true /\ dr_action dr = Some a
                /\ dr_intent dr = Some (intent best)
                /\ dr_clarification_needed dr = false /\ dr_alternatives dr = None)
  /\ (forall (a1 a2 : string) (more : list string),
        actions cfg = a1 :: a2 :: more -> context_sensitive cfg = false ->
        exists dr, snd (make_decision db command) = Some dr
                   /\ dr_success dr = false /\ dr_action dr = None
                   /\ dr_intent dr = Some (intent best)
                   /\ dr_clarification_needed dr = true
                   /\ dr_alternatives dr = Some (actions cfg)).
Proof.
  intros Hn Hd Hge Hk. rewrite (at_threshold db command best rest Hn Hd Hge), Hk. cbv zeta.
  split.
  - intros a ->. eexists. split; [reflexivity|]. done.
  - intros a1 a2 more Ha ->. rewrite Ha. eexists. split; [reflexivity|]. done.
Qed.

Lemma one_action_is_taken_many_insensitive_are_asked_witness :
  exists dr, snd (make_decision (DecisionBrain_init default_decision_config 14) "open example.com")
             = Some dr
             /\ dr_success dr = true /\ dr_action dr = Some "open_website"
             /\ dr_intent dr = Some "open_website"
             /\ dr_clarification_needed dr = false /\ dr_alternatives dr = None.
Proof.
  destruct (_determine_intent_with_confidence (DecisionBrain_init default_decision_config 14)
              "open example.com") as [[|best rest]|] eqn:E;
    [by vm_compute in E| |by vm_compute in E].
  assert (intent best = "open_website" /\ (7#10 <= confidence best)%Q) as [Hi Hc].
  { vm_compute in E. injection E as <- _. split; [reflexivity|]. vm_compute. discriminate. }
  pose proof (proj1 (one_action_is_taken_many_insensitive_are_asked
                       (DecisionBrain_init default_decision_config 14) "open example.com"
                       best rest (kb ["open_website"] ["open_website"] false true)
                       eq_refl E Hc ltac:(rewrite Hi; vm_compute; reflexivity))
                "open_website" eq_refl) as H.
  rewrite Hi in H. exact H.
Defined.

(** C5. [_select_best_action] returns the first element of the priority
    list (of the actions, when the entry has no priority list), unless the
    learning store has entries for the intent and the first of its entries
    of maximal count is one of the actions of the entry, which is then
    returned. The result depends on the entry and on the store's counter
    for the intent only, and it is the action of the decision taken for a
    context-sensitive intent of several actions. *)
Theorem context_sensitive_choice (db : DecisionBrain) (name : string) (cfg : IntentConfig)
    (first : string) (others : list string) :
  knowledge_base db !! name = Some cfg ->
  default (actions cfg) (priority cfg) = first :: others ->
  exists (db' : DecisionBrain) (selected : string),
    _select_best_action db name = Ok (db', selected)
    /\ (default [] (user_preferences db !! name) = [] -> selected = first)
    /\ (forall (a : string) (n : Z),
          most_common1 (default [] (user_preferences db !! name)) = Some (a, n) ->
          (In a (actions cfg) -> selected = a) /\ (~ In a (actions cfg) -> selected = first))
    /\ (forall (a : string) (n : Z),
          most_common1 (default [] (user_preferences db !! name)) = Some (a, n) ->
          exists before after,
            default [] (user_preferences db !! name) = (before ++ (a, n) :: after)%list
            /\ Forall (fun e => (snd e < n)%Z) before
            /\ Forall (fun e => (snd e <= n)%Z) after)
    /\ (forall db2 : DecisionBrain,
          knowledge_base db2 !! name = Some cfg ->
          user_preferences db2 !! name = user_preferences db !! name ->
          exists db2', _select_best_action db2 name = Ok (db2', selected))
    /\ (forall (command : string) (best : IntentMatch) (rest : list IntentMatch)
               (a1 a2 : string) (more : list string),
          PyStr.is_empty (PyStr.strip command) = false ->
          _determine_intent_with_confidence db command = Ok (best :: rest) ->
          (confidence_threshold db <= confidence best)%Q ->
          intent best = name ->
          actions cfg = a1 :: a2 :: more -> context_sensitive cfg = true ->
          exists dr, snd (make_decision db command) = Some dr
                     /\ dr_success dr = true /\ dr_action dr = Some selected
                     /\ dr_clarification_needed dr = false).
Proof.
  intros Hk Hp.
  destruct (select_best_action_eq db name cfg first others Hk Hp) as (db' & Hsel & _).
  eexists db', _. split; [exact Hsel|]. split; [|split; [|split; [|split]]].
  - by intros ->.
  - intros a n ->. split.
    + intros Hin. apply mem_In in Hin. by rewrite Hin.
    + intros Hin. apply mem_not_In in Hin. by rewrite Hin.
  - intros a n Hm. by apply most_common1_first_max.
  - intros db2 Hk2 Hu.
    destruct (select_best_action_eq db2 name cfg first others Hk2 Hp) as (db2' & Hsel2 & _).
    exists db2'. rewrite Hsel2. unfold Counter in *. by rewrite Hu.
  - intros command best rest a1 a2 more Hn Hd Hge Hi Ha Hs.
    rewrite (at_threshold db command best rest Hn Hd Hge), Hi, Hk. cbv zeta. rewrite Ha, Hs.
    destruct (select_best_action_eq (bump_total db) name cfg first others Hk Hp)
      as (db1 & Hsel1 & _).
    rewrite Hsel1. cbn [bindE]. eexists. split; [reflexivity|].
    cbn [dr_success dr_action dr_clarification_needed]. rewrite ?Ha. repeat split; reflexivity.
Qed.

Lemma context_sensitive_choice_witness :
  exists db' : DecisionBrain,
    _select_best_action
      (set_user_preferences
         {[ "play_music" := [("play something nice", 2%Z); ("search_youtube_music", 5%Z)] ]}
         (DecisionBrain_init default_decision_config 14))
      "play_music"
    = Ok (db', "search_youtube_music").
Proof.
  destruct (context_sensitive_choice
              (set_user_preferences
                 {[ "play_music" := [("play something nice", 2%Z); ("search_youtube_music", 5%Z)] ]}
                 (DecisionBrain_init default_decision_config 14))
              "play_music" (kb ["open_spotify"; "search_youtube_music"] ["open_spotify"] true false)
              "open_spotify" [] eq_refl eq_refl)
    as (db' & selected & Hsel & _ & Hpref & _).
  destruct (Hpref "search_youtube_music" 5%Z eq_refl) as [Hin _].
  exists db'. rewrite Hsel, Hin; [reflexivity|]. simpl. tauto.
Defined.

(* ===================================================================== *)
(** * Context boosting on the objects themselves *)
(* ===================================================================== *)

Section InPlace.

Variable f : IntentMatch -> IntentMatch.

(** An object the loop does not visit is left alone. *)
Lemma for_each_frame (refs : list nat) (objs : gmap nat IntentMatch) (a : nat) :
  a ∉ refs -> for_each f refs objs !! a = objs !! a.
Proof.
  revert objs. induction refs as [|r refs IH]; intros objs Ha; [done|].
  apply not_elem_of_cons in Ha as [Hne Ha]. simpl. rewrite IH by done.
  unfold update_object. by apply lookup_alter_ne.
Qed.

(** An object visited once is changed by [f]. *)
Lemma for_each_once (refs : list nat) (objs : gmap nat IntentMatch) (a : nat) :
  NoDup refs -> a ∈ refs -> for_each f refs objs !! a = f <$> objs !! a.
Proof.
  revert objs. induction refs as [|r refs IH]; intros objs Hnd Ha; [by apply elem_of_nil in Ha|].
  apply NoDup_cons in Hnd as [Hr Hnd]. simpl.
  apply elem_of_cons in Ha as [->|Ha].
  - rewrite for_each_frame by done. unfold update_object. apply lookup_alter_eq.
  - rewrite IH by done. unfold update_object. rewrite lookup_alter_ne; [done|by intros ->].
Qed.

(** The loop creates and deletes nothing, and what [f] keeps it keeps. *)
Lemma for_each_keeps (P : IntentMatch -> IntentMatch -> Prop) (refs : list nat) :
  (forall m, P m m) -> (forall m m', P m m' -> P m (f m')) ->
  forall (objs : gmap nat IntentMatch) (a : nat),
    match objs !! a, for_each f refs objs !! a with
    | Some m, Some m' => P m m'
    | None, None => True
    | _, _ => False
    end.
Proof.
  intros Hrefl Hstep. induction refs as [|r refs IH] using rev_ind; intros objs a.
  - simpl. by destruct (objs !! a).
  - unfold for_each. rewrite fold_left_app. simpl. fold (for_each f refs objs).
    specialize (IH objs a). unfold update_object.
    destruct (decide (r = a)) as [->|Hne].
    + rewrite lookup_alter_eq.
      destruct (objs !! a), (for_each f refs objs !! a); simpl; try done. by apply Hstep.
    + by rewrite lookup_alter_ne.
Qed.

End InPlace.

Lemma boost_last_intent_only_confidence (ctx : SessionContext) (m m' : IntentMatch) :
  only_confidence_differs m m' -> only_confidence_differs m (boost_last_intent ctx m').
Proof.
  intros (H1 & H2 & H3). destruct (boost_last_intent_fields ctx m') as (E1 & E2 & E3).
  unfold only_confidence_differs. by rewrite E1, E2, E3.
Qed.

Lemma boost_time_only_confidence (ctx : SessionContext) (m m' : IntentMatch) :
  only_confidence_differs m m' -> only_confidence_differs m (boost_time ctx m').
Proof.
  intros (H1 & H2 & H3). destruct (boost_time_fields ctx m') as (E1 & E2 & E3).
  unfold only_confidence_differs. by rewrite E1, E2, E3.
Qed.

(** C3, amended. Context boosting works in place. It returns the very
    list it was given, which afterwards holds the same objects in another
    order; other lists and the objects outside the list are untouched; no
    object is created or deleted and an object changes in its confidence
    only. For a list of distinct objects the contents of the list
    afterwards are what [_apply_context_boosting] computes from the
    contents before. *)
Theorem context_boosting_updates_in_place (ctx : SessionContext) (st : Store) (l : nat)
    (refs : list nat) :
  lists st !! l = Some refs ->
  exists (st' : Store) (refs' : list nat),
    _apply_context_boosting_in_place ctx st l = Some (st', l)
    /\ lists st' !! l = Some refs' /\ Permutation refs' refs
    /\ (forall l2 : nat, l2 <> l -> lists st' !! l2 = lists st !! l2)
    /\ (forall a : nat, a ∉ refs -> objects st' !! a = objects st !! a)
    /\ (forall a : nat,
          match objects st !! a, objects st' !! a with
          | Some m, Some m' => only_confidence_differs m m'
          | None, None => True
          | _, _ => False
          end)
    /\ (forall ms : list IntentMatch,
          NoDup refs -> contents (objects st) refs = map Some ms ->
          contents (objects st') refs' = map Some (_apply_context_boosting ctx ms)).
Proof.
  intros Hl. unfold _apply_context_boosting_in_place. rewrite Hl.
  eexists _, _. split; [reflexivity|]. cbn [lists objects].
  split; [apply lookup_insert_eq|]. split; [apply sort_desc_by_perm|].
  split; [intros l2 Hne; by apply lookup_insert_ne|].
  split; [intros a Ha; by rewrite !for_each_frame|]. split.
  - intros a.
    pose proof (for_each_keeps (boost_last_intent ctx) only_confidence_differs refs
                  ltac:(done) (boost_last_intent_only_confidence ctx) (objects st) a) as H1.
    pose proof (for_each_keeps (boost_time ctx) only_confidence_differs refs
                  ltac:(done) (boost_time_only_confidence ctx)
                  (for_each (boost_last_intent ctx) refs (objects st)) a) as H2.
    destruct (objects st !! a) as [m|], (for_each (boost_last_intent ctx) refs (objects st) !! a)
      as [m1|]; try done;
      destruct (for_each (boost_time ctx) refs (for_each (boost_last_intent ctx) refs (objects st)) !! a)
        as [m2|]; try done.
    destruct H1 as (? & ? & ?), H2 as (? & ? & ?). repeat split; congruence.
  - intros ms Hnd Hc. unfold contents, key_of.
    rewrite (sort_desc_by_map
               (fun o : option IntentMatch => match o with Some m => confidence m | None => 0%Q end)
               (fun r => for_each (boost_time ctx) refs
                           (for_each (boost_last_intent ctx) refs (objects st)) !! r) refs).
    assert (map (fun r => for_each (boost_time ctx) refs
                            (for_each (boost_last_intent ctx) refs (objects st)) !! r) refs
            = map Some (map (boost_time ctx) (map (boost_last_intent ctx) ms))) as ->.
    { rewrite !map_map. unfold contents in Hc. rewrite <- (map_map (boost_last_intent ctx) (fun x => Some (boost_time ctx x))).
      transitivity (map (fun r => boost_time ctx <$> (boost_last_intent ctx <$> objects st !! r)) refs).
      - apply map_ext_in. intros r Hr. apply list_elem_of_In in Hr.
        by rewrite !for_each_once.
      - rewrite <- (map_map (fun r => objects st !! r) (fun o => boost_time ctx <$> (boost_last_intent ctx <$> o))).
        rewrite Hc, !map_map. done. }
    unfold _apply_context_boosting, sort_desc.
    by rewrite <- (sort_desc_by_map
                    (fun o : option IntentMatch => match o with Some m => confidence m | None => 0%Q end)
                    Some).
Qed.

(** C3 as stated fails: the caller's object 1 has another confidence
    after the call (0.5 becomes 0.6 by the rule of the last intent) and the
    caller's list 7, which is the list returned, is in another order. *)
Lemma context_boosting_mutates_counterexample :
  exists st' : Store,
    _apply_context_boosting_in_place
      {| last_intent := Some "play_music"; time_of_day := "afternoon" |}
      {| objects := {[ 0%nat := {| intent := "find_video"; confidence := 3#10;
                                   matched_pattern := "video"; extracted_entities := ∅ |};
                       1%nat := {| intent := "play_music"; confidence := 1#2;
                                   matched_pattern := "play.*music"; extracted_entities := ∅ |} ]};
         lists := {[ 7%nat := [0%nat; 1%nat] ]} |}
      7
    = Some (st', 7%nat)
    /\ objects st' !! 1%nat
       = Some {| intent := "play_music"; confidence := Qmin 1 ((1#2) + (1#10));
                 matched_pattern := "play.*music"; extracted_entities := ∅ |}
    /\ objects st' !! 1%nat
       <> Some {| intent := "play_music"; confidence := 1#2;
                  matched_pattern := "play.*music"; extracted_entities := ∅ |}
    /\ lists st' !! 7%nat = Some [1%nat; 0%nat]
    /\ lists st' !! 7%nat <> Some [0%nat; 1%nat].
Proof.
  eexists. split; [reflexivity|]. split; [reflexivity|]. split; [|split; [reflexivity|]].
  - vm_compute. discriminate.
  - vm_compute. discriminate.
Qed.

Lemma context_boosting_updates_in_place_witness :
  exists (st' : Store) (refs' : list nat),
    _apply_context_boosting_in_place
      {| last_intent := Some "play_music"; time_of_day := "afternoon" |}
      {| objects := {[ 0%nat := {| intent := "find_video"; confidence := 3#10;
                                   matched_pattern := "video"; extracted_entities := ∅ |};
                       1%nat := {| intent := "play_music"; confidence := 1#2;
                                   matched_pattern := "play.*music"; extracted_entities := ∅ |} ]};
         lists := {[ 7%nat := [0%nat; 1%nat] ]} |}
      7
    = Some (st', 7%nat)
    /\ lists st' !! 7%nat = Some refs' /\ Permutation refs' [0%nat; 1%nat].
Proof.
  assert (lists
            {| objects := {[ 0%nat := {| intent := "find_video"; confidence := 3#10;
                                         matched_pattern := "video"; extracted_entities := ∅ |};
                             1%nat := {| intent := "play_music"; confidence := 1#2;
                                         matched_pattern := "play.*music"; extracted_entities := ∅ |} ]};
               lists := {[ 7%nat := [0%nat; 1%nat] ]} |} !! 7%nat
          = Some [0%nat; 1%nat]) as H0 by reflexivity.
  destruct (context_boosting_updates_in_place
              {| last_intent := Some "play_music"; time_of_day := "afternoon" |} _ _ _ H0)
    as (st' & refs' & H1 & H2 & H3 & _).
  by exists st', refs'.
Defined.

(* ===================================================================== *)
(** * The dialogue coordinator *)
(* ===================================================================== *)

Lemma tracks_record (e : Event) (s : VitaCNS) (d : Dialogue) :
  replay_event e d = Some d -> tracks s d -> tracks (record_event e s) d.
Proof.
  intros He [Hs Hr]. split; [exact Hs|]. simpl. by rewrite Hr.
Qed.

Lemma tracks_update_stats (f : SessionStats -> SessionStats) (s : VitaCNS) (d : Dialogue) :
  tracks s d -> tracks (update_stats f s) d.
Proof. by intros [Hs Hr]. Qed.

Lemma tracks_set_decision_brain (v : option DecisionBrain) (s : VitaCNS) (d : Dialogue) :
  tracks s d -> tracks (set_decision_brain v s) d.
Proof. by intros [Hs Hr]. Qed.

Lemma tracks_set_security_brain (v : option SecurityBrain) (s : VitaCNS) (d : Dialogue) :
  tracks s d -> tracks (set_security_brain v s) d.
Proof. by intros [Hs Hr]. Qed.

Lemma tracks_set_last_command (v : option string) (s : VitaCNS) (d : Dialogue) :
  tracks s d -> tracks (set_last_command v s) d.
Proof. by intros [Hs Hr]. Qed.

Lemma tracks_log_action (action : string) (s : VitaCNS) (d : Dialogue) :
  tracks s d -> tracks (log_action action s) d.
Proof.
  intros H. unfold log_action. destruct (memory_brain s); [|done]. by apply tracks_record.
Qed.

Lemma tracks_raise_security (q : SecurityQuestion) (s : VitaCNS) :
  tracks s IDLE -> tracks (assign_security_question (Some q) s) AWAITING_SECURITY_DECISION.
Proof.
  intros [Hs Hr]. unfold tracks, state_of, assign_security_question in *. simpl.
  destruct (pending_security_question s), (pending_decision_clarification s); try done.
  simpl. by rewrite Hr.
Qed.

Lemma tracks_clear_security (s : VitaCNS) :
  tracks s AWAITING_SECURITY_DECISION -> tracks (assign_security_question None s) IDLE.
Proof.
  intros [Hs Hr]. unfold tracks, state_of, assign_security_question in *. simpl.
  destruct (pending_security_question s), (pending_decision_clarification s); try done.
  simpl. by rewrite Hr.
Qed.

Lemma tracks_raise_clarification (c : DecisionClarification) (s : VitaCNS) :
  tracks s IDLE -> tracks (assign_decision_clarification (Some c) s) AWAITING_CLARIFICATION.
Proof.
  intros [Hs Hr]. unfold tracks, state_of, assign_decision_clarification in *. simpl.
  destruct (pending_security_question s), (pending_decision_clarification s); try done.
  simpl. by rewrite Hr.
Qed.

Lemma tracks_clear_clarification (s : VitaCNS) :
  tracks s AWAITING_CLARIFICATION -> tracks (assign_decision_clarification None s) IDLE.
Proof.
  intros [Hs Hr]. unfold tracks, state_of, assign_decision_clarification in *. simpl.
  destruct (pending_security_question s), (pending_decision_clarification s); try done.
  simpl. by rewrite Hr.
Qed.

Section CoordinatorTracks.

Variable urlparse_netloc : string -> Exc string.
Variable w : World.

Lemma tracks_handle_security_question (s : VitaCNS) (security_response original_command : string) :
  tracks s IDLE ->
  tracks (fst (_handle_security_question s security_response original_command))
         AWAITING_SECURITY_DECISION.
Proof.
  intros H. unfold _handle_security_question. cbn [fst].
  by apply tracks_update_stats, tracks_raise_security.
Qed.

Lemma tracks_process_by_automation (s : VitaCNS) (command : string) :
  tracks s IDLE -> exists d, tracks (fst (process_by_automation w s command)) d.
Proof.
  intros H. unfold process_by_automation.
  destruct (automation_brain s); [|by exists IDLE].
  assert (tracks (record_event (CallExecuteCommand command)
                    (update_stats bump_usage_automation_brain s)) IDLE) as H'.
  { by apply tracks_record, tracks_update_stats. }
  destruct (execute_command w command) as [[r|]|]; try by exists IDLE.
  destruct (PyStr.is_empty r); [by exists IDLE|].
  destruct (PyStr.startswith "ASK_USER:" r); [|by exists IDLE].
  eexists. by apply tracks_handle_security_question.
Qed.

Lemma tracks_process_by_response (s : VitaCNS) (command : string) :
  tracks s IDLE -> exists d, tracks (fst (process_by_response w s command)) d.
Proof.
  intros H. unfold process_by_response.
  destruct (response_brain s); [|by apply tracks_process_by_automation].
  assert (tracks (record_event (CallProcessCommand command)
                    (update_stats bump_usage_response_brain s)) IDLE) as H'.
  { by apply tracks_record, tracks_update_stats. }
  destruct (process_command w command) as [[r|]|]; try by apply tracks_process_by_automation.
  destruct (PyStr.is_empty r); [by apply tracks_process_by_automation|by exists IDLE].
Qed.

Lemma tracks_process_command_enhanced (s : VitaCNS) (command : string) :
  tracks s IDLE -> exists d, tracks (fst (_process_command_enhanced w s command)) d.
Proof.
  intros H. unfold _process_command_enhanced.
  destruct (decision_brain s) as [db|]; [|by apply tracks_process_by_response].
  destruct (make_decision db command) as [db' decision_result].
  assert (tracks (set_decision_brain (Some db')
                    (record_event (CallMakeDecision command)
                       (update_stats bump_usage_decision_brain s))) IDLE) as H1.
  { by apply tracks_set_decision_brain, tracks_record, tracks_update_stats. }
  destruct decision_result as [dr|]; [|by apply tracks_process_by_response].
  destruct (dr_success dr && truthy (dr_automation_command dr)).
  - cbn [automation_brain set_decision_brain record_event set_events update_stats set_session_stats].
    destruct (automation_brain s); [|by apply tracks_process_by_response].
    match goal with
    | |- context [execute_command w ?c] => destruct (execute_command w c) as [r|]
    end.
    + match goal with |- context [if ?b then _ else _] => destruct b end.
      * eexists. apply tracks_handle_security_question.
        by apply tracks_record, tracks_update_stats.
      * exists IDLE. cbn [fst]. by apply tracks_record, tracks_update_stats.
    + apply tracks_process_by_response. by apply tracks_record, tracks_update_stats.
  - destruct (dr_clarification_needed dr); [|by apply tracks_process_by_response].
    eexists. cbn [fst]. by apply tracks_raise_clarification.
Qed.

Lemma tracks_handle_decision_clarification (s : VitaCNS) (user_response : string) :
  tracks s AWAITING_CLARIFICATION ->
  exists d, tracks (fst (_handle_decision_clarification w s user_response)) d.
Proof.
  intros H. unfold _handle_decision_clarification.
  destruct (pending_decision_clarification s) as [ctx|] eqn:Ep; [|by eexists].
  pose proof (tracks_clear_clarification s H) as H0.
  cbn [decision_brain assign_decision_clarification set_pending_decision_clarification set_events].
  destruct (decision_brain s) as [db|]; [|by apply tracks_process_command_enhanced].
  pose proof (tracks_record (CallClarificationResponse (dc_original_command ctx) user_response)
                _ _ eq_refl H0) as H1.
  destruct (handle_clarification_response db (dc_original_command ctx) user_response)
    as [[db' result]|]; [|by exists IDLE].
  pose proof (tracks_set_decision_brain (Some db') _ _ H1) as H2.
  destruct result as [dr|]; [|by apply tracks_process_command_enhanced].
  destruct (dr_success dr).
  - match goal with |- context [if ?b then _ else _] => destruct b end;
      [|by apply tracks_process_command_enhanced].
    match goal with
    | |- context [execute_command w ?c] =>
        pose proof (tracks_record (CallExecuteCommand c) _ _ eq_refl H2) as H3;
        destruct (execute_command w c) as [r|]
    end; [|by exists IDLE].
    destruct (truthy r); [by exists IDLE|by apply tracks_process_command_enhanced].
  - destruct (dr_clarification_needed dr); [|by apply tracks_process_command_enhanced].
    eexists. cbn [fst]. by apply tracks_raise_clarification.
Qed.

Lemma tracks_with_security_brain (g : SecurityBrain -> string -> SecurityBrain * bool)
    (e : Event) (domain : string) (s : VitaCNS) (d : Dialogue) :
  replay_event e d = Some d -> tracks s d -> tracks (with_security_brain g e domain s) d.
Proof.
  intros He H. unfold with_security_brain. destruct (security_brain s); [|done].
  by apply tracks_record, tracks_set_security_brain.
Qed.

Lemma tracks_conclude_security (url final_response : string) (s : VitaCNS) (opened : Exc VitaCNS) :
  tracks s AWAITING_SECURITY_DECISION ->
  (forall s', opened = Ok s' -> tracks s' AWAITING_SECURITY_DECISION) ->
  tracks (fst (conclude_security url final_response s opened)) IDLE.
Proof.
  intros H Ho. unfold conclude_security. destruct opened as [s'|e]; cbn [fst].
  - by apply tracks_clear_security, tracks_log_action, Ho.
  - by apply tracks_clear_security, tracks_record.
Qed.

Lemma tracks_open_if_loaded (url : string) (s s' : VitaCNS) :
  tracks s AWAITING_SECURITY_DECISION -> open_if_loaded w url s = Ok s' ->
  tracks s' AWAITING_SECURITY_DECISION.
Proof.
  intros H. unfold open_if_loaded. destruct (automation_brain s); [|by intros [= <-]].
  destruct (_open_website w url); [|done]. intros [= <-]. by apply tracks_record.
Qed.

Lemma tracks_handle_security_response (s : VitaCNS) (user_answer : string) :
  tracks s AWAITING_SECURITY_DECISION ->
  exists d, tracks (fst (_handle_security_response urlparse_netloc w s user_answer)) d.
Proof.
  intros H. unfold _handle_security_response.
  destruct (pending_security_question s) as [ctx|] eqn:Ep.
  2:{ destruct H as [Hs _]. unfold state_of in Hs. rewrite Ep in Hs.
      by destruct (pending_decision_clarification s). }
  match goal with |- context [match ?x with Ok _ => _ | Raise _ => _ end] => destruct x as [domain|e] end.
  2:{ exists IDLE. by apply tracks_clear_security. }
  repeat match goal with |- context [if PyStr.mem ?a ?l then _ else _] => destruct (PyStr.mem a l) end.
  - exists IDLE. apply tracks_conclude_security.
    + by apply tracks_with_security_brain.
    + intros s'. apply tracks_open_if_loaded. by apply tracks_with_security_brain.
  - exists IDLE. apply tracks_conclude_security.
    + by apply tracks_with_security_brain.
    + intros s' [= <-]. by apply tracks_with_security_brain.
  - exists IDLE. apply tracks_conclude_security.
    + by apply tracks_with_security_brain.
    + intros s'. apply tracks_open_if_loaded. by apply tracks_with_security_brain.
  - by exists AWAITING_SECURITY_DECISION.
Qed.

Lemma tracks_finish_command (r : VitaCNS * CommandResult) (d : Dialogue) :
  tracks (fst r) d -> tracks (fst (finish_command r)) d.
Proof.
  destruct r as [s cr]. unfold finish_command. cbn [fst]. intros H.
  apply tracks_log_action.
  destruct (cr_requires_clarification cr), (cr_success cr);
    repeat apply tracks_update_stats; done.
Qed.

(** One command: whatever the state, the history stays allowed and the
    state reached is the one it leads to. *)
Lemma tracks_handle_command (s : VitaCNS) (command : string) (d : Dialogue) :
  tracks s d -> exists d', tracks (fst (handle_command urlparse_netloc w s command)) d'.
Proof.
  intros H. unfold handle_command.
  assert (tracks (set_last_command (Some command) (update_stats bump_commands_processed s)) d)
    as H0 by by apply tracks_set_last_command, tracks_update_stats.
  cbn [pending_security_question pending_decision_clarification set_last_command update_stats
         set_session_stats].
  destruct H as [Hs Hr]. unfold state_of in Hs.
  destruct (pending_security_question s) as [q|] eqn:Eq,
           (pending_decision_clarification s) as [c|] eqn:Ec; try done;
    injection Hs as <-.
  - destruct (tracks_handle_security_response _ command H0) as [d' Hd'].
    exists d'. apply tracks_finish_command.
    destruct (_handle_security_response urlparse_netloc w _ command). exact Hd'.
  - destruct (tracks_handle_decision_clarification _ command H0) as [d' Hd'].
    exists d'. by apply tracks_finish_command.
  - destruct (tracks_process_command_enhanced _ command H0) as [d' Hd'].
    exists d'. by apply tracks_finish_command.
Qed.

End CoordinatorTracks.

Lemma tracks_run (urlparse_netloc : string -> Exc string) (inputs : list (World * string)) :
  forall (s : VitaCNS) (d : Dialogue),
    tracks s d -> exists d', tracks (run urlparse_netloc s inputs) d'.
Proof.
  induction inputs as [|[w command] inputs IH]; intros s d H; simpl; [by exists d|].
  destruct (tracks_handle_command urlparse_netloc w s command d H) as [d1 H1].
  by apply (IH _ d1).
Qed.

Lemma tracks_init (security : option SecurityBrain) (decision : option DecisionBrain)
    (automation response memory : bool) :
  tracks (VitaCNS_init security decision automation response memory) IDLE.
Proof. done. Qed.


(** C1. At most one interrupt is pending at any time. After any sequence
    of commands handled from the initial state, whatever the collaborators
    answer, the two pending fields are not both set and the history of the
    run was allowed all along: an interrupt was raised only when none was
    outstanding, none was overwritten, and [make_decision] (fresh intent
    resolution) was called only when none was outstanding. A command that
    arrives while a security question is pending goes to
    [_handle_security_response], one that arrives while a clarification is
    pending goes to [_handle_decision_clarification]. *)
Theorem at_most_one_pending_interrupt (urlparse_netloc : string -> Exc string)
    (security : option SecurityBrain) (decision : option DecisionBrain)
    (automation response memory : bool) (inputs : list (World * string)) :
  (exists d : Dialogue,
     state_of (run urlparse_netloc
                 (VitaCNS_init security decision automation response memory) inputs) = Some d
     /\ replay (events (run urlparse_netloc
                          (VitaCNS_init security decision automation response memory) inputs))
        = Some d)
  /\ (forall (w : World) (s : VitaCNS) (command : string) (q : SecurityQuestion),
        pending_security_question s = Some q ->
        handle_command urlparse_netloc w s command
        = finish_command
            (let '(s', result_response) :=
               _handle_security_response urlparse_netloc w
                 (set_last_command (Some command) (update_stats bump_commands_processed s))
                 command in
             (s', {| cr_success := true; cr_response := Some result_response;
                     cr_source_brain := "SecurityBrain"; cr_requires_clarification := false;
                     cr_clarification_message := None; cr_metadata := None |})))
  /\ (forall (w : World) (s : VitaCNS) (command : string) (c : DecisionClarification),
        pending_security_question s = None ->
        pending_decision_clarification s = Some c ->
        handle_command urlparse_netloc w s command
        = finish_command
            (_handle_decision_clarification w
               (set_last_command (Some command) (update_stats bump_commands_processed s))
               command)).
Proof.
  split; [|split].
  - apply (tracks_run urlparse_netloc inputs _ IDLE), tracks_init.
  - intros w s command q Hq. unfold handle_command.
    cbn [pending_security_question pending_decision_clarification set_last_command update_stats
           set_session_stats]. by rewrite Hq.
  - intros w s command c Hq Hc. unfold handle_command.
    cbn [pending_security_question pending_decision_clarification set_last_command update_stats
           set_session_stats]. by rewrite Hq, Hc.
Qed.

Lemma at_most_one_pending_interrupt_witness :
  exists d : Dialogue,
    state_of (run Urllib.netloc
                (VitaCNS_init (Some (SecurityBrain_init {| cfg_trusted_sites := ["github.com"];
                                                           cfg_blocked_sites := [];
                                                           cfg_one_time_sessions := [] |}))
                   (Some (DecisionBrain_init default_decision_config 14)) true true true)
                [({| execute_command := fun _ => Ok (Some (ask_user_text "example.com"));
                     _open_website := fun _ => Ok tt;
                     process_command := fun _ => Ok None |}, "open example.com");
                 ({| execute_command := fun _ => Ok None;
                     _open_website := fun _ => Ok tt;
                     process_command := fun _ => Ok None |}, "play something")]) = Some d
    /\ replay (events (run Urllib.netloc
                (VitaCNS_init (Some (SecurityBrain_init {| cfg_trusted_sites := ["github.com"];
                                                           cfg_blocked_sites := [];
                                                           cfg_one_time_sessions := [] |}))
                   (Some (DecisionBrain_init default_decision_config 14)) true true true)
                [({| execute_command := fun _ => Ok (Some (ask_user_text "example.com"));
                     _open_website := fun _ => Ok tt;
                     process_command := fun _ => Ok None |}, "open example.com");
                 ({| execute_command := fun _ => Ok None;
                     _open_website := fun _ => Ok tt;
                     process_command := fun _ => Ok None |}, "play something")])) = Some d.
Proof.
  exact (proj1 (at_most_one_pending_interrupt Urllib.netloc _ _ _ _ _ _)).
Defined.

(* ===================================================================== *)
(** * Answers to a security question *)
(* ===================================================================== *)

(** No answer is both a refusal and a grant. *)
Lemma refusal_is_no_grant (answer : string) :
  PyStr.mem answer ["no"; "n"; "block"; "deny"; "never"] = true ->
  PyStr.mem answer ["yes"; "y"; "allow"; "allow permanently"; "permanently"] = false.
Proof.
  intros H. apply mem_In in H. simpl in H.
  destruct H as [<-|[<-|[<-|[<-|[<-|[]]]]]]; reflexivity.
Qed.

Lemma occurrences_cons (same : Event -> bool) (e : Event) (history : list Event) :
  occurrences same (e :: history)
  = ((if same e then 1 else 0) + occurrences same history)%nat.
Proof. unfold occurrences. simpl. by destruct (same e). Qed.

Lemma occurrences_log_action (same : Event -> bool) (action : string) (s : VitaCNS) :
  same (CallLogAction action) = false ->
  occurrences same (events (log_action action s)) = occurrences same (events s).
Proof.
  intros H. unfold log_action. destruct (memory_brain s); [|done].
  simpl. by rewrite occurrences_cons, H.
Qed.

Section SecurityAnswers.

Variable urlparse_netloc : string -> Exc string.
Variable w : World.

(** What a refusal does, when a security brain is loaded. *)
Lemma refusal_effect (s : VitaCNS) (q : SecurityQuestion) (sb : SecurityBrain)
    (user_answer : string) :
  pending_security_question s = Some q ->
  security_brain s = Some sb ->
  PyStr.mem (PyStr.strip (PyStr.lower user_answer)) ["no"; "n"; "block"; "deny"; "never"] = true ->
  _handle_security_response urlparse_netloc w s user_answer
  = (assign_security_question None
       (log_action "SECURITY_DECISION"
          (record_event (CallAddToBlocked (extract_domain urlparse_netloc (sq_url q)))
             (set_security_brain
                (Some (fst (add_to_blocked urlparse_netloc sb
                              (extract_domain urlparse_netloc (sq_url q))))) s))),
     "Got it, Boss. I've added '" ++ extract_domain urlparse_netloc (sq_url q)
     ++ "' to the blocklist. Access will be denied in the future.").
Proof.
  intros Hq Hsb Hno. unfold _handle_security_response.
  rewrite Hq, Hsb, Hno, (refusal_is_no_grant _ Hno).
  unfold with_security_brain. rewrite Hsb. reflexivity.
Qed.

End SecurityAnswers.

Lemma finish_command_keeps (r : VitaCNS * CommandResult) :
  pending_security_question (fst (finish_command r)) = pending_security_question (fst r)
  /\ pending_decision_clarification (fst (finish_command r)) = pending_decision_clarification (fst r)
  /\ security_brain (fst (finish_command r)) = security_brain (fst r)
  /\ snd (finish_command r) = snd r.
Proof.
  destruct r as [s cr]. unfold finish_command, log_action.
  destruct (cr_requires_clarification cr), (cr_success cr); simpl;
    destruct (memory_brain s); done.
Qed.

(** X26. What [_handle_security_response] does with the text kept as the
    URL of the pending question, when a security brain is loaded: an answer
    of refusal ("no", "n", "block", "deny", "never", in any case, blanks
    around ignored) clears the pending question and leaves a pending
    clarification as it was, calls [add_to_blocked] exactly once and opens no
    website; the domain extracted from that text joins the blocked list, and
    leaves the other two, when it is well-formed, and the lists stay as they
    are when it is not. An answer that is none of the recognised ones
    changes nothing at all and is answered by the prompt for 'yes', 'no' or
    'this time only'; the question stays pending. *)
Theorem security_refusal_and_unrecognized_answer (urlparse_netloc : string -> Exc string)
    (w : World) (s : VitaCNS) (q : SecurityQuestion) (sb : SecurityBrain) (user_answer : string) :
  pending_security_question s = Some q ->
  security_brain s = Some sb ->
  (PyStr.mem (PyStr.strip (PyStr.lower user_answer)) ["no"; "n"; "block"; "deny"; "never"] = true ->
   exists sb' : SecurityBrain,
     security_brain (fst (_handle_security_response urlparse_netloc w s user_answer)) = Some sb'
     /\ pending_security_question (fst (_handle_security_response urlparse_netloc w s user_answer))
        = None
     /\ pending_decision_clarification (fst (_handle_security_response urlparse_netloc w s user_answer))
        = pending_decision_clarification s
     /\ occurrences is_add_to_blocked
          (events (fst (_handle_security_response urlparse_netloc w s user_answer)))
        = S (occurrences is_add_to_blocked (events s))
     /\ occurrences is_open_website
          (events (fst (_handle_security_response urlparse_netloc w s user_answer)))
        = occurrences is_open_website (events s)
     /\ (is_valid_domain
           (extract_domain urlparse_netloc (extract_domain urlparse_netloc (sq_url q))) = true ->
         blocked_sites sb'
         = blocked_sites sb ∪ {[extract_domain urlparse_netloc (extract_domain urlparse_netloc (sq_url q))]}
         /\ trusted_sites sb'
            = trusted_sites sb ∖ {[extract_domain urlparse_netloc (extract_domain urlparse_netloc (sq_url q))]}
         /\ one_time_sessions sb'
            = one_time_sessions sb ∖ {[extract_domain urlparse_netloc (extract_domain urlparse_netloc (sq_url q))]})
     /\ (is_valid_domain
           (extract_domain urlparse_netloc (extract_domain urlparse_netloc (sq_url q))) = false ->
         sb' = sb))
  /\ (PyStr.mem (PyStr.strip (PyStr.lower user_answer))
        ["yes"; "y"; "allow"; "allow permanently"; "permanently"] = false ->
      PyStr.mem (PyStr.strip (PyStr.lower user_answer)) ["no"; "n"; "block"; "deny"; "never"] = false ->
      PyStr.mem (PyStr.strip (PyStr.lower user_answer))
        ["this time only"; "once"; "just once"; "temporary"; "temp"] = false ->
      _handle_security_response urlparse_netloc w s user_answer
      = (s, "I didn't understand that, Boss. Please answer with 'yes', 'no', or 'this time only'.")
      /\ pending_security_question (fst (handle_command urlparse_netloc w s user_answer)) = Some q
      /\ security_brain (fst (handle_command urlparse_netloc w s user_answer)) = Some sb
      /\ cr_response (snd (handle_command urlparse_netloc w s user_answer))
         = Some "I didn't understand that, Boss. Please answer with 'yes', 'no', or 'this time only'.").
Proof.
  intros Hq Hsb. split.
  - intros Hno. rewrite (refusal_effect urlparse_netloc w s q sb user_answer Hq Hsb Hno).
    cbn [fst]. unfold assign_security_question, log_action.
    cbn [memory_brain record_event set_events set_security_brain].
    destruct (memory_brain s);
      cbn [pending_security_question pending_decision_clarification security_brain events
             record_event set_events set_security_brain set_pending_security_question];
      rewrite Hq; cbn [assignment_events app];
      (eexists; split; [reflexivity|]; split; [reflexivity|]; split; [reflexivity|]);
      rewrite !occurrences_cons; cbn [is_add_to_blocked is_open_website Nat.add];
      (split; [done|]; split; [done|]; split; intros Hv;
       [by rewrite (add_to_blocked_effect _ _ _ Hv)
       |by rewrite (add_to_blocked_refused _ _ _ Hv)]).
  - intros Hyes Hno Honce.
    assert (_handle_security_response urlparse_netloc w s user_answer
            = (s, "I didn't understand that, Boss. Please answer with 'yes', 'no', or 'this time only'."))
      as Hr.
    { unfold _handle_security_response. by rewrite Hq, Hsb, Hyes, Hno, Honce. }
    split; [exact Hr|].
    assert (handle_command urlparse_netloc w s user_answer
            = finish_command
                (set_last_command (Some user_answer) (update_stats bump_commands_processed s),
                 {| cr_success := true;
                    cr_response := Some "I didn't understand that, Boss. Please answer with 'yes', 'no', or 'this time only'.";
                    cr_source_brain := "SecurityBrain"; cr_requires_clarification := false;
                    cr_clarification_message := None; cr_metadata := None |})) as ->.
    { unfold handle_command.
      cbn [pending_security_question pending_decision_clarification set_last_command update_stats
             set_session_stats]. rewrite Hq.
      unfold _handle_security_response.
      cbn [pending_security_question security_brain set_last_command update_stats set_session_stats].
      by rewrite Hq, Hsb, Hyes, Hno, Honce. }
    destruct (finish_command_keeps
                (set_last_command (Some user_answer) (update_stats bump_commands_processed s),
                 {| cr_success := true;
                    cr_response := Some "I didn't understand that, Boss. Please answer with 'yes', 'no', or 'this time only'.";
                    cr_source_brain := "SecurityBrain"; cr_requires_clarification := false;
                    cr_clarification_message := None; cr_metadata := None |}))
      as (-> & _ & -> & ->). done.
Qed.

(** C7. The refusal of a site that was named, not spelt out. The
    automation brain answers the command "open youtube" with the question of
    the security brain about [youtube.com]. The coordinator keeps the whole
    command as the URL of the question: [_extract_url_from_original_command]
    finds no URL in it and returns it as it is. The answer "no" then calls
    [add_to_blocked] once, with the text "open youtube", which it refuses;
    the coordinator does not look at what [add_to_blocked] returns and
    answers that it added 'open youtube' to the blocklist. The question is
    cleared and no website is opened, but the blocked list is as it was:
    the site refused is not on it, and [youtube.com] is asked about again. *)
Lemma refusal_of_a_named_site_blocks_nothing :
  let asked :=
    handle_command Urllib.netloc (asking_world "youtube.com") example_cns "open youtube" in
  let refused := handle_command Urllib.netloc quiet_world (fst asked) "no" in
  cr_clarification_message (snd asked)
  = Some "This is a new site ('youtube.com'). How should I proceed? (Options: Yes, No, This time only)"
  /\ option_map sq_url (pending_security_question (fst asked)) = Some "open youtube"
  /\ cr_response (snd refused)
     = Some "Got it, Boss. I've added 'open youtube' to the blocklist. Access will be denied in the future."
  /\ pending_security_question (fst refused) = None
  /\ List.filter is_add_to_blocked (events (fst refused)) = [CallAddToBlocked "open youtube"]
  /\ List.filter is_open_website (events (fst refused)) = []
  /\ option_map (fun sb => elements (blocked_sites sb)) (security_brain (fst asked))
     = Some ["malicious-site.com"]
  /\ option_map (fun sb => elements (blocked_sites sb)) (security_brain (fst refused))
     = Some ["malicious-site.com"]
  /\ option_map (fun sb => snd (check_website_access Urllib.netloc sb "youtube.com"))
       (security_brain (fst refused))
     = Some (ASK_USER (ask_user_text "youtube.com")).
Proof.
  cbv zeta. repeat split; vm_compute; reflexivity.
Qed.

Lemma security_refusal_and_unrecognized_answer_witness :
  exists sb' : SecurityBrain,
    security_brain
      (fst (_handle_security_response Urllib.netloc
              {| execute_command := fun _ => Ok None; _open_website := fun _ => Ok tt;
                 process_command := fun _ => Ok None |}
              (fst (handle_command Urllib.netloc
                      {| execute_command := fun _ => Ok (Some (ask_user_text "example.com"));
                         _open_website := fun _ => Ok tt;
                         process_command := fun _ => Ok None |}
                      (VitaCNS_init
                         (Some (SecurityBrain_init {| cfg_trusted_sites := ["github.com"];
                                                      cfg_blocked_sites := [];
                                                      cfg_one_time_sessions := [] |}))
                         (Some (DecisionBrain_init default_decision_config 14)) true true true)
                      "open example.com"))
              "No"))
    = Some sb'
    /\ elements (blocked_sites sb') = ["example.com"].
Proof.
  assert (pending_security_question
            (fst (handle_command Urllib.netloc
                    {| execute_command := fun _ => Ok (Some (ask_user_text "example.com"));
                       _open_website := fun _ => Ok tt;
                       process_command := fun _ => Ok None |}
                    (VitaCNS_init
                       (Some (SecurityBrain_init {| cfg_trusted_sites := ["github.com"];
                                                    cfg_blocked_sites := [];
                                                    cfg_one_time_sessions := [] |}))
                       (Some (DecisionBrain_init default_decision_config 14)) true true true)
                    "open example.com"))
          = Some {| sq_question := ask_user_text "example.com"; sq_url := "example.com";
                    sq_original_command := "open example.com" |}) as Hq
    by (vm_compute; reflexivity).
  assert (security_brain
            (fst (handle_command Urllib.netloc
                    {| execute_command := fun _ => Ok (Some (ask_user_text "example.com"));
                       _open_website := fun _ => Ok tt;
                       process_command := fun _ => Ok None |}
                    (VitaCNS_init
                       (Some (SecurityBrain_init {| cfg_trusted_sites := ["github.com"];
                                                    cfg_blocked_sites := [];
                                                    cfg_one_time_sessions := [] |}))
                       (Some (DecisionBrain_init default_decision_config 14)) true true true)
                    "open example.com"))
          = Some (SecurityBrain_init {| cfg_trusted_sites := ["github.com"];
                                        cfg_blocked_sites := [];
                                        cfg_one_time_sessions := [] |})) as Hsb
    by (vm_compute; reflexivity).
  destruct (proj1 (security_refusal_and_unrecognized_answer Urllib.netloc
                     {| execute_command := fun _ => Ok None; _open_website := fun _ => Ok tt;
                        process_command := fun _ => Ok None |}
                     _ _ _ "No" Hq Hsb) eq_refl)
    as (sb' & Hsb' & _ & _ & _ & _ & Hvalid & _).
  exists sb'. split; [exact Hsb'|].
  destruct (Hvalid eq_refl) as (-> & _). vm_compute. reflexivity.
Defined.

(* ===================================================================== *)
(** * Further properties of the security lists *)
(* ===================================================================== *)

Ltac decided :=
  repeat match goal with
         | H : bool_decide _ = true |- _ => apply bool_decide_eq_true in H
         | H : bool_decide _ = false |- _ => apply bool_decide_eq_false in H
         | H : negb _ = true |- _ => apply negb_true_iff in H
         | H : negb _ = false |- _ => apply negb_false_iff in H
         end.

Section SecurityChecks.
Variable urlparse_netloc : string -> Exc string.

Lemma check_unfold (sb : SecurityBrain) (url : string) :
  is_blank url = false ->
  is_valid_domain (extract_domain urlparse_netloc (PyStr.strip url)) = true ->
  check_website_access urlparse_netloc sb url =
    let domain := extract_domain urlparse_netloc (PyStr.strip url) in
    if bool_decide (domain ∈ blocked_sites sb) then (sb, DENIED)
    else if bool_decide (domain ∈ trusted_sites sb) then (sb, ALLOWED)
    else if bool_decide (domain ∈ one_time_sessions sb) then
      ({| trusted_sites := trusted_sites sb; blocked_sites := blocked_sites sb;
          one_time_sessions := one_time_sessions sb;
          session_usage := <[domain := S (default 0%nat (session_usage sb !! domain))]> (session_usage sb) |},
       ALLOWED)
    else (sb, ASK_USER (ask_user_text domain)).
Proof.
  unfold is_blank, check_website_access. intros -> ->. reflexivity.
Qed.

End SecurityChecks.

(** X1. An access check changes none of the three lists. It leaves the
    brain as it is, except when it allows the access through a one-time
    session of a domain that is not trusted: then the use counter of that
    domain, and nothing else, goes up by one. *)
Theorem a_check_changes_no_list (urlparse_netloc : string -> Exc string)
    (sb : SecurityBrain) (url : string) :
  trusted_sites (fst (check_website_access urlparse_netloc sb url)) = trusted_sites sb
  /\ blocked_sites (fst (check_website_access urlparse_netloc sb url)) = blocked_sites sb
  /\ one_time_sessions (fst (check_website_access urlparse_netloc sb url)) = one_time_sessions sb
  /\ (fst (check_website_access urlparse_netloc sb url) = sb
      \/ (snd (check_website_access urlparse_netloc sb url) = ALLOWED
          /\ (extract_domain urlparse_netloc (PyStr.strip url) ∈ one_time_sessions sb)
          /\ (extract_domain urlparse_netloc (PyStr.strip url) ∉ trusted_sites sb)
          /\ session_usage (fst (check_website_access urlparse_netloc sb url))
             = <[extract_domain urlparse_netloc (PyStr.strip url) :=
                   S (default 0%nat (session_usage sb
                                      !! extract_domain urlparse_netloc (PyStr.strip url)))]>
                 (session_usage sb))).
Proof.
  unfold check_website_access.
  repeat case_match; simpl; repeat split; auto.
  right. decided. repeat split; auto.
Qed.

Section SecurityRuns.
Variable urlparse_netloc : string -> Exc string.

Lemma apply_op_keeps_block (domain : string) (sb : SecurityBrain) (op : SecurityOp) :
  lifts_block urlparse_netloc domain op = false ->
  domain ∈ blocked_sites sb ->
  domain ∈ blocked_sites (apply_op urlparse_netloc sb op).
Proof.
  intros Hl Hb. destruct op; simpl in *;
    unfold add_to_trusted, add_to_blocked, add_to_one_time, remove_from_trusted,
      remove_from_blocked, clear_one_time_sessions, check_website_access;
    repeat case_match; simpl; try done.
  - apply String.eqb_neq in Hl. set_solver.
  - set_solver.
  - apply String.eqb_neq in Hl. set_solver.
Qed.

Lemma apply_ops_keep_block (domain : string) (ops : list SecurityOp) (sb : SecurityBrain) :
  forallb (fun op => negb (lifts_block urlparse_netloc domain op)) ops = true ->
  domain ∈ blocked_sites sb ->
  domain ∈ blocked_sites (apply_ops urlparse_netloc sb ops).
Proof.
  revert sb. induction ops as [|op ops IH]; intros sb Hl Hb; simpl in *; [done|].
  apply andb_true_iff in Hl as [Hop Hl]. apply negb_true_iff in Hop.
  apply IH; [done|]. by apply apply_op_keeps_block.
Qed.

End SecurityRuns.

(** X2. Once a site was blocked, every address of its domain is denied,
    whatever was done since (one-time grants of the same domain, checks,
    clearing of the sessions, operations on other domains), as long as the
    domain was not granted permanent trust or removed from the blocked
    list: a one-time session does not override a block. *)
Theorem a_block_outlasts_one_time_grants (urlparse_netloc : string -> Exc string)
    (sb sb1 : SecurityBrain) (site url : string) (ops : list SecurityOp) :
  add_to_blocked urlparse_netloc sb site = (sb1, true) ->
  forallb (fun op => negb (lifts_block urlparse_netloc (extract_domain urlparse_netloc site) op)) ops
  = true ->
  is_blank url = false ->
  extract_domain urlparse_netloc (PyStr.strip url) = extract_domain urlparse_netloc site ->
  check_website_access urlparse_netloc (apply_ops urlparse_netloc sb1 ops) url
  = (apply_ops urlparse_netloc sb1 ops, DENIED).
Proof.
  intros Hadd Hops Hnb Hdom.
  assert (is_valid_domain (extract_domain urlparse_netloc site) = true) as Hv.
  { unfold add_to_blocked in Hadd. destruct (is_valid_domain _); [done|]. by inversion Hadd. }
  rewrite add_to_blocked_effect in Hadd by done. inversion Hadd as [Hsb1]. clear Hadd.
  rewrite Hsb1.
  rewrite check_unfold by (by rewrite ?Hdom). cbn zeta. rewrite Hdom.
  rewrite bool_decide_eq_true_2; [done|].
  apply apply_ops_keep_block; [done|]. rewrite <- Hsb1. simpl. set_solver.
Qed.

Section SecurityRuns2.
Variable urlparse_netloc : string -> Exc string.

Lemma check_keeps_lists (sb : SecurityBrain) (url : string) :
  trusted_sites (fst (check_website_access urlparse_netloc sb url)) = trusted_sites sb
  /\ blocked_sites (fst (check_website_access urlparse_netloc sb url)) = blocked_sites sb
  /\ one_time_sessions (fst (check_website_access urlparse_netloc sb url)) = one_time_sessions sb.
Proof. unfold check_website_access. repeat case_match; simpl; done. Qed.

Lemma add_succeeded_valid (f : SecurityBrain -> string -> SecurityBrain * bool)
    (sb sb1 : SecurityBrain) (site : string) :
  (f = add_to_trusted urlparse_netloc \/ f = add_to_blocked urlparse_netloc
   \/ f = add_to_one_time urlparse_netloc) ->
  f sb site = (sb1, true) ->
  is_valid_domain (extract_domain urlparse_netloc site) = true.
Proof.
  intros [->|[->| ->]]; unfold add_to_trusted, add_to_blocked, add_to_one_time;
    destruct (is_valid_domain _); simpl; intros H; by inversion H.
Qed.

Lemma apply_ops_cons (sb : SecurityBrain) (op : SecurityOp) (ops : list SecurityOp) :
  apply_ops urlparse_netloc sb (op :: ops)
  = apply_ops urlparse_netloc (apply_op urlparse_netloc sb op) ops.
Proof. reflexivity. Qed.

Lemma repeated_checks (url : string) (n : nat) (sb : SecurityBrain) :
  is_blank url = false ->
  is_valid_domain (extract_domain urlparse_netloc (PyStr.strip url)) = true ->
  extract_domain urlparse_netloc (PyStr.strip url) ∈ one_time_sessions sb ->
  extract_domain urlparse_netloc (PyStr.strip url) ∉ blocked_sites sb ->
  snd (check_website_access urlparse_netloc
         (apply_ops urlparse_netloc sb (repeat (OpCheckWebsiteAccess url) n)) url) = ALLOWED
  /\ trusted_sites (apply_ops urlparse_netloc sb (repeat (OpCheckWebsiteAccess url) n))
     = trusted_sites sb
  /\ blocked_sites (apply_ops urlparse_netloc sb (repeat (OpCheckWebsiteAccess url) n))
     = blocked_sites sb
  /\ one_time_sessions (apply_ops urlparse_netloc sb (repeat (OpCheckWebsiteAccess url) n))
     = one_time_sessions sb
  /\ (extract_domain urlparse_netloc (PyStr.strip url) ∉ trusted_sites sb ->
      default 0%nat (session_usage (apply_ops urlparse_netloc sb (repeat (OpCheckWebsiteAccess url) n))
                     !! extract_domain urlparse_netloc (PyStr.strip url))
      = (default 0%nat (session_usage sb !! extract_domain urlparse_netloc (PyStr.strip url)) + n)%nat).
Proof.
  intros Hnb Hv. revert sb. induction n as [|n IH]; intros sb Ho Hb.
  - simpl. rewrite check_unfold by done. cbn zeta.
    rewrite bool_decide_eq_false_2 by done.
    destruct (bool_decide (_ ∈ trusted_sites sb)); [|rewrite bool_decide_eq_true_2 by done];
      simpl; repeat split; auto; intros; lia.
  - cbn [repeat]. rewrite apply_ops_cons. cbn [apply_op].
    destruct (check_keeps_lists sb url) as (Ht' & Hb' & Ho').
    destruct (IH (fst (check_website_access urlparse_netloc sb url))) as (Ha & Ht & Hbl & Hot & Hc).
    { by rewrite Ho'. } { by rewrite Hb'. }
    rewrite Ha, Ht, Hbl, Hot, Ht', Hb', Ho'. repeat split; auto.
    intros Hnt. rewrite Hc by (by rewrite Ht').
    rewrite check_unfold by done. cbn zeta.
    rewrite bool_decide_eq_false_2 by done. rewrite bool_decide_eq_false_2 by done.
    rewrite bool_decide_eq_true_2 by done. simpl. rewrite lookup_insert_eq. simpl. lia.
Qed.

Lemma apply_op_well_formed (sb : SecurityBrain) (op : SecurityOp) :
  well_formed_lists sb -> well_formed_lists (apply_op urlparse_netloc sb op).
Proof.
  unfold well_formed_lists. intros Hw.
  destruct op; simpl;
    unfold add_to_trusted, add_to_blocked, add_to_one_time, remove_from_trusted,
      remove_from_blocked, clear_one_time_sessions, check_website_access;
    repeat case_match; simpl; decided; intros d Hd; try (apply Hw; set_solver);
    (destruct (decide (d = extract_domain urlparse_netloc domain)) as [->|Hne];
     [done|apply Hw; set_solver]).
Qed.

End SecurityRuns2.

(** X3. Once a site was granted permanent trust, an address of its domain
    is allowed and the check changes nothing, whatever list the domain was
    on before: trust lifts an earlier block. *)
Theorem granting_trust_lifts_a_block (urlparse_netloc : string -> Exc string)
    (sb sb1 : SecurityBrain) (site url : string) :
  add_to_trusted urlparse_netloc sb site = (sb1, true) ->
  is_blank url = false ->
  extract_domain urlparse_netloc (PyStr.strip url) = extract_domain urlparse_netloc site ->
  check_website_access urlparse_netloc sb1 url = (sb1, ALLOWED).
Proof.
  intros Hadd Hnb Hdom.
  assert (is_valid_domain (extract_domain urlparse_netloc site) = true) as Hv
    by (apply (add_succeeded_valid urlparse_netloc _ sb sb1 site) in Hadd as Hv'; auto).
  rewrite add_to_trusted_effect in Hadd by done. inversion Hadd as [Hsb1]. clear Hadd.
  rewrite Hsb1. rewrite check_unfold by (by rewrite ?Hdom). cbn zeta. rewrite Hdom.
  rewrite bool_decide_eq_false_2 by (rewrite <- Hsb1; simpl; set_solver).
  rewrite bool_decide_eq_true_2 by (rewrite <- Hsb1; simpl; set_solver). done.
Qed.

(** X4. A one-time session is not consumed by its use. After a one-time
    grant to a domain that is not blocked, the access is still allowed
    after any number [n] of checks and the domain still has its session;
    if the domain is not trusted either, its use counter has gone up by
    [n]. *)
Theorem a_one_time_session_is_not_used_up (urlparse_netloc : string -> Exc string)
    (sb sb1 : SecurityBrain) (site url : string) (n : nat) :
  add_to_one_time urlparse_netloc sb site = (sb1, true) ->
  (extract_domain urlparse_netloc site ∉ blocked_sites sb) ->
  is_blank url = false ->
  extract_domain urlparse_netloc (PyStr.strip url) = extract_domain urlparse_netloc site ->
  snd (check_website_access urlparse_netloc
         (apply_ops urlparse_netloc sb1 (repeat (OpCheckWebsiteAccess url) n)) url) = ALLOWED
  /\ (extract_domain urlparse_netloc site
        ∈ one_time_sessions (apply_ops urlparse_netloc sb1 (repeat (OpCheckWebsiteAccess url) n)))
  /\ ((extract_domain urlparse_netloc site ∉ trusted_sites sb) ->
      default 0%nat
        (session_usage (apply_ops urlparse_netloc sb1 (repeat (OpCheckWebsiteAccess url) n))
         !! extract_domain urlparse_netloc site)
      = (default 0%nat (session_usage sb !! extract_domain urlparse_netloc site) + n)%nat).
Proof.
  intros Hadd Hb Hnb Hdom.
  assert (is_valid_domain (extract_domain urlparse_netloc site) = true) as Hv
    by (apply (add_succeeded_valid urlparse_netloc _ sb sb1 site) in Hadd as Hv'; auto).
  unfold add_to_one_time in Hadd. rewrite Hv in Hadd. simpl in Hadd.
  inversion Hadd as [Hsb1]. clear Hadd.
  subst sb1.
  destruct (repeated_checks urlparse_netloc url n
              {| trusted_sites := trusted_sites sb; blocked_sites := blocked_sites sb;
                 one_time_sessions := one_time_sessions sb ∪ {[extract_domain urlparse_netloc site]};
                 session_usage := session_usage sb |}) as (Ha & Ht & Hbl & Ho & Hc).
  - done.
  - by rewrite Hdom.
  - rewrite Hdom. simpl. set_solver.
  - rewrite Hdom. simpl. done.
  - split; [exact Ha|]. split.
    + rewrite Ho. simpl. set_solver.
    + intros Hnt. rewrite Hdom in Hc. rewrite Hc; [done|]. simpl. done.
Qed.

(** X5. [clear_one_time_sessions] returns the number of sessions, empties
    the sessions and the use counters and keeps the other two lists; a
    domain that was allowed through its one-time session only is asked
    about again afterwards. *)
Theorem clearing_sessions_ends_one_time_access (urlparse_netloc : string -> Exc string)
    (sb : SecurityBrain) :
  snd (clear_one_time_sessions sb) = size (one_time_sessions sb)
  /\ one_time_sessions (fst (clear_one_time_sessions sb)) = ∅
  /\ session_usage (fst (clear_one_time_sessions sb)) = ∅
  /\ trusted_sites (fst (clear_one_time_sessions sb)) = trusted_sites sb
  /\ blocked_sites (fst (clear_one_time_sessions sb)) = blocked_sites sb
  /\ forall url : string,
       is_blank url = false ->
       is_valid_domain (extract_domain urlparse_netloc (PyStr.strip url)) = true ->
       (extract_domain urlparse_netloc (PyStr.strip url) ∈ one_time_sessions sb) ->
       (extract_domain urlparse_netloc (PyStr.strip url) ∉ trusted_sites sb) ->
       (extract_domain urlparse_netloc (PyStr.strip url) ∉ blocked_sites sb) ->
       snd (check_website_access urlparse_netloc sb url) = ALLOWED
       /\ check_website_access urlparse_netloc (fst (clear_one_time_sessions sb)) url
          = (fst (clear_one_time_sessions sb),
             ASK_USER (ask_user_text (extract_domain urlparse_netloc (PyStr.strip url)))).
Proof.
  do 5 (split; [reflexivity|]).
  intros url Hnb Hv Ho Ht Hb. rewrite !check_unfold by done. cbn zeta.
  cbn [clear_one_time_sessions fst snd trusted_sites blocked_sites one_time_sessions session_usage].
  rewrite !(bool_decide_eq_false_2 (_ ∈ blocked_sites sb)) by done.
  rewrite !(bool_decide_eq_false_2 (_ ∈ trusted_sites sb)) by done.
  rewrite bool_decide_eq_true_2 by done.
  rewrite bool_decide_eq_false_2 by set_solver. done.
Qed.

(** X6. If every listed domain is well-formed, this is still so after any
    sequence of operations: the three [add_to_...] refuse every text that
    is no well-formed domain. *)
Theorem the_lists_hold_well_formed_domains (urlparse_netloc : string -> Exc string)
    (sb : SecurityBrain) (ops : list SecurityOp) :
  well_formed_lists sb -> well_formed_lists (apply_ops urlparse_netloc sb ops).
Proof.
  revert sb. induction ops as [|op ops IH]; intros sb Hw; simpl; [done|].
  apply IH, apply_op_well_formed, Hw.
Qed.

(** X7. Revoking a trust that was granted succeeds and leaves the domain
    on no list, also when it was blocked or had a one-time session before
    the grant: the next check asks the user. *)
Theorem revoked_trust_leaves_the_domain_unknown (urlparse_netloc : string -> Exc string)
    (sb sb1 : SecurityBrain) (site url : string) :
  add_to_trusted urlparse_netloc sb site = (sb1, true) ->
  is_blank url = false ->
  extract_domain urlparse_netloc (PyStr.strip url) = extract_domain urlparse_netloc site ->
  snd (remove_from_trusted urlparse_netloc sb1 site) = true
  /\ check_website_access urlparse_netloc (fst (remove_from_trusted urlparse_netloc sb1 site)) url
     = (fst (remove_from_trusted urlparse_netloc sb1 site),
        ASK_USER (ask_user_text (extract_domain urlparse_netloc site))).
Proof.
  intros Hadd Hnb Hdom.
  assert (is_valid_domain (extract_domain urlparse_netloc site) = true) as Hv
    by (apply (add_succeeded_valid urlparse_netloc _ sb sb1 site) in Hadd as Hv'; auto).
  rewrite add_to_trusted_effect in Hadd by done. inversion Hadd as [Hsb1]. clear Hadd.
  unfold remove_from_trusted. cbn [trusted_sites].
  rewrite bool_decide_eq_true_2 by set_solver.
  cbn [fst snd]. split; [done|].
  rewrite check_unfold by (by rewrite ?Hdom). cbn zeta. rewrite Hdom.
  cbn [trusted_sites blocked_sites one_time_sessions].
  rewrite !bool_decide_eq_false_2 by set_solver. done.
Qed.

(** X8. Each of the three [add_to_...] is idempotent: the second of two
    calls in a row with the same argument changes nothing and answers as
    the first. *)
Theorem adding_twice_is_adding_once (urlparse_netloc : string -> Exc string)
    (sb : SecurityBrain) (site : string) :
  add_to_trusted urlparse_netloc (fst (add_to_trusted urlparse_netloc sb site)) site
  = add_to_trusted urlparse_netloc sb site
  /\ add_to_blocked urlparse_netloc (fst (add_to_blocked urlparse_netloc sb site)) site
     = add_to_blocked urlparse_netloc sb site
  /\ add_to_one_time urlparse_netloc (fst (add_to_one_time urlparse_netloc sb site)) site
     = add_to_one_time urlparse_netloc sb site.
Proof.
  unfold add_to_trusted, add_to_blocked, add_to_one_time.
  destruct (is_valid_domain (extract_domain urlparse_netloc site)); simpl; [|done].
  repeat split; f_equal; f_equal; set_solver.
Qed.

Lemma to_lower_idem (c : ascii) : PyStr.to_lower (PyStr.to_lower c) = PyStr.to_lower c.
Proof. destruct c as [[] [] [] [] [] [] [] []]; reflexivity. Qed.

Lemma lower_idem (s : string) : PyStr.lower (PyStr.lower s) = PyStr.lower s.
Proof. induction s as [|c s IH]; simpl; [done|]. by rewrite to_lower_idem, IH. Qed.

Lemma lower_drop_chars (n : nat) (s : string) :
  PyStr.lower (drop_chars n s) = drop_chars n (PyStr.lower s).
Proof.
  revert s. induction n as [|n IH]; intros [|c s]; simpl; try done.
Qed.

(** X9. [extract_domain] returns a text without upper-case letters,
    whatever [urlparse] answers and also when it raises: the lists are
    kept and consulted in lower case. *)
Theorem extract_domain_is_lower_case (urlparse_netloc : string -> Exc string) (url : string) :
  PyStr.lower (extract_domain urlparse_netloc url) = extract_domain urlparse_netloc url.
Proof.
  unfold extract_domain.
  destruct (urlparse_netloc _) as [netloc|e]; [|apply lower_idem].
  destruct (PyStr.startswith "www." (PyStr.lower netloc)).
  - by rewrite lower_drop_chars, lower_idem.
  - apply lower_idem.
Qed.

Lemma mock_config_well_formed :
  well_formed_lists
    (SecurityBrain_init {| cfg_trusted_sites := ["github.com"; "stackoverflow.com"];
                           cfg_blocked_sites := ["malicious-site.com"];
                           cfg_one_time_sessions := ["temp-site.com"] |}).
Proof.
  intros d. simpl. set_unfold. intros [[[->|[->|[]]]|[->|[]]]|[->|[]]]; vm_compute; reflexivity.
Qed.

Lemma the_lists_hold_well_formed_domains_witness :
  well_formed_lists
    (SecurityBrain_init {| cfg_trusted_sites := ["github.com"; "stackoverflow.com"];
                           cfg_blocked_sites := ["malicious-site.com"];
                           cfg_one_time_sessions := ["temp-site.com"] |})
  /\ well_formed_lists
       (apply_ops Urllib.netloc
          (SecurityBrain_init {| cfg_trusted_sites := ["github.com"; "stackoverflow.com"];
                                 cfg_blocked_sites := ["malicious-site.com"];
                                 cfg_one_time_sessions := ["temp-site.com"] |})
          [OpAddToTrusted "https://www.Example.com/a"; OpAddToBlocked "not a domain";
           OpAddToOneTime "example.org"; OpRemoveFromBlocked "malicious-site.com"]).
Proof.
  split; [exact mock_config_well_formed|].
  exact (the_lists_hold_well_formed_domains Urllib.netloc _ _ mock_config_well_formed).
Defined.

Lemma a_block_outlasts_one_time_grants_witness :
  check_website_access Urllib.netloc
    (apply_ops Urllib.netloc (fst (add_to_blocked Urllib.netloc mock_brain "https://www.GitHub.com/user"))
       [OpAddToOneTime "github.com"; OpCheckWebsiteAccess "github.com";
        OpAddToTrusted "example.com"; OpClearOneTimeSessions])
    " http://github.com/login "
  = (apply_ops Urllib.netloc (fst (add_to_blocked Urllib.netloc mock_brain "https://www.GitHub.com/user"))
       [OpAddToOneTime "github.com"; OpCheckWebsiteAccess "github.com";
        OpAddToTrusted "example.com"; OpClearOneTimeSessions],
     DENIED).
Proof.
  apply (a_block_outlasts_one_time_grants Urllib.netloc mock_brain _ "https://www.GitHub.com/user").
  - unfold add_to_blocked. reflexivity.
  - vm_compute. reflexivity.
  - vm_compute. reflexivity.
  - vm_compute. reflexivity.
Defined.

Lemma granting_trust_lifts_a_block_witness :
  check_website_access Urllib.netloc
    (fst (add_to_trusted Urllib.netloc mock_brain "malicious-site.com"))
    "https://WWW.malicious-site.com/bad"
  = (fst (add_to_trusted Urllib.netloc mock_brain "malicious-site.com"), ALLOWED).
Proof.
  apply (granting_trust_lifts_a_block Urllib.netloc mock_brain _ "malicious-site.com").
  - unfold add_to_trusted. reflexivity.
  - vm_compute. reflexivity.
  - vm_compute. reflexivity.
Defined.

Lemma a_one_time_session_is_not_used_up_witness :
  snd (check_website_access Urllib.netloc
         (apply_ops Urllib.netloc (fst (add_to_one_time Urllib.netloc mock_brain "example.org"))
            (repeat (OpCheckWebsiteAccess "https://example.org/page") 3))
         "https://example.org/page") = ALLOWED
  /\ default 0%nat
       (session_usage
          (apply_ops Urllib.netloc (fst (add_to_one_time Urllib.netloc mock_brain "example.org"))
             (repeat (OpCheckWebsiteAccess "https://example.org/page") 3))
        !! "example.org") = 3%nat.
Proof.
  destruct (a_one_time_session_is_not_used_up Urllib.netloc mock_brain
              (fst (add_to_one_time Urllib.netloc mock_brain "example.org"))
              "example.org" "https://example.org/page" 3) as (Ha & _ & Hc).
  - unfold add_to_one_time. reflexivity.
  - apply (bool_decide_unpack _). vm_compute. exact I.
  - vm_compute. reflexivity.
  - vm_compute. reflexivity.
  - split; [exact Ha|]. apply Hc. apply (bool_decide_unpack _). vm_compute. exact I.
Defined.

Lemma clearing_sessions_ends_one_time_access_witness :
  snd (clear_one_time_sessions mock_brain) = 1%nat
  /\ elements (one_time_sessions (fst (clear_one_time_sessions mock_brain))) = []
  /\ snd (check_website_access Urllib.netloc mock_brain "https://temp-site.com/page") = ALLOWED
  /\ snd (check_website_access Urllib.netloc (fst (clear_one_time_sessions mock_brain))
            "https://temp-site.com/page")
     = ASK_USER "ASK_USER:This is a new site ('temp-site.com'). How should I proceed? (Options: Yes, No, This time only)".
Proof.
  destruct (clearing_sessions_ends_one_time_access Urllib.netloc mock_brain)
    as (Hn & He & _ & _ & _ & Hurl).
  destruct (Hurl "https://temp-site.com/page") as (Ha & Hc).
  - vm_compute. reflexivity.
  - vm_compute. reflexivity.
  - apply (bool_decide_unpack _). vm_compute. exact I.
  - apply (bool_decide_unpack _). vm_compute. exact I.
  - apply (bool_decide_unpack _). vm_compute. exact I.
  - split; [rewrite Hn; vm_compute; reflexivity|].
    split; [rewrite He; vm_compute; reflexivity|].
    split; [exact Ha|]. rewrite Hc. vm_compute. reflexivity.
Defined.

Lemma revoked_trust_leaves_the_domain_unknown_witness :
  snd (check_website_access Urllib.netloc
         (fst (remove_from_trusted Urllib.netloc
                 (fst (add_to_trusted Urllib.netloc mock_brain "malicious-site.com"))
                 "malicious-site.com"))
         "malicious-site.com")
  = ASK_USER (ask_user_text "malicious-site.com").
Proof.
  destruct (revoked_trust_leaves_the_domain_unknown Urllib.netloc mock_brain
              (fst (add_to_trusted Urllib.netloc mock_brain "malicious-site.com"))
              "malicious-site.com" "malicious-site.com") as (_ & Hc).
  - unfold add_to_trusted. reflexivity.
  - vm_compute. reflexivity.
  - vm_compute. reflexivity.
  - rewrite Hc. reflexivity.
Defined.

(* ===================================================================== *)
(** * Further properties of the decision brain *)
(* ===================================================================== *)

Lemma same_setup_refl (db : DecisionBrain) : same_setup db db.
Proof. by repeat split. Qed.

Lemma same_setup_trans (db1 db2 db3 : DecisionBrain) :
  same_setup db1 db2 -> same_setup db2 db3 -> same_setup db1 db3.
Proof.
  unfold same_setup. intros (?&?&?&?&?&?&?&?) (?&?&?&?&?&?&?&?).
  repeat split; congruence.
Qed.

Lemma learn_effect (command i : string) (success : bool) (db : DecisionBrain) :
  same_setup db (_learn_from_interaction command i success db)
  /\ conversation_history (_learn_from_interaction command i success db) = conversation_history db
  /\ session_context (_learn_from_interaction command i success db) = session_context db
  /\ performance_stats (_learn_from_interaction command i success db) = performance_stats db.
Proof.
  unfold _learn_from_interaction, same_setup.
  destruct (negb (learning_enabled db)); [done|].
  destruct (success && negb (PyStr.is_empty i)); [|done].
  destruct (prefs_read i (user_preferences db)). done.
Qed.

Lemma select_effect (db db' : DecisionBrain) (i a : string) :
  _select_best_action db i = Ok (db', a) ->
  same_setup db db'
  /\ conversation_history db' = conversation_history db
  /\ session_context db' = session_context db
  /\ performance_stats db' = performance_stats db.
Proof.
  unfold _select_best_action, same_setup.
  destruct (knowledge_base db !! i); [|done].
  destruct (default _ _); [done|].
  destruct (prefs_read i (user_preferences db)).
  destruct (most_common1 _) as [[? ?]|]; [destruct (PyStr.mem _ _)|];
    intros H; inversion H; done.
Qed.

Lemma decision_taken_effect (db : DecisionBrain) (command : string) (best : IntentMatch)
    (parameters : gmap string (option string)) (a : string) :
  same_setup db (fst (decision_taken db command best parameters a))
  /\ a_decision command db (fst (decision_taken db command best parameters a))
       (snd (decision_taken db command best parameters a))
  /\ total_decisions (performance_stats (fst (decision_taken db command best parameters a)))
     = total_decisions (performance_stats db).
Proof.
  unfold decision_taken. cbn [fst snd].
  set (result := {| dr_success := true |}).
  set (db1 := _update_conversation_history command (intent best) result db).
  destruct (learn_effect command (intent best) true db1) as (Hs & Hh & Hc & Hp).
  split.
  - apply same_setup_trans with db1; [by repeat split|].
    destruct Hs as (?&?&?&?&?&?&?&?). by repeat split.
  - unfold bump_successful, set_performance_stats.
    cbn [conversation_history session_context performance_stats total_decisions
           successful_decisions clarifications_needed].
    rewrite Hh, Hc, Hp. split; [|done]. exists result, (intent best), a. by repeat split.
Qed.

Lemma bump_total_effect (db : DecisionBrain) :
  same_setup db (bump_total db)
  /\ conversation_history (bump_total db) = conversation_history db
  /\ session_context (bump_total db) = session_context db
  /\ user_preferences (bump_total db) = user_preferences db
  /\ total_decisions (performance_stats (bump_total db)) = S (total_decisions (performance_stats db))
  /\ successful_decisions (performance_stats (bump_total db))
     = successful_decisions (performance_stats db)
  /\ clarifications_needed (performance_stats (bump_total db))
     = clarifications_needed (performance_stats db).
Proof. by repeat split. Qed.

Lemma no_decision_refl (db : DecisionBrain) (r : option DecisionResult) :
  (forall dr, r = Some dr -> dr_success dr = false) -> no_decision db db r.
Proof. intros H. unfold no_decision. by repeat split. Qed.

(** The body of [make_decision]: the setup is kept, and either nothing
    is decided or all of a decision is recorded. *)
Lemma make_decision_body_effect (db db' : DecisionBrain) (command : string)
    (r : option DecisionResult) :
  make_decision_body db command = Ok (db', r) ->
  same_setup db db'
  /\ ((no_decision db db' r
       /\ (clarifications_needed (performance_stats db)
           <= clarifications_needed (performance_stats db')
           <= S (clarifications_needed (performance_stats db)))%nat
       /\ total_decisions (performance_stats db') = total_decisions (performance_stats db))
      \/ (a_decision command db db' r
          /\ total_decisions (performance_stats db') = total_decisions (performance_stats db))).
Proof.
  unfold make_decision_body.
  destruct (_determine_intent_with_confidence db command) as [matches|e]; [|done].
  cbn [bindE]. destruct matches as [|best rest].
  { intros H. inversion H; subst. split; [apply same_setup_refl|]. left.
    split; [by apply no_decision_refl|]. split; [lia|done]. }
  destruct (Qltb _ _).
  { intros H. inversion H; subst. split; [apply same_setup_refl|]. left.
    split; [apply no_decision_refl; by intros dr [= <-]|]. split; [lia|done]. }
  destruct (knowledge_base db !! intent best) as [cfg|].
  2:{ intros H. inversion H; subst. split; [apply same_setup_refl|]. left.
      split; [by apply no_decision_refl|]. split; [lia|done]. }
  destruct (actions cfg) as [|a1 [|a2 more]].
  - intros H. inversion H; subst. split; [apply same_setup_refl|]. left.
    split; [by apply no_decision_refl|]. split; [lia|done].
  - intros H.
    destruct (decision_taken_effect db command best
                (_extract_enhanced_parameters command best) a1) as (Hs & Hd & Ht).
    assert (decision_taken db command best (_extract_enhanced_parameters command best) a1
            = (db', r)) as Heq by congruence.
    rewrite Heq in Hs, Hd, Ht. auto.
  - destruct (context_sensitive cfg).
    + destruct (_select_best_action db (intent best)) as [[db1 a]|e] eqn:Hsel; [|done].
      cbn [bindE]. intros H.
      destruct (select_effect _ _ _ _ Hsel) as (Hs1 & Hh1 & Hc1 & Hp1).
      destruct (decision_taken_effect db1 command best
                  (_extract_enhanced_parameters command best) a) as (Hs & Hd & Ht).
      assert (decision_taken db1 command best (_extract_enhanced_parameters command best) a
              = (db', r)) as Heq by congruence.
      rewrite Heq in Hs, Hd, Ht. cbn [fst snd] in Hs, Hd, Ht.
      split; [by apply same_setup_trans with db1|]. right.
      destruct Hd as (dr & i & a' & ? & ? & ? & ? & Hh & ? & ? & ?).
      split; [|by rewrite Ht, Hp1].
      exists dr, i, a'. destruct Hs1 as (_ & _ & _ & Hw & _).
      rewrite Hh1, Hw, Hp1 in *. by repeat split.
    + intros H. inversion H; subst. split; [by repeat split|]. left.
      unfold no_decision, bump_clarifications, set_performance_stats.
      cbn [conversation_history session_context performance_stats total_decisions
             successful_decisions clarifications_needed].
      repeat split; auto; try lia. by intros dr [= <-].
Qed.

(** [make_decision]: the setup is kept; either nothing is decided, and a
    clarification is counted only if the call was, or all of a decision is
    recorded and one more call is counted. *)
Lemma make_decision_effect (db : DecisionBrain) (command : string) :
  same_setup db (fst (make_decision db command))
  /\ ((no_decision db (fst (make_decision db command)) (snd (make_decision db command))
       /\ (total_decisions (performance_stats db)
           <= total_decisions (performance_stats (fst (make_decision db command)))
           <= S (total_decisions (performance_stats db)))%nat
       /\ (clarifications_needed (performance_stats db)
           <= clarifications_needed (performance_stats (fst (make_decision db command))))%nat
       /\ (clarifications_needed (performance_stats (fst (make_decision db command)))
           + total_decisions (performance_stats db)
           <= clarifications_needed (performance_stats db)
              + total_decisions (performance_stats (fst (make_decision db command))))%nat)
      \/ (a_decision command db (fst (make_decision db command)) (snd (make_decision db command))
          /\ total_decisions (performance_stats (fst (make_decision db command)))
             = S (total_decisions (performance_stats db)))).
Proof.
  unfold make_decision.
  destruct (PyStr.is_empty command || PyStr.is_empty (PyStr.strip command)).
  { cbn [fst snd]. split; [apply same_setup_refl|]. left.
    split; [apply no_decision_refl; by intros dr [= <-]|]. lia. }
  destruct (bump_total_effect db) as (Hs0 & Hh0 & Hc0 & _ & Ht0 & Hsu0 & Hcl0).
  destruct (make_decision_body (bump_total db) command) as [[db' r]|e] eqn:Hbody.
  - cbn [fst snd].
    destruct (make_decision_body_effect _ _ _ _ Hbody) as (Hs & [(Hn & Hcl & Ht)|(Hd & Ht)]).
    + split; [by apply same_setup_trans with (bump_total db)|]. left.
      destruct Hn as (Hr & Hh & Hc & Hsu). unfold no_decision.
      rewrite Hh, Hc, Hsu, Ht, Hh0, Hc0, Hsu0, Ht0. rewrite Hcl0 in Hcl.
      repeat split; auto; lia.
    + split; [by apply same_setup_trans with (bump_total db)|]. right.
      destruct Hd as (dr & i & a & ? & ? & ? & ? & Hh & ? & Hsu & Hcl).
      destruct Hs0 as (_ & _ & _ & Hw & _).
      split; [|by rewrite Ht, Ht0].
      exists dr, i, a. rewrite Hh, Hsu, Hcl, Hh0, Hw, Hsu0, Hcl0. by repeat split.
  - cbn [fst snd].
    destruct (learn_effect command "" false (bump_total db)) as (Hs & Hh & Hc & Hp).
    split; [by apply same_setup_trans with (bump_total db)|]. left.
    unfold no_decision. rewrite Hh, Hc, Hp, Hh0, Hc0, Hsu0, Ht0, Hcl0.
    repeat split; auto; try lia. by intros dr [= <-].
Qed.


Lemma clarification_effect (db db' : DecisionBrain) (original response : string)
    (r : option DecisionResult) :
  handle_clarification_response db original response = Ok (db', r) ->
  same_setup db db'
  /\ conversation_history db' = conversation_history db
  /\ session_context db' = session_context db
  /\ performance_stats db' = performance_stats db.
Proof.
  unfold handle_clarification_response.
  destruct (_determine_intent_with_confidence db original) as [matches|e]; [|done].
  cbn [bindE]. destruct matches as [|best rest].
  { intros H. inversion H; subst. split; [apply same_setup_refl|done]. }
  destruct (chosen_action _ _).
  - intros H. inversion H; subst. apply learn_effect.
  - intros H. inversion H; subst. split; [apply same_setup_refl|done].
Qed.

Lemma pushed_length (window : Z) (e : HistoryEntry) (h : list HistoryEntry) (n : nat) :
  Z.of_nat (length h) = Z.min (Z.max 0 window) (Z.of_nat n) ->
  Z.of_nat (length (pushed window e h)) = Z.min (Z.max 0 window) (Z.of_nat (S n)).
Proof.
  unfold pushed. rewrite length_app. cbn [length].
  destruct (Z.ltb_spec window (Z.of_nat (length h + 1))).
  - destruct h as [|x h]; cbn [app tl length] in *; [lia|]. rewrite length_app. cbn [length]. lia.
  - rewrite length_app. cbn [length]. lia.
Qed.

Lemma pushed_last (window : Z) (e : HistoryEntry) (h : list HistoryEntry) :
  (1 <= window)%Z -> last (pushed window e h) = Some e.
Proof.
  unfold pushed. rewrite length_app. cbn [length]. intros Hw.
  destruct (Z.ltb_spec window (Z.of_nat (length h + 1))).
  - destruct h as [|x h]; cbn [length] in *; [lia|]. cbn [app tl]. apply last_snoc.
  - apply last_snoc.
Qed.

Lemma decision_step_sound (db : DecisionBrain) (call : DecisionCall) :
  bookkeeping_sound db -> bookkeeping_sound (decision_step db call).
Proof.
  intros (Hlen & Hnone & Hlast & Hcount). destruct call as [command|original response].
  - cbn [decision_step].
    destruct (make_decision_effect db command)
      as (Hs & [((_ & Hh & Hc & Hsu) & Ht & Hcl & Hct)|((dr & i & a & _ & _ & _ & _ & Hh & Hl & Hsu & Hcl) & Ht)]);
      destruct Hs as (_ & _ & _ & Hw & _); unfold bookkeeping_sound; rewrite Hh, Hw, Hsu.
    + rewrite Hc. repeat split; try tauto; try lia.
    + rewrite Hl, Hcl, Ht. split; [by apply pushed_length|]. split; [split; intros; done|].
      split; [|lia]. intros H1. by rewrite pushed_last.
  - cbn [decision_step].
    destruct (handle_clarification_response db original response) as [[db' r]|e] eqn:Hc;
      [|unfold bookkeeping_sound; tauto].
    destruct (clarification_effect _ _ _ _ _ Hc) as ((_ & _ & _ & Hw & _) & Hh & Hcx & Hp).
    unfold bookkeeping_sound. rewrite Hh, Hcx, Hp, Hw. tauto.
Qed.

Lemma decision_run_sound (calls : list DecisionCall) (db : DecisionBrain) :
  bookkeeping_sound db -> bookkeeping_sound (decision_run db calls).
Proof.
  revert db. induction calls as [|call calls IH]; intros db H; [done|].
  apply IH, decision_step_sound, H.
Qed.

Lemma decision_step_setup (db : DecisionBrain) (call : DecisionCall) :
  same_setup db (decision_step db call).
Proof.
  destruct call as [command|original response]; cbn [decision_step].
  - apply make_decision_effect.
  - destruct (handle_clarification_response db original response) as [[db' r]|e] eqn:Hc.
    + by destruct (clarification_effect _ _ _ _ _ Hc).
    + apply same_setup_refl.
Qed.

Lemma decision_run_setup (calls : list DecisionCall) (db : DecisionBrain) :
  same_setup db (decision_run db calls).
Proof.
  revert db. induction calls as [|call calls IH]; intros db; [apply same_setup_refl|].
  eapply same_setup_trans; [apply decision_step_setup|apply IH].
Qed.

(** X10. After any sequence of calls to a fresh decision brain, the
    conversation history holds as many entries as decisions succeeded, up
    to the context window (none if the window is not positive);
    [last_intent] is unset exactly as long as no decision succeeded, and
    with a window of at least one it is the intent of the last entry of
    the history. *)
Theorem the_history_holds_the_last_decisions (config : DecisionConfig) (hour : nat)
    (calls : list DecisionCall) :
  Z.of_nat (length (conversation_history (decision_run (DecisionBrain_init config hour) calls)))
  = Z.min (Z.max 0 (default 5%Z (cfg_context_window config)))
      (Z.of_nat (successful_decisions
                   (performance_stats (decision_run (DecisionBrain_init config hour) calls))))
  /\ (last_intent (session_context (decision_run (DecisionBrain_init config hour) calls)) = None
      <-> successful_decisions
            (performance_stats (decision_run (DecisionBrain_init config hour) calls)) = 0%nat)
  /\ ((1 <= default 5%Z (cfg_context_window config))%Z ->
      last_intent (session_context (decision_run (DecisionBrain_init config hour) calls))
      = option_map h_intent
          (last (conversation_history (decision_run (DecisionBrain_init config hour) calls)))).
Proof.
  destruct (decision_run_sound calls (DecisionBrain_init config hour)) as (Hlen & Hnone & Hlast & _).
  { unfold bookkeeping_sound. cbn. repeat split; auto; lia. }
  destruct (decision_run_setup calls (DecisionBrain_init config hour)) as (_ & _ & _ & Hw & _).
  rewrite Hw in Hlen, Hlast. auto.
Qed.

Lemma make_decision_total (db : DecisionBrain) (command : string) :
  total_decisions (performance_stats (fst (make_decision db command)))
  = (total_decisions (performance_stats db) + (if is_blank command then 0 else 1))%nat.
Proof.
  unfold make_decision, is_blank.
  destruct (PyStr.is_empty command || PyStr.is_empty (PyStr.strip command)); cbn [fst]; [lia|].
  destruct (make_decision_body (bump_total db) command) as [[db' r]|e] eqn:Hbody; cbn [fst].
  - destruct (make_decision_body_effect _ _ _ _ Hbody) as (_ & [(_ & _ & Ht)|(_ & Ht)]);
      rewrite Ht; cbn; lia.
  - destruct (learn_effect command "" false (bump_total db)) as (_ & _ & _ & Hp).
    rewrite Hp. cbn. lia.
Qed.

Lemma decision_run_total (calls : list DecisionCall) (db : DecisionBrain) :
  total_decisions (performance_stats (decision_run db calls))
  = (total_decisions (performance_stats db) + length (List.filter counted calls))%nat.
Proof.
  revert db. induction calls as [|call calls IH]; intros db; cbn [decision_run fold_left].
  { cbn. lia. }
  fold (decision_run (decision_step db call) calls). rewrite IH.
  destruct call as [command|original response]; cbn [decision_step List.filter counted].
  - rewrite make_decision_total. destruct (is_blank command); cbn [negb length]; lia.
  - destruct (handle_clarification_response db original response) as [[db' r]|e] eqn:Hc; [|lia].
    destruct (clarification_effect _ _ _ _ _ Hc) as (_ & _ & _ & Hp). rewrite Hp. lia.
Qed.

(** X11. After any sequence of calls to a fresh decision brain,
    [total_decisions] is the number of calls of [make_decision] with a
    command that is not blank ([handle_clarification_response] counts
    nothing), and the successes and the counted clarifications together do
    not exceed it. *)
Theorem decisions_are_counted (config : DecisionConfig) (hour : nat) (calls : list DecisionCall) :
  total_decisions (performance_stats (decision_run (DecisionBrain_init config hour) calls))
  = length (List.filter counted calls)
  /\ (successful_decisions (performance_stats (decision_run (DecisionBrain_init config hour) calls))
      + clarifications_needed (performance_stats (decision_run (DecisionBrain_init config hour) calls))
      <= total_decisions (performance_stats (decision_run (DecisionBrain_init config hour) calls)))%nat.
Proof.
  split.
  - rewrite decision_run_total. cbn. lia.
  - apply (decision_run_sound calls (DecisionBrain_init config hour)).
    unfold bookkeeping_sound. cbn. repeat split; auto; lia.
Qed.

(** X12. No sequence of calls changes the thresholds, the context window,
    the learning switch, the knowledge base, the patterns, the entity
    extractors or the time of day of the session context: the time of day
    stays the one read when the brain was set up. *)
Theorem decisions_keep_the_setup (db : DecisionBrain) (calls : list DecisionCall) :
  same_setup db (decision_run db calls).
Proof.
  revert db. induction calls as [|call calls IH]; intros db; [apply same_setup_refl|].
  cbn [decision_run fold_left]. fold (decision_run (decision_step db call) calls).
  apply same_setup_trans with (decision_step db call); [|apply IH].
  destruct call as [command|original response]; cbn [decision_step].
  - apply make_decision_effect.
  - destruct (handle_clarification_response db original response) as [[db' r]|e] eqn:Hc;
      [|apply same_setup_refl].
    by destruct (clarification_effect _ _ _ _ _ Hc).
Qed.

Lemma counter_get_incr (key k : string) (c : Counter) :
  counter_get k (counter_incr key c)
  = (counter_get k c + (if String.eqb k key then 1 else 0))%Z.
Proof.
  induction c as [|[k0 n] c IH]; cbn [counter_incr counter_get].
  - rewrite (String.eqb_sym key k). destruct (String.eqb k key); lia.
  - destruct (String.eqb_spec k0 key) as [->|Hne]; cbn [counter_get].
    + rewrite (String.eqb_sym key k). destruct (String.eqb k key); lia.
    + destruct (String.eqb_spec k0 k) as [->|Hne'].
      * destruct (String.eqb_spec k key); [congruence|lia].
      * apply IH.
Qed.

Lemma prefs_read_count (i : string) (prefs : gmap string Counter) (intent key : string) :
  counter_get key (default [] (snd (prefs_read i prefs) !! intent))
  = counter_get key (default [] (prefs !! intent)).
Proof.
  unfold prefs_read, Counter in *. destruct (prefs !! i) eqn:Hi; cbn [snd]; [done|].
  destruct (decide (intent = i)) as [->|Hne].
  - by rewrite lookup_insert_eq, Hi.
  - by rewrite lookup_insert_ne.
Qed.

Lemma learn_counts (command i : string) (success : bool) (db : DecisionBrain)
    (intent key : string) :
  preference_count (_learn_from_interaction command i success db) intent key
  = (preference_count db intent key + learnt db command i success intent key)%Z.
Proof.
  unfold _learn_from_interaction, learnt, preference_count.
  destruct (learning_enabled db); cbn [negb andb]; [|lia].
  destruct success; cbn [andb]; [|lia].
  destruct (PyStr.is_empty i); cbn [negb andb]; [lia|].
  unfold Counter in *.
  destruct (prefs_read i (user_preferences db)) as [prefs store] eqn:Hread.
  cbn [user_preferences set_user_preferences].
  destruct (String.eqb_spec intent i) as [->|Hne]; cbn [andb].
  - rewrite lookup_insert_eq. cbn [default from_option id]. rewrite counter_get_incr.
    assert (prefs = default [] (user_preferences db !! i)) as ->.
    { unfold prefs_read in Hread. destruct (user_preferences db !! i); by inversion Hread. }
    done.
  - rewrite lookup_insert_ne by done.
    pose proof (prefs_read_count i (user_preferences db) intent key) as Hc.
    rewrite Hread in Hc. cbn [snd] in Hc. unfold Counter in *. rewrite Hc. lia.
Qed.

Lemma select_counts (db db' : DecisionBrain) (i a : string) (intent key : string) :
  _select_best_action db i = Ok (db', a) ->
  preference_count db' intent key = preference_count db intent key
  /\ learning_enabled db' = learning_enabled db.
Proof.
  unfold _select_best_action, preference_count.
  destruct (knowledge_base db !! i); [|done].
  destruct (default _ _); [done|].
  pose proof (prefs_read_count i (user_preferences db) intent key) as Hc.
  destruct (prefs_read i (user_preferences db)) as [prefs store]. cbn [snd] in Hc.
  destruct (most_common1 _) as [[? ?]|]; [destruct (PyStr.mem _ _)|];
    intros H; inversion H; subst; done.
Qed.

Lemma decision_taken_counts (db : DecisionBrain) (command : string) (best : IntentMatch)
    (parameters : gmap string (option string)) (a : string) (intent0 key : string) :
  preference_count (fst (decision_taken db command best parameters a)) intent0 key
  = (preference_count db intent0 key + learnt db command (intent best) true intent0 key)%Z.
Proof.
  unfold decision_taken. cbn [fst].
  set (result := {| dr_success := true |}).
  change (preference_count (bump_successful ?x) intent0 key) with (preference_count x intent0 key).
  rewrite learn_counts. done.
Qed.

Lemma learnt_failure (db : DecisionBrain) (command i intent0 key : string) :
  learnt db command i false intent0 key = 0%Z.
Proof. unfold learnt. by destruct (learning_enabled db). Qed.

Lemma learnt_enabled (db db' : DecisionBrain) (command i : string) (success : bool)
    (intent0 key : string) :
  learning_enabled db' = learning_enabled db ->
  learnt db' command i success intent0 key = learnt db command i success intent0 key.
Proof. unfold learnt. by intros ->. Qed.

Lemma make_decision_body_counts (db db' : DecisionBrain) (command : string)
    (r : option DecisionResult) (intent0 key : string) :
  make_decision_body db command = Ok (db', r) ->
  preference_count db' intent0 key
  = (preference_count db intent0 key
     + match r with
       | Some dr => learnt db command (default "" (dr_intent dr)) (dr_success dr) intent0 key
       | None => 0
       end)%Z.
Proof.
  unfold make_decision_body.
  destruct (_determine_intent_with_confidence db command) as [matches|e]; [|done].
  cbn [bindE]. destruct matches as [|best rest].
  { intros H. inversion H; subst. lia. }
  destruct (Qltb _ _).
  { intros H. inversion H; subst. cbn [dr_success]. rewrite learnt_failure. lia. }
  destruct (knowledge_base db !! intent best) as [cfg|].
  2:{ intros H. inversion H; subst. lia. }
  destruct (actions cfg) as [|a1 [|a2 more]].
  - intros H. inversion H; subst. lia.
  - intros H.
    assert (decision_taken db command best (_extract_enhanced_parameters command best) a1
            = (db', r)) as Heq by congruence.
    pose proof (decision_taken_counts db command best
                  (_extract_enhanced_parameters command best) a1 intent0 key) as Hc.
    rewrite Heq in Hc. cbn [fst] in Hc. rewrite Hc.
    unfold decision_taken in Heq. injection Heq as _ <-. done.
  - destruct (context_sensitive cfg).
    + destruct (_select_best_action db (intent best)) as [[db1 a]|e] eqn:Hsel; [|done].
      cbn [bindE]. intros H.
      assert (decision_taken db1 command best (_extract_enhanced_parameters command best) a
              = (db', r)) as Heq by congruence.
      destruct (select_counts _ _ _ _ intent0 key Hsel) as (Hc1 & Hl).
      pose proof (decision_taken_counts db1 command best
                    (_extract_enhanced_parameters command best) a intent0 key) as Hc.
      rewrite Heq in Hc. cbn [fst] in Hc. rewrite Hc, Hc1.
      unfold decision_taken in Heq. injection Heq as _ <-.
      cbn [dr_intent dr_success default from_option id].
      by rewrite (learnt_enabled db db1).
    + intros H. inversion H; subst. cbn [dr_success]. rewrite learnt_failure.
      unfold preference_count. cbn. lia.
Qed.

(** X13. What [make_decision] learns is the utterance: the learning store
    of the brain it leaves counts one more for the command under the intent
    decided, if learning is enabled, the decision succeeded and the intent
    is not empty; every other count, in particular that of the action
    chosen, is as before. *)
Theorem learning_counts_the_utterance (db : DecisionBrain) (command intent0 key : string) :
  preference_count (fst (make_decision db command)) intent0 key
  = (preference_count db intent0 key
     + match snd (make_decision db command) with
       | Some dr =>
           if learning_enabled db && dr_success dr
              && negb (PyStr.is_empty (default "" (dr_intent dr)))
              && String.eqb intent0 (default "" (dr_intent dr)) && String.eqb key command
           then 1
           else 0
       | None => 0
       end)%Z.
Proof.
  unfold make_decision.
  destruct (PyStr.is_empty command || PyStr.is_empty (PyStr.strip command)).
  { cbn [fst snd dr_success]. rewrite !andb_false_r. cbn. lia. }
  destruct (make_decision_body (bump_total db) command) as [[db' r]|e] eqn:Hbody; cbn [fst snd].
  - rewrite (make_decision_body_counts _ _ _ _ intent0 key Hbody).
    change (preference_count (bump_total db) intent0 key) with (preference_count db intent0 key).
    destruct r as [dr|]; [|done]. reflexivity.
  - rewrite learn_counts. rewrite learnt_failure. cbn [dr_success]. rewrite !andb_false_r. cbn.
    change (preference_count (bump_total db) intent0 key) with (preference_count db intent0 key).
    lia.
Qed.

Lemma chosen_action_spec (acts : list string) (response_lower a : string) :
  chosen_action acts response_lower = Some a ->
  exists before after : list string,
    acts = (before ++ a :: after)%list
    /\ PyStr.contains (PyStr.replace "_" " " a) response_lower = true
    /\ Forall (fun b => PyStr.contains (PyStr.replace "_" " " b) response_lower = false) before.
Proof.
  induction acts as [|b acts IH]; cbn [chosen_action]; [done|].
  destruct (PyStr.contains (PyStr.replace "_" " " b) response_lower) eqn:Hb.
  - intros [= <-]. exists [], acts. by repeat split.
  - intros H. destruct (IH H) as (before & after & -> & Ha & Hbefore).
    exists (b :: before), after. repeat split; [done|]. by constructor.
Qed.

Lemma chosen_action_none (acts : list string) (response_lower : string) :
  chosen_action acts response_lower = None ->
  Forall (fun b => PyStr.contains (PyStr.replace "_" " " b) response_lower = false) acts.
Proof.
  induction acts as [|b acts IH]; cbn [chosen_action]; [by constructor|].
  destruct (PyStr.contains (PyStr.replace "_" " " b) response_lower) eqn:Hb; [done|].
  intros H. constructor; [done|by apply IH].
Qed.

(** X14. [handle_clarification_response], when it returns a result, has
    resolved the original command again and either selected the first
    action of the best intent, in the order of the knowledge base, whose
    name (blanks for underscores) occurs in the lower-cased answer, or
    found no such action, changed nothing and answered that it did not
    understand. In both cases the conversation history, the session context
    and the counters are as before: a decision reached by clarification is
    neither counted nor entered in the history. *)
Theorem a_clarification_answer_selects_a_listed_action (db db' : DecisionBrain)
    (original response : string) (dr : DecisionResult) :
  handle_clarification_response db original response = Ok (db', Some dr) ->
  conversation_history db' = conversation_history db
  /\ session_context db' = session_context db
  /\ performance_stats db' = performance_stats db
  /\ exists (best : IntentMatch) (rest : list IntentMatch) (possible_actions : list string),
       _determine_intent_with_confidence db original = Ok (best :: rest)
       /\ possible_actions = match knowledge_base db !! intent best with
                             | Some intent_config => actions intent_config
                             | None => []
                             end
       /\ ((dr_success dr = true
            /\ dr_intent dr = Some (intent best)
            /\ exists (a : string) (before after : list string),
                 dr_action dr = Some a
                 /\ possible_actions = (before ++ a :: after)%list
                 /\ PyStr.contains (PyStr.replace "_" " " a) (PyStr.lower response) = true
                 /\ Forall (fun b => PyStr.contains (PyStr.replace "_" " " b) (PyStr.lower response)
                                     = false) before)
           \/ (dr_success dr = false
               /\ dr_clarification_needed dr = true
               /\ dr_clarification_message dr = Some "CLARIFY:I didn't understand that choice, Boss."
               /\ db' = db
               /\ Forall (fun b => PyStr.contains (PyStr.replace "_" " " b) (PyStr.lower response)
                                   = false) possible_actions)).
Proof.
  intros H. destruct (clarification_effect _ _ _ _ _ H) as (_ & Hh & Hc & Hp).
  split; [done|]. split; [done|]. split; [done|].
  unfold handle_clarification_response in H.
  destruct (_determine_intent_with_confidence db original) as [matches|e]; [|done].
  cbn [bindE] in H. destruct matches as [|best rest]; [done|].
  exists best, rest, (match knowledge_base db !! intent best with
                      | Some intent_config => actions intent_config
                      | None => []
                      end).
  split; [done|]. split; [done|].
  destruct (chosen_action _ _) as [a|] eqn:Hchosen.
  - left. injection H as _ <-. cbn [dr_success dr_intent dr_action].
    split; [done|]. split; [done|].
    destruct (chosen_action_spec _ _ _ Hchosen) as (before & after & Hacts & Ha & Hb).
    exists a, before, after. by repeat split.
  - right. injection H as <- <-. cbn [dr_success dr_clarification_needed dr_clarification_message].
    repeat split. by apply chosen_action_none.
Qed.

Lemma a_clarification_answer_selects_a_listed_action_witness :
  exists (db' : DecisionBrain) (dr : DecisionResult),
    handle_clarification_response (DecisionBrain_init default_decision_config 14)
      "system status" "Check performance, please" = Ok (db', Some dr)
    /\ dr_action dr = Some "check_performance"
    /\ conversation_history db' = [].
Proof.
  destruct (handle_clarification_response (DecisionBrain_init default_decision_config 14)
              "system status" "Check performance, please") as [[db' [dr|]]|] eqn:E;
    [|by vm_compute in E|by vm_compute in E].
  destruct (a_clarification_answer_selects_a_listed_action _ _ _ _ _ E) as (Hh & _).
  exists db', dr. split; [reflexivity|]. split; [|exact Hh].
  vm_compute in E. injection E as _ <-. reflexivity.
Defined.









(* ===================================================================== *)
(** * Further properties of the coordinator *)
(* ===================================================================== *)

Lemma accounted_refl (s : VitaCNS) : accounted s s false.
Proof. unfold accounted. repeat split; lia. Qed.

Lemma accounted_step (s s1 s2 : VitaCNS) (asked : bool) :
  accounted s s1 false -> accounted s1 s2 asked -> accounted s s2 asked.
Proof.
  unfold accounted. intros (Ht1 & Hc1 & Hd1 & Hr1 & Ha1) (Ht2 & Hc2 & Hd2 & Hr2 & Ha2).
  repeat split; try congruence; lia.
Qed.

Ltac account :=
  repeat first
    [ progress unfold accounted, tally, assign_security_question, assign_decision_clarification,
        log_action, record_event, update_stats, set_events, set_session_stats,
        set_pending_security_question, set_pending_decision_clarification, set_decision_brain,
        set_security_brain, set_last_command, assignment_events
    | progress cbn [app events session_stats pending_security_question
                      pending_decision_clarification memory_brain
                      commands_processed successful_commands failed_commands
                      clarifications_requested security_checks usage_decision_brain
                      usage_automation_brain usage_response_brain
                      bump_usage_decision_brain bump_usage_automation_brain
                      bump_usage_response_brain bump_security_checks]
    | match goal with
      | |- context [if memory_brain ?s then _ else _] => destruct (memory_brain s)
      | |- context [match pending_security_question ?s with Some _ => _ | None => _ end] =>
          destruct (pending_security_question s)
      | |- context [match pending_decision_clarification ?s with Some _ => _ | None => _ end] =>
          destruct (pending_decision_clarification s)
      | |- context [match ?x with Some _ => _ | None => _ end] => destruct x
      end ];
  rewrite ?occurrences_cons;
  cbn [is_make_decision is_process_command is_execute_command];
  repeat split; lia.

Lemma accounted_make_decision (s : VitaCNS) (command : string) (db : option DecisionBrain) :
  accounted s (set_decision_brain db
                 (record_event (CallMakeDecision command)
                    (update_stats bump_usage_decision_brain s))) false.
Proof. account. Qed.

Lemma accounted_process_command (s : VitaCNS) (command : string) :
  accounted s (record_event (CallProcessCommand command)
                 (update_stats bump_usage_response_brain s)) false.
Proof. account. Qed.

Lemma accounted_execute_counted (s : VitaCNS) (command : string) :
  accounted s (record_event (CallExecuteCommand command)
                 (update_stats bump_usage_automation_brain s)) false.
Proof. account. Qed.

Lemma accounted_execute (s : VitaCNS) (command : string) :
  accounted s (record_event (CallExecuteCommand command) s) false.
Proof. account. Qed.

Lemma accounted_clarification (s : VitaCNS) (v : option DecisionClarification) :
  accounted s (assign_decision_clarification v s) false.
Proof. account. Qed.

Lemma accounted_clarification_response (s : VitaCNS) (original response : string)
    (db : option DecisionBrain) :
  accounted s (set_decision_brain db
                 (record_event (CallClarificationResponse original response) s)) false.
Proof. account. Qed.

Lemma accounted_record (s : VitaCNS) (e : Event) :
  is_make_decision e = false -> is_process_command e = false ->
  accounted s (record_event e s) false.
Proof.
  intros H1 H2. unfold accounted, tally, record_event, set_events.
  cbn [events session_stats]. rewrite !occurrences_cons, H1, H2.
  repeat split; lia.
Qed.

Lemma accounted_security_question (s : VitaCNS) (v : option SecurityQuestion) :
  accounted s (update_stats bump_security_checks (assign_security_question v s)) true.
Proof. account. Qed.

Lemma handled_plain (s s' : VitaCNS) (r : CommandResult) :
  accounted s s' false -> cr_requires_clarification r = false -> handled s s' r.
Proof. intros Ha Hr. exists false. split; [exact Ha|]. split; [done|]. by rewrite Hr. Qed.

Lemma handled_after (s s1 s2 : VitaCNS) (r : CommandResult) :
  accounted s s1 false -> handled s1 s2 r -> handled s s2 r.
Proof.
  intros Ha (asked & Hacc & H1 & H2). exists asked. split; [|done].
  by apply accounted_step with s1.
Qed.

Section CoordinatorAccounts.

Variable urlparse_netloc : string -> Exc string.
Variable w : World.

Lemma handled_security_question (s : VitaCNS) (security_response original_command : string) :
  handled s (fst (_handle_security_question s security_response original_command))
    (snd (_handle_security_question s security_response original_command)).
Proof.
  unfold _handle_security_question. cbn [fst snd]. exists true.
  split; [apply accounted_security_question|]. by cbn.
Qed.

Lemma handled_by_automation (s : VitaCNS) (command : string) :
  handled s (fst (process_by_automation w s command)) (snd (process_by_automation w s command)).
Proof.
  unfold process_by_automation.
  destruct (automation_brain s); [|by apply handled_plain; [apply accounted_refl|]].
  pose proof (accounted_execute_counted s command) as Ha.
  destruct (execute_command w command) as [[automation_response|]|e];
    [|by apply handled_plain..].
  destruct (PyStr.is_empty automation_response); [by apply handled_plain|].
  destruct (PyStr.startswith "ASK_USER:" automation_response); [|by apply handled_plain].
  eapply handled_after; [exact Ha|]. apply handled_security_question.
Qed.

Lemma handled_by_response (s : VitaCNS) (command : string) :
  handled s (fst (process_by_response w s command)) (snd (process_by_response w s command)).
Proof.
  unfold process_by_response.
  destruct (response_brain s); [|apply handled_by_automation].
  pose proof (accounted_process_command s command) as Ha.
  destruct (process_command w command) as [[response|]|e];
    [|eapply handled_after; [exact Ha|apply handled_by_automation]..].
  destruct (PyStr.is_empty response);
    [eapply handled_after; [exact Ha|apply handled_by_automation]|by apply handled_plain].
Qed.

Lemma handled_process_command_enhanced (s : VitaCNS) (command : string) :
  handled s (fst (_process_command_enhanced w s command))
    (snd (_process_command_enhanced w s command)).
Proof.
  unfold _process_command_enhanced.
  destruct (decision_brain s) as [db|]; [|apply handled_by_response].
  destruct (make_decision db command) as [db' decision_result].
  pose proof (accounted_make_decision s command (Some db')) as H1.
  destruct decision_result as [dr|];
    [|eapply handled_after; [exact H1|apply handled_by_response]].
  destruct (dr_success dr && truthy (dr_automation_command dr)).
  - cbn [automation_brain set_decision_brain record_event set_events update_stats set_session_stats].
    destruct (automation_brain s);
      [|eapply handled_after; [exact H1|apply handled_by_response]].
    match goal with
    | |- context [execute_command w ?c] =>
        pose proof (accounted_step _ _ _ _ H1 (accounted_execute_counted _ c)) as H2;
        destruct (execute_command w c) as [r|]
    end.
    + match goal with |- context [if ?b then _ else _] => destruct b end.
      * eapply handled_after; [exact H2|apply handled_security_question].
      * by apply handled_plain.
    + eapply handled_after; [exact H2|apply handled_by_response].
  - destruct (dr_clarification_needed dr);
      [|eapply handled_after; [exact H1|apply handled_by_response]].
    cbn [fst snd]. exists false. split; [|by cbn].
    eapply accounted_step; [exact H1|apply accounted_clarification].
Qed.

Lemma handled_decision_clarification (s : VitaCNS) (user_response : string) :
  handled s (fst (_handle_decision_clarification w s user_response))
    (snd (_handle_decision_clarification w s user_response)).
Proof.
  unfold _handle_decision_clarification.
  destruct (pending_decision_clarification s) as [ctx|] eqn:Ep;
    [|by apply handled_plain; [apply accounted_refl|]].
  pose proof (accounted_clarification s None) as H0.
  cbn [decision_brain assign_decision_clarification set_pending_decision_clarification set_events].
  destruct (decision_brain s) as [db|];
    [|eapply handled_after; [exact H0|apply handled_process_command_enhanced]].
  destruct (handle_clarification_response db (dc_original_command ctx) user_response)
    as [[db' result]|].
  2:{ apply handled_plain; [|done].
      eapply accounted_step; [exact H0|]. by apply accounted_record. }
  pose proof (accounted_step _ _ _ _ H0
                (accounted_clarification_response _ (dc_original_command ctx) user_response
                   (Some db'))) as H2.
  destruct result as [dr|];
    [|eapply handled_after; [exact H2|apply handled_process_command_enhanced]].
  destruct (dr_success dr).
  - match goal with |- context [if ?b then _ else _] => destruct b end;
      [|eapply handled_after; [exact H2|apply handled_process_command_enhanced]].
    match goal with
    | |- context [execute_command w ?c] =>
        pose proof (accounted_step _ _ _ _ H2 (accounted_execute _ c)) as H3;
        destruct (execute_command w c) as [r|]
    end; [|by apply handled_plain].
    destruct (truthy r);
      [by apply handled_plain
      |eapply handled_after; [exact H3|apply handled_process_command_enhanced]].
  - destruct (dr_clarification_needed dr);
      [|eapply handled_after; [exact H2|apply handled_process_command_enhanced]].
    cbn [fst snd]. exists false. split; [|by cbn].
    eapply accounted_step; [exact H2|apply accounted_clarification].
Qed.

End CoordinatorAccounts.

Section CoordinatorAccounts2.

Variable urlparse_netloc : string -> Exc string.
Variable w : World.

Lemma accounted_with_security_brain (f : SecurityBrain -> string -> SecurityBrain * bool)
    (e : Event) (domain : string) (s : VitaCNS) :
  is_make_decision e = false -> is_process_command e = false ->
  accounted s (with_security_brain f e domain s) false.
Proof.
  intros H1 H2. unfold with_security_brain. destruct (security_brain s); [|apply accounted_refl].
  unfold accounted, tally, record_event, set_events, set_security_brain.
  cbn [events session_stats]. rewrite !occurrences_cons, H1, H2. repeat split; lia.
Qed.

Lemma accounted_conclude_security (url final_response : string) (s s0 : VitaCNS)
    (opened : Exc VitaCNS) :
  accounted s0 s false ->
  (forall s', opened = Ok s' -> accounted s s' false) ->
  accounted s0 (fst (conclude_security url final_response s opened)) false.
Proof.
  intros H0 Ho. unfold conclude_security. destruct opened as [s'|e]; cbn [fst].
  - eapply accounted_step; [exact H0|]. eapply accounted_step; [by apply Ho|]. account.
  - eapply accounted_step; [exact H0|]. account.
Qed.

Lemma accounted_open_if_loaded (url : string) (s s' : VitaCNS) :
  open_if_loaded w url s = Ok s' -> accounted s s' false.
Proof.
  unfold open_if_loaded. destruct (automation_brain s).
  - destruct (_open_website w url); [|done]. intros [= <-]. by apply accounted_record.
  - intros [= <-]. apply accounted_refl.
Qed.

Lemma accounted_security_response (s : VitaCNS) (user_answer : string) :
  accounted s (fst (_handle_security_response urlparse_netloc w s user_answer)) false.
Proof.
  unfold _handle_security_response.
  destruct (pending_security_question s) as [q|]; [|cbn [fst]; account].
  match goal with |- context [match ?d with Ok _ => _ | Raise _ => _ end] => destruct d as [domain|e] end;
    [|cbn [fst]; account].
  repeat match goal with |- context [if PyStr.mem ?a ?l then _ else _] => destruct (PyStr.mem a l) end.
  - apply accounted_conclude_security; [by apply accounted_with_security_brain|].
    apply accounted_open_if_loaded.
  - apply accounted_conclude_security; [by apply accounted_with_security_brain|].
    intros s' [= <-]. apply accounted_refl.
  - apply accounted_conclude_security; [by apply accounted_with_security_brain|].
    apply accounted_open_if_loaded.
  - cbn [fst]. apply accounted_refl.
Qed.

Lemma finish_command_sound (s0 s : VitaCNS) (command : option string) (r : CommandResult) :
  stats_sound s0 ->
  handled (set_last_command command (update_stats bump_commands_processed s0)) s r ->
  stats_sound (fst (finish_command (s, r))).
Proof.
  intros (Hp & Hc & Hf & Hd & Hr & Ha) (asked & (Ht & Hs & Hd' & Hr' & Ha') & Hasked & Hreq).
  unfold tally, set_last_command, update_stats, set_session_stats in Ht, Hs, Hd', Hr', Ha'.
  cbn [events session_stats commands_processed successful_commands failed_commands
         clarifications_requested security_checks usage_decision_brain usage_automation_brain
         usage_response_brain bump_commands_processed] in Ht, Hs, Hd', Hr', Ha'.
  injection Ht as Ht1 Ht2 Ht3 Ht4.
  unfold finish_command, stats_sound, log_action, record_event, update_stats, set_events,
    set_session_stats. cbn [fst].
  destruct (cr_requires_clarification r) eqn:Hq.
  - rewrite (Hreq eq_refl).
    destruct (memory_brain _);
      cbn [events session_stats commands_processed successful_commands failed_commands
             clarifications_requested security_checks usage_decision_brain
             usage_automation_brain usage_response_brain bump_failed_commands
             bump_clarifications_requested];
      rewrite ?occurrences_cons; cbn [is_make_decision is_process_command is_execute_command];
      destruct asked; repeat split; lia.
  - assert (asked = false) as -> by (destruct asked; [by specialize (Hasked eq_refl)|done]).
    destruct (cr_success r), (memory_brain _);
      cbn [events session_stats commands_processed successful_commands failed_commands
             clarifications_requested security_checks usage_decision_brain
             usage_automation_brain usage_response_brain bump_failed_commands
             bump_successful_commands];
      rewrite ?occurrences_cons; cbn [is_make_decision is_process_command is_execute_command];
      repeat split; lia.
Qed.

Lemma finish_command_processed (s0 s : VitaCNS) (command : option string) (r : CommandResult) :
  handled (set_last_command command (update_stats bump_commands_processed s0)) s r ->
  commands_processed (session_stats (fst (finish_command (s, r))))
  = S (commands_processed (session_stats s0)).
Proof.
  intros (asked & (Ht & _) & _).
  unfold tally, set_last_command, update_stats, set_session_stats in Ht.
  cbn [session_stats commands_processed successful_commands failed_commands
         clarifications_requested bump_commands_processed] in Ht.
  injection Ht as Ht1 _ _ _.
  unfold finish_command, log_action, record_event, update_stats, set_events, set_session_stats.
  cbn [fst].
  destruct (cr_requires_clarification r), (cr_success r), (memory_brain _); cbn; exact Ht1.
Qed.

Lemma handle_command_sound (s : VitaCNS) (command : string) :
  stats_sound s ->
  stats_sound (fst (handle_command urlparse_netloc w s command))
  /\ commands_processed (session_stats (fst (handle_command urlparse_netloc w s command)))
     = S (commands_processed (session_stats s)).
Proof.
  intros Hs. unfold handle_command.
  set (s1 := set_last_command (Some command) (update_stats bump_commands_processed s)).
  destruct (pending_security_question s1) as [q|].
  - pose proof (accounted_security_response s1 command) as Ha.
    destruct (_handle_security_response urlparse_netloc w s1 command) as [s2 answer].
    assert (handled s1 s2
              {| cr_success := true; cr_response := Some answer;
                 cr_source_brain := "SecurityBrain"; cr_requires_clarification := false;
                 cr_clarification_message := None; cr_metadata := None |}) as Hh
      by (by apply handled_plain).
    split; [by apply (finish_command_sound s _ (Some command))
           |by apply (finish_command_processed s _ (Some command))].
  - destruct (pending_decision_clarification s1) as [c|].
    + pose proof (handled_decision_clarification w s1 command) as Hh.
      destruct (_handle_decision_clarification w s1 command) as [s2 r].
      split; [by apply (finish_command_sound s _ (Some command))
             |by apply (finish_command_processed s _ (Some command))].
    + pose proof (handled_process_command_enhanced w s1 command) as Hh.
      destruct (_process_command_enhanced w s1 command) as [s2 r].
      split; [by apply (finish_command_sound s _ (Some command))
             |by apply (finish_command_processed s _ (Some command))].
Qed.

End CoordinatorAccounts2.

Lemma run_sound (urlparse_netloc : string -> Exc string) (inputs : list (World * string))
    (s : VitaCNS) :
  stats_sound s ->
  stats_sound (run urlparse_netloc s inputs)
  /\ commands_processed (session_stats (run urlparse_netloc s inputs))
     = (commands_processed (session_stats s) + length inputs)%nat.
Proof.
  revert s. induction inputs as [|[w command] inputs IH]; intros s Hs; cbn [run length].
  { split; [done|lia]. }
  destruct (handle_command_sound urlparse_netloc w s command Hs) as (Hs' & Hp).
  destruct (IH _ Hs') as (Hr & Hn). split; [done|]. rewrite Hn, Hp. lia.
Qed.

(** X15. After any sequence of commands to a coordinator as [__init__]
    leaves it, whatever the brains answer: [commands_processed] is the
    number of commands and the sum of [successful_commands] and
    [failed_commands]; [security_checks] does not exceed
    [clarifications_requested], which does not exceed [failed_commands];
    the usage counters of the decision and the response brain are the
    numbers of calls of [make_decision] and [process_command]; that of the
    automation brain does not exceed the number of calls of
    [execute_command] (a command executed for a clarified decision is not
    counted). *)
Theorem the_session_counters_add_up (urlparse_netloc : string -> Exc string)
    (security : option SecurityBrain) (decision : option DecisionBrain)
    (automation response memory : bool) (inputs : list (World * string)) :
  stats_sound (run urlparse_netloc (VitaCNS_init security decision automation response memory)
                 inputs)
  /\ commands_processed
       (session_stats (run urlparse_netloc
                         (VitaCNS_init security decision automation response memory) inputs))
     = length inputs.
Proof.
  destruct (run_sound urlparse_netloc inputs
              (VitaCNS_init security decision automation response memory)) as (Hs & Hn).
  { unfold stats_sound. cbn. repeat split; lia. }
  split; [exact Hs|]. rewrite Hn. reflexivity.
Qed.

Lemma once_is_neither_yes_nor_no (answer : string) :
  PyStr.mem answer ["this time only"; "once"; "just once"; "temporary"; "temp"] = true ->
  PyStr.mem answer ["yes"; "y"; "allow"; "allow permanently"; "permanently"] = false
  /\ PyStr.mem answer ["no"; "n"; "block"; "deny"; "never"] = false.
Proof.
  intros H. apply mem_In in H. simpl in H.
  destruct H as [<-|[<-|[<-|[<-|[<-|[]]]]]]; split; reflexivity.
Qed.

Section SecurityGrants.

Variable urlparse_netloc : string -> Exc string.
Variable w : World.

(** What the end of [_handle_security_response] leaves, once the lists
    were updated in [s]: the question is cleared and the brain of [s]
    kept, whether the site could be opened or not. *)
Lemma conclude_security_effect (url final_response : string) (s : VitaCNS) (q : SecurityQuestion) :
  pending_security_question s = Some q ->
  pending_security_question
    (fst (conclude_security url final_response s (open_if_loaded w url s))) = None
  /\ pending_decision_clarification
       (fst (conclude_security url final_response s (open_if_loaded w url s)))
     = pending_decision_clarification s
  /\ security_brain (fst (conclude_security url final_response s (open_if_loaded w url s)))
     = security_brain s
  /\ occurrences is_open_website
       (events (fst (conclude_security url final_response s (open_if_loaded w url s))))
     = (occurrences is_open_website (events s) + (if automation_brain s then 1 else 0))%nat
  /\ snd (conclude_security url final_response s (open_if_loaded w url s))
     = match (if automation_brain s then _open_website w url else Ok tt) with
       | Ok _ => final_response
       | Raise e => security_trouble e
       end.
Proof.
  intros Hq. unfold open_if_loaded, conclude_security.
  destruct (automation_brain s); [destruct (_open_website w url) as [[]|e]|];
    unfold assign_security_question, log_action, record_event, set_events,
      set_pending_security_question;
    cbn [fst snd memory_brain]; destruct (memory_brain s);
    cbn [pending_security_question pending_decision_clarification security_brain events];
    rewrite ?Hq; cbn [assignment_events app]; rewrite ?occurrences_cons;
    cbn [is_open_website]; repeat split; lia.
Qed.

End SecurityGrants.

(** X16. While a security question is pending and a security brain is
    loaded, an answer of permanent consent ("yes", "y", "allow", ...) hands
    the domain to [add_to_trusted], one of consent for once ("this time
    only", "once", ...) hands it to [add_to_one_time], both before the site
    is opened: the lists are updated and the question is cleared whether
    [_open_website] returns or raises. The site is opened exactly once if
    an automation brain is loaded; if that raises, the answer reports the
    trouble instead of the grant. *)
Theorem a_grant_is_recorded_before_the_site_is_opened (urlparse_netloc : string -> Exc string)
    (w : World) (s : VitaCNS) (q : SecurityQuestion) (sb : SecurityBrain) (user_answer : string) :
  pending_security_question s = Some q ->
  security_brain s = Some sb ->
  (PyStr.mem (PyStr.strip (PyStr.lower user_answer))
     ["yes"; "y"; "allow"; "allow permanently"; "permanently"] = true ->
   security_brain (fst (_handle_security_response urlparse_netloc w s user_answer))
   = Some (fst (add_to_trusted urlparse_netloc sb (extract_domain urlparse_netloc (sq_url q))))
   /\ pending_security_question (fst (_handle_security_response urlparse_netloc w s user_answer))
      = None
   /\ occurrences is_open_website
        (events (fst (_handle_security_response urlparse_netloc w s user_answer)))
      = (occurrences is_open_website (events s) + (if automation_brain s then 1 else 0))%nat
   /\ snd (_handle_security_response urlparse_netloc w s user_answer)
      = match (if automation_brain s then _open_website w (sq_url q) else Ok tt) with
        | Ok _ => "Understood, Boss. I've added '" ++ extract_domain urlparse_netloc (sq_url q)
                  ++ "' to the VIP list. Opening it now."
        | Raise e => security_trouble e
        end)
  /\ (PyStr.mem (PyStr.strip (PyStr.lower user_answer))
        ["this time only"; "once"; "just once"; "temporary"; "temp"] = true ->
      security_brain (fst (_handle_security_response urlparse_netloc w s user_answer))
      = Some (fst (add_to_one_time urlparse_netloc sb (extract_domain urlparse_netloc (sq_url q))))
      /\ pending_security_question (fst (_handle_security_response urlparse_netloc w s user_answer))
         = None
      /\ occurrences is_open_website
           (events (fst (_handle_security_response urlparse_netloc w s user_answer)))
         = (occurrences is_open_website (events s) + (if automation_brain s then 1 else 0))%nat
      /\ snd (_handle_security_response urlparse_netloc w s user_answer)
         = match (if automation_brain s then _open_website w (sq_url q) else Ok tt) with
           | Ok _ => "Okay, Boss. Granting one-time access to '"
                     ++ extract_domain urlparse_netloc (sq_url q) ++ "'."
           | Raise e => security_trouble e
           end).
Proof.
  intros Hq Hsb. split.
  - intros Hyes. unfold _handle_security_response. rewrite Hq, Hsb, Hyes.
    unfold with_security_brain. rewrite Hsb.
    match goal with
    | |- context [conclude_security ?url ?msg ?s1 _] =>
        destruct (conclude_security_effect w url msg s1 q) as (Hp & _ & Hb & Ho & Ha); [exact Hq|]
    end.
    rewrite Hp, Hb, Ho, Ha. cbn [security_brain record_event set_events set_security_brain events
                                   automation_brain].
    rewrite occurrences_cons. cbn [is_open_website]. repeat split; lia.
  - intros Honce. destruct (once_is_neither_yes_nor_no _ Honce) as (Hyes & Hno).
    unfold _handle_security_response. rewrite Hq, Hsb, Hyes, Hno, Honce.
    unfold with_security_brain. rewrite Hsb.
    match goal with
    | |- context [conclude_security ?url ?msg ?s1 _] =>
        destruct (conclude_security_effect w url msg s1 q) as (Hp & _ & Hb & Ho & Ha); [exact Hq|]
    end.
    rewrite Hp, Hb, Ho, Ha. cbn [security_brain record_event set_events set_security_brain events
                                   automation_brain].
    rewrite occurrences_cons. cbn [is_open_website]. repeat split; lia.
Qed.

Lemma chosen_action_unnamed (acts : list string) (response_lower : string) :
  Forall (fun b => PyStr.contains (PyStr.replace "_" " " b) response_lower = false) acts ->
  chosen_action acts response_lower = None.
Proof.
  induction 1 as [|b acts Hb _ IH]; cbn [chosen_action]; [done|]. by rewrite Hb.
Qed.

(** X17. While a clarification is pending, an answer in which no action
    of the intent resolved for the original command is named (blanks for
    underscores, any case) keeps the clarification pending with the same
    original command: the decision brain is not changed, nothing is
    resolved afresh or executed, and the user is told that the choice was
    not understood. *)
Theorem an_answer_naming_no_action_keeps_the_clarification_pending (w : World) (s : VitaCNS)
    (c : DecisionClarification) (db : DecisionBrain) (user_response : string)
    (best : IntentMatch) (rest : list IntentMatch) :
  pending_decision_clarification s = Some c ->
  decision_brain s = Some db ->
  _determine_intent_with_confidence db (dc_original_command c) = Ok (best :: rest) ->
  Forall (fun a => PyStr.contains (PyStr.replace "_" " " a) (PyStr.lower user_response) = false)
    (match knowledge_base db !! intent best with
     | Some intent_config => actions intent_config
     | None => []
     end) ->
  option_map dc_original_command
    (pending_decision_clarification (fst (_handle_decision_clarification w s user_response)))
  = Some (dc_original_command c)
  /\ pending_security_question (fst (_handle_decision_clarification w s user_response))
     = pending_security_question s
  /\ decision_brain (fst (_handle_decision_clarification w s user_response)) = Some db
  /\ occurrences is_make_decision (events (fst (_handle_decision_clarification w s user_response)))
     = occurrences is_make_decision (events s)
  /\ occurrences is_execute_command
       (events (fst (_handle_decision_clarification w s user_response)))
     = occurrences is_execute_command (events s)
  /\ cr_success (snd (_handle_decision_clarification w s user_response)) = false
  /\ cr_requires_clarification (snd (_handle_decision_clarification w s user_response)) = true
  /\ cr_clarification_message (snd (_handle_decision_clarification w s user_response))
     = Some "CLARIFY:I didn't understand that choice, Boss.".
Proof.
  intros Hp Hdb Hdet Hnone.
  assert (handle_clarification_response db (dc_original_command c) user_response
          = Ok (db, Some
                  {| dr_success := false; dr_action := None; dr_automation_command := None;
                     dr_parameters := None; dr_confidence := 0%Q; dr_intent := None;
                     dr_clarification_needed := true;
                     dr_clarification_message := Some "CLARIFY:I didn't understand that choice, Boss.";
                     dr_alternatives := None |})) as Hanswer.
  { unfold handle_clarification_response. rewrite Hdet. cbn [bindE].
    by rewrite (chosen_action_unnamed _ _ Hnone). }
  unfold _handle_decision_clarification. rewrite Hp.
  cbn [decision_brain assign_decision_clarification set_pending_decision_clarification set_events].
  rewrite Hdb, Hanswer. cbn [dr_success dr_clarification_needed dr_clarification_message fst snd].
  unfold assign_decision_clarification, record_event, set_decision_brain, set_events,
    set_pending_decision_clarification.
  cbn [pending_decision_clarification pending_security_question decision_brain events
         cr_success cr_requires_clarification cr_clarification_message option_map
         dc_original_command assignment_events app].
  rewrite Hp. cbn [assignment_events app]. rewrite !occurrences_cons.
  cbn [is_make_decision is_execute_command]. repeat split; lia.
Qed.

(** X18. When the answer to a clarification selects an action and the
    automation brain returns a non-empty text for its command, that text is
    the response of a successful result, whatever it is: unlike
    [_process_command_enhanced], the clarification handler does not look
    for the ASK_USER prefix, so no security question becomes pending and
    no security check is counted. *)
Theorem no_security_question_is_raised_for_a_clarified_command (w : World) (s : VitaCNS)
    (c : DecisionClarification) (db db' : DecisionBrain) (user_response : string)
    (dr : DecisionResult) (automation_command automation_response : string) :
  pending_decision_clarification s = Some c ->
  decision_brain s = Some db ->
  automation_brain s = true ->
  handle_clarification_response db (dc_original_command c) user_response = Ok (db', Some dr) ->
  dr_success dr = true ->
  dr_automation_command dr = Some automation_command ->
  PyStr.is_empty automation_command = false ->
  execute_command w automation_command = Ok (Some automation_response) ->
  PyStr.is_empty automation_response = false ->
  pending_security_question (fst (_handle_decision_clarification w s user_response))
  = pending_security_question s
  /\ pending_decision_clarification (fst (_handle_decision_clarification w s user_response)) = None
  /\ security_checks (session_stats (fst (_handle_decision_clarification w s user_response)))
     = security_checks (session_stats s)
  /\ snd (_handle_decision_clarification w s user_response)
     = {| cr_success := true; cr_response := Some automation_response;
          cr_source_brain := "DecisionBrain->AutomationBrain"; cr_requires_clarification := false;
          cr_clarification_message := None;
          cr_metadata := Some (MetaResolved (dr_intent dr) (dr_action dr)) |}.
Proof.
  intros Hp Hdb Hauto Hanswer Hsuccess Hcommand Hne Hexec Hresponse.
  assert (truthy (dr_automation_command dr) = true) as Ht
    by (rewrite Hcommand; unfold truthy; by rewrite Hne).
  assert (truthy (Some automation_response) = true) as Hr
    by (unfold truthy; by rewrite Hresponse).
  unfold _handle_decision_clarification. rewrite Hp.
  cbn [decision_brain assign_decision_clarification set_pending_decision_clarification set_events].
  rewrite Hdb, Hanswer, Hsuccess.
  cbn [automation_brain set_decision_brain record_event set_events
         assign_decision_clarification set_pending_decision_clarification].
  rewrite Hauto, Ht. cbn [andb]. rewrite Hcommand. cbn [default from_option id].
  rewrite Hexec, Hr.
  cbn [fst snd pending_security_question pending_decision_clarification session_stats
         set_decision_brain record_event set_events
         assign_decision_clarification set_pending_decision_clarification].
  by repeat split.
Qed.

Lemma an_answer_naming_no_action_keeps_the_clarification_pending_witness :
  option_map dc_original_command
    (pending_decision_clarification
       (fst (_handle_decision_clarification quiet_world asked_which_check "the second one")))
  = Some "system status"
  /\ cr_clarification_message
       (snd (_handle_decision_clarification quiet_world asked_which_check "the second one"))
     = Some "CLARIFY:I didn't understand that choice, Boss.".
Proof.
  destruct (pending_decision_clarification asked_which_check) as [c|] eqn:Hc;
    [|by vm_compute in Hc].
  assert (dc_original_command c = "system status") as Horig
    by (vm_compute in Hc; by injection Hc as <-).
  destruct (decision_brain asked_which_check) as [db|] eqn:Hdb; [|by vm_compute in Hdb].
  destruct (_determine_intent_with_confidence db (dc_original_command c)) as [[|best rest]|] eqn:E;
    [rewrite Horig in E; vm_compute in Hdb; injection Hdb as <-; by vm_compute in E
    |
    |rewrite Horig in E; vm_compute in Hdb; injection Hdb as <-; by vm_compute in E].
  assert (match knowledge_base db !! intent best with
          | Some intent_config => actions intent_config
          | None => []
          end = ["get_system_status"; "check_performance"]) as Hacts.
  { rewrite Horig in E. vm_compute in Hdb. injection Hdb as <-. vm_compute in E.
    injection E as <- _. vm_compute. reflexivity. }
  destruct (an_answer_naming_no_action_keeps_the_clarification_pending quiet_world
              asked_which_check c db "the second one" best rest Hc Hdb E)
    as (Hp & _ & _ & _ & _ & _ & _ & Hm).
  - rewrite Hacts. repeat constructor.
  - rewrite Hp, Hm, Horig. split; reflexivity.
Defined.

Lemma no_security_question_is_raised_for_a_clarified_command_witness :
  pending_security_question
    (fst (_handle_decision_clarification (asking_world "example.com") asked_which_check
            "check performance")) = None
  /\ cr_success
       (snd (_handle_decision_clarification (asking_world "example.com") asked_which_check
               "check performance")) = true
  /\ cr_response
       (snd (_handle_decision_clarification (asking_world "example.com") asked_which_check
               "check performance"))
     = Some "ASK_USER:This is a new site ('example.com'). How should I proceed? (Options: Yes, No, This time only)".
Proof.
  destruct (pending_decision_clarification asked_which_check) as [c|] eqn:Hc;
    [|by vm_compute in Hc].
  assert (dc_original_command c = "system status") as Horig
    by (vm_compute in Hc; by injection Hc as <-).
  destruct (decision_brain asked_which_check) as [db|] eqn:Hdb; [|by vm_compute in Hdb].
  destruct (handle_clarification_response db (dc_original_command c) "check performance")
    as [[db' [dr|]]|] eqn:E;
    [
    |rewrite Horig in E; vm_compute in Hdb; injection Hdb as <-; by vm_compute in E
    |rewrite Horig in E; vm_compute in Hdb; injection Hdb as <-; by vm_compute in E].
  assert (dr_success dr = true /\ dr_automation_command dr = Some "check_performance")
    as [Hsuccess Hcommand].
  { rewrite Horig in E. vm_compute in Hdb. injection Hdb as <-. vm_compute in E.
    injection E as _ <-. split; reflexivity. }
  destruct (no_security_question_is_raised_for_a_clarified_command (asking_world "example.com")
              asked_which_check c db db' "check performance" dr "check_performance"
              (ask_user_text "example.com") Hc Hdb eq_refl E Hsuccess Hcommand eq_refl eq_refl
              eq_refl) as (Hq & _ & _ & Hr).
  rewrite Hq, Hr. split; [|split]; reflexivity.
Defined.

Lemma a_grant_is_recorded_before_the_site_is_opened_witness :
  exists sb' : SecurityBrain,
    security_brain
      (fst (_handle_security_response Urllib.netloc (asking_world "example.com")
              asked_about_example_com " Yes ")) = Some sb'
    /\ "example.com" ∈ trusted_sites sb'
    /\ pending_security_question
         (fst (_handle_security_response Urllib.netloc (asking_world "example.com")
                 asked_about_example_com " Yes ")) = None
    /\ snd (_handle_security_response Urllib.netloc (asking_world "example.com")
              asked_about_example_com " Yes ")
       = "Boss, I had trouble processing your security decision: no _open_website".
Proof.
  assert (pending_security_question asked_about_example_com
          = Some {| sq_question := ask_user_text "example.com"; sq_url := "example.com";
                    sq_original_command := "open example.com" |}) as Hq
    by (vm_compute; reflexivity).
  assert (security_brain asked_about_example_com = Some mock_brain) as Hsb
    by (vm_compute; reflexivity).
  destruct (proj1 (a_grant_is_recorded_before_the_site_is_opened Urllib.netloc
                     (asking_world "example.com") asked_about_example_com _ _ " Yes " Hq Hsb)
              eq_refl) as (Hb & Hp & _ & Ha).
  eexists. split; [exact Hb|]. split; [|split; [exact Hp|]].
  - apply (bool_decide_unpack _). vm_compute. exact I.
  - rewrite Ha. vm_compute. reflexivity.
Defined.

(* ===================================================================== *)
(** * Properties of the response brain *)
(* ===================================================================== *)

Section Strings.
Import PyStr.

Lemma is_space_to_lower (c : ascii) : is_space (to_lower c) = is_space c.
Proof. destruct c as [[] [] [] [] [] [] [] []]; reflexivity. Qed.

Lemma is_empty_lower (s : string) : is_empty (lower s) = is_empty s.
Proof. by destruct s. Qed.

Lemma lower_lstrip (s : string) : lower (lstrip s) = lstrip (lower s).
Proof.
  induction s as [|c s IH]; cbn [lstrip lower]; [done|].
  rewrite is_space_to_lower. by destruct (is_space c).
Qed.

Lemma lower_rstrip (s : string) : lower (rstrip s) = rstrip (lower s).
Proof.
  induction s as [|c s IH]; cbn [rstrip lower]; [done|].
  rewrite is_space_to_lower, <- IH, is_empty_lower.
  by destruct (is_space c && is_empty (rstrip s)).
Qed.

Lemma lower_strip (s : string) : lower (strip s) = strip (lower s).
Proof. unfold strip. by rewrite lower_rstrip, lower_lstrip. Qed.

Lemma lstrip_clean (s : string) : starts_clean (lstrip s) = true.
Proof.
  induction s as [|c s IH]; cbn [lstrip]; [done|].
  destruct (is_space c) eqn:Hc; [done|]. cbn. by rewrite Hc.
Qed.

Lemma lstrip_of_clean (s : string) : starts_clean s = true -> lstrip s = s.
Proof. destruct s as [|c s]; cbn; [done|]. by destruct (is_space c). Qed.

Lemma rstrip_clean (s : string) : starts_clean s = true -> starts_clean (rstrip s) = true.
Proof.
  destruct s as [|c s]; cbn [rstrip starts_clean]; [done|].
  intros Hc. apply negb_true_iff in Hc. rewrite Hc. cbn. by rewrite Hc.
Qed.

Lemma rstrip_idem (s : string) : rstrip (rstrip s) = rstrip s.
Proof.
  induction s as [|c s IH]; cbn [rstrip]; [done|].
  destruct (is_space c && is_empty (rstrip s)) eqn:Hc; [done|].
  cbn [rstrip]. by rewrite IH, Hc.
Qed.

Lemma strip_idem (s : string) : strip (strip s) = strip s.
Proof.
  unfold strip. rewrite (lstrip_of_clean (rstrip (lstrip s))).
  - apply rstrip_idem.
  - apply rstrip_clean, lstrip_clean.
Qed.

Lemma strip_lower_idem (s : string) : strip (lower (strip (lower s))) = strip (lower s).
Proof. by rewrite lower_strip, lower_idem, strip_idem. Qed.

Lemma prefix_refl (s : string) : String.prefix s s = true.
Proof. induction s as [|c s IH]; cbn; [done|]. by destruct (ascii_dec c c). Qed.

Lemma contains_refl (s : string) : contains s s = true.
Proof. destruct s; cbn [contains]; by rewrite prefix_refl. Qed.

Lemma prefix_trans (a b c : string) :
  String.prefix a b = true -> String.prefix b c = true -> String.prefix a c = true.
Proof.
  revert b c. induction a as [|x a IH]; intros [|y b] [|z c]; cbn; try done.
  destruct (ascii_dec x y) as [->|]; [|done].
  destruct (ascii_dec y z) as [->|]; [|done]. apply IH.
Qed.

(** [a] occurs at the start of a text in which [b] occurs at the start,
    if it occurs in [b] at the start. *)
Lemma contains_prefix (a b c : string) :
  contains a b = true -> String.prefix b c = true -> contains a c = true.
Proof.
  revert c. induction b as [|y b IH]; intros c Hab Hbc.
  - cbn [contains] in Hab. rewrite orb_false_r in Hab.
    destruct a; [|done]. destruct c; by cbn.
  - destruct c as [|z c]; [done|]. cbn [String.prefix] in Hbc.
    destruct (ascii_dec y z) as [->|]; [|done].
    cbn [contains] in Hab |- *. apply orb_true_iff in Hab as [Hp|Hin].
    + by rewrite (prefix_trans a (String z b) (String z c) Hp)
        by (cbn; by destruct (ascii_dec z z)).
    + rewrite (IH c Hin Hbc). by rewrite orb_true_r.
Qed.

Lemma contains_trans (a b c : string) :
  contains a b = true -> contains b c = true -> contains a c = true.
Proof.
  intros Hab. induction c as [|z c IH]; cbn [contains]; intros Hbc.
  - rewrite orb_false_r in Hbc. by apply (contains_prefix a b "").
  - apply orb_true_iff in Hbc as [Hp|Hin].
    + by apply (contains_prefix a b (String z c)).
    + cbn [contains]. rewrite (IH Hin). by rewrite orb_true_r.
Qed.

End Strings.

Section ResponseTables.
Import ResponseBrain.

Lemma lookup_In (key response : string) (table : list (string * string)) :
  lookup key table = Some response -> In (key, response) table.
Proof.
  induction table as [|[k r] table IH]; cbn [lookup]; [done|].
  destruct (String.eqb_spec k key) as [->|]; [intros [= ->]; by left|]. intros H. right. by apply IH.
Qed.

(** The scan returns the response of an entry whose key occurs in the
    command and before which no entry has such a key. *)
Lemma first_contained_spec (command_lower response : string) (table : list (string * string)) :
  first_contained command_lower table = Some response ->
  exists (key : string) (before after : list (string * string)),
    table = (before ++ (key, response) :: after)%list
    /\ PyStr.contains key command_lower = true
    /\ Forall (fun entry => PyStr.contains (fst entry) command_lower = false) before.
Proof.
  induction table as [|[k r] table IH]; cbn [first_contained]; [done|].
  destruct (PyStr.contains k command_lower) eqn:Hk.
  - intros [= ->]. exists k, [], table. by repeat split.
  - intros H. destruct (IH H) as (key & before & after & -> & Hkey & Hbefore).
    exists key, ((k, r) :: before), after. repeat split; [done|]. by constructor.
Qed.

Lemma first_contained_none (command_lower : string) (table : list (string * string)) :
  first_contained command_lower table = None
  <-> Forall (fun entry => PyStr.contains (fst entry) command_lower = false) table.
Proof.
  induction table as [|[k r] table IH]; cbn [first_contained]; [by split; [constructor|]|].
  destruct (PyStr.contains k command_lower) eqn:Hk.
  - split; [done|]. intros H. inversion H; subst. cbn in *. congruence.
  - rewrite IH. split; [by constructor|]. intros H. by inversion H.
Qed.

Lemma lookup_none_contained (key : string) (table : list (string * string)) :
  Forall (fun entry => PyStr.contains (fst entry) key = false) table -> lookup key table = None.
Proof.
  induction 1 as [|[k r] table Hk _ IH]; cbn [lookup]; [done|].
  destruct (String.eqb_spec k key) as [->|]; [|done].
  cbn in Hk. by rewrite contains_refl in Hk.
Qed.

End ResponseTables.

(** X19. The response brain answers a command as it answers the command
    in lower case without the blanks around it: letter case and
    surrounding blanks make no difference. *)
Theorem answers_ignore_case_and_surrounding_blanks (command : string) :
  ResponseBrain.process_command (PyStr.strip (PyStr.lower command))
  = ResponseBrain.process_command command.
Proof.
  unfold ResponseBrain.process_command at 2.
  destruct command as [|c command]; [reflexivity|]. cbn [PyStr.is_empty].
  unfold ResponseBrain.process_command.
  destruct (PyStr.strip (PyStr.lower (String c command))) as [|x rest] eqn:Hx.
  - reflexivity.
  - cbn [PyStr.is_empty]. rewrite <- Hx. by rewrite strip_lower_idem.
Qed.

Lemma an_answer_has_a_phrase (command response : string) :
  ResponseBrain.process_command command = Some response ->
  exists key : string,
    In (key, response) ResponseBrain.responses
    /\ PyStr.contains key (PyStr.strip (PyStr.lower command)) = true.
Proof.
  unfold ResponseBrain.process_command.
  destruct command as [|c command]; [done|]. cbn [PyStr.is_empty].
  set (x := PyStr.strip (PyStr.lower (String c command))).
  destruct (ResponseBrain.lookup x ResponseBrain.responses) as [r|] eqn:Hl.
  - intros [= <-]. exists x. split; [by apply lookup_In|apply contains_refl].
  - intros H. destruct (first_contained_spec _ _ _ H) as (key & before & after & Ht & Hk & _).
    exists key. split; [|done]. rewrite Ht. apply in_or_app. right. by left.
Qed.

Lemma no_answer_without_phrase (command : string) :
  command <> "" ->
  (ResponseBrain.process_command command = None
   <-> Forall (fun entry => PyStr.contains (fst entry) (PyStr.strip (PyStr.lower command))
                            = false) ResponseBrain.responses).
Proof.
  unfold ResponseBrain.process_command.
  destruct command as [|c command]; [done|]. intros _. cbn [PyStr.is_empty].
  set (x := PyStr.strip (PyStr.lower (String c command))).
  destruct (ResponseBrain.lookup x ResponseBrain.responses) as [r|] eqn:Hl.
  - split; [done|]. intros H. by rewrite (lookup_none_contained _ _ H) in Hl.
  - apply first_contained_none.
Qed.

(** X20. Every answer of the response brain is the response of a phrase of
    its table that occurs in the lower-cased, trimmed command, and it
    answers nothing exactly when the command is empty or no phrase of the
    table occurs in it. *)
Theorem an_answer_is_the_response_of_a_phrase_in_the_command (command : string) :
  (forall response : string,
     ResponseBrain.process_command command = Some response ->
     exists key : string,
       In (key, response) ResponseBrain.responses
       /\ PyStr.contains key (PyStr.strip (PyStr.lower command)) = true)
  /\ (ResponseBrain.process_command command = None
      <-> command = ""
          \/ Forall (fun entry => PyStr.contains (fst entry) (PyStr.strip (PyStr.lower command))
                                  = false) ResponseBrain.responses).
Proof.
  split; [intros response; apply an_answer_has_a_phrase|].
  destruct command as [|c command]; [split; [by left|done]|].
  rewrite no_answer_without_phrase by done. split; [by right|]. by intros [?|?].
Qed.

Lemma first_contained_In (command_lower response : string) (table : list (string * string)) :
  ResponseBrain.first_contained command_lower table = Some response ->
  exists key : string, In (key, response) table /\ PyStr.contains key command_lower = true.
Proof.
  intros H. destruct (first_contained_spec _ _ _ H) as (key & before & after & -> & Hk & _).
  exists key. split; [|done]. apply in_or_app. right. by left.
Qed.

Ltac the_entry H :=
  cbn [ResponseBrain.responses In] in H;
  repeat (destruct H as [H|H]; [by inversion H|]);
  destruct H.

Lemma the_phrase_of_think_about (key : string) :
  In (key, "That's a complex topic. My primary function is to assist, but if you want my logical analysis, I'm happy to provide it.")
    ResponseBrain.responses ->
  key = "what do you think about".
Proof. intros H. the_entry H. Qed.

Lemma the_phrase_of_something_interesting (key : string) :
  In (key, "Did you know that a single day on Venus is longer than a year on Venus? It rotates incredibly slowly. The universe is a weird place, isn't it?")
    ResponseBrain.responses ->
  key = "tell me something interesting".
Proof. intros H. the_entry H. Qed.

(** A command in which "hi" occurs and that is no phrase of the table is
    answered for one of the first five phrases. *)
Lemma hi_comes_first (x : string) :
  PyStr.contains "hi" x = true ->
  ResponseBrain.first_contained x ResponseBrain.responses
  = if PyStr.contains "what is your name" x then Some "My name is ZIA, Boss."
    else if PyStr.contains "who are you" x
    then Some "I am ZIA, your personal AI assistant. Think of me as a co-pilot for your digital world."
    else if PyStr.contains "how are you" x
    then Some "I am fully operational and ready for your command, Boss. All systems are green."
    else if PyStr.contains "hello" x then Some "Hello there, Boss! What can I do for you today?"
    else Some "Hi Boss! Ready to get some work done?".
Proof. intros H. cbn [ResponseBrain.first_contained ResponseBrain.responses]. by rewrite H. Qed.

(** X21. The responses for "what do you think about" and "tell me
    something interesting" are given for exactly these phrases (up to case
    and surrounding blanks) and for no longer command in which they occur:
    "hi" occurs in both phrases and comes earlier in the table, so the scan
    for a phrase within the command stops before it reaches them. *)
Theorem two_responses_are_given_for_their_exact_phrase_only (command : string) :
  (ResponseBrain.process_command command
   = Some "That's a complex topic. My primary function is to assist, but if you want my logical analysis, I'm happy to provide it." ->
   PyStr.strip (PyStr.lower command) = "what do you think about")
  /\ (ResponseBrain.process_command command
      = Some "Did you know that a single day on Venus is longer than a year on Venus? It rotates incredibly slowly. The universe is a weird place, isn't it?" ->
      PyStr.strip (PyStr.lower command) = "tell me something interesting").
Proof.
  unfold ResponseBrain.process_command.
  destruct command as [|c command]; [done|]. cbn [PyStr.is_empty].
  set (x := PyStr.strip (PyStr.lower (String c command))).
  destruct (ResponseBrain.lookup x ResponseBrain.responses) as [r|] eqn:Hl.
  - split; intros [= ->]; apply lookup_In in Hl;
      [by apply the_phrase_of_think_about|by apply the_phrase_of_something_interesting].
  - split; intros H; exfalso;
      destruct (first_contained_In _ _ _ H) as (key & Hin & Hkey).
    + apply the_phrase_of_think_about in Hin as ->.
      rewrite (hi_comes_first x) in H
        by (by apply (contains_trans "hi" "what do you think about")).
      repeat match type of H with (if ?b then _ else _) = _ => destruct b end; discriminate H.
    + apply the_phrase_of_something_interesting in Hin as ->.
      rewrite (hi_comes_first x) in H
        by (by apply (contains_trans "hi" "tell me something interesting")).
      repeat match type of H with (if ?b then _ else _) = _ => destruct b end; discriminate H.
Qed.

Lemma responses_are_not_empty :
  Forall (fun entry => PyStr.is_empty (snd entry) = false) ResponseBrain.responses.
Proof. repeat constructor. Qed.

(** X22. A coordinator without a decision brain, with nothing pending and
    with this response brain, answers every command in which a phrase of
    the table occurs through the response brain: the result is a success
    of source "ResponseBrain" carrying a response of the table, and the
    automation brain is not called. *)
Theorem a_phrase_is_answered_before_automation (urlparse_netloc : string -> Exc string)
    (w : World) (s : VitaCNS) (command key : string) :
  process_command w command = Ok (ResponseBrain.process_command command) ->
  pending_security_question s = None ->
  pending_decision_clarification s = None ->
  decision_brain s = None ->
  response_brain s = true ->
  command <> "" ->
  In key (map fst ResponseBrain.responses) ->
  PyStr.contains key (PyStr.strip (PyStr.lower command)) = true ->
  cr_success (snd (handle_command urlparse_netloc w s command)) = true
  /\ cr_source_brain (snd (handle_command urlparse_netloc w s command)) = "ResponseBrain"
  /\ cr_response (snd (handle_command urlparse_netloc w s command))
     = ResponseBrain.process_command command
  /\ (exists response : string,
        ResponseBrain.process_command command = Some response
        /\ In response (map snd ResponseBrain.responses))
  /\ occurrences is_execute_command (events (fst (handle_command urlparse_netloc w s command)))
     = occurrences is_execute_command (events s).
Proof.
  intros Hw Hq Hc Hdb Hrb Hne Hkey Hin.
  destruct (ResponseBrain.process_command command) as [response|] eqn:Hp.
  2:{ apply no_answer_without_phrase in Hp as Hall; [|done].
      apply in_map_iff in Hkey as ([k r] & <- & Hentry).
      rewrite List.Forall_forall in Hall. by rewrite (Hall _ Hentry) in Hin. }
  destruct (an_answer_has_a_phrase command response Hp) as (k & Hentry & _).
  assert (PyStr.is_empty response = false) as Hfull.
  { pose proof responses_are_not_empty as Hall. rewrite List.Forall_forall in Hall.
    apply (Hall _ Hentry). }
  unfold handle_command, finish_command.
  cbn [pending_security_question pending_decision_clarification set_last_command update_stats
         set_session_stats].
  rewrite Hq, Hc. unfold _process_command_enhanced.
  cbn [decision_brain set_last_command update_stats set_session_stats]. rewrite Hdb.
  unfold process_by_response.
  cbn [response_brain set_last_command update_stats set_session_stats]. rewrite Hrb, Hw, Hfull.
  cbn [cr_success cr_requires_clarification].
  unfold log_action, record_event, update_stats, set_events, set_session_stats, set_last_command.
  cbn [fst snd memory_brain]. destruct (memory_brain s);
    cbn [events cr_success cr_source_brain cr_response]; rewrite ?occurrences_cons;
    cbn [is_execute_command]; repeat split; try lia;
    exists response; (split; [done|]); apply in_map_iff; by exists (k, response).
Qed.

Lemma an_answer_is_the_response_of_a_phrase_in_the_command_witness :
  exists key : string,
    In (key, "Good morning, Boss! Hope you're ready for a productive day.")
      ResponseBrain.responses
    /\ PyStr.contains key (PyStr.strip (PyStr.lower " Good Morning, ZIA ")) = true.
Proof.
  apply (proj1 (an_answer_is_the_response_of_a_phrase_in_the_command " Good Morning, ZIA ")).
  reflexivity.
Defined.

Lemma two_responses_are_given_for_their_exact_phrase_only_witness :
  ResponseBrain.process_command " What do you THINK about"
  = Some "That's a complex topic. My primary function is to assist, but if you want my logical analysis, I'm happy to provide it."
  /\ PyStr.strip (PyStr.lower " What do you THINK about") = "what do you think about".
Proof.
  split; [reflexivity|].
  apply (proj1 (two_responses_are_given_for_their_exact_phrase_only " What do you THINK about")).
  reflexivity.
Defined.

Lemma a_phrase_is_answered_before_automation_witness :
  cr_response
    (snd (handle_command Urllib.netloc responding_world
            (VitaCNS_init None None true true false) "open this folder"))
  = Some "Hi Boss! Ready to get some work done?"
  /\ occurrences is_execute_command
       (events (fst (handle_command Urllib.netloc responding_world
                       (VitaCNS_init None None true true false) "open this folder")))
     = 0%nat.
Proof.
  destruct (a_phrase_is_answered_before_automation Urllib.netloc responding_world
              (VitaCNS_init None None true true false) "open this folder" "hi")
    as (_ & _ & Hr & _ & He).
  - reflexivity.
  - reflexivity.
  - reflexivity.
  - reflexivity.
  - reflexivity.
  - discriminate.
  - cbn. tauto.
  - reflexivity.
  - split; [rewrite Hr; reflexivity|rewrite He; reflexivity].
Defined.

(* ===================================================================== *)
(** * The automation brain and the security brain *)
(* ===================================================================== *)

(** X24. [_handle_web_browsing] counts one web operation, answers with a
    text that starts with "Boss, " (never with the ASK_USER question of the
    security brain) and changes none of the three security lists. It hands
    to [webbrowser.open] only the URL it built for the target of the
    command, and, when the coordinator has a security brain, only after
    [check_website_access] answered ALLOWED for the network location of
    that URL. *)
Theorem the_browser_opens_only_what_the_guard_allows
    (urlparse : string -> Exc (string * string)) (webbrowser_open : string -> Exc unit)
    (operations : nat) (security_brain : option SecurityBrain) (command : string) :
  AutomationBrain.web_operations
    (AutomationBrain._handle_web_browsing urlparse webbrowser_open operations security_brain
       command) = S operations
  /\ PyStr.startswith "Boss, "
       (AutomationBrain.answer
          (AutomationBrain._handle_web_browsing urlparse webbrowser_open operations
             security_brain command)) = true
  /\ option_map trusted_sites
       (AutomationBrain.security
          (AutomationBrain._handle_web_browsing urlparse webbrowser_open operations
             security_brain command)) = option_map trusted_sites security_brain
  /\ option_map blocked_sites
       (AutomationBrain.security
          (AutomationBrain._handle_web_browsing urlparse webbrowser_open operations
             security_brain command)) = option_map blocked_sites security_brain
  /\ option_map one_time_sessions
       (AutomationBrain.security
          (AutomationBrain._handle_web_browsing urlparse webbrowser_open operations
             security_brain command)) = option_map one_time_sessions security_brain
  /\ (forall url : string,
        AutomationBrain.opened
          (AutomationBrain._handle_web_browsing urlparse webbrowser_open operations
             security_brain command) = Some url ->
        (exists target : string,
           AutomationBrain._extract_web_target command = Some target
           /\ url = AutomationBrain.url_of_target urlparse target)
        /\ forall sb : SecurityBrain,
             security_brain = Some sb ->
             exists scheme domain : string,
               urlparse url = Ok (scheme, domain)
               /\ snd (check_website_access (AutomationBrain.urlparse_netloc urlparse) sb domain)
                  = ALLOWED).
Proof.
  unfold AutomationBrain._handle_web_browsing.
  destruct (AutomationBrain._extract_web_target command) as [target|];
    [|cbn; do 5 (split; [done|]); by intros url].
  destruct security_brain as [sb|].
  - destruct (urlparse (AutomationBrain.url_of_target urlparse target))
      as [[scheme domain]|e] eqn:Hu; [|cbn; do 5 (split; [done|]); by intros url].
    destruct (check_keeps_lists (AutomationBrain.urlparse_netloc urlparse) sb domain)
      as (Ht & Hb & Ho).
    destruct (check_website_access (AutomationBrain.urlparse_netloc urlparse) sb domain)
      as [sb' response] eqn:Hc.
    cbn [fst] in Ht, Hb, Ho.
    destruct response;
      [|destruct (webbrowser_open (AutomationBrain.url_of_target urlparse target))|];
      cbn; rewrite ?Ht, ?Hb, ?Ho; do 5 (split; [done|]); intros url Hopen;
      try discriminate Hopen; injection Hopen as <-;
      (split; [by exists target|]); intros sb0 [= <-];
      exists scheme, domain; by rewrite Hu, Hc.
  - destruct (webbrowser_open (AutomationBrain.url_of_target urlparse target));
      cbn; do 5 (split; [done|]); intros url [= <-]; (split; [by exists target|]); done.
Qed.

(** X25. With a security brain, a command whose target leads to a
    well-formed domain that is blocked, or that is neither trusted nor has
    a one-time session, opens nothing: the answer is that access to it is
    restricted, also for an unknown domain, about which the user is not
    asked; the security brain is left as it was. *)
Theorem a_site_that_is_not_allowed_is_refused_unasked
    (urlparse : string -> Exc (string * string)) (webbrowser_open : string -> Exc unit)
    (operations : nat) (sb : SecurityBrain) (command target scheme domain : string) :
  AutomationBrain._extract_web_target command = Some target ->
  urlparse (AutomationBrain.url_of_target urlparse target) = Ok (scheme, domain) ->
  is_blank domain = false ->
  is_valid_domain
    (extract_domain (AutomationBrain.urlparse_netloc urlparse) (PyStr.strip domain)) = true ->
  (extract_domain (AutomationBrain.urlparse_netloc urlparse) (PyStr.strip domain)
     ∈ blocked_sites sb)
  \/ ((extract_domain (AutomationBrain.urlparse_netloc urlparse) (PyStr.strip domain)
         ∉ trusted_sites sb)
      /\ (extract_domain (AutomationBrain.urlparse_netloc urlparse) (PyStr.strip domain)
            ∉ one_time_sessions sb)) ->
  AutomationBrain._handle_web_browsing urlparse webbrowser_open operations (Some sb) command
  = {| AutomationBrain.answer :=
         "Boss, access to " ++ domain ++ " is restricted by security protocols.";
       AutomationBrain.opened := None;
       AutomationBrain.security := Some sb;
       AutomationBrain.web_operations := S operations |}.
Proof.
  intros Ht Hu Hnb Hv Hlists.
  unfold AutomationBrain._handle_web_browsing. rewrite Ht, Hu.
  rewrite check_unfold by done. cbn zeta.
  destruct Hlists as [Hb|[Hnt Hno]].
  - by rewrite bool_decide_eq_true_2.
  - destruct (bool_decide (_ ∈ blocked_sites sb)); [done|].
    by rewrite !bool_decide_eq_false_2.
Qed.

Lemma the_browser_opens_only_what_the_guard_allows_witness :
  AutomationBrain.opened
    (AutomationBrain._handle_web_browsing urlparse_parts (fun _ => Ok tt) 0 (Some mock_brain)
       "open the github website") = Some "https://github.com"
  /\ exists scheme domain : string,
       urlparse_parts "https://github.com" = Ok (scheme, domain)
       /\ snd (check_website_access (AutomationBrain.urlparse_netloc urlparse_parts) mock_brain
                 domain) = ALLOWED.
Proof.
  assert (AutomationBrain.opened
            (AutomationBrain._handle_web_browsing urlparse_parts (fun _ => Ok tt) 0
               (Some mock_brain) "open the github website") = Some "https://github.com") as Hopen
    by (vm_compute; reflexivity).
  split; [exact Hopen|].
  destruct (the_browser_opens_only_what_the_guard_allows urlparse_parts (fun _ => Ok tt) 0
              (Some mock_brain) "open the github website") as (_ & _ & _ & _ & _ & H).
  destruct (H _ Hopen) as (_ & Hguard). exact (Hguard mock_brain eq_refl).
Defined.

Lemma a_site_that_is_not_allowed_is_refused_unasked_witness :
  AutomationBrain._handle_web_browsing urlparse_parts (fun _ => Ok tt) 0 (Some mock_brain)
    "open example.org"
  = {| AutomationBrain.answer := "Boss, access to example.org is restricted by security protocols.";
       AutomationBrain.opened := None;
       AutomationBrain.security := Some mock_brain;
       AutomationBrain.web_operations := 1 |}.
Proof.
  apply (a_site_that_is_not_allowed_is_refused_unasked urlparse_parts (fun _ => Ok tt) 0
           mock_brain "open example.org" "example.org" "https" "example.org").
  - vm_compute. reflexivity.
  - vm_compute. reflexivity.
  - vm_compute. reflexivity.
  - vm_compute. reflexivity.
  - right. split; apply (bool_decide_unpack _); vm_compute; exact I.
Defined.

(* ===================================================================== *)
(** * The order of the doubles *)
(* ===================================================================== *)

(** Case analysis on doubles and on the comparisons of their parts. *)
Ltac double_cases :=
  repeat match goal with
         | s : bool |- _ => destruct s
         end;
  cbn;
  repeat match goal with
         | |- context [Z.compare ?a ?b] => destruct (Z.compare_spec a b)
         | |- context [Pos.compare_cont Eq ?a ?b] =>
             change (Pos.compare_cont Eq a b) with (Pos.compare a b);
             destruct (Pos.compare_spec a b)
         end;
  cbn.

(** [<], [<=] and [==] on doubles are the lexicographic order of their
    ranks, on numbers. *)
Lemma double_ltb_spec (x y : PyFloat.float) :
  PyFloat.ltb x y = true
  <-> PyFloat.is_nan x = false /\ PyFloat.is_nan y = false
      /\ PyFloat.rank_lt (PyFloat.rank x) (PyFloat.rank y).
Proof.
  unfold PyFloat.ltb, SFltb, SFcompare, PyFloat.rank_lt.
  destruct x as [s|s| |s m e], y as [s'|s'| |s' m' e']; double_cases;
    (split; [intros Hcmp; try discriminate Hcmp; repeat split; lia
            |intros (Hn1 & Hn2 & Hr); try discriminate Hn1; try discriminate Hn2; try reflexivity; lia]).
Qed.

Lemma double_leb_spec (x y : PyFloat.float) :
  PyFloat.leb x y = true
  <-> PyFloat.is_nan x = false /\ PyFloat.is_nan y = false
      /\ ~ PyFloat.rank_lt (PyFloat.rank y) (PyFloat.rank x).
Proof.
  unfold PyFloat.leb, SFleb, SFcompare, PyFloat.rank_lt.
  destruct x as [s|s| |s m e], y as [s'|s'| |s' m' e']; double_cases;
    (split; [intros Hcmp; try discriminate Hcmp; repeat split; lia
            |intros (Hn1 & Hn2 & Hr); try discriminate Hn1; try discriminate Hn2; try reflexivity; lia]).
Qed.

Lemma double_eqb_spec (x y : PyFloat.float) :
  PyFloat.eqb x y = true
  <-> PyFloat.is_nan x = false /\ PyFloat.is_nan y = false
      /\ PyFloat.rank x = PyFloat.rank y.
Proof.
  unfold PyFloat.eqb, SFeqb, SFcompare.
  destruct x as [s|s| |s m e], y as [s'|s'| |s' m' e']; double_cases;
    (split; [intros Hcmp; try discriminate Hcmp; repeat split; try reflexivity; try (f_equal; lia); congruence
            |intros (Hn1 & Hn2 & Hr); try discriminate Hn1; try discriminate Hn2; try reflexivity;
             try discriminate Hr; injection Hr; intros; lia]).
Qed.

(** Facts of the order, through the ranks. *)
Ltac by_rank :=
  repeat match goal with
         | H : PyFloat.ltb _ _ = true |- _ => apply double_ltb_spec in H; destruct H as (? & ? & H)
         | H : PyFloat.leb _ _ = true |- _ => apply double_leb_spec in H; destruct H as (? & ? & H)
         | H : PyFloat.eqb _ _ = true |- _ => apply double_eqb_spec in H; destruct H as (? & ? & H)
         | H : PyFloat.ltb ?x ?y = false |- _ =>
             assert (~ (PyFloat.is_nan x = false /\ PyFloat.is_nan y = false
                        /\ PyFloat.rank_lt (PyFloat.rank x) (PyFloat.rank y)))
               by (rewrite <- double_ltb_spec, H; discriminate);
             clear H
         end;
  repeat match goal with
         | |- PyFloat.ltb _ _ = true => apply double_ltb_spec
         | |- PyFloat.leb _ _ = true => apply double_leb_spec
         | |- PyFloat.eqb _ _ = true => apply double_eqb_spec
         | |- PyFloat.ltb _ _ = false => apply not_true_is_false; rewrite double_ltb_spec
         end;
  cbn [PyFloat.is_nan PyFloat.rank PyFloat.zero] in *;
  let one_rank := eval vm_compute in (PyFloat.rank PyFloat.one) in
  change (PyFloat.rank PyFloat.one) with one_rank in *;
  let one_nan := eval vm_compute in (PyFloat.is_nan PyFloat.one) in
  change (PyFloat.is_nan PyFloat.one) with one_nan in *;
  repeat match goal with
         | x : PyFloat.float |- _ =>
             let c := fresh "c" in let e := fresh "e" in let m := fresh "m" in
             destruct (PyFloat.rank x) as [[c e] m]; destruct (PyFloat.is_nan x); clear x
         end;
  unfold PyFloat.rank_lt in *;
  repeat match goal with
         | H : (_, _) = (_, _) |- _ => apply pair_equal_spec in H; destruct H
         end;
  try discriminate;
  try (intuition (try discriminate; try congruence; lia)).

Lemma double_ltb_leb (x y : PyFloat.float) : PyFloat.ltb x y = true -> PyFloat.leb x y = true.
Proof. intros H. by_rank. Qed.

Lemma double_not_ltb_leb (x y : PyFloat.float) :
  PyFloat.is_nan x = false -> PyFloat.is_nan y = false ->
  PyFloat.ltb x y = false -> PyFloat.leb y x = true.
Proof. intros Hx Hy H. by_rank. Qed.

Lemma double_leb_trans (x y z : PyFloat.float) :
  PyFloat.leb x y = true -> PyFloat.leb y z = true -> PyFloat.leb x z = true.
Proof. intros H1 H2. by_rank. Qed.

Lemma double_eqb_not_ltb (x y c : PyFloat.float) :
  PyFloat.eqb x c = true -> PyFloat.eqb y c = true -> PyFloat.ltb x y = false.
Proof. intros H1 H2. by_rank. Qed.

(* ===================================================================== *)
(** * The stable sort on doubles *)
(* ===================================================================== *)

Section SortOfDoubles.
Context {A : Type} (key : A -> PyFloat.float).

Lemma doubles_insert_perm (x : A) (l : list A) :
  Permutation (Doubles.insert_desc_by key x l) (x :: l).
Proof.
  induction l as [|y l IH]; simpl; [done|].
  destruct (PyFloat.gtb (key y) (key x)); [|done].
  rewrite IH. apply perm_swap.
Qed.

Lemma doubles_sort_perm (l : list A) : Permutation (Doubles.sort_desc_by key l) l.
Proof.
  induction l as [|x l IH]; simpl; [done|].
  rewrite doubles_insert_perm. by constructor.
Qed.

Lemma doubles_insert_sorted (x : A) (l : list A) :
  PyFloat.is_nan (key x) = false ->
  Forall (fun a => PyFloat.is_nan (key a) = false) l ->
  Doubles.non_increasing (map key l) ->
  Doubles.non_increasing (map key (Doubles.insert_desc_by key x l)).
Proof.
  intros Hx. induction l as [|y l IH]; simpl; [by split; [constructor|]|].
  intros Hn [Hy Hl]. apply Forall_cons in Hn as [Hny Hn].
  destruct (PyFloat.gtb (key y) (key x)) eqn:E; simpl.
  - split; [|by apply IH].
    rewrite List.Forall_forall in Hy. apply List.Forall_forall. intros q Hq.
    apply in_map_iff in Hq as (z & <- & Hz).
    apply (Permutation_in _ (doubles_insert_perm x l)) in Hz as [<-|Hz];
      [by apply double_ltb_leb|].
    apply Hy, in_map, Hz.
  - split; [|by split].
    assert (PyFloat.leb (key y) (key x) = true) as Hle by (by apply double_not_ltb_leb).
    constructor; [done|]. eapply List.Forall_impl; [|exact Hy]. simpl. intros q Hq.
    by apply (double_leb_trans q (key y)).
Qed.

Lemma doubles_sort_sorted (l : list A) :
  Forall (fun a => PyFloat.is_nan (key a) = false) l ->
  Doubles.non_increasing (map key (Doubles.sort_desc_by key l)).
Proof.
  induction l as [|x l IH]; simpl; [done|]. intros [Hx Hl]%Forall_cons.
  apply doubles_insert_sorted; [done| |by apply IH].
  apply List.Forall_forall. intros a Ha.
  apply (Permutation_in _ (doubles_sort_perm l)) in Ha.
  rewrite List.Forall_forall in Hl. by apply Hl.
Qed.

Lemma doubles_insert_stable (c : PyFloat.float) (x : A) (l : list A) :
  List.filter (fun a => PyFloat.eqb (key a) c) (Doubles.insert_desc_by key x l)
  = List.filter (fun a => PyFloat.eqb (key a) c) (x :: l).
Proof.
  induction l as [|y l IH]; [done|].
  cbn [Doubles.insert_desc_by]. destruct (PyFloat.gtb (key y) (key x)) eqn:E; [|done].
  cbn [List.filter] in *. rewrite IH.
  destruct (PyFloat.eqb (key x) c) eqn:Ex, (PyFloat.eqb (key y) c) eqn:Ey; try done.
  unfold PyFloat.gtb in E. fold (PyFloat.ltb (key x) (key y)) in E.
  by rewrite (double_eqb_not_ltb _ _ _ Ex Ey) in E.
Qed.

Lemma doubles_sort_stable (c : PyFloat.float) (l : list A) :
  List.filter (fun a => PyFloat.eqb (key a) c) (Doubles.sort_desc_by key l)
  = List.filter (fun a => PyFloat.eqb (key a) c) l.
Proof.
  induction l as [|x l IH]; [done|].
  cbn [Doubles.sort_desc_by]. rewrite doubles_insert_stable. cbn [List.filter]. by rewrite IH.
Qed.

End SortOfDoubles.

(* ===================================================================== *)
(** * Confidences stay in [0, 1] *)
(* ===================================================================== *)

(** What rounding returns has the sign it was given, or is no number. *)

Lemma double_round_keeps_sign (m e : Z) (l : location) :
  PyFloat.not_negative (binary_round_aux PyFloat.prec PyFloat.emax false m e l) = true.
Proof.
  unfold binary_round_aux.
  destruct (shr_fexp PyFloat.prec PyFloat.emax m e l) as [mrs e1].
  destruct (shr_fexp PyFloat.prec PyFloat.emax _ e1 loc_Exact) as [mrs2 e2].
  destruct (shr_m mrs2); [done| |done].
  by destruct (e2 <=? PyFloat.emax - PyFloat.prec)%Z.
Qed.

Lemma double_add_not_negative (x y : PyFloat.float) :
  PyFloat.not_negative x = true -> PyFloat.not_negative y = true ->
  PyFloat.not_negative (PyFloat.add x y) = true.
Proof.
  destruct x as [s|s| |s m e], y as [s'|s'| |s' m' e']; try done;
    try (destruct s; try done; destruct s'; done).
  destruct s; [done|]. destruct s'; [done|]. intros _ _.
  unfold PyFloat.add, SFadd. cbn [cond_Zopp]. rewrite <- Pos2Z.inj_add.
  unfold binary_normalize, binary_round.
  destruct (shl_align _ _ (fexp _ _ _)) as [mz ez]. apply double_round_keeps_sign.
Qed.

Lemma double_not_negative_leb (x : PyFloat.float) :
  PyFloat.not_negative x = true -> PyFloat.is_nan x = false ->
  PyFloat.leb PyFloat.zero x = true.
Proof. destruct x as [s|s| |s m e]; try done; by destruct s. Qed.

Lemma double_leb_not_negative (x : PyFloat.float) :
  PyFloat.leb PyFloat.zero x = true -> PyFloat.not_negative x = true.
Proof. destruct x as [s|s| |s m e]; try done; by destruct s. Qed.

(** [min(x, 1.0)] of an [x > 0] *)
Lemma capped_in_unit_interval (x : PyFloat.float) :
  PyFloat.gtb x PyFloat.zero = true ->
  Doubles.in_unit_interval (PyFloat.py_min x PyFloat.one).
Proof.
  unfold PyFloat.gtb. fold (PyFloat.ltb PyFloat.zero x). intros H.
  unfold PyFloat.py_min, Doubles.in_unit_interval.
  destruct (PyFloat.ltb PyFloat.one x) eqn:E; [split; vm_compute; reflexivity|].
  split; by_rank.
Qed.

(** [min(1.0, c + d)] of a [c] in [0, 1] and a [d] that is not negative *)
Lemma boost_in_unit_interval (c d : PyFloat.float) :
  Doubles.in_unit_interval c -> PyFloat.not_negative d = true ->
  Doubles.in_unit_interval (PyFloat.py_min PyFloat.one (PyFloat.add c d)).
Proof.
  intros [H0 H1] Hd. unfold PyFloat.py_min, Doubles.in_unit_interval.
  destruct (PyFloat.ltb (PyFloat.add c d) PyFloat.one) eqn:E; [|split; vm_compute; reflexivity].
  split; [|by apply double_ltb_leb].
  apply double_not_negative_leb.
  - apply double_add_not_negative; [by apply double_leb_not_negative|done].
  - apply double_ltb_spec in E. tauto.
Qed.

(* ===================================================================== *)
(** * The resolver on doubles *)
(* ===================================================================== *)

Lemma foldE_invariant {A B : Type} (P : B -> Prop) (f : B -> A -> Exc B) (xs : list A) :
  (forall b a b', In a xs -> P b -> f b a = Ok b' -> P b') ->
  forall acc res, P acc -> foldE f xs acc = Ok res -> P res.
Proof.
  induction xs as [|x xs IH]; intros Hf acc res Hacc H; simpl in H.
  - by injection H as <-.
  - destruct (f acc x) as [b'|e] eqn:E; [|done]. simpl in H.
    apply (IH (fun b a b' Ha => Hf b a b' (or_intror Ha)) b' res); [|done].
    apply (Hf acc x b'); [by left|done|done].
Qed.

(** The patterns the loops visit are those of the tiers. *)
Lemma doubles_tier_patterns (g : PatternGroups) (base : PyFloat.float) (patterns : list string)
    (p : string) :
  In (base, patterns) (Doubles.tier_list g) -> In p patterns ->
  exists q : Q, In (q, p) (tier_patterns g).
Proof.
  unfold Doubles.tier_list, tier_patterns. intros Hin Hp.
  rewrite !in_app_iff in Hin. destruct Hin as [Hin|[Hin|Hin]].
  - destruct (high_confidence g) as [h|]; [|done]. destruct Hin as [[= _ <-]|[]].
    exists (9#10). rewrite in_app_iff. left. simpl. by apply in_map.
  - destruct (medium_confidence g) as [md|]; [|done]. destruct Hin as [[= _ <-]|[]].
    exists (6#10). rewrite !in_app_iff. right. left. simpl. by apply in_map.
  - destruct (low_confidence g) as [lo|]; [|done]. destruct Hin as [[= _ <-]|[]].
    exists (3#10). rewrite !in_app_iff. right. right. simpl. by apply in_map.
Qed.

Section DoublesResolverTotal.

Variable extractors : list (string * list string).
Hypothesis Hextractors : extractors_ok extractors = true.

Lemma doubles_try_pattern_total (command : string) (base : PyFloat.float) (best : Doubles.Best)
    (pattern : string) :
  pattern_ok pattern = true ->
  exists best',
    Doubles.try_pattern extractors command (PyStr.strip (PyStr.lower command)) base best pattern
    = Ok best'.
Proof.
  intros Hok. unfold Doubles.try_pattern, re_search.
  destruct (ReMatch.search false pattern (PyStr.strip (PyStr.lower command))) as [[m|]|] eqn:Es;
    simpl.
  - assert (exists x, Doubles.pattern_score base m (PyStr.strip (PyStr.lower command)) = Ok x)
      as [x ->].
    { unfold Doubles.pattern_score, Doubles.len_ratio.
      destruct (String.length (PyStr.strip (PyStr.lower command)) =? 0)%nat eqn:El;
        [|destruct (String.length (ReMatch.group0 m) =? 0)%nat; by eexists].
      exfalso. apply Nat.eqb_eq in El.
      destruct (PyStr.strip (PyStr.lower command)); [|done].
      unfold pattern_ok in Hok. unfold ReMatch.search in Es.
      destruct (Re.parse pattern) as [[r g]|]; [|done].
      apply andb_true_iff in Hok as [_ Hok].
      destruct (ReMatch.search_from false r "" 0); done. }
    simpl.
    destruct (extract_entities_total extractors Hextractors pattern _ command m Hok Es) as [e ->].
    simpl. destruct best as [[bc bp] be]. destruct (PyFloat.gtb x bc); by eexists.
  - by eexists.
  - unfold pattern_ok in Hok. unfold ReMatch.search in Es.
    destruct (Re.parse pattern) as [[r g]|]; done.
Qed.

Lemma doubles_best_for_intent_total (command : string) (g : PatternGroups) :
  forallb (fun bp => pattern_ok (snd bp)) (tier_patterns g) = true ->
  exists best,
    Doubles.best_for_intent extractors command (PyStr.strip (PyStr.lower command)) g = Ok best.
Proof.
  intros Hok. unfold Doubles.best_for_intent. apply foldE_total.
  intros best [base patterns] Hin. apply foldE_total. intros b p Hp.
  apply doubles_try_pattern_total.
  destruct (doubles_tier_patterns g base patterns p Hin Hp) as [q Hq].
  rewrite forallb_forall in Hok. apply (Hok _ Hq).
Qed.

End DoublesResolverTotal.

Lemma doubles_collect_matches_total (bank : list (string * PatternGroups))
    (extractors : list (string * list string)) (command : string) :
  bank_ok bank = true -> extractors_ok extractors = true ->
  exists raw, Doubles.collect_matches bank extractors command = Ok raw.
Proof.
  intros Hb He. unfold Doubles.collect_matches. cbv zeta. apply foldE_total.
  intros acc [name g] Hin.
  destruct (doubles_best_for_intent_total extractors He command g) as [best ->].
  { unfold bank_ok in Hb. rewrite forallb_forall in Hb. apply (Hb _ Hin). }
  by eexists.
Qed.

Lemma keep_best_in_unit_interval (acc : list Doubles.IntentMatch) (name : string)
    (best : Doubles.Best) :
  Forall (fun m => Doubles.in_unit_interval (Doubles.confidence m)) acc ->
  Forall (fun m => Doubles.in_unit_interval (Doubles.confidence m))
         (Doubles.keep_best acc name best).
Proof.
  intros Hacc. destruct best as [[bc bp] be]. unfold Doubles.keep_best.
  destruct (PyFloat.gtb bc PyFloat.zero) eqn:E; [|done].
  apply Forall_app. split; [done|]. constructor; [|done].
  by apply capped_in_unit_interval.
Qed.

(** Every match the resolver collects has its confidence in [0, 1]. *)
Lemma doubles_collect_matches_bounds (bank : list (string * PatternGroups))
    (extractors : list (string * list string)) (command : string)
    (raw : list Doubles.IntentMatch) :
  Doubles.collect_matches bank extractors command = Ok raw ->
  Forall (fun m => Doubles.in_unit_interval (Doubles.confidence m)) raw.
Proof.
  unfold Doubles.collect_matches. cbv zeta.
  apply (foldE_invariant
           (fun acc => Forall (fun m => Doubles.in_unit_interval (Doubles.confidence m)) acc));
    [|done].
  intros acc [name g] acc' _ Hacc H.
  destruct (Doubles.best_for_intent _ _ _ g) as [best|]; [|done]. simpl in H.
  injection H as <-. by apply keep_best_in_unit_interval.
Qed.

(** The resolver collects nothing from a blank command: a pattern that
    matched would divide by the length of the command. *)
Lemma doubles_collect_matches_blank (bank : list (string * PatternGroups))
    (extractors : list (string * list string)) (command : string)
    (raw : list Doubles.IntentMatch) :
  PyStr.strip (PyStr.lower command) = "" ->
  Doubles.collect_matches bank extractors command = Ok raw -> raw = [].
Proof.
  intros Hblank. unfold Doubles.collect_matches. cbv zeta. rewrite Hblank.
  apply (foldE_invariant (fun acc => acc = [])); [|done].
  intros acc [name g] acc' _ -> H.
  destruct (Doubles.best_for_intent extractors command "" g) as [best|] eqn:Eb; [|done].
  simpl in H. injection H as <-.
  assert (best = Doubles.best_init) as ->; [|done].
  revert Eb. unfold Doubles.best_for_intent.
  apply (foldE_invariant (fun b => b = Doubles.best_init)); [|done].
  intros b [base patterns] b' _ ->.
  apply (foldE_invariant (fun b => b = Doubles.best_init)); [|done].
  intros b p b2 _ -> H. unfold Doubles.try_pattern in H.
  destruct (re_search false p "") as [[m|]|]; simpl in H; [|by injection H|done].
  unfold Doubles.pattern_score, Doubles.len_ratio in H. simpl in H. done.
Qed.

Lemma doubles_determine_unfold (db : Doubles.DecisionBrain) (command : string)
    (raw : list Doubles.IntentMatch) :
  Doubles.collect_matches (Doubles.intent_patterns db) (Doubles.entity_extractors db) command
  = Ok raw ->
  Doubles._determine_intent_with_confidence db command
  = Ok (Doubles._apply_context_boosting (Doubles.session_context db) (Doubles.sort_desc raw)).
Proof. intros H. unfold Doubles._determine_intent_with_confidence. by rewrite H. Qed.

Lemma doubles_boosting_perm (ctx : SessionContext) (l : list Doubles.IntentMatch) :
  Permutation (Doubles._apply_context_boosting ctx l) (map (Doubles.boosted ctx) l).
Proof.
  unfold Doubles._apply_context_boosting, Doubles.sort_desc. rewrite doubles_sort_perm.
  by rewrite map_map.
Qed.

Lemma doubles_boosted_intent (ctx : SessionContext) (m : Doubles.IntentMatch) :
  Doubles.intent (Doubles.boosted ctx m) = Doubles.intent m.
Proof.
  unfold Doubles.boosted, Doubles.boost_time, Doubles.boost_last_intent.
  repeat case_match; done.
Qed.

(** Both rules keep a confidence in [0, 1]. *)
Lemma doubles_boosted_bounds (ctx : SessionContext) (m : Doubles.IntentMatch) :
  Doubles.in_unit_interval (Doubles.confidence m) ->
  Doubles.in_unit_interval (Doubles.confidence (Doubles.boosted ctx m)).
Proof.
  intros H.
  assert (Doubles.in_unit_interval (Doubles.confidence (Doubles.boost_last_intent ctx m))) as H1.
  { unfold Doubles.boost_last_intent. repeat case_match; try done.
    cbn [Doubles.confidence Doubles.set_confidence]. by apply boost_in_unit_interval. }
  unfold Doubles.boosted, Doubles.boost_time. case_match; [|done].
  cbn [Doubles.confidence Doubles.set_confidence]. by apply boost_in_unit_interval.
Qed.

Lemma in_unit_interval_number (c : PyFloat.float) :
  Doubles.in_unit_interval c -> PyFloat.is_nan c = false.
Proof. intros [H _]. apply double_leb_spec in H. tauto. Qed.

Lemma doubles_sort_same_ties (l : list Doubles.IntentMatch) :
  Doubles.same_ties (Doubles.sort_desc l) l.
Proof. intros c. unfold Doubles.with_confidence, Doubles.sort_desc. apply doubles_sort_stable. Qed.

(** C8, amended. On pattern tables that compile (as those of the source
    do), for every utterance the resolver returns. Its output holds the
    matches it collected, both rules of the boosting applied to each; it is
    sorted non-increasing by confidence, in the order of the doubles the
    code compares, and every confidence in it lies in [0, 1]. Matches of
    equal confidence keep the order they had in the ranking before boosting
    (the second sort is stable); that ranking is itself sorted, its ties in
    encounter order (the first sort is stable). *)
Theorem resolver_output_is_ranked (db : Doubles.DecisionBrain) (command : string) :
  bank_ok (Doubles.intent_patterns db) = true ->
  extractors_ok (Doubles.entity_extractors db) = true ->
  exists raw out : list Doubles.IntentMatch,
    Doubles.collect_matches (Doubles.intent_patterns db) (Doubles.entity_extractors db) command
    = Ok raw
    /\ Doubles._determine_intent_with_confidence db command = Ok out
    /\ Permutation out (map (Doubles.boosted (Doubles.session_context db)) raw)
    /\ Doubles.non_increasing (map Doubles.confidence out)
    /\ Forall (fun m => Doubles.in_unit_interval (Doubles.confidence m)) out
    /\ Doubles.ties_in_ranking_order (Doubles.session_context db) raw out
    /\ Doubles.non_increasing (map Doubles.confidence (Doubles.sort_desc raw))
    /\ Doubles.same_ties (Doubles.sort_desc raw) raw.
Proof.
  intros Hb He.
  destruct (doubles_collect_matches_total _ _ command Hb He) as [raw Hraw].
  pose proof (doubles_collect_matches_bounds _ _ _ _ Hraw) as Hr.
  assert (Forall (fun m => Doubles.in_unit_interval (Doubles.confidence m))
                 (map (Doubles.boosted (Doubles.session_context db)) (Doubles.sort_desc raw)))
    as Hboosted.
  { apply List.Forall_forall. intros m Hm. apply in_map_iff in Hm as (m0 & <- & Hm0).
    apply (Permutation_in _ (doubles_sort_perm _ _)) in Hm0.
    rewrite List.Forall_forall in Hr. by apply doubles_boosted_bounds, Hr. }
  exists raw, (Doubles._apply_context_boosting (Doubles.session_context db) (Doubles.sort_desc raw)).
  split; [done|]. split; [by apply doubles_determine_unfold|]. split.
  { rewrite doubles_boosting_perm. apply Permutation_map, doubles_sort_perm. }
  split.
  { unfold Doubles._apply_context_boosting, Doubles.sort_desc at 1.
    apply doubles_sort_sorted. rewrite map_map.
    eapply List.Forall_impl; [|exact Hboosted]. intros m. apply in_unit_interval_number. }
  split.
  { apply List.Forall_forall. intros m Hm.
    apply (Permutation_in _ (doubles_boosting_perm _ _)) in Hm.
    rewrite List.Forall_forall in Hboosted. by apply Hboosted. }
  split; [|split].
  - intros c. unfold Doubles.with_confidence, Doubles._apply_context_boosting, Doubles.sort_desc at 1.
    rewrite doubles_sort_stable. by rewrite map_map.
  - apply doubles_sort_sorted.
    eapply List.Forall_impl; [|exact Hr]. intros m. apply in_unit_interval_number.
  - apply doubles_sort_same_ties.
Qed.

(** C8 as stated fails: after a turn that resolved to [find_video], the
    utterance below matches [find_video] (met first, 0.9764705882352942,
    raised to 1.0 by the rule of the last intent) and [get_info] (met
    second, 1.0); both end at confidence 1.0 and [get_info] comes first. *)
Lemma resolver_ties_counterexample :
  exists raw out : list Doubles.IntentMatch,
    Doubles.collect_matches _setup_intent_patterns _setup_entity_extractors
      "explain show me a video about cats" = Ok raw
    /\ Doubles._determine_intent_with_confidence
         (Doubles.set_session_context
            {| last_intent := Some "find_video"; time_of_day := "afternoon" |}
            (Doubles.DecisionBrain_init Doubles.default_decision_config 14))
         "explain show me a video about cats" = Ok out
    /\ map (fun m => (Doubles.intent m, Doubles.confidence m)) raw
       = [("find_video", PyFloat.finite 8795265154629440 (-53)); ("get_info", PyFloat.one)]
    /\ map (fun m => (Doubles.intent m, Doubles.confidence m)) out
       = [("get_info", PyFloat.one); ("find_video", PyFloat.one)]
    /\ ~ Doubles.ties_in_encounter_order
           {| last_intent := Some "find_video"; time_of_day := "afternoon" |} raw out.
Proof.
  destruct (Doubles.collect_matches _setup_intent_patterns _setup_entity_extractors
              "explain show me a video about cats") as [raw|] eqn:Eraw;
    [|by vm_compute in Eraw].
  exists raw. eexists. split; [done|].
  split; [apply doubles_determine_unfold; exact Eraw|].
  vm_compute in Eraw. injection Eraw as <-.
  split; [vm_compute; reflexivity|]. split; [vm_compute; reflexivity|].
  intros H. specialize (H PyFloat.one). vm_compute in H. discriminate H.
Qed.

Lemma resolver_output_is_ranked_witness :
  bank_ok _setup_intent_patterns = true
  /\ extractors_ok _setup_entity_extractors = true
  /\ (exists raw out : list Doubles.IntentMatch,
        Doubles.collect_matches _setup_intent_patterns _setup_entity_extractors
          "explain show me a video about cats and music" = Ok raw
        /\ Doubles._determine_intent_with_confidence
             (Doubles.set_session_context
                {| last_intent := Some "find_video"; time_of_day := "afternoon" |}
                (Doubles.DecisionBrain_init Doubles.default_decision_config 14))
             "explain show me a video about cats and music" = Ok out
        /\ map (fun m => (Doubles.intent m, Doubles.confidence m)) raw
           = [("find_video", PyFloat.finite 8843431995563883 (-53));
              ("play_music", PyFloat.finite 5609028626815981 (-54));
              ("get_info", PyFloat.one)]
        /\ map (fun m => (Doubles.intent m, Doubles.confidence m)) out
           = [("get_info", PyFloat.one); ("find_video", PyFloat.one);
              ("play_music", PyFloat.finite 5609028626815981 (-54))]
        /\ Doubles.non_increasing (map Doubles.confidence out)
        /\ Forall (fun m => Doubles.in_unit_interval (Doubles.confidence m)) out
        /\ Doubles.ties_in_ranking_order
             {| last_intent := Some "find_video"; time_of_day := "afternoon" |} raw out)
  /\ (exists raw out : list Doubles.IntentMatch,
        Doubles.collect_matches _setup_intent_patterns _setup_entity_extractors
          "online google bored tell" = Ok raw
        /\ Doubles._determine_intent_with_confidence
             (Doubles.DecisionBrain_init Doubles.default_decision_config 18)
             "online google bored tell" = Ok out
        /\ map (fun m => (Doubles.intent m, Doubles.confidence m)) raw
           = [("get_info", PyFloat.finite 5704559528002628 (-54));
              ("search_web", PyFloat.finite 6042329500055415 (-53));
              ("entertainment", PyFloat.finite 5591969537318366 (-53))]
        /\ map (fun m => (Doubles.intent m, Doubles.confidence m)) out
           = [("entertainment", PyFloat.finite 6042329500055416 (-53));
              ("search_web", PyFloat.finite 6042329500055415 (-53));
              ("get_info", PyFloat.finite 5704559528002628 (-54))]
        /\ Doubles.non_increasing (map Doubles.confidence out)
        /\ Forall (fun m => Doubles.in_unit_interval (Doubles.confidence m)) out).
Proof.
  split; [exact bank_is_ok|]. split; [exact extractors_are_ok|]. split.
  - destruct (resolver_output_is_ranked
                (Doubles.set_session_context
                   {| last_intent := Some "find_video"; time_of_day := "afternoon" |}
                   (Doubles.DecisionBrain_init Doubles.default_decision_config 14))
                "explain show me a video about cats and music" bank_is_ok extractors_are_ok)
      as (raw & out & Hraw & Hout & _ & Hsorted & Hunit & Hties & _).
    exists raw, out. split; [exact Hraw|]. split; [exact Hout|].
    split; [|split; [|by repeat split]].
    + vm_compute in Hraw. injection Hraw as <-. vm_compute. reflexivity.
    + vm_compute in Hout. injection Hout as <-. vm_compute. reflexivity.
  - destruct (resolver_output_is_ranked
                (Doubles.DecisionBrain_init Doubles.default_decision_config 18)
                "online google bored tell" bank_is_ok extractors_are_ok)
      as (raw & out & Hraw & Hout & _ & Hsorted & Hunit & _).
    exists raw, out. split; [exact Hraw|]. split; [exact Hout|].
    split; [|split; [|by repeat split]].
    + vm_compute in Hraw. injection Hraw as <-. vm_compute. reflexivity.
    + vm_compute in Hout. injection Hout as <-. vm_compute. reflexivity.
Defined.

(* ===================================================================== *)
(** * The decision below the threshold, on doubles *)
(* ===================================================================== *)

Lemma doubles_resolved_not_blank (db : Doubles.DecisionBrain) (command : string)
    (best : Doubles.IntentMatch) (rest : list Doubles.IntentMatch) :
  Doubles._determine_intent_with_confidence db command = Ok (best :: rest) ->
  PyStr.is_empty (PyStr.strip command) = false.
Proof.
  intros H. unfold Doubles._determine_intent_with_confidence in H.
  destruct (Doubles.collect_matches _ _ command) as [raw|] eqn:Eraw; [|done].
  destruct (PyStr.is_empty (PyStr.strip command)) eqn:E; [|done].
  assert (PyStr.strip (PyStr.lower command) = "") as Hblank.
  { rewrite <- lower_strip. rewrite <- is_empty_lower in E.
    by destruct (PyStr.lower (PyStr.strip command)). }
  rewrite (doubles_collect_matches_blank _ _ _ _ Hblank Eraw) in H. done.
Qed.

(** [make_decision] on a command whose best match is below the
    threshold. *)
Lemma doubles_below_threshold (db : Doubles.DecisionBrain) (command : string)
    (best : Doubles.IntentMatch) (rest : list Doubles.IntentMatch) :
  Doubles._determine_intent_with_confidence db command = Ok (best :: rest) ->
  PyFloat.ltb (Doubles.confidence best) (Doubles.confidence_threshold db) = true ->
  Doubles.make_decision db command
  = (Doubles.bump_total db, Some
      {| Doubles.dr_success := false; Doubles.dr_action := None;
         Doubles.dr_automation_command := None; Doubles.dr_parameters := None;
         Doubles.dr_confidence := Doubles.confidence best;
         Doubles.dr_intent := Some (Doubles.intent best);
         Doubles.dr_clarification_needed := true;
         Doubles.dr_clarification_message :=
           Some ("CLARIFY:I'm not entirely sure, Boss. Did you mean: "
                 ++ PyStr.join ", "
                      (map Doubles.intent
                         (slice_to (Doubles.max_alternatives db) (best :: rest)))
                 ++ "?");
         Doubles.dr_alternatives :=
           Some (map Doubles.intent (slice_to (Doubles.max_alternatives db) (best :: rest))) |}).
Proof.
  intros Hd Hlt. pose proof (doubles_resolved_not_blank _ _ _ _ Hd) as Hn.
  unfold Doubles.make_decision. rewrite Hn, (strip_nonblank _ Hn). cbn [orb].
  unfold Doubles.make_decision_body.
  change (Doubles._determine_intent_with_confidence (Doubles.bump_total db) command)
    with (Doubles._determine_intent_with_confidence db command).
  rewrite Hd. cbn [bindE].
  change (Doubles.confidence_threshold (Doubles.bump_total db))
    with (Doubles.confidence_threshold db).
  rewrite Hlt. reflexivity.
Qed.

Lemma slice_to_negative {A : Type} (n : Z) (l : list A) :
  (n < 0)%Z -> slice_to n l = firstn (length l - Z.to_nat (- n)) l.
Proof. intros H. unfold slice_to. destruct (n <? 0)%Z eqn:E; [done|lia]. Qed.

(** "play something": one match, for [play_music], which stays below 0.7
    whichever rules boost it. *)
Lemma play_something_stays_low (ctx : SessionContext) :
  exists m : Doubles.IntentMatch,
    Doubles.collect_matches _setup_intent_patterns _setup_entity_extractors "play something"
    = Ok [m]
    /\ Doubles.intent (Doubles.boosted ctx m) = "play_music"
    /\ PyFloat.ltb (Doubles.confidence (Doubles.boosted ctx m)) (PyFloat.quotient 7 10) = true.
Proof.
  destruct (Doubles.collect_matches _setup_intent_patterns _setup_entity_extractors
              "play something") as [raw|] eqn:Eraw; [|by vm_compute in Eraw].
  vm_compute in Eraw. injection Eraw as <-. eexists. split; [reflexivity|].
  split; [by rewrite doubles_boosted_intent|].
  unfold Doubles.boosted, Doubles.boost_time, Doubles.boost_last_intent.
  cbn [Doubles.intent].
  destruct (last_intent ctx) as [li|];
    [destruct (negb (PyStr.is_empty li) && String.eqb "play_music" li)|];
    cbn [Doubles.intent Doubles.set_confidence];
    destruct (PyStr.mem "play_music" (time_boosts (time_of_day ctx)));
    vm_compute; reflexivity.
Qed.

(** C6, amended. For a command whose best match, after boosting, is
    strictly below the threshold -- both doubles, compared as the code
    compares them -- the decision fails and asks for a clarification; it
    echoes the intent of the best match and lists the intents of
    [intent_matches[:max_alternatives]]: those of the first [max_alternatives]
    matches, so at most that many, when the setting is not negative, and
    those of all but the last [-max_alternatives] matches when it is. With
    the tables of the source and the threshold 0.7, "play something" is
    asked about with intent [play_music], in every session context. *)
Theorem low_confidence_asks_for_clarification :
  (forall (db : Doubles.DecisionBrain) (command : string) (best : Doubles.IntentMatch)
          (rest : list Doubles.IntentMatch),
     Doubles._determine_intent_with_confidence db command = Ok (best :: rest) ->
     PyFloat.ltb (Doubles.confidence best) (Doubles.confidence_threshold db) = true ->
     exists (dr : Doubles.DecisionResult) (alternatives : list string),
       Doubles.make_decision db command = (Doubles.bump_total db, Some dr)
       /\ Doubles.dr_success dr = false /\ Doubles.dr_clarification_needed dr = true
       /\ Doubles.dr_intent dr = Some (Doubles.intent best)
       /\ Doubles.dr_alternatives dr = Some alternatives
       /\ alternatives
          = map Doubles.intent (slice_to (Doubles.max_alternatives db) (best :: rest))
       /\ ((0 <= Doubles.max_alternatives db)%Z ->
           alternatives
           = map Doubles.intent (firstn (Z.to_nat (Doubles.max_alternatives db)) (best :: rest))
           /\ (Z.of_nat (length alternatives) <= Doubles.max_alternatives db)%Z)
       /\ ((Doubles.max_alternatives db < 0)%Z ->
           alternatives
           = map Doubles.intent
               (firstn (length (best :: rest) - Z.to_nat (- Doubles.max_alternatives db))
                       (best :: rest))))
  /\ (forall db : Doubles.DecisionBrain,
        Doubles.intent_patterns db = _setup_intent_patterns ->
        Doubles.entity_extractors db = _setup_entity_extractors ->
        Doubles.confidence_threshold db = PyFloat.quotient 7 10 ->
        exists dr : Doubles.DecisionResult,
          Doubles.make_decision db "play something" = (Doubles.bump_total db, Some dr)
          /\ Doubles.dr_success dr = false /\ Doubles.dr_clarification_needed dr = true
          /\ Doubles.dr_intent dr = Some "play_music"
          /\ Doubles.dr_alternatives dr
             = Some (slice_to (Doubles.max_alternatives db) ["play_music"])).
Proof.
  split.
  - intros db command best rest Hd Hlt.
    rewrite (doubles_below_threshold db command best rest Hd Hlt).
    eexists _, _. split; [reflexivity|].
    cbn [Doubles.dr_success Doubles.dr_clarification_needed Doubles.dr_intent
           Doubles.dr_alternatives].
    do 5 (split; [reflexivity|]). split.
    + intros Hmax. rewrite slice_to_nonneg by done. split; [done|].
      rewrite length_map, length_firstn. lia.
    + intros Hmax. by rewrite slice_to_negative.
  - intros db Hb He Ht.
    destruct (play_something_stays_low (Doubles.session_context db)) as (m & Hraw & Hi & Hlow).
    assert (Doubles._determine_intent_with_confidence db "play something"
            = Ok [Doubles.boosted (Doubles.session_context db) m]) as Hd.
    { unfold Doubles._determine_intent_with_confidence. rewrite Hb, He, Hraw. reflexivity. }
    rewrite (doubles_below_threshold db "play something" _ [] Hd) by (by rewrite Ht).
    eexists. split; [reflexivity|].
    cbn [Doubles.dr_success Doubles.dr_clarification_needed Doubles.dr_intent
           Doubles.dr_alternatives].
    rewrite Hi. do 3 (split; [reflexivity|]). f_equal.
    unfold slice_to. destruct (Doubles.max_alternatives db <? 0)%Z.
    + cbn [length]. destruct (1 - Z.to_nat (- Doubles.max_alternatives db))%nat; [done|].
      cbn [firstn map]. rewrite Hi. by destruct n.
    + destruct (Z.to_nat (Doubles.max_alternatives db)); [done|].
      cbn [firstn map]. rewrite Hi. by destruct n.
Qed.

(** C6 as stated fails: [max_alternatives] is taken from the configuration
    as it is. With [-1] there, "show music please" has two matches, both
    below 0.7, [play_music] at 0.32941176470588235 first; the alternatives
    are [intent_matches[:-1]], one intent, which is more than
    [max_alternatives]. *)
Lemma low_confidence_alternatives_counterexample :
  let db :=
    Doubles.DecisionBrain_init
      {| Doubles.cfg_confidence_threshold := None; Doubles.cfg_max_alternatives := Some (-1)%Z;
         Doubles.cfg_learning_enabled := None; Doubles.cfg_context_window := None |} 14 in
  exists (best other : Doubles.IntentMatch) (dr : Doubles.DecisionResult)
         (alternatives : list string),
    Doubles._determine_intent_with_confidence db "show music please" = Ok [best; other]
    /\ Doubles.intent best = "play_music"
    /\ Doubles.confidence best = PyFloat.finite 5934154803123477 (-54)
    /\ PyFloat.ltb (Doubles.confidence best) (Doubles.confidence_threshold db) = true
    /\ Doubles.make_decision db "show music please" = (Doubles.bump_total db, Some dr)
    /\ Doubles.dr_success dr = false /\ Doubles.dr_clarification_needed dr = true
    /\ Doubles.dr_intent dr = Some "play_music"
    /\ Doubles.dr_alternatives dr = Some alternatives
    /\ alternatives = ["play_music"]
    /\ Doubles.max_alternatives db = (-1)%Z
    /\ ~ (Z.of_nat (length alternatives) <= Doubles.max_alternatives db)%Z.
Proof.
  intros db.
  destruct (Doubles._determine_intent_with_confidence db "show music please")
    as [[|best [|other [|]]]|] eqn:Hd; try (by vm_compute in Hd).
  pose proof Hd as Hv. vm_compute in Hv. injection Hv as <- <-.
  eexists _, _, _, _. split; [reflexivity|]. split; [reflexivity|]. split; [reflexivity|].
  split; [vm_compute; reflexivity|].
  rewrite (doubles_below_threshold _ _ _ _ Hd) by (vm_compute; reflexivity).
  split; [reflexivity|].
  cbn [Doubles.dr_success Doubles.dr_clarification_needed Doubles.dr_intent
         Doubles.dr_alternatives Doubles.intent].
  do 3 (split; [reflexivity|]). split; [reflexivity|]. split; [reflexivity|].
  split; [reflexivity|]. simpl. lia.
Qed.

Lemma low_confidence_asks_for_clarification_witness :
  (exists dr : Doubles.DecisionResult,
     Doubles.make_decision (Doubles.DecisionBrain_init Doubles.default_decision_config 18)
       "online google bored tell"
     = (Doubles.bump_total (Doubles.DecisionBrain_init Doubles.default_decision_config 18),
        Some dr)
     /\ Doubles.dr_success dr = false /\ Doubles.dr_clarification_needed dr = true
     /\ Doubles.dr_intent dr = Some "entertainment"
     /\ Doubles.dr_confidence dr = PyFloat.finite 6042329500055416 (-53)
     /\ Doubles.dr_alternatives dr = Some ["entertainment"; "search_web"; "get_info"])
  /\ (exists dr : Doubles.DecisionResult,
        Doubles.make_decision (Doubles.DecisionBrain_init Doubles.default_decision_config 14)
          "play something"
        = (Doubles.bump_total (Doubles.DecisionBrain_init Doubles.default_decision_config 14),
           Some dr)
        /\ Doubles.dr_success dr = false /\ Doubles.dr_clarification_needed dr = true
        /\ Doubles.dr_intent dr = Some "play_music"
        /\ Doubles.dr_alternatives dr = Some ["play_music"]).
Proof.
  split.
  - destruct (Doubles._determine_intent_with_confidence
                (Doubles.DecisionBrain_init Doubles.default_decision_config 18)
                "online google bored tell") as [[|best rest]|] eqn:Hd;
      [by vm_compute in Hd| |by vm_compute in Hd].
    pose proof Hd as Hv. vm_compute in Hv. injection Hv as <- <-.
    destruct (proj1 low_confidence_asks_for_clarification _ _ _ _ Hd)
      as (dr & alternatives & Hm & Hs & Hc & Hi & Hc' & Ha & Hsl & _);
      [vm_compute; reflexivity|].
    exists dr. split; [exact Hm|]. split; [exact Hs|]. split; [exact Hc|].
    split; [exact Hi|]. split; [|rewrite Hc', Ha; reflexivity].
    apply (f_equal snd) in Hm. vm_compute in Hm. by injection Hm as <-.
  - exact (proj2 low_confidence_asks_for_clarification
             (Doubles.DecisionBrain_init Doubles.default_decision_config 14)
             eq_refl eq_refl eq_refl).
Defined.
